(** * nuXgal: the likelihood engine of the neutrino-galaxy cross-correlation analysis

    A shallow embedding of [KIPAC/nuXgal/Likelihood.py] and
    [KIPAC/nuXgal/BeamLikelihood.py] together with the properties of the
    mask builder, the per-bin and total log-likelihood, the closed-form
    optimiser, the test statistic, the significance conversion and the
    flat prior.

    Conventions of the embedding.
    - numpy arrays are lists, two-dimensional arrays are lists of rows;
    - Python exceptions are values of [exn], a method that may raise
      returns a [result];
    - float arithmetic is abstracted by the class [Float]; it is
      instantiated by the real numbers (exact arithmetic, used for the
      algebraic statements) and by [xfloat], rationals extended with the IEEE
      special values [+inf], [-inf] and [nan] (used wherever the code relies
      on infinities or divides by zero).  Rounding, overflow and signed
      zeros are not modelled;
    - functions of scipy and the random generator are parameters. *)

From Stdlib Require Import List Bool Arith ZArith QArith Reals Lia Lra Psatz.
From Stdlib Require Qround String Ascii DecimalString DecimalNat FunctionalExtensionality.
Import ListNotations.

Set Implicit Arguments.

Close Scope Q_scope.

(** ** Python exceptions and the result monad *)

Module Py.

Inductive exn : Type :=
| AttributeError
| IndexError
| TypeError
| ValueError
| ZeroDivisionError.

Definition result (X : Type) : Type := (exn + X)%type.

Definition ok {X : Type} (x : X) : result X := inr x.
Definition raise {X : Type} (e : exn) : result X := inl e.

Definition bind {X Y : Type} (c : result X) (k : X -> result Y) : result Y :=
  match c with
  | inl e => inl e
  | inr x => k x
  end.

Fixpoint mapM {X Y : Type} (k : X -> result Y) (xs : list X) : result (list Y) :=
  match xs with
  | [] => ok []
  | x :: xs' =>
      bind (k x) (fun y => bind (mapM k xs') (fun ys => ok (y :: ys)))
  end.

(** [getattr] of an attribute that may not have been created yet. *)
Definition attr {X : Type} (o : option X) : result X :=
  match o with
  | Some x => ok x
  | None => raise AttributeError
  end.

(** Subscripting an attribute initialised to [None]. *)
Definition subscriptable {X : Type} (o : option X) : result X :=
  match o with
  | Some x => ok x
  | None => raise TypeError
  end.

(** [a[i]] for a non-negative index. *)
Definition getitem {X : Type} (a : list X) (i : nat) : result X :=
  match nth_error a i with
  | Some x => ok x
  | None => raise IndexError
  end.

(** [a[lo:hi]] for non-negative bounds: slices never raise. *)
Definition slice {X : Type} (a : list X) (lo hi : nat) : list X :=
  firstn (hi - lo) (skipn lo a).

(** [range(lo, hi)]. *)
Definition range (lo hi : nat) : list nat := seq lo (hi - lo).

End Py.

Declare Scope py_scope.
Delimit Scope py_scope with py.
Notation "x <- c ;; k" := (Py.bind c (fun x => k))
  (at level 61, c at next level, right associativity) : py_scope.

(** ** Float arithmetic *)

Class Float (A : Type) : Type := {
  fromZ : Z -> A;
  fadd : A -> A -> A;
  fsub : A -> A -> A;
  fmul : A -> A -> A;
  fdiv : A -> A -> A;
  fneg : A -> A
}.

Declare Scope float_scope.
Delimit Scope float_scope with fl.
Infix "+" := fadd : float_scope.
Infix "-" := fsub : float_scope.
Infix "*" := fmul : float_scope.
Infix "/" := fdiv : float_scope.
Notation "- x" := (fneg x) : float_scope.

(** [x ** 2] *)
Definition fsq {A : Type} `{Float A} (x : A) : A := (x * x)%fl.

(** Exact arithmetic. *)
#[export] Instance R_Float : Float R := {
  fromZ := IZR;
  fadd := Rplus;
  fsub := Rminus;
  fmul := Rmult;
  fdiv := Rdiv;
  fneg := Ropp
}.

(** Rationals with the IEEE special values.  The operations keep finite
    values in lowest terms. *)
Inductive xfloat : Type :=
| Fin (q : Q)
| PInf
| NInf
| NaN.

Module XFloat.

Definition isfinite (x : xfloat) : bool :=
  match x with
  | Fin _ => true
  | _ => false
  end.

Definition isnan (x : xfloat) : bool :=
  match x with
  | NaN => true
  | _ => false
  end.

Definition neg (x : xfloat) : xfloat :=
  match x with
  | Fin q => Fin (Qred (- q))
  | PInf => NInf
  | NInf => PInf
  | NaN => NaN
  end.

Definition add (x y : xfloat) : xfloat :=
  match x, y with
  | NaN, _ | _, NaN => NaN
  | PInf, NInf | NInf, PInf => NaN
  | PInf, _ | _, PInf => PInf
  | NInf, _ | _, NInf => NInf
  | Fin a, Fin b => Fin (Qred (a + b))
  end.

Definition sub (x y : xfloat) : xfloat := add x (neg y).

(** The sign of a rational as a comparison with zero. *)
Definition sgn (q : Q) : comparison := (0 ?= q)%Q.

Definition signed_inf (positive : bool) : xfloat :=
  if positive then PInf else NInf.

Definition mul_inf (positive : bool) (y : xfloat) : xfloat :=
  match y with
  | NaN => NaN
  | PInf => signed_inf positive
  | NInf => signed_inf (negb positive)
  | Fin q =>
      match sgn q with
      | Eq => NaN
      | Lt => signed_inf positive
      | Gt => signed_inf (negb positive)
      end
  end.

Definition mul (x y : xfloat) : xfloat :=
  match x, y with
  | NaN, _ => NaN
  | PInf, _ => mul_inf true y
  | NInf, _ => mul_inf false y
  | Fin _, PInf => mul_inf true x
  | Fin _, NInf => mul_inf false x
  | Fin _, NaN => NaN
  | Fin a, Fin b => Fin (Qred (a * b))
  end.

(** Division: a finite non-zero value over zero is an infinity, zero over
    zero is [nan], as numpy computes them (with a warning, not an
    exception). *)
Definition div (x y : xfloat) : xfloat :=
  match x, y with
  | NaN, _ | _, NaN => NaN
  | (PInf | NInf), (PInf | NInf) => NaN
  | Fin _, (PInf | NInf) => Fin 0
  | PInf, Fin b =>
      match sgn b with
      | Gt => NInf
      | _ => PInf
      end
  | NInf, Fin b =>
      match sgn b with
      | Gt => PInf
      | _ => NInf
      end
  | Fin a, Fin b =>
      match sgn b with
      | Eq =>
          match sgn a with
          | Eq => NaN
          | Lt => PInf
          | Gt => NInf
          end
      | _ => Fin (Qred (a / b))
      end
  end.

(** [x < y]; every comparison with [nan] is false. *)
Definition ltb (x y : xfloat) : bool :=
  match x, y with
  | NaN, _ | _, NaN => false
  | _, NInf => false
  | NInf, _ => true
  | PInf, _ => false
  | Fin _, PInf => true
  | Fin a, Fin b =>
      match (a ?= b)%Q with
      | Lt => true
      | _ => false
      end
  end.

(** [x > y] *)
Definition gtb (x y : xfloat) : bool := ltb y x.

(** [x <= y] and [x >= y]; false on [nan] as well. *)
Definition leb (x y : xfloat) : bool :=
  match x, y with
  | NaN, _ | _, NaN => false
  | NInf, _ | _, PInf => true
  | _, NInf | PInf, _ => false
  | Fin a, Fin b =>
      match (a ?= b)%Q with
      | Gt => false
      | _ => true
      end
  end.

Definition geb (x y : xfloat) : bool := leb y x.

End XFloat.

#[export] Instance X_Float : Float xfloat := {
  fromZ := fun z => Fin (inject_Z z);
  fadd := XFloat.add;
  fsub := XFloat.sub;
  fmul := XFloat.mul;
  fdiv := XFloat.div;
  fneg := XFloat.neg
}.

(** ** numpy arrays *)

Module Np.

Import Py.
Local Open Scope py_scope.

Fixpoint zipWith {X Y Z : Type} (op : X -> Y -> Z) (xs : list X) (ys : list Y)
  : list Z :=
  match xs, ys with
  | x :: xs', y :: ys' => op x y :: zipWith op xs' ys'
  | _, _ => []
  end.

(** Broadcasting of a binary operation along one axis: the lengths agree, or
    one of them is 1; otherwise numpy raises [ValueError]. *)
Definition broadcast {X Y Z : Type} (op : X -> Y -> Z) (xs : list X) (ys : list Y)
  : result (list Z) :=
  match xs, ys with
  | [x], _ => ok (map (op x) ys)
  | _, [y] => ok (map (fun x => op x y) xs)
  | _, _ =>
      if length xs =? length ys then ok (zipWith op xs ys)
      else raise ValueError
  end.

(** The right operand broadcast to the shape of the left one. *)
Definition broadcast_to_left {X Y Z : Type} (op : X -> Y -> Z)
  (xs : list X) (ys : list Y) : result (list Z) :=
  match ys with
  | [y] => ok (map (fun x => op x y) xs)
  | _ =>
      if length xs =? length ys then ok (zipWith op xs ys)
      else raise ValueError
  end.

(** In-place operation [xs op= ys]: the left operand cannot grow. *)
Definition inplace {X Y : Type} (op : X -> Y -> X) (xs : list X) (ys : list Y)
  : result (list X) :=
  broadcast_to_left op xs ys.

(** The same along two axes, a matrix being the list of its rows. *)
Definition broadcast2 {X Y Z : Type} (op : X -> Y -> Z)
  (m : list (list X)) (n : list (list Y)) : result (list (list Z)) :=
  rows <- broadcast (broadcast op) m n ;; mapM (fun r => r) rows.

Definition inplace2 {X Y : Type} (op : X -> Y -> X)
  (m : list (list X)) (n : list (list Y)) : result (list (list X)) :=
  rows <- broadcast_to_left (inplace op) m n ;; mapM (fun r => r) rows.

(** [a[i] = v] on a list. *)
Fixpoint replace {X : Type} (i : nat) (v : X) (a : list X) : list X :=
  match a, i with
  | [], _ => []
  | _ :: a', O => v :: a'
  | x :: a', S i' => x :: replace i' v a'
  end.

(** [m[i] = row] on a two-dimensional array: the row is broadcast to the
    width of the array. *)
Definition setrow {X : Type} (m : list (list X)) (i : nat) (row : list X)
  : result (list (list X)) :=
  old <- getitem m i ;;
  match row with
  | [v] => ok (replace i (map (fun _ => v) old) m)
  | _ =>
      if length old =? length row then ok (replace i row m)
      else raise ValueError
  end.

(** [a[idx] = v] for an array of indices. *)
Definition setitems {X : Type} (a : list X) (idx : list nat) (v : X)
  : result (list X) :=
  if forallb (fun i => i <? length a) idx
  then ok (fold_left (fun a' i => replace i v a') idx a)
  else raise IndexError.

(** [np.where(a != 0)] on a boolean array. *)
Definition where_nonzero (a : list bool) : list nat :=
  filter (fun i => nth i a false) (seq 0 (length a)).

Section Numeric.

Context {A : Type} `{Float A}.

Definition zeros (n : nat) : list A := repeat (fromZ 0) n.

Definition zeros2 (rows cols : nat) : list (list A) := repeat (zeros cols) rows.

(** [np.sum] of a one-dimensional array. *)
Definition sum (a : list A) : A := fold_left fadd a (fromZ 0).

(** [np.sum] of a two-dimensional array. *)
Definition sum2 (m : list (list A)) : A := sum (concat m).

(** [a ** 2] *)
Definition square (a : list A) : list A := map fsq a.

(** [a * c], [a / c] and [- a] for a scalar [c]. *)
Definition times (a : list A) (c : A) : list A := map (fun x => x * c)%fl a.
Definition over (a : list A) (c : A) : list A := map (fun x => x / c)%fl a.
Definition negate (a : list A) : list A := map fneg a.

End Numeric.

End Np.

(** ** Defaults.py *)

Module Defaults.

Definition NSIDE : nat := 128.
Definition NEEdges : nat := 4.
Definition NEbin : nat := NEEdges - 1.
(** [hp.pixelfunc.nside2npix(NSIDE)] *)
Definition NPIXEL : nat := 12 * NSIDE * NSIDE.
Definition NCL : nat := 3 * NSIDE.
Definition MAX_L : nat := NCL - 1.

End Defaults.

(** ** scipy and the random generator *)

(** [scipy.stats.distributions.chi2.sf] and [scipy.stats.norm.isf]. *)
Class Stats (A : Type) : Type := {
  chi2_sf : A -> nat -> A;
  norm_isf : A -> A
}.

(** [scipy.stats.multivariate_normal.logpdf(x, mean=..., cov=...)]; it raises
    on a covariance that is not positive semidefinite or is singular. *)
Class MultivariateNormal (A : Type) : Type := {
  logpdf : list A -> list A -> list (list A) -> Py.result A
}.

(** The part of [scipy.optimize.OptimizeResult] the engine reads. *)
Record OptimizeResult (A : Type) : Type := {
  x : list A;
  success : bool
}.

(** [scipy.optimize.minimize(fun, x0, bounds=...)] and [np.random.randn(n)]. *)
Class Numerics (A : Type) : Type := {
  minimize :
    (list A -> Py.result A) -> list A -> list (A * A) -> Py.result (OptimizeResult A);
  randn : nat -> list A
}.

(** [np.min] and [np.max] of an array that may hold [nan]: [nan] propagates,
    the reduction of an empty array raises [ValueError]. *)
Module NpX.

Import Py.

Definition min2 (x y : xfloat) : xfloat :=
  if XFloat.isnan x then x
  else if XFloat.isnan y then y
  else if XFloat.ltb y x then y else x.

Definition max2 (x y : xfloat) : xfloat :=
  if XFloat.isnan x then x
  else if XFloat.isnan y then y
  else if XFloat.ltb x y then y else x.

Definition min (a : list xfloat) : result xfloat :=
  match a with
  | [] => raise ValueError
  | x :: a' => ok (fold_left min2 a' x)
  end.

Definition max (a : list xfloat) : result xfloat :=
  match a with
  | [] => raise ValueError
  | x :: a' => ok (fold_left max2 a' x)
  end.

End NpX.

(** ** Likelihood.py *)

Module Likelihood.

Import Py.
Local Open Scope py_scope.

Section Significance.

Context {A : Type} `{Float A} `{Stats A}.

Definition significance (chi_square : A) (dof : nat) : A :=
  let p_value := chi2_sf chi_square dof in
  let significance_twoTailNorm := norm_isf (p_value / fromZ 2)%fl in
  significance_twoTailNorm.

Definition significance_from_chi (chi : list A) : A :=
  let chi2 := Np.zipWith fmul chi chi in
  let dof := length chi2 in
  significance (Np.sum chi2) dof.

End Significance.

(** What the engine reads of a [NeutrinoSample] once its mask is updated:
    the cross-correlation with the galaxy sample, the event counts, and the
    standard deviation [bootstrapSigma] obtains by resampling its events. *)
Record NeutrinoSample (A : Type) : Type := {
  getCrossCorrelation : list (list A);
  getEventCounts : list A;
  bootstrapSigma : nat -> list A
}.

(** The attributes of a [Likelihood] object the engine computes with.  An
    attribute that is created after the constructor has started is an
    option: [None] is an attribute that does not exist yet ([w_data] and
    [Ncount] exist and hold [None]). *)
Record state (A : Type) : Type := {
  Ebinmin : nat;
  Ebinmax : nat;
  lmin : nat;
  w_model_f1 : list (list A);
  w_atm_mean : option (list (list A));
  w_atm_std : option (list (list A));
  w_atm_std_square : option (list (list A));
  w_data : option (list (list A));
  Ncount : option (list A);
  w_std : option (list (list A));
  w_std_square : option (list (list A))
}.

Section Engine.

Context {A : Type} `{Float A}.

(** [anafastMask] sets [idx_mask] and [f_sky]; [NPIXEL] and [idx_muon] are
    the constants of [Defaults], [idx_galaxymask] belongs to the galaxy
    sample. *)
Definition anafastMask (NPIXEL : nat) (idx_muon idx_galaxymask : list nat)
  : result (list nat * A) :=
  let mask_nu := repeat false NPIXEL in
  mask_nu <- Np.setitems mask_nu idx_muon true ;;
  mask_nu <- Np.setitems mask_nu idx_galaxymask true ;;
  let idx_mask := Np.where_nonzero mask_nu in
  let f_sky :=
    (fromZ 1 - fromZ (Z.of_nat (length idx_mask)) / fromZ (Z.of_nat NPIXEL))%fl in
  ok (idx_mask, f_sky).

(** One turn of the loop over [bootstrap_error]. *)
Definition bootstrap_row (ns : NeutrinoSample A)
  (stds : list (list A) * list (list A)) (ebin : nat)
  : result (list (list A) * list (list A)) :=
  w_std' <- Np.setrow (fst stds) ebin (bootstrapSigma ns ebin) ;;
  row <- getitem w_std' ebin ;;
  w_std_square' <- Np.setrow (snd stds) ebin (Np.square row) ;;
  ok (w_std', w_std_square').

Fixpoint bootstrap_rows (ns : NeutrinoSample A)
  (stds : list (list A) * list (list A)) (bootstrap_error : list nat)
  : result (list (list A) * list (list A)) :=
  match bootstrap_error with
  | [] => ok stds
  | ebin :: rest =>
      stds' <- bootstrap_row ns stds ebin ;; bootstrap_rows ns stds' rest
  end.

Definition inputData (self : state A) (ns : NeutrinoSample A)
  (bootstrap_error : list nat) : result (state A) :=
  stds <- match w_atm_std self with
          | Some std =>
              sq <- attr (w_atm_std_square self) ;; ok (std, sq)
          | None =>
              ok (Np.zeros2 Defaults.NEbin Defaults.NCL,
                  Np.zeros2 Defaults.NEbin Defaults.NCL)
          end ;;
  stds' <- bootstrap_rows ns stds bootstrap_error ;;
  ok {| Ebinmin := Ebinmin self;
        Ebinmax := Ebinmax self;
        lmin := lmin self;
        w_model_f1 := w_model_f1 self;
        w_atm_mean := w_atm_mean self;
        w_atm_std := w_atm_std self;
        w_atm_std_square := w_atm_std_square self;
        w_data := Some (getCrossCorrelation ns);
        Ncount := Some (getEventCounts ns);
        w_std := Some (fst stds');
        w_std_square := Some (snd stds') |}.

Definition log_likelihood_Ebin (self : state A) (f : A) (energyBin : nat)
  : result A :=
  model <- getitem (w_model_f1 self) energyBin ;;
  let w_model_mean := Np.times model f in
  atm <- attr (w_atm_mean self) ;;
  atm_row <- getitem atm energyBin ;;
  w_model_mean <- Np.inplace fadd w_model_mean (Np.times atm_row (fromZ 1 - f)%fl) ;;
  std_square <- attr (w_std_square self) ;;
  w_model_std_square <- getitem std_square energyBin ;;
  data <- subscriptable (w_data self) ;;
  data_row <- getitem data energyBin ;;
  diff <- Np.broadcast fsub data_row w_model_mean ;;
  quot <- Np.broadcast fdiv (Np.negate (Np.square diff)) w_model_std_square ;;
  let lnL_le := Np.over quot (fromZ 2) in
  ok (Np.sum (skipn (lmin self) lnL_le)).

Definition log_likelihood (self : state A) (f : list A) : result A :=
  let lo := Ebinmin self in
  let hi := Ebinmax self in
  w_model_mean <-
    Np.broadcast (fun row fi => Np.times row fi) (slice (w_model_f1 self) lo hi) f ;;
  atm <- attr (w_atm_mean self) ;;
  atm_part <-
    Np.broadcast (fun row fi => Np.times row (fromZ 1 - fi)%fl) (slice atm lo hi) f ;;
  w_model_mean <- Np.inplace2 fadd w_model_mean atm_part ;;
  std <- attr (w_std self) ;;
  let w_model_std_square := map Np.square (slice std lo hi) in
  data <- subscriptable (w_data self) ;;
  diff <- Np.broadcast2 fsub (slice data lo hi) w_model_mean ;;
  quot <-
    Np.broadcast2 fdiv (map (fun row => Np.negate (Np.square row)) diff)
      w_model_std_square ;;
  let lnL_le := map (fun row => Np.over row (fromZ 2)) quot in
  ok (Np.sum2 (map (skipn (lmin self)) lnL_le)).

Definition chi_square_Ebin (self : state A) (f : A) (energyBin : nat)
  : result A :=
  model <- getitem (w_model_f1 self) energyBin ;;
  let w_model_mean := Np.times model f in
  atm <- attr (w_atm_mean self) ;;
  atm_row <- getitem atm energyBin ;;
  w_model_mean <- Np.inplace fadd w_model_mean (Np.times atm_row (fromZ 1 - f)%fl) ;;
  std_square <- attr (w_std_square self) ;;
  w_model_std_square <- getitem std_square energyBin ;;
  data <- subscriptable (w_data self) ;;
  data_row <- getitem data energyBin ;;
  diff <- Np.broadcast fsub data_row w_model_mean ;;
  chisquare <- Np.broadcast fdiv (Np.square diff) w_model_std_square ;;
  ok (Np.sum (skipn (lmin self) chisquare)).

(** The body of the loop of [minimize__lnL_analytic]: the fraction of one
    energy bin. *)
Definition analytic_fraction (self : state A) (ebin : nat) : result A :=
  model <- getitem (w_model_f1 self) ebin ;;
  let cgg := skipn (lmin self) model in
  data <- subscriptable (w_data self) ;;
  data_row <- getitem data ebin ;;
  let cgnu := skipn (lmin self) data_row in
  atm <- attr (w_atm_mean self) ;;
  atm_row <- getitem atm ebin ;;
  let cgatm := skipn (lmin self) atm_row in
  std <- attr (w_std self) ;;
  std_row <- getitem std ebin ;;
  let cstd := skipn (lmin self) std_row in
  dgg <- Np.broadcast fsub cgg cgatm ;;
  dgnu <- Np.broadcast fsub cgnu cgatm ;;
  prod <- Np.broadcast fmul dgg dgnu ;;
  num <- Np.broadcast fdiv prod (Np.square cstd) ;;
  den <- Np.broadcast fdiv (Np.square dgg) (Np.square cstd) ;;
  ok (Np.sum num / Np.sum den)%fl.

Definition minimize__lnL_analytic (self : state A) : result (list A * A) :=
  if Ebinmax self <? Ebinmin self then raise ValueError
  else
    let len_f := Ebinmax self - Ebinmin self in
    f <- mapM (analytic_fraction self) (range (Ebinmin self) (Ebinmax self)) ;;
    at_f <- log_likelihood self f ;;
    at_zero <- log_likelihood self (Np.zeros len_f) ;;
    ok (f, (fromZ 2 * (at_f - at_zero))%fl).

Context `{Numerics A}.

(** The bindings [nll], [initial] and the bounds of [minimize__lnL]. *)
Definition nll (self : state A) : list A -> result A :=
  fun args => lnL <- log_likelihood self args ;; ok (- lnL)%fl.

Definition initial (len_f : nat) : list A :=
  let tenth := (fromZ 1 / fromZ 10)%fl in
  map (fun r => tenth + tenth * r)%fl (randn len_f).

Definition bounds (len_f : nat) : list (A * A) :=
  repeat (fromZ 0, fromZ 1) len_f.

Definition minimize__lnL (self : state A) : result (list A * A) :=
  if Ebinmax self <? Ebinmin self then raise ValueError
  else
    let len_f := Ebinmax self - Ebinmin self in
    soln <- minimize (nll self) (initial len_f) (bounds len_f) ;;
    at_x <- log_likelihood self (x soln) ;;
    at_zero <- log_likelihood self (Np.zeros len_f) ;;
    ok (x soln, ((at_x - at_zero) * fromZ 2)%fl).

End Engine.

(** The flat prior and the posterior the sampler evaluates. *)

Definition log_prior (f : list xfloat) : result xfloat :=
  lowest <- NpX.min f ;;
  if XFloat.gtb lowest (Fin (-4))
  then
    highest <- NpX.max f ;;
    if XFloat.ltb highest (Fin 4) then ok (Fin 0) else ok NInf
  else ok NInf.

(** [log_probability] with the number of evaluations of [log_likelihood] it
    makes. *)
Definition log_probability (self : state xfloat) (f : list xfloat)
  : result xfloat * nat :=
  match log_prior f with
  | inl e => (raise e, 0)
  | inr lp =>
      if negb (XFloat.isfinite lp) then (ok NInf, 0)
      else ((lnL <- log_likelihood self f ;; ok (lp + lnL)%fl), 1)
  end.

End Likelihood.

(** ** BeamLikelihood.py *)

Module BeamLikelihood.

Import Py.
Local Open Scope py_scope.

(** The attributes of a [BeamLikelihood] object the engine computes with.
    The signal template [w_model_f1] is the binned autocorrelation of the
    galaxy sample, a one-dimensional array shared by the energy bins. *)
Record state (A : Type) : Type := {
  Ebinmin : nat;
  Ebinmax : nat;
  lmin : nat;
  lbin : nat;
  w_model_f1 : list A;
  w_atm_mean : list (list A);
  w_atm_std : list (list A);
  w_atm_std_square : list (list A);
  w_data : option (list (list A));
  w_cov : option (list (list (list A)));
  w_std : option (list (list A));
  w_std_square : option (list (list A))
}.

(** [anafastMask] repeats the statements of [Likelihood.anafastMask]. *)
Definition anafastMask {A : Type} `{Float A} := @Likelihood.anafastMask A _.

Section Engine.

Context {A : Type} `{Float A} `{MultivariateNormal A}.

(** [int(self.lmin / self.lbin)] *)
Definition coarse_lmin (self : state A) : result nat :=
  if lbin self =? 0 then raise ZeroDivisionError
  else ok (lmin self / lbin self).

(** [np.identity(n)] *)
Definition identity (n : nat) : list (list A) :=
  map (fun i => map (fun j => if i =? j then fromZ 1 else fromZ 0) (seq 0 n))
    (seq 0 n).

(** [m[lo:, lo:]] *)
Definition lower_block (m : list (list A)) (lo : nat) : list (list A) :=
  map (skipn lo) (skipn lo m).

Definition log_likelihood_Ebin (self : state A) (f : A) (energyBin : nat)
  : result A :=
  lmin <- coarse_lmin self ;;
  data <- subscriptable (w_data self) ;;
  data_row <- getitem data energyBin ;;
  let w_data := skipn lmin data_row in
  let w_model_mean := Np.times (skipn lmin (w_model_f1 self)) f in
  atm_row <- getitem (w_atm_mean self) energyBin ;;
  w_model_mean <-
    Np.inplace fadd w_model_mean (Np.times (skipn lmin atm_row) (fromZ 1 - f)%fl) ;;
  cov <- attr (w_cov self) ;;
  cov_bin <- getitem cov energyBin ;;
  w_cov <- Np.broadcast2 fmul (lower_block cov_bin lmin) (identity (length w_data)) ;;
  lnL_le <- logpdf w_data w_model_mean w_cov ;;
  ok lnL_le.

(** One turn of the loop of [log_likelihood], for the pair [(i, ebin)] of
    [enumerate(range(Ebinmin, Ebinmax))]. *)
Definition log_likelihood_turn (self : state A) (f : list A) (lmin : nat)
  (lnL_le : A) (i ebin : nat) : result A :=
  data <- subscriptable (w_data self) ;;
  data_row <- getitem data ebin ;;
  let w_data := skipn lmin data_row in
  fi <- getitem f i ;;
  let w_model_mean := Np.times (skipn lmin (w_model_f1 self)) fi in
  atm_row <- getitem (w_atm_mean self) ebin ;;
  fi' <- getitem f i ;;
  w_model_mean <-
    Np.inplace fadd w_model_mean (Np.times (skipn lmin atm_row) (fromZ 1 - fi')%fl) ;;
  cov <- attr (w_cov self) ;;
  cov_bin <- getitem cov ebin ;;
  w_cov <- Np.broadcast2 fmul (lower_block cov_bin lmin) (identity (length w_data)) ;;
  term <- logpdf w_data w_model_mean w_cov ;;
  ok (lnL_le + term)%fl.

Fixpoint log_likelihood_loop (self : state A) (f : list A) (lmin : nat)
  (lnL_le : A) (i : nat) (ebins : list nat) : result A :=
  match ebins with
  | [] => ok lnL_le
  | ebin :: rest =>
      lnL_le' <- log_likelihood_turn self f lmin lnL_le i ebin ;;
      log_likelihood_loop self f lmin lnL_le' (S i) rest
  end.

Definition log_likelihood (self : state A) (f : list A) : result A :=
  lmin <- coarse_lmin self ;;
  log_likelihood_loop self f lmin (fromZ 0) 0 (range (Ebinmin self) (Ebinmax self)).

Definition chi_square_Ebin (self : state A) (f : A) (energyBin : nat)
  : result A :=
  lnL <- log_likelihood_Ebin self f energyBin ;;
  ok (fromZ (-2) * lnL)%fl.

(** [a[i, lo:]] on a one-dimensional array: too many indices. *)
Definition getitem2_of_1d (a : list A) (i lo : nat) : result (list A) :=
  raise IndexError.

(** [a[i, lo:]] on a two-dimensional array. *)
Definition getitem2 (m : list (list A)) (i lo : nat) : result (list A) :=
  row <- getitem m i ;; ok (skipn lo row).

(** The body of the loop of [minimize__lnL_analytic]. *)
Definition analytic_fraction (self : state A) (ebin : nat) : result A :=
  cgg <- getitem2_of_1d (w_model_f1 self) ebin (lmin self) ;;
  data <- subscriptable (w_data self) ;;
  cgnu <- getitem2 data ebin (lmin self) ;;
  cgatm <- getitem2 (w_atm_mean self) ebin (lmin self) ;;
  std <- attr (w_std self) ;;
  cstd <- getitem2 std ebin (lmin self) ;;
  dgg <- Np.broadcast fsub cgg cgatm ;;
  dgnu <- Np.broadcast fsub cgnu cgatm ;;
  prod <- Np.broadcast fmul dgg dgnu ;;
  num <- Np.broadcast fdiv prod (Np.square cstd) ;;
  den <- Np.broadcast fdiv (Np.square dgg) (Np.square cstd) ;;
  ok (Np.sum num / Np.sum den)%fl.

Definition minimize__lnL_analytic (self : state A) : result (list A * A) :=
  if Ebinmax self <? Ebinmin self then raise ValueError
  else
    let len_f := Ebinmax self - Ebinmin self in
    f <- mapM (analytic_fraction self) (range (Ebinmin self) (Ebinmax self)) ;;
    at_f <- log_likelihood self f ;;
    at_zero <- log_likelihood self (Np.zeros len_f) ;;
    ok (f, (fromZ 2 * (at_f - at_zero))%fl).

Context `{Numerics A}.

(** The bindings [nll], [initial] and the bounds of [minimize__lnL]. *)
Definition nll (self : state A) : list A -> result A :=
  fun args => lnL <- log_likelihood self args ;; ok (- lnL)%fl.

Definition initial (len_f : nat) : list A :=
  let tenth := (fromZ 1 / fromZ 10)%fl in
  map (fun r => tenth + tenth * r)%fl (randn len_f).

Definition bounds (len_f : nat) : list (A * A) :=
  repeat (fromZ 0, fromZ 1) len_f.

Definition minimize__lnL (self : state A) : result (list A * A) :=
  if Ebinmax self <? Ebinmin self then raise ValueError
  else
    let len_f := Ebinmax self - Ebinmin self in
    soln <- minimize (nll self) (initial len_f) (bounds len_f) ;;
    at_x <- log_likelihood self (x soln) ;;
    at_zero <- log_likelihood self (Np.zeros len_f) ;;
    ok (x soln, ((at_x - at_zero) * fromZ 2)%fl).

End Engine.

(** [log_prior] repeats the statements of [Likelihood.log_prior]. *)
Definition log_prior := Likelihood.log_prior.

Definition log_probability `{MultivariateNormal xfloat}
  (self : state xfloat) (f : list xfloat) : result xfloat * nat :=
  match log_prior f with
  | inl e => (raise e, 0)
  | inr lp =>
      if negb (XFloat.isfinite lp) then (ok NInf, 0)
      else ((lnL <- log_likelihood self f ;; ok (lp + lnL)%fl), 1)
  end.

End BeamLikelihood.

(** ** Notions of the specification *)

Module Spec.

Local Open Scope R_scope.

(** The usable pixels are the pixels of the sphere [anafastMask] leaves out
    of [idx_mask]: the engine sets the pixels of [idx_mask] to [UNSEEN]. *)
Definition usable_pixels (NPIXEL : nat) (idx_mask : list nat) : list nat :=
  filter (fun i => negb (existsb (Nat.eqb i) idx_mask)) (seq 0 NPIXEL).

Definition usable_pixel_count (NPIXEL : nat) (idx_mask : list nat) : nat :=
  length (usable_pixels NPIXEL idx_mask).

(** The pixels [anafastMask] masks, as a predicate: the mask [anafastMask] builds, as a predicate on pixels. *)
Definition masked (idx_muon idx_galaxymask : list nat) (i : nat) : bool :=
  existsb (Nat.eqb i) idx_galaxymask || existsb (Nat.eqb i) idx_muon.

(** Finite sums and products of reals. *)
Definition Rsum (a : list R) : R := fold_right Rplus 0 a.
Definition Rprod (a : list R) : R := fold_right Rmult 1 a.

(** A two-dimensional array of [rows] rows and [cols] columns. *)
Definition matrix_shape {X : Type} (rows cols : nat) (m : list (list X)) : Prop :=
  length m = rows /\ Forall (fun r => length r = cols) m.

Section Rows.

Context {A : Type} `{Float A}.

(** The expected spectrum [f * signal + (1 - f) * background] of one energy
    bin. *)
Definition mixture (f : A) (model atm : list A) : list A :=
  Np.zipWith fadd (Np.times model f) (Np.times atm (fromZ 1 - f)%fl).

(** The array [lnL_le] of [log_likelihood_Ebin], before it is cut at [lmin]
    and summed, for rows of one length. *)
Definition lnL_row (f : A) (model atm data var : list A) : list A :=
  Np.over
    (Np.zipWith fdiv
       (Np.negate (Np.square (Np.zipWith fsub data (mixture f model atm)))) var)
    (fromZ 2).

(** The array [lnL_le] of [log_likelihood], row by row. *)
Fixpoint lnL_rows (f : list A) (model atm data var : list (list A))
  : list (list A) :=
  match f, model, atm, data, var with
  | fi :: f', m :: model', a :: atm', d :: data', v :: var' =>
      lnL_row fi m a d v :: lnL_rows f' model' atm' data' var'
  | _, _, _, _, _ => []
  end.

(** The row of an energy bin. *)
Definition row (m : list (list A)) (ebin : nat) : list A := nth ebin m [].

(** An engine that holds data: the templates, the observed spectrum and the
    standard deviation exist with the shape [nebin] by [ncl] the constructor
    and [inputData] give them, the squared deviation is the square of the
    deviation, and the energy bins are bins of the arrays. *)
Record Ready (nebin ncl : nat) (self : Likelihood.state A)
  (atm data std : list (list A)) : Prop := {
  has_atm : Likelihood.w_atm_mean self = Some atm;
  has_data : Likelihood.w_data self = Some data;
  has_std : Likelihood.w_std self = Some std;
  has_std_square : Likelihood.w_std_square self = Some (map Np.square std);
  model_shape : matrix_shape nebin ncl (Likelihood.w_model_f1 self);
  atm_shape : matrix_shape nebin ncl atm;
  data_shape : matrix_shape nebin ncl data;
  std_shape : matrix_shape nebin ncl std;
  bins_in_range :
    (Likelihood.Ebinmin self <= Likelihood.Ebinmax self)%nat /\
    (Likelihood.Ebinmax self <= nebin)%nat
}.

End Rows.

(** The multipoles of one energy bin side by side: signal template,
    background template, observed spectrum and standard deviation. *)
Fixpoint zip4 (model atm data std : list R) : list (R * R * R * R) :=
  match model, atm, data, std with
  | s :: model', b :: atm', d :: data', sg :: std' =>
      (s, b, d, sg) :: zip4 model' atm' data' std'
  | _, _, _, _ => []
  end.

(** The multipoles [l >= lmin] of an energy bin. *)
Definition multipoles (lmin : nat) (model atm data std : list R)
  : list (R * R * R * R) :=
  zip4 (skipn lmin model) (skipn lmin atm) (skipn lmin data) (skipn lmin std).

(** The closed-form fraction of the specification,
    [sum ((S - B) (D - B) / sigma^2) / sum ((S - B)^2 / sigma^2)]. *)
Definition f_hat (lmin : nat) (model atm data std : list R) : R :=
  Rsum (map (fun '(s, b, d, sg) => (s - b) * (d - b) / (sg * sg))
          (multipoles lmin model atm data std))
  / Rsum (map (fun '(s, b, d, sg) => (s - b) * (s - b) / (sg * sg))
            (multipoles lmin model atm data std)).

(** The terms of the sums of the closed-form optimiser and of the
    quadratic form of the residuals, at one multipole. *)
Definition num_term (m : R * R * R * R) : R :=
  let '(s, b, d, sg) := m in (s - b) * (d - b) / (sg * sg).

Definition den_term (m : R * R * R * R) : R :=
  let '(s, b, d, sg) := m in (s - b) * (s - b) / (sg * sg).

Definition data_term (m : R * R * R * R) : R :=
  let '(s, b, d, sg) := m in (d - b) * (d - b) / (sg * sg).

Definition residual_term (f : R) (m : R * R * R * R) : R :=
  let '(s, b, d, sg) := m in
  (d - (s * f + b * (1 - f))) * (d - (s * f + b * (1 - f))) / (sg * sg).

(** The mixture model of an energy bin is well posed: no standard deviation
    is zero and the two templates differ at some multipole. *)
Definition well_posed (ms : list (R * R * R * R)) : Prop :=
  Forall (fun '(_, _, _, sg) => sg <> 0) ms
  /\ Exists (fun '(s, b, _, _) => s <> b) ms.

(** The log-density of the multivariate normal distribution of mean [mean]
    and diagonal covariance of diagonal [var], at [x]:
    [- (k ln (2 pi) + ln det + (x - mean)^T cov^-1 (x - mean)) / 2]. *)
Definition normal_logpdf (x mean var : list R) : R :=
  - (INR (length x) * ln (2 * PI)
     + ln (Rprod var)
     + Rsum (Np.zipWith Rdiv (Np.square (Np.zipWith Rminus x mean)) var)) / 2.

(** The part of the log-density that does not depend on the mean. *)
Definition normal_log_normalization (k : nat) (var : list R) : R :=
  - (INR k * ln (2 * PI) + ln (Rprod var)) / 2.

(** A value that is an infinity or [nan]. *)
Definition nonfinite (x : xfloat) : Prop := XFloat.isfinite x = false.

(** A finite, strictly positive value. *)
Definition positive (x : xfloat) : Prop := exists q, x = Fin q /\ (0 < q)%Q.

(** A value that is neither an infinity nor [nan]. *)
Definition finite (x : xfloat) : Prop := XFloat.isfinite x = true.

(** An engine as the constructor leaves it when it loads the templates:
    the background mean and standard deviation exist with the shape [nebin]
    by [ncl], and [w_atm_std_square] is the square of [w_atm_std]. *)
Record Constructed {A : Type} `{Float A} (nebin ncl : nat)
  (self : Likelihood.state A) (atm std : list (list A)) : Prop := {
  built_atm : Likelihood.w_atm_mean self = Some atm;
  built_std : Likelihood.w_atm_std self = Some std;
  built_std_square : Likelihood.w_atm_std_square self = Some (map Np.square std);
  built_model_shape : matrix_shape nebin ncl (Likelihood.w_model_f1 self);
  built_atm_shape : matrix_shape nebin ncl atm;
  built_std_shape : matrix_shape nebin ncl std;
  built_bins :
    (Likelihood.Ebinmin self <= Likelihood.Ebinmax self)%nat /\
    (Likelihood.Ebinmax self <= nebin)%nat
}.


(** A coordinate strictly inside the box of the flat prior. *)
Definition strictly_inside_box (x : xfloat) : Prop :=
  exists q, x = Fin q /\ (-4 < q)%Q /\ (q < 4)%Q.

(** What the significance uses of the two distribution functions, over the
    reals: the survival function of the chi-square distribution is 1 at 0,
    positive and strictly decreasing on the non-negative reals; the inverse
    survival function of the standard normal distribution vanishes at 1/2
    and is strictly decreasing on the open unit interval. *)
Record distribution_laws (st : Stats R) : Prop := {
  sf_at_zero : forall dof, (0 < dof)%nat -> chi2_sf 0 dof = 1;
  sf_positive : forall x dof, (0 < dof)%nat -> 0 <= x -> 0 < chi2_sf x dof;
  sf_decreasing :
    forall x y dof, (0 < dof)%nat -> 0 <= x -> x < y ->
                    chi2_sf y dof < chi2_sf x dof;
  isf_at_half : norm_isf (1 / 2) = 0;
  isf_decreasing :
    forall p q, 0 < p -> p < q -> q < 1 -> norm_isf q < norm_isf p
}.

(** A value that is minus infinity or [nan]. *)
Definition minus_inf_or_nan (x : xfloat) : Prop := x = NInf \/ x = NaN.

(** A matrix with its off-diagonal entries set to zero. *)
Definition diagonal_only (m : list (list R)) : list (list R) :=
  map (fun ir =>
         map (fun jc => if (fst ir =? fst jc)%nat then snd jc else 0)
           (combine (seq 0 (length (snd ir))) (snd ir)))
    (combine (seq 0 (length m)) m).

(** A [BeamLikelihood] engine that holds data: the observed spectrum and the
    covariance exist, the arrays have [nebin] energy bins of [ncl] coarse
    multipole bins, the bin width is not zero. *)
Record BeamReady (nebin ncl : nat) (self : BeamLikelihood.state R)
  (data : list (list R)) (cov : list (list (list R))) : Prop := {
  beam_lbin : BeamLikelihood.lbin self <> 0%nat;
  beam_data : BeamLikelihood.w_data self = Some data;
  beam_cov : BeamLikelihood.w_cov self = Some cov;
  beam_model_length : length (BeamLikelihood.w_model_f1 self) = ncl;
  beam_atm_shape : matrix_shape nebin ncl (BeamLikelihood.w_atm_mean self);
  beam_data_shape : matrix_shape nebin ncl data;
  beam_cov_length : length cov = nebin;
  beam_cov_shape : Forall (matrix_shape ncl ncl) cov
}.

End Spec.

(** ** Engines and inputs used as examples *)

Module Examples.

Local Open Scope R_scope.

(** Two energy bins of three multipoles, the first multipole cut. *)
Definition engine_std : list (list R) := [[1; 1; 1]; [1; 2; 2]].

Definition engine : Likelihood.state R := {|
  Likelihood.Ebinmin := 0;
  Likelihood.Ebinmax := 2;
  Likelihood.lmin := 1;
  Likelihood.w_model_f1 := [[5; 5; 5]; [5; 5; 5]];
  Likelihood.w_atm_mean := Some [[0; 0; 0]; [0; 0; 0]];
  Likelihood.w_atm_std := Some engine_std;
  Likelihood.w_atm_std_square := Some (map Np.square engine_std);
  Likelihood.w_data := Some [[1; 2; 3]; [5; 5; 5]];
  Likelihood.Ncount := Some [10; 20];
  Likelihood.w_std := Some engine_std;
  Likelihood.w_std_square := Some (map Np.square engine_std)
|}.

(** One energy bin of one multipole, observed spectrum on the background. *)
Definition unit_engine : Likelihood.state R := {|
  Likelihood.Ebinmin := 0;
  Likelihood.Ebinmax := 1;
  Likelihood.lmin := 0;
  Likelihood.w_model_f1 := [[1]];
  Likelihood.w_atm_mean := Some [[0]];
  Likelihood.w_atm_std := Some [[1]];
  Likelihood.w_atm_std_square := Some (map Np.square [[1]]);
  Likelihood.w_data := Some [[0]];
  Likelihood.Ncount := Some [10];
  Likelihood.w_std := Some [[1]];
  Likelihood.w_std_square := Some (map Np.square [[1]])
|}.

(** The diagonal of a square matrix. *)
Definition diagonal (cov : list (list R)) : list R :=
  map (fun i => nth i (nth i cov []) 0) (seq 0 (length cov)).

(** An evaluation of [multivariate_normal.logpdf] by the closed form, for
    the diagonal covariances the examples use. *)
Definition closed_form_normal : MultivariateNormal R := {|
  logpdf := fun x mean cov => Py.ok (Spec.normal_logpdf x mean (diagonal cov))
|}.

(** A [BeamLikelihood] engine of two energy bins and two coarse multipole
    bins of width 4. *)
Definition beam_engine : BeamLikelihood.state R := {|
  BeamLikelihood.Ebinmin := 0;
  BeamLikelihood.Ebinmax := 2;
  BeamLikelihood.lmin := 0;
  BeamLikelihood.lbin := 4;
  BeamLikelihood.w_model_f1 := [5; 5];
  BeamLikelihood.w_atm_mean := [[0; 0]; [0; 0]];
  BeamLikelihood.w_atm_std := [[1; 1]; [1; 1]];
  BeamLikelihood.w_atm_std_square := [[1; 1]; [1; 1]];
  BeamLikelihood.w_data := Some [[1; 2]; [5; 5]];
  BeamLikelihood.w_cov := Some [[[1; 0]; [0; 1]]; [[4; 1]; [1; 4]]];
  BeamLikelihood.w_std := Some [[1; 1]; [2; 2]];
  BeamLikelihood.w_std_square := Some [[1; 1]; [4; 4]]
|}.

(** An engine whose constructor has not produced the background standard
    deviation yet, and a sample to feed it; the bins and the multipole cut
    are those of [scripts/TS_dist.py]. *)
Definition flat (x : xfloat) : list (list xfloat) :=
  repeat (repeat x Defaults.NCL) Defaults.NEbin.


Definition sample : Likelihood.NeutrinoSample xfloat := {|
  Likelihood.getCrossCorrelation := flat (Fin 1);
  Likelihood.getEventCounts := [Fin 10; Fin 20; Fin 30];
  Likelihood.bootstrapSigma := fun _ => repeat (Fin 1) Defaults.NCL
|}.

(** The same engine once the background templates exist while the variance
    is still the one [inputData] installed before. *)
Definition stale_engine : Likelihood.state xfloat := {|
  Likelihood.Ebinmin := 0;
  Likelihood.Ebinmax := 1;
  Likelihood.lmin := 50;
  Likelihood.w_model_f1 := flat (Fin 5);
  Likelihood.w_atm_mean := Some (flat (Fin 0));
  Likelihood.w_atm_std := Some (flat (Fin 2));
  Likelihood.w_atm_std_square := Some (map Np.square (flat (Fin 2)));
  Likelihood.w_data := Some (flat (Fin 1));
  Likelihood.Ncount := Some [Fin 10; Fin 20; Fin 30];
  Likelihood.w_std := Some (Np.zeros2 Defaults.NEbin Defaults.NCL);
  Likelihood.w_std_square :=
    Some (map Np.square (Np.zeros2 Defaults.NEbin Defaults.NCL))
|}.

(** An engine whose constructor has loaded the templates. *)
Definition warm_engine : Likelihood.state xfloat := {|
  Likelihood.Ebinmin := 0;
  Likelihood.Ebinmax := 1;
  Likelihood.lmin := 50;
  Likelihood.w_model_f1 := flat (Fin 5);
  Likelihood.w_atm_mean := Some (flat (Fin 0));
  Likelihood.w_atm_std := Some (flat (Fin 2));
  Likelihood.w_atm_std_square := Some (map Np.square (flat (Fin 2)));
  Likelihood.w_data := None;
  Likelihood.Ncount := None;
  Likelihood.w_std := None;
  Likelihood.w_std_square := None
|}.

(** The survival function of the chi-square distribution with two degrees
    of freedom, [exp (- x / 2)], and a decreasing function that vanishes at
    1/2 in the place of the normal inverse survival function. *)
Definition exponential_stats : Stats R := {|
  chi2_sf := fun chi_square dof => exp (- chi_square / 2);
  norm_isf := fun p => 1 / 2 - p
|}.

(** The two values of scipy a saturated significance goes through:
    [chi2.sf(4000., 2)] is [exp(-2000)], which underflows to [0.0], and
    [norm.isf(0.0)] is [inf]; the rest of the table is left at [nan]. *)
Definition saturated_stats : Stats xfloat := {|
  chi2_sf := fun chi_square dof =>
    match chi_square with
    | Fin q => if (Qle_bool 4000 q && (dof =? 2)%nat)%bool then Fin 0 else NaN
    | _ => NaN
    end;
  norm_isf := fun p =>
    match p with
    | Fin q => if Qeq_bool q 0 then PInf else NaN
    | _ => NaN
    end
|}.

(** An optimiser that gives up at its starting point, and a generator that
    draws zeros. *)
Definition idle_numerics : Numerics xfloat := {|
  minimize := fun fn x0 bnds => Py.ok {| x := x0; success := false |};
  randn := fun n => repeat (Fin 0) n
|}.

(** An optimiser that returns a given point, and a generator that draws
    zeros. *)
Definition fixed_numerics (point : list R) : Numerics R := {|
  minimize := fun fn x0 bnds => Py.ok {| x := point; success := true |};
  randn := fun n => repeat 0%R n
|}.

(** One energy bin of ten multipoles, flat background of mean 0 and standard
    deviation 1, flat signal of mean 5, observed spectrum flat at [data]. *)
Definition end_to_end (data : xfloat) : Likelihood.state xfloat := {|
  Likelihood.Ebinmin := 0;
  Likelihood.Ebinmax := 1;
  Likelihood.lmin := 0;
  Likelihood.w_model_f1 := [repeat (Fin 5) 10];
  Likelihood.w_atm_mean := Some [repeat (Fin 0) 10];
  Likelihood.w_atm_std := Some [repeat (Fin 1) 10];
  Likelihood.w_atm_std_square := Some [repeat (Fin 1) 10];
  Likelihood.w_data := Some [repeat data 10];
  Likelihood.Ncount := Some [Fin 100];
  Likelihood.w_std := Some [repeat (Fin 1) 10];
  Likelihood.w_std_square := Some [repeat (Fin 1) 10]
|}.

End Examples.

(** ** Likelihood.py: the construction of the engine *)

Module LikelihoodSetup.

Import Py.
Local Open Scope py_scope.

(** [np.sqrt] *)
Class Sqrt (A : Type) : Type := {
  fsqrt : A -> A
}.

(** Exact arithmetic: the root of the reals, which is [np.sqrt] on the
    non-negative reals ([np.sqrt] of a negative value is [nan], the root of
    the reals is 0 there). *)
#[export] Instance R_Sqrt : Sqrt R := {
  fsqrt := sqrt
}.

(** A loop whose body may raise. *)
Fixpoint foldM {X S : Type} (body : S -> X -> result S) (xs : list X) (s : S)
  : result S :=
  match xs with
  | [] => ok s
  | x :: xs' => s' <- body s x ;; foldM body xs' s'
  end.

(** The value of an assignment broadcast along one axis of [n] entries. *)
Definition broadcast_to {X : Type} (n : nat) (a : list X) : result (list X) :=
  match a with
  | [x] => ok (repeat x n)
  | _ => if length a =? n then ok a else raise ValueError
  end.

(** The same along the two axes of a slot of [rows] rows and [cols]
    columns. *)
Definition broadcast_to2 {X : Type} (rows cols : nat) (m : list (list X))
  : result (list (list X)) :=
  m' <- broadcast_to rows m ;; mapM (broadcast_to cols) m'.

(** [w[i] = value] on a three-dimensional array whose slots have [rows] rows
    and [cols] columns. *)
Definition setslab {X : Type} (rows cols : nat) (w : list (list (list X)))
  (i : nat) (value : list (list X)) : result (list (list (list X))) :=
  if i <? length w
  then slab <- broadcast_to2 rows cols value ;; ok (Np.replace i slab w)
  else raise IndexError.

(** [a.reshape((rows, cols))]: the values of [a] in row-major order, cut
    into rows. *)
Fixpoint chunks {X : Type} (rows cols : nat) (a : list X) : list (list X) :=
  match rows with
  | O => []
  | S rows' => firstn cols a :: chunks rows' cols (skipn cols a)
  end.

Definition reshape2 {X : Type} (rows cols : nat) (a : list X)
  : result (list (list X)) :=
  if length a =? rows * cols then ok (chunks rows cols a) else raise ValueError.

(** [a.reshape(n)] *)
Definition reshape1 {X : Type} (n : nat) (a : list X) : result (list X) :=
  if length a =? n then ok a else raise ValueError.

Section Reductions.

Context {A : Type} `{Float A} `{Sqrt A}.

(** [np.sum(w, axis=0)] of an array of slots of [rows] rows and [cols]
    columns. *)
Definition sum_axis0 (rows cols : nat) (w : list (list (list A))) : list (list A) :=
  fold_left (Np.zipWith (Np.zipWith fadd)) w (Np.zeros2 rows cols).

(** [np.mean(w, axis=0)]: the sum over the count. *)
Definition mean_axis0 (rows cols : nat) (w : list (list (list A))) : list (list A) :=
  map (fun r => Np.over r (fromZ (Z.of_nat (length w)))) (sum_axis0 rows cols w).

(** [np.std(w, axis=0)]: the root of the mean of the squared deviations
    from the mean. *)
Definition std_axis0 (rows cols : nat) (w : list (list (list A))) : list (list A) :=
  let arrmean := mean_axis0 rows cols w in
  let x := map (fun slab => Np.zipWith (Np.zipWith fsub) slab arrmean) w in
  let x := map (map Np.square) x in
  map (fun r => map fsqrt (Np.over r (fromZ (Z.of_nat (length w)))))
    (sum_axis0 rows cols x).

End Reductions.

(** The attributes of a [Likelihood] object the constructor creates beside
    those of [Likelihood.state]. *)
Record instance (A : Type) : Type := {
  engine : Likelihood.state A;
  idx_mask : list nat;
  f_sky : A;
  Ncount_atm : list A;
  w_model_f1_std : list (list A)
}.

(** The arrays [np.loadtxt] reads for the constructor, each by its values in
    row-major order. *)
Record files (A : Type) : Type := {
  AtmSTDFname : list A;
  AtmMeanFname : list A;
  AtmNcountsFname : list A;
  AstroMeanFname : list A;
  AstroSTDFname : list A
}.

Section Constructor.

Context {A : Type} `{Float A} `{Sqrt A}.

(** [calculate_w_mean]: the array it stores in [w_model_f1], for the value
    [anafast] of [hp.anafast(overdensity_g)] on the masked map. *)
Definition calculate_w_mean (anafast : list A) (f_sky : A)
  : result (list (list A)) :=
  let w_mean := Np.over anafast f_sky in
  let w_model_f1 := Np.zeros2 Defaults.NEbin Defaults.NCL in
  foldM (fun w_model_f1 i => Np.setrow w_model_f1 i w_mean)
    (range 0 Defaults.NEbin) w_model_f1.

(** [getPDFRatioWeight] *)
Definition getPDFRatioWeight : A := fromZ 1.

(** The state of the loops of [computeAtmophericEventDistribution] and
    [computeAstrophysicalEventDistribution]: the engine, [w_cross] and
    [Ncount_av]. *)
Definition accumulator : Type :=
  (Likelihood.state A * list (list (list A)) * list A)%type.

(** One turn of the loop of [computeAtmophericEventDistribution]; [ns] is
    the sample once the trial of the turn is put in and its maps and mask
    are updated. *)
Definition atmospheric_turn (trials : nat -> Likelihood.NeutrinoSample A)
  (acc : accumulator) (iteration : nat) : result accumulator :=
  let '(self, w_cross, Ncount_av) := acc in
  let ns := trials iteration in
  self <- Likelihood.inputData self ns [] ;;
  w_data <- attr (Likelihood.w_data self) ;;
  w_cross <-
    setslab Defaults.NEbin (3 * Defaults.NSIDE) w_cross iteration w_data ;;
  Ncount_av <- Np.broadcast fadd Ncount_av (Likelihood.getEventCounts ns) ;;
  ok (self, w_cross, Ncount_av).

Definition computeAtmophericEventDistribution (self : Likelihood.state A)
  (trials : nat -> Likelihood.NeutrinoSample A) (N_re : nat)
  : result (Likelihood.state A * list A) :=
  let w_cross := repeat (Np.zeros2 Defaults.NEbin (3 * Defaults.NSIDE)) N_re in
  let Ncount_av := Np.zeros Defaults.NEbin in
  acc <- foldM (atmospheric_turn trials) (range 0 N_re) (self, w_cross, Ncount_av) ;;
  let '(self, w_cross, Ncount_av) := acc in
  let w_atm_mean := mean_axis0 Defaults.NEbin (3 * Defaults.NSIDE) w_cross in
  let w_atm_std := std_axis0 Defaults.NEbin (3 * Defaults.NSIDE) w_cross in
  let Ncount_atm := Np.over Ncount_av (fromZ (Z.of_nat N_re)) in
  ok ({| Likelihood.Ebinmin := Likelihood.Ebinmin self;
         Likelihood.Ebinmax := Likelihood.Ebinmax self;
         Likelihood.lmin := Likelihood.lmin self;
         Likelihood.w_model_f1 := Likelihood.w_model_f1 self;
         Likelihood.w_atm_mean := Some w_atm_mean;
         Likelihood.w_atm_std := Some w_atm_std;
         Likelihood.w_atm_std_square := Some (map Np.square w_atm_std);
         Likelihood.w_data := Likelihood.w_data self;
         Likelihood.Ncount := Likelihood.Ncount self;
         Likelihood.w_std := Likelihood.w_std self;
         Likelihood.w_std_square := Likelihood.w_std_square self |},
      Ncount_atm).

(** One turn of the loop of [computeAstrophysicalEventDistribution]. *)
Definition astrophysical_turn (trials : nat -> Likelihood.NeutrinoSample A)
  (acc : Likelihood.state A * list (list (list A))) (iteration : nat)
  : result (Likelihood.state A * list (list (list A))) :=
  let '(self, w_cross) := acc in
  let ns := trials iteration in
  self <- Likelihood.inputData self ns [] ;;
  w_data <- attr (Likelihood.w_data self) ;;
  w_cross <-
    setslab Defaults.NEbin (3 * Defaults.NSIDE) w_cross iteration w_data ;;
  ok (self, w_cross).

(** [computeAstrophysicalEventDistribution]: the engine and the array it
    stores in [w_model_f1_std]. *)
Definition computeAstrophysicalEventDistribution (self : Likelihood.state A)
  (trials : nat -> Likelihood.NeutrinoSample A) (N_re : nat)
  : result (Likelihood.state A * list (list A)) :=
  let w_cross := repeat (Np.zeros2 Defaults.NEbin (3 * Defaults.NSIDE)) N_re in
  acc <- foldM (astrophysical_turn trials) (range 0 N_re) (self, w_cross) ;;
  let '(self, w_cross) := acc in
  let w_model_f1 := mean_axis0 Defaults.NEbin (3 * Defaults.NSIDE) w_cross in
  let w_model_f1_std := std_axis0 Defaults.NEbin (3 * Defaults.NSIDE) w_cross in
  ok ({| Likelihood.Ebinmin := Likelihood.Ebinmin self;
         Likelihood.Ebinmax := Likelihood.Ebinmax self;
         Likelihood.lmin := Likelihood.lmin self;
         Likelihood.w_model_f1 := w_model_f1;
         Likelihood.w_atm_mean := Likelihood.w_atm_mean self;
         Likelihood.w_atm_std := Likelihood.w_atm_std self;
         Likelihood.w_atm_std_square := Likelihood.w_atm_std_square self;
         Likelihood.w_data := Likelihood.w_data self;
         Likelihood.Ncount := Likelihood.Ncount self;
         Likelihood.w_std := Likelihood.w_std self;
         Likelihood.w_std_square := Likelihood.w_std_square self |},
      w_model_f1_std).

(** The number of realizations the constructor asks the two distributions
    for, [N_re=5000]. *)
Definition N_re : nat := 5000.

(** The constructor.  [NPIXEL], [idx_muon] are the constants of [Defaults]
    and [idx_galaxymask] belongs to the galaxy sample, as for [anafastMask];
    [anafast] is [hp.anafast] of the galaxy overdensity map with the pixels
    of a mask unseen; [atmospheric] and [astrophysical] are the samples the
    event generator of a mask produces, trial after trial; [loaded] holds the
    arrays of the files. *)
Definition __init__ (NPIXEL : nat) (idx_muon idx_galaxymask : list nat)
  (anafast : list nat -> list A)
  (atmospheric astrophysical : list nat -> nat -> Likelihood.NeutrinoSample A)
  (loaded : files A)
  (computeSTD : bool) (Ebinmin Ebinmax lmin : nat) : result (instance A) :=
  mask <- Likelihood.anafastMask NPIXEL idx_muon idx_galaxymask ;;
  let '(idx_mask, f_sky) := mask in
  w_model_f1 <- calculate_w_mean (anafast idx_mask) f_sky ;;
  let self :=
    {| Likelihood.Ebinmin := Ebinmin;
       Likelihood.Ebinmax := Ebinmax;
       Likelihood.lmin := lmin;
       Likelihood.w_model_f1 := w_model_f1;
       Likelihood.w_atm_mean := None;
       Likelihood.w_atm_std := None;
       Likelihood.w_atm_std_square := None;
       Likelihood.w_data := None;
       Likelihood.Ncount := None;
       Likelihood.w_std := None;
       Likelihood.w_std_square := None |} in
  if computeSTD then
    atm <- computeAtmophericEventDistribution self (atmospheric idx_mask) N_re ;;
    let '(self, Ncount_atm) := atm in
    astro <- computeAstrophysicalEventDistribution self (astrophysical idx_mask) N_re ;;
    let '(self, w_model_f1_std) := astro in
    ok {| engine := self;
          idx_mask := idx_mask;
          f_sky := f_sky;
          Ncount_atm := Ncount_atm;
          w_model_f1_std := w_model_f1_std |}
  else
    w_atm_std <- reshape2 Defaults.NEbin Defaults.NCL (AtmSTDFname loaded) ;;
    let w_atm_std_square := map Np.square w_atm_std in
    w_atm_mean <- reshape2 Defaults.NEbin Defaults.NCL (AtmMeanFname loaded) ;;
    Ncount_atm <- reshape1 Defaults.NEbin (AtmNcountsFname loaded) ;;
    w_model_f1 <- reshape2 Defaults.NEbin Defaults.NCL (AstroMeanFname loaded) ;;
    w_model_f1_std <- reshape2 Defaults.NEbin Defaults.NCL (AstroSTDFname loaded) ;;
    ok {| engine :=
            {| Likelihood.Ebinmin := Ebinmin;
               Likelihood.Ebinmax := Ebinmax;
               Likelihood.lmin := lmin;
               Likelihood.w_model_f1 := w_model_f1;
               Likelihood.w_atm_mean := Some w_atm_mean;
               Likelihood.w_atm_std := Some w_atm_std;
               Likelihood.w_atm_std_square := Some w_atm_std_square;
               Likelihood.w_data := None;
               Likelihood.Ncount := None;
               Likelihood.w_std := None;
               Likelihood.w_std_square := None |};
          idx_mask := idx_mask;
          f_sky := f_sky;
          Ncount_atm := Ncount_atm;
          w_model_f1_std := w_model_f1_std |}.

End Constructor.

End LikelihoodSetup.

(** ** Defaults.py: the grid of spectral indices *)

Module SpectralIndices.

(** [np.arange(start, stop, step)] on rationals: the values
    [start + i * step] for [i] below the ceiling of [(stop - start) / step]. *)
Definition arange (start stop step : Q) : list Q :=
  let n := Z.to_nat (Qround.Qceiling ((stop - start) / step)%Q) in
  map (fun i => Qred (start + inject_Z (Z.of_nat i) * step)%Q) (seq 0 n).

Definition GAMMAS : list Q := arange (15 # 10) (41 # 10) (5 # 10).

(** [a.min()] and [a.max()] of a non-empty array of rationals. *)
Definition Qmin (x y : Q) : Q := if Qle_bool x y then x else y.
Definition Qmax (x y : Q) : Q := if Qle_bool x y then y else x.

Definition min (a : list Q) : Py.result Q :=
  match a with
  | [] => Py.raise Py.ValueError
  | x :: a' => Py.ok (fold_left Qmin a' x)
  end.

Definition max (a : list Q) : Py.result Q :=
  match a with
  | [] => Py.raise Py.ValueError
  | x :: a' => Py.ok (fold_left Qmax a' x)
  end.

(** A rational constant as a float. *)
Definition fromQ {A : Type} `{Float A} (q : Q) : A :=
  (fromZ (Qnum q) / fromZ (Zpos (Qden q)))%fl.

End SpectralIndices.

(** ** Likelihood.py: the fit with a free spectral index and the trials *)

Module LikelihoodFits.

Import Py.
Local Open Scope py_scope.

Section Fits.

Context {A : Type} `{Float A}.

(** [len_f * [0] + [2.5]] *)
Definition null_x (len_f : nat) : list A :=
  repeat (fromZ 0) len_f ++ [SpectralIndices.fromQ (25 # 10)].

Context `{Numerics A}.

(** The starting point and the bounds of [minimize__lnL_free_index]. *)
Definition initial_free_index (len_f : nat) : list A :=
  let half := (fromZ 1 / fromZ 2)%fl in
  let tenth := (fromZ 1 / fromZ 10)%fl in
  map (fun r => half + tenth * r)%fl (randn len_f)
  ++ [SpectralIndices.fromQ (25 # 10)].

Definition bounds_free_index (len_f : nat) : result (list (A * A)) :=
  lowest <- SpectralIndices.min SpectralIndices.GAMMAS ;;
  highest <- SpectralIndices.max SpectralIndices.GAMMAS ;;
  ok (repeat (fromZ (-4), fromZ 4) len_f
      ++ [(SpectralIndices.fromQ lowest, SpectralIndices.fromQ highest)]).

Definition minimize__lnL_free_index (self : Likelihood.state A)
  : result (list A * A) :=
  if Likelihood.Ebinmax self <? Likelihood.Ebinmin self then raise ValueError
  else
    let len_f := Likelihood.Ebinmax self - Likelihood.Ebinmin self in
    bounds <- bounds_free_index len_f ;;
    soln <- minimize (Likelihood.nll self) (initial_free_index len_f) bounds ;;
    at_x <- Likelihood.log_likelihood self (x soln) ;;
    at_null <- Likelihood.log_likelihood self (null_x len_f) ;;
    ok (x soln, ((at_x - at_null) * fromZ 2)%fl).

End Fits.

Section Trials.

Context {A : Type} `{Float A}.

(** One turn of the loop of [TS_distribution]: [ns] is the sample that holds
    the synthetic counts map of the turn, [numerics] the optimiser and the
    random generator as they are at the turn. *)
Definition TS_turn (numerics : nat -> Numerics A)
  (trials : nat -> Likelihood.NeutrinoSample A)
  (acc : Likelihood.state A * list A) (i : nat)
  : result (Likelihood.state A * list A) :=
  let '(self, TS_array) := acc in
  self <- Likelihood.inputData self (trials i) [] ;;
  minimizeResult <- @Likelihood.minimize__lnL A _ (numerics i) self ;;
  if i <? length TS_array
  then ok (self, Np.replace i (snd minimizeResult) TS_array)
  else raise IndexError.

(** [TS_distribution]: the engine as the last trial leaves it and the array
    of test statistics. *)
Definition TS_distribution (numerics : nat -> Numerics A)
  (trials : nat -> Likelihood.NeutrinoSample A)
  (self : Likelihood.state A) (N_re : nat)
  : result (Likelihood.state A * list A) :=
  LikelihoodSetup.foldM (TS_turn numerics trials) (range 0 N_re)
    (self, Np.zeros N_re).

End Trials.

End LikelihoodFits.

(** ** BeamLikelihood.py: the data, the covariance and the other fits *)

Module BeamSetup.

Import Py.
Local Open Scope py_scope.

(** [a[::step]]: the entries whose index is a multiple of [step]. *)
Definition stride {X : Type} (step : nat) (a : list X) : result (list X) :=
  if step =? 0 then raise ValueError
  else
    ok (map snd
          (filter (fun ix => fst ix mod step =? 0) (combine (seq 0 (length a)) a))).

(** [m[::step, ::step][:-1, :-1]] *)
Definition coarse_block {X : Type} (step : nat) (m : list (list X))
  : result (list (list X)) :=
  rows <- stride step m ;;
  rows <- mapM (stride step) rows ;;
  ok (map (@removelast X) (removelast rows)).

(** [np.diag(m)] of a two-dimensional array. *)
Definition diag {X : Type} (m : list (list X)) : list X :=
  flat_map (fun ir => match nth_error (snd ir) (fst ir) with
                      | Some x => [x]
                      | None => []
                      end)
    (combine (seq 0 (length m)) m).

(** [np.zeros_like(m)] *)
Definition zeros_like {A : Type} `{Float A} (m : list (list A)) : list (list A) :=
  map (fun r => Np.zeros (length r)) m.

(** [np.diag(a)] of a one-dimensional array. *)
Definition diag_matrix {A : Type} `{Float A} (a : list A) : list (list A) :=
  map (fun ix =>
         map (fun j => if fst ix =? j then snd ix else fromZ 0) (seq 0 (length a)))
    (combine (seq 0 (length a)) a).

(** [int(Defaults.MAX_L / lbin)] *)
Definition coarse_width (lbin : nat) : result nat :=
  if lbin =? 0 then raise ZeroDivisionError else ok (Defaults.MAX_L / lbin).

(** [bin_llcl(x, lbin)]: the centres of the coarse bins and the binned
    spectrum. *)
Class Binning (A : Type) : Type := {
  bin_llcl : list A -> nat -> list A * list A
}.

(** What the engine reads of a [NeutrinoSample]: the cross-correlation and
    its covariance PolSpice computes for an energy bin, the event counts,
    and the deviation and covariance [bootstrapSigma] obtains by resampling
    its events. *)
Record NeutrinoSample (A : Type) : Type := {
  getCrossCorrelationPolSpiceEbin : nat -> list A * list (list A);
  getEventCounts : list A;
  bootstrapSigma : nat -> list A * list (list A)
}.

(** The attributes of a [BeamLikelihood] object beside those of
    [BeamLikelihood.state]. *)
Record instance (A : Type) : Type := {
  engine : BeamLikelihood.state A;
  err_type : String.string;
  lcenter : list A;
  Ncount : option (list A)
}.

Section Data.

Import String.

Context {A : Type} `{Float A} `{LikelihoodSetup.Sqrt A} `{Binning A}.

(** One turn of the first loop of [inputData]. *)
Definition correlation_turn (ns : NeutrinoSample A) (lbin width : nat)
  (acc : list A * list (list A) * list (list (list A))) (ebin : nat)
  : result (list A * list (list A) * list (list (list A))) :=
  let '(_, w_data_all, w_cov_all) := acc in
  let '(w_data, w_cov) := getCrossCorrelationPolSpiceEbin ns ebin in
  let '(lcenter, binned) := bin_llcl w_data lbin in
  w_data_all <- Np.setrow w_data_all ebin binned ;;
  block <- coarse_block lbin w_cov ;;
  w_cov_all <- LikelihoodSetup.setslab width width w_cov_all ebin block ;;
  ok (lcenter, w_data_all, w_cov_all).

(** One turn of the second loop of [inputData]. *)
Definition deviation_turn (ns : NeutrinoSample A) (err_type : string)
  (lbin : nat) (w_cov : list (list (list A)))
  (acc : list (list A) * list (list A)) (ebin : nat)
  : result (list (list A) * list (list A)) :=
  let '(w_std, w_std_square) := acc in
  if (err_type =? "bootstrap")%string then
    let '(std, cov) := bootstrapSigma ns ebin in
    w_std <- Np.setrow w_std ebin std ;;
    row <- getitem w_std ebin ;;
    w_std_square <- Np.setrow w_std_square ebin (Np.square row) ;;
    ok (w_std, w_std_square)
  else if (err_type =? "polspice")%string then
    cov_bin <- getitem w_cov ebin ;;
    let variance := Np.over (diag cov_bin) (fromZ (Z.of_nat lbin)) in
    w_std <- Np.setrow w_std ebin (map LikelihoodSetup.fsqrt variance) ;;
    row <- getitem w_std ebin ;;
    w_std_square <- Np.setrow w_std_square ebin (Np.square row) ;;
    ok (w_std, w_std_square)
  else raise ValueError.

Definition inputData (self : instance A) (ns : NeutrinoSample A)
  : result (instance A) :=
  let llh := engine self in
  let lbin := BeamLikelihood.lbin llh in
  let ebins := range (BeamLikelihood.Ebinmin llh) (BeamLikelihood.Ebinmax llh) in
  width <- coarse_width lbin ;;
  let w_data := Np.zeros2 Defaults.NEbin width in
  let w_cov := repeat (Np.zeros2 width width) Defaults.NEbin in
  acc <- LikelihoodSetup.foldM (correlation_turn ns lbin width) ebins
           (lcenter self, w_data, w_cov) ;;
  let '(lcenter, w_data, w_cov) := acc in
  let Ncount := getEventCounts ns in
  let w_std := zeros_like w_data in
  let w_std_square := zeros_like w_data in
  stds <- LikelihoodSetup.foldM (deviation_turn ns (err_type self) lbin w_cov) ebins
            (w_std, w_std_square) ;;
  let '(w_std, w_std_square) := stds in
  ok {| engine :=
          {| BeamLikelihood.Ebinmin := BeamLikelihood.Ebinmin llh;
             BeamLikelihood.Ebinmax := BeamLikelihood.Ebinmax llh;
             BeamLikelihood.lmin := BeamLikelihood.lmin llh;
             BeamLikelihood.lbin := lbin;
             BeamLikelihood.w_model_f1 := BeamLikelihood.w_model_f1 llh;
             BeamLikelihood.w_atm_mean := BeamLikelihood.w_atm_mean llh;
             BeamLikelihood.w_atm_std := BeamLikelihood.w_atm_std llh;
             BeamLikelihood.w_atm_std_square := BeamLikelihood.w_atm_std_square llh;
             BeamLikelihood.w_data := Some w_data;
             BeamLikelihood.w_cov := Some w_cov;
             BeamLikelihood.w_std := Some w_std;
             BeamLikelihood.w_std_square := Some w_std_square |};
        err_type := err_type self;
        lcenter := lcenter;
        Ncount := Some Ncount |}.

(** One turn of the loop of [computeAstrophysicalEventDistribution]. *)
Definition astrophysical_turn (trials : nat -> NeutrinoSample A)
  (acc : instance A * list (list (list A))) (iteration : nat)
  : result (instance A * list (list (list A))) :=
  let '(self, w_cross) := acc in
  self <- inputData self (trials iteration) ;;
  w_data <- attr (BeamLikelihood.w_data (engine self)) ;;
  w_cross <-
    LikelihoodSetup.setslab Defaults.NEbin (3 * Defaults.NSIDE) w_cross iteration
      w_data ;;
  ok (self, w_cross).

(** [computeAstrophysicalEventDistribution]: the engine as the last trial
    leaves it and the arrays it stores in [w_model_f1] and
    [w_model_f1_std]. *)
Definition computeAstrophysicalEventDistribution (self : instance A)
  (trials : nat -> NeutrinoSample A) (N_re : nat)
  : result (instance A * list (list A) * list (list A)) :=
  let w_cross := repeat (Np.zeros2 Defaults.NEbin (3 * Defaults.NSIDE)) N_re in
  acc <- LikelihoodSetup.foldM (astrophysical_turn trials) (range 0 N_re)
           (self, w_cross) ;;
  let '(self, w_cross) := acc in
  ok (self,
      LikelihoodSetup.mean_axis0 Defaults.NEbin (3 * Defaults.NSIDE) w_cross,
      LikelihoodSetup.std_axis0 Defaults.NEbin (3 * Defaults.NSIDE) w_cross).

End Data.

(** *** The constructor *)

(** What the constructor reads of the [DataScrambleBackgroundModel]. *)
Record DataScrambleBackgroundModel (A : Type) : Type := {
  w_mean : list (list A);
  w_std : list (list A)
}.

Section Constructor.

Context {A : Type} `{Float A} `{LikelihoodSetup.Sqrt A} `{Binning A}.

(** One turn of the loop of the constructor, for an energy bin of the
    background model. *)
Definition template_turn (background_model : DataScrambleBackgroundModel A)
  (lbin : nat) (acc : list (list A) * list (list A)) (ebin : nat)
  : result (list (list A) * list (list A)) :=
  let '(w_atm_mean, w_atm_std) := acc in
  mean_row <- getitem (w_mean background_model) ebin ;;
  w_atm_mean <- Np.setrow w_atm_mean ebin (snd (bin_llcl mean_row lbin)) ;;
  std_row <- getitem (w_std background_model) ebin ;;
  coarse <- stride lbin std_row ;;
  w_atm_std <-
    Np.setrow w_atm_std ebin
      (Np.over (removelast coarse) (LikelihoodSetup.fsqrt (fromZ (Z.of_nat lbin)))) ;;
  ok (w_atm_mean, w_atm_std).

(** [BeamLikelihood(N_yr, galaxyName, Ebinmin, Ebinmax, lmin, lbin=lbin,
    err_type=err_type)]: [getAutoCorrelation] is the spectrum
    [gs.getAutoCorrelation()] returns, [background_model] the
    [DataScrambleBackgroundModel] of the galaxy sample. *)
Definition __init__ (getAutoCorrelation : list A)
  (background_model : DataScrambleBackgroundModel A)
  (Ebinmin Ebinmax lmin lbin : nat) (err_type : String.string)
  : result (instance A) :=
  let '(lcenter, w_model_f1) := bin_llcl getAutoCorrelation lbin in
  let w_atm_mean := Np.zeros2 Defaults.NEbin (length w_model_f1) in
  let w_atm_std := Np.zeros2 Defaults.NEbin (length w_model_f1) in
  acc <- LikelihoodSetup.foldM (template_turn background_model lbin)
           (range 0 Defaults.NEbin) (w_atm_mean, w_atm_std) ;;
  let '(w_atm_mean, w_atm_std) := acc in
  ok {| engine :=
          {| BeamLikelihood.Ebinmin := Ebinmin;
             BeamLikelihood.Ebinmax := Ebinmax;
             BeamLikelihood.lmin := lmin;
             BeamLikelihood.lbin := lbin;
             BeamLikelihood.w_model_f1 := w_model_f1;
             BeamLikelihood.w_atm_mean := w_atm_mean;
             BeamLikelihood.w_atm_std := w_atm_std;
             BeamLikelihood.w_atm_std_square := map Np.square w_atm_std;
             BeamLikelihood.w_data := None;
             BeamLikelihood.w_cov := None;
             BeamLikelihood.w_std := None;
             BeamLikelihood.w_std_square := None |};
        err_type := err_type;
        lcenter := lcenter;
        Ncount := None |}.

End Constructor.

(** *** [init_from_run] *)

(** The keys of the dictionaries of a run: energy bins, as integers or, once
    the run has gone through JSON, as strings. *)
Inductive key : Type :=
| Kint (ebin : nat)
| Kstr (s : String.string).

Definition key_eqb (k k' : key) : bool :=
  match k, k' with
  | Kint n, Kint n' => n =? n'
  | Kstr s, Kstr s' => String.eqb s s'
  | _, _ => false
  end.

(** [isinstance(k, str)] *)
Definition is_str (k : key) : bool :=
  match k with
  | Kstr _ => true
  | Kint _ => false
  end.

(** [str(ebin)] *)
Definition str (ebin : nat) : String.string :=
  DecimalString.NilEmpty.string_of_uint (Nat.to_uint ebin).

(** A dictionary, its keys in the order of insertion. *)
Definition dict (V : Type) : Type := list (key * V).

(** What [init_from_run] may raise: [KeyError], or an exception of the
    array operations. *)
Inductive run_error : Type :=
| KeyError
| Raised (e : exn).

Definition run_result (X : Type) : Type := (run_error + X)%type.

Definition lift {X : Type} (c : result X) : run_result X :=
  match c with
  | inl e => inl (Raised e)
  | inr x => inr x
  end.

Definition run_bind {X Y : Type} (c : run_result X) (k : X -> run_result Y)
  : run_result Y :=
  match c with
  | inl e => inl e
  | inr x => k x
  end.

(** [d[k]] *)
Fixpoint lookup {V : Type} (d : dict V) (k : key) : run_result V :=
  match d with
  | [] => inl KeyError
  | (k', v) :: d' => if key_eqb k k' then inr v else lookup d' k
  end.

(** [list(d.keys())] *)
Definition keys {V : Type} (d : dict V) : list key := map fst d.

(** [int(Defaults.NCL / lbin) - 1] as a dimension of [np.zeros]. *)
Definition run_width (lbin : nat) : result nat :=
  if lbin =? 0 then raise ZeroDivisionError
  else if Defaults.NCL / lbin =? 0 then raise ValueError
  else ok (Defaults.NCL / lbin - 1).

Section Run.

Context {A : Type} `{Float A}.

(** One turn of the loop of [init_from_run], for the pair [(i, ebin)]. *)
Definition run_turn (cls cls_std : dict (list A)) (width : nat)
  (acc : list (list A) * list (list A) * list (list (list A)))
  (iebin : nat * nat) : run_result (list (list A) * list (list A) * list (list (list A))) :=
  let '(w_data, w_std, w_cov) := acc in
  let '(i, ebin) := iebin in
  run_bind (lift (getitem (keys cls) i)) (fun k =>
  let ebin_key := if is_str k then Kstr (str ebin) else Kint ebin in
  run_bind (lookup cls ebin_key) (fun cl =>
  run_bind (lift (Np.setrow w_data ebin cl)) (fun w_data =>
  run_bind (lookup cls_std ebin_key) (fun cl_std =>
  run_bind (lift (Np.setrow w_std ebin cl_std)) (fun w_std =>
  run_bind (lift (getitem w_std ebin)) (fun row =>
  run_bind (lift (LikelihoodSetup.setslab width width w_cov ebin
                    (diag_matrix (Np.square row)))) (fun w_cov =>
  inr (w_data, w_std, w_cov)))))))).

Fixpoint run_loop (cls cls_std : dict (list A)) (width : nat)
  (acc : list (list A) * list (list A) * list (list (list A)))
  (iebins : list (nat * nat))
  : run_result (list (list A) * list (list A) * list (list (list A))) :=
  match iebins with
  | [] => inr acc
  | iebin :: rest =>
      run_bind (run_turn cls cls_std width acc iebin) (fun acc' =>
      run_loop cls cls_std width acc' rest)
  end.

(** [init_from_run], from the engine [llh] the constructor returns for the
    keyword arguments of the run, and the dictionaries [cls] and [cls_std]
    of the run. *)
Definition init_from_run (llh : instance A) (cls cls_std : dict (list A))
  : run_result (instance A) :=
  let e := engine llh in
  run_bind (lift (run_width (BeamLikelihood.lbin e))) (fun width =>
  let w_data := Np.zeros2 Defaults.NEbin width in
  let w_std := Np.zeros2 Defaults.NEbin width in
  let w_cov := repeat (Np.zeros2 width width) Defaults.NEbin in
  let ebins := range (BeamLikelihood.Ebinmin e) (BeamLikelihood.Ebinmax e) in
  run_bind (run_loop cls cls_std width (w_data, w_std, w_cov)
              (combine (seq 0 (length ebins)) ebins)) (fun acc =>
  let '(w_data, w_std, w_cov) := acc in
  inr {| engine :=
           {| BeamLikelihood.Ebinmin := BeamLikelihood.Ebinmin e;
              BeamLikelihood.Ebinmax := BeamLikelihood.Ebinmax e;
              BeamLikelihood.lmin := BeamLikelihood.lmin e;
              BeamLikelihood.lbin := BeamLikelihood.lbin e;
              BeamLikelihood.w_model_f1 := BeamLikelihood.w_model_f1 e;
              BeamLikelihood.w_atm_mean := BeamLikelihood.w_atm_mean e;
              BeamLikelihood.w_atm_std := BeamLikelihood.w_atm_std e;
              BeamLikelihood.w_atm_std_square := BeamLikelihood.w_atm_std_square e;
              BeamLikelihood.w_data := Some w_data;
              BeamLikelihood.w_cov := Some w_cov;
              BeamLikelihood.w_std := Some w_std;
              BeamLikelihood.w_std_square := BeamLikelihood.w_std_square e |};
         err_type := err_type llh;
         lcenter := lcenter llh;
         Ncount := Ncount llh |})).

End Run.

(** *** The fits on the full covariance and with a free index *)

Section Fits.

Context {A : Type} `{Float A} `{MultivariateNormal A}.




Context `{Numerics A}.


Definition minimize__lnL_free_index (self : BeamLikelihood.state A)
  : result (list A * A) :=
  if BeamLikelihood.Ebinmax self <? BeamLikelihood.Ebinmin self then raise ValueError
  else
    let len_f := BeamLikelihood.Ebinmax self - BeamLikelihood.Ebinmin self in
    bounds <- LikelihoodFits.bounds_free_index len_f ;;
    soln <- minimize (BeamLikelihood.nll self)
              (LikelihoodFits.initial_free_index len_f) bounds ;;
    at_x <- BeamLikelihood.log_likelihood self (x soln) ;;
    at_null <- BeamLikelihood.log_likelihood self (LikelihoodFits.null_x len_f) ;;
    ok (x soln, ((at_x - at_null) * fromZ 2)%fl).

End Fits.

End BeamSetup.

(** ** Further engines and inputs used as examples *)

Module MoreExamples.

Local Open Scope R_scope.

(** A sample for [Examples.engine]: two energy bins of three multipoles. *)
Definition sample : Likelihood.NeutrinoSample R := {|
  Likelihood.getCrossCorrelation := [[1; 2; 3]; [5; 5; 5]];
  Likelihood.getEventCounts := [10; 20];
  Likelihood.bootstrapSigma := fun ebin => [3; 3; 3]
|}.



(** One energy bin of two multipoles whose observed spectrum is the mixture
    of the templates for the fraction 1/4. *)
Definition injected : Likelihood.state R := {|
  Likelihood.Ebinmin := 0;
  Likelihood.Ebinmax := 1;
  Likelihood.lmin := 0;
  Likelihood.w_model_f1 := [[4; 8]];
  Likelihood.w_atm_mean := Some [[0; 0]];
  Likelihood.w_atm_std := Some [[1; 1]];
  Likelihood.w_atm_std_square := Some (map Np.square [[1; 1]]);
  Likelihood.w_data := Some [[1; 2]];
  Likelihood.Ncount := Some [10];
  Likelihood.w_std := Some [[1; 1]];
  Likelihood.w_std_square := Some (map Np.square [[1; 1]])
|}.

(** Arrays, a sample and files of the shape of [Defaults]. *)
Definition flat (x : R) : list (list R) :=
  repeat (repeat x Defaults.NCL) Defaults.NEbin.

Definition flat_sample (x : R) : Likelihood.NeutrinoSample R := {|
  Likelihood.getCrossCorrelation := flat x;
  Likelihood.getEventCounts := [10; 20; 30];
  Likelihood.bootstrapSigma := fun _ => repeat 1 Defaults.NCL
|}.

Definition loaded : LikelihoodSetup.files R := {|
  LikelihoodSetup.AtmSTDFname := repeat 2 (Defaults.NEbin * Defaults.NCL);
  LikelihoodSetup.AtmMeanFname := repeat 0 (Defaults.NEbin * Defaults.NCL);
  LikelihoodSetup.AtmNcountsFname := [100; 200; 300];
  LikelihoodSetup.AstroMeanFname := repeat 5 (Defaults.NEbin * Defaults.NCL);
  LikelihoodSetup.AstroSTDFname := repeat 1 (Defaults.NEbin * Defaults.NCL)
|}.

(** An engine as the constructor has it before it computes or loads the
    templates. *)
Definition bare_engine : Likelihood.state R := {|
  Likelihood.Ebinmin := 0;
  Likelihood.Ebinmax := 1;
  Likelihood.lmin := 50;
  Likelihood.w_model_f1 := flat 5;
  Likelihood.w_atm_mean := None;
  Likelihood.w_atm_std := None;
  Likelihood.w_atm_std_square := None;
  Likelihood.w_data := None;
  Likelihood.Ncount := None;
  Likelihood.w_std := None;
  Likelihood.w_std_square := None
|}.

(** Samples for [Examples.end_to_end]: one energy bin of ten multipoles,
    the observed spectrum flat at [data]; and one multipole short. *)
Definition counted (data : xfloat) : Likelihood.NeutrinoSample xfloat := {|
  Likelihood.getCrossCorrelation := [repeat data 10];
  Likelihood.getEventCounts := [Fin 100];
  Likelihood.bootstrapSigma := fun ebin => repeat (Fin 1) 10
|}.

Definition short_sample : Likelihood.NeutrinoSample xfloat := {|
  Likelihood.getCrossCorrelation := [repeat (Fin 1) 9];
  Likelihood.getEventCounts := [Fin 100];
  Likelihood.bootstrapSigma := fun ebin => repeat (Fin 1) 10
|}.

(** Two series of trials: spectra flat at 1, 2, 3, ...; and the same with
    [short_sample] as the second trial. *)
Definition series (i : nat) : Likelihood.NeutrinoSample xfloat :=
  counted (Fin (Z.of_nat (S i) # 1)).

Definition broken_series (i : nat) : Likelihood.NeutrinoSample xfloat :=
  if (i =? 1)%nat then short_sample else series i.

End MoreExamples.

(** ** Notions of the further properties *)

Module Further.

Import Py.

(** The deviation [inputData] holds after its loop over [bootstrap_error]:
    the rows of the listed energy bins replaced, one after the other, by
    the bootstrap deviation of the bin. *)
Definition bootstrapped {A : Type} (ns : Likelihood.NeutrinoSample A)
  (std : list (list A)) (bootstrap_error : list nat) : list (list A) :=
  fold_left (fun m ebin => Np.replace ebin (Likelihood.bootstrapSigma ns ebin) m)
    bootstrap_error std.

(** The engine once [inputData] has put in a sample without bootstrap, with
    the deviation [std] and its square [sq]. *)
Definition fed {A : Type} (self : Likelihood.state A)
  (ns : Likelihood.NeutrinoSample A) (std sq : list (list A))
  : Likelihood.state A := {|
  Likelihood.Ebinmin := Likelihood.Ebinmin self;
  Likelihood.Ebinmax := Likelihood.Ebinmax self;
  Likelihood.lmin := Likelihood.lmin self;
  Likelihood.w_model_f1 := Likelihood.w_model_f1 self;
  Likelihood.w_atm_mean := Likelihood.w_atm_mean self;
  Likelihood.w_atm_std := Likelihood.w_atm_std self;
  Likelihood.w_atm_std_square := Likelihood.w_atm_std_square self;
  Likelihood.w_data := Some (Likelihood.getCrossCorrelation ns);
  Likelihood.Ncount := Some (Likelihood.getEventCounts ns);
  Likelihood.w_std := Some std;
  Likelihood.w_std_square := Some sq
|}.

(** The engine a loop of [inputData] without bootstrap leaves: the one the
    last sample alone gives. *)
Definition last_fed {A : Type} (self : Likelihood.state A)
  (trials : nat -> Likelihood.NeutrinoSample A) (std sq : list (list A)) (k : nat)
  : Likelihood.state A :=
  match k with
  | O => self
  | S k' => fed self (trials k') std sq
  end.

(** The cross-correlations of the first [n] trials of a series. *)
Definition correlations {A : Type} (trials : nat -> Likelihood.NeutrinoSample A)
  (n : nat) : list (list (list A)) :=
  map (fun i => Likelihood.getCrossCorrelation (trials i)) (seq 0 n).

(** The sum of the event counts of the first [n] trials of a series, as the
    loop of [computeAtmophericEventDistribution] accumulates it. *)
Definition counts_sum {A : Type} `{Float A}
  (trials : nat -> Likelihood.NeutrinoSample A) (n : nat) : list A :=
  fold_left (Np.zipWith fadd)
    (map (fun i => Likelihood.getEventCounts (trials i)) (seq 0 n))
    (Np.zeros Defaults.NEbin).

(** The deviation [inputData] copies: the background deviation and its
    square when the constructor has produced them, zeros before. *)
Definition copied_deviation {A : Type} `{Float A} (self : Likelihood.state A)
  (std sq : list (list A)) : Prop :=
  match Likelihood.w_atm_std self with
  | Some std' => std' = std /\ Likelihood.w_atm_std_square self = Some sq
  | None => std = Np.zeros2 Defaults.NEbin Defaults.NCL
            /\ sq = Np.zeros2 Defaults.NEbin Defaults.NCL
  end.

(** A series of trials of the shape of the arrays of the engine. *)
Definition shaped_trials {A : Type} (trials : nat -> Likelihood.NeutrinoSample A)
  : Prop :=
  forall i,
    Spec.matrix_shape Defaults.NEbin Defaults.NCL
      (Likelihood.getCrossCorrelation (trials i))
    /\ length (Likelihood.getEventCounts (trials i)) = Defaults.NEbin.

(** An array whose entries at the listed positions are replaced, one after
    the other, by the value of the position. *)
Definition filled {X : Type} (value : nat -> X) (positions : list nat) (a : list X)
  : list X :=
  fold_left (fun a' i => Np.replace i (value i) a') positions a.

(** The dictionary of a run that holds the listed energy bins in order, each
    under the key [key_of] gives it. *)
Definition run_dict {V : Type} (key_of : nat -> BeamSetup.key) (value : nat -> V)
  (ebins : list nat) : BeamSetup.dict V :=
  map (fun ebin => (key_of ebin, value ebin)) ebins.

(** The key of an energy bin once the run has gone through JSON. *)
Definition json_key (ebin : nat) : BeamSetup.key := BeamSetup.Kstr (BeamSetup.str ebin).

(** The engine [init_from_run] builds from the spectra [cl] and the
    deviations [cl_std] of the configured energy bins, for arrays of
    [width] coarse multipole bins. *)
Definition run_engine {A : Type} `{Float A} (llh : BeamSetup.instance A)
  (width : nat) (cl cl_std : nat -> list A) : BeamSetup.instance A :=
  let e := BeamSetup.engine llh in
  let ebins := Py.range (BeamLikelihood.Ebinmin e) (BeamLikelihood.Ebinmax e) in
  {| BeamSetup.engine :=
       {| BeamLikelihood.Ebinmin := BeamLikelihood.Ebinmin e;
          BeamLikelihood.Ebinmax := BeamLikelihood.Ebinmax e;
          BeamLikelihood.lmin := BeamLikelihood.lmin e;
          BeamLikelihood.lbin := BeamLikelihood.lbin e;
          BeamLikelihood.w_model_f1 := BeamLikelihood.w_model_f1 e;
          BeamLikelihood.w_atm_mean := BeamLikelihood.w_atm_mean e;
          BeamLikelihood.w_atm_std := BeamLikelihood.w_atm_std e;
          BeamLikelihood.w_atm_std_square := BeamLikelihood.w_atm_std_square e;
          BeamLikelihood.w_data :=
            Some (filled cl ebins (Np.zeros2 Defaults.NEbin width));
          BeamLikelihood.w_cov :=
            Some (filled (fun ebin => BeamSetup.diag_matrix (Np.square (cl_std ebin)))
                    ebins (repeat (Np.zeros2 width width) Defaults.NEbin));
          BeamLikelihood.w_std :=
            Some (filled cl_std ebins (Np.zeros2 Defaults.NEbin width));
          BeamLikelihood.w_std_square := BeamLikelihood.w_std_square e |};
     BeamSetup.err_type := BeamSetup.err_type llh;
     BeamSetup.lcenter := BeamSetup.lcenter llh;
     BeamSetup.Ncount := BeamSetup.Ncount llh |}.

(** The entries of a matrix at the rows and the columns [0], [step],
    [2 * step], ..., [(width - 1) * step]. *)
Definition sampled {X : Type} (d : X) (step width : nat) (m : list (list X))
  : list (list X) :=
  map (fun i => map (fun j => nth (j * step) (nth (i * step) m []) d) (seq 0 width))
    (seq 0 width).

(** The entries of a matrix on the diagonal at [0], [step], [2 * step],
    ..., [(width - 1) * step]. *)
Definition sampled_diagonal {X : Type} (d : X) (step width : nat) (m : list (list X))
  : list X :=
  map (fun i => nth (i * step) (nth (i * step) m []) d) (seq 0 width).

Section ErrorTypes.

Import String.

(** The two values of [err_type] that [BeamLikelihood.inputData] knows. *)
Definition bootstrap_name : string := "bootstrap".
Definition polspice_name : string := "polspice".

End ErrorTypes.

Section BeamData.

Context {A : Type} `{Float A} `{LikelihoodSetup.Sqrt A} `{BeamSetup.Binning A}.

(** What [inputData] of [BeamLikelihood] reads of the sample for an energy
    bin: the centres of the coarse bins and the binned spectrum, and the
    covariance at the multiples of the bin width. *)
Definition binned_centres (ns : BeamSetup.NeutrinoSample A) (lbin ebin : nat) : list A :=
  fst (BeamSetup.bin_llcl (fst (BeamSetup.getCrossCorrelationPolSpiceEbin ns ebin)) lbin).

Definition binned_spectrum (ns : BeamSetup.NeutrinoSample A) (lbin ebin : nat)
  : list A :=
  snd (BeamSetup.bin_llcl (fst (BeamSetup.getCrossCorrelationPolSpiceEbin ns ebin)) lbin).

Definition coarse_covariance (ns : BeamSetup.NeutrinoSample A) (lbin ebin : nat)
  : list (list A) :=
  sampled (fromZ 0) lbin (Defaults.MAX_L / lbin)
    (snd (BeamSetup.getCrossCorrelationPolSpiceEbin ns ebin)).

(** The deviation of an energy bin for [err_type = 'polspice']: the root of
    the variance at the multiples of the bin width over the bin width. *)
Definition polspice_deviation (ns : BeamSetup.NeutrinoSample A) (lbin ebin : nat)
  : list A :=
  map LikelihoodSetup.fsqrt
    (Np.over
       (sampled_diagonal (fromZ 0) lbin (Defaults.MAX_L / lbin)
          (snd (BeamSetup.getCrossCorrelationPolSpiceEbin ns ebin)))
       (fromZ (Z.of_nat lbin))).

(** The deviation of an energy bin for [err_type = 'bootstrap']. *)
Definition bootstrap_deviation (ns : BeamSetup.NeutrinoSample A) (ebin : nat) : list A :=
  fst (BeamSetup.bootstrapSigma ns ebin).

(** The engine once [inputData] has put in the sample [ns], with the
    deviation [dev] of the configured energy bins. *)
Definition data_engine (self : BeamSetup.instance A) (ns : BeamSetup.NeutrinoSample A)
  (dev : nat -> list A) : BeamSetup.instance A :=
  let e := BeamSetup.engine self in
  let lbin := BeamLikelihood.lbin e in
  let width := Defaults.MAX_L / lbin in
  let ebins := Py.range (BeamLikelihood.Ebinmin e) (BeamLikelihood.Ebinmax e) in
  {| BeamSetup.engine :=
       {| BeamLikelihood.Ebinmin := BeamLikelihood.Ebinmin e;
          BeamLikelihood.Ebinmax := BeamLikelihood.Ebinmax e;
          BeamLikelihood.lmin := BeamLikelihood.lmin e;
          BeamLikelihood.lbin := lbin;
          BeamLikelihood.w_model_f1 := BeamLikelihood.w_model_f1 e;
          BeamLikelihood.w_atm_mean := BeamLikelihood.w_atm_mean e;
          BeamLikelihood.w_atm_std := BeamLikelihood.w_atm_std e;
          BeamLikelihood.w_atm_std_square := BeamLikelihood.w_atm_std_square e;
          BeamLikelihood.w_data :=
            Some (filled (binned_spectrum ns lbin) ebins (Np.zeros2 Defaults.NEbin width));
          BeamLikelihood.w_cov :=
            Some (filled (coarse_covariance ns lbin) ebins
                    (repeat (Np.zeros2 width width) Defaults.NEbin));
          BeamLikelihood.w_std :=
            Some (filled dev ebins (Np.zeros2 Defaults.NEbin width));
          BeamLikelihood.w_std_square :=
            Some (filled (fun ebin => Np.square (dev ebin)) ebins
                    (Np.zeros2 Defaults.NEbin width)) |};
     BeamSetup.err_type := BeamSetup.err_type self;
     BeamSetup.lcenter :=
       fold_left (fun _ ebin => binned_centres ns lbin ebin) ebins
         (BeamSetup.lcenter self);
     BeamSetup.Ncount := Some (BeamSetup.getEventCounts ns) |}.

(** A sample of the shape of [Defaults] for the energy bins of the engine:
    spectra that [bin_llcl] bins into [int(MAX_L / lbin)] values and
    covariances of [3 * NSIDE] rows and columns. *)
Definition shaped_sample (self : BeamSetup.instance A) (ns : BeamSetup.NeutrinoSample A)
  : Prop :=
  let e := BeamSetup.engine self in
  let lbin := BeamLikelihood.lbin e in
  forall ebin,
    In ebin (Py.range (BeamLikelihood.Ebinmin e) (BeamLikelihood.Ebinmax e)) ->
    length (binned_spectrum ns lbin ebin) = Defaults.MAX_L / lbin
    /\ Spec.matrix_shape Defaults.NCL Defaults.NCL
         (snd (BeamSetup.getCrossCorrelationPolSpiceEbin ns ebin)).

(** What the constructor of [BeamLikelihood] stores for an energy bin of
    the background model: the binned mean, and the deviation at the
    multiples of the bin width over the root of the bin width. *)
Definition binned_mean (background_model : BeamSetup.DataScrambleBackgroundModel A)
  (lbin ebin : nat) : list A :=
  snd (BeamSetup.bin_llcl (Spec.row (BeamSetup.w_mean background_model) ebin) lbin).

Definition coarse_deviation (background_model : BeamSetup.DataScrambleBackgroundModel A)
  (lbin ebin : nat) : list A :=
  Np.over
    (map (fun i => nth (i * lbin) (Spec.row (BeamSetup.w_std background_model) ebin)
                     (fromZ 0))
       (seq 0 (Defaults.MAX_L / lbin)))
    (LikelihoodSetup.fsqrt (fromZ (Z.of_nat lbin))).

(** The object the constructor returns. *)
Definition constructed (getAutoCorrelation : list A)
  (background_model : BeamSetup.DataScrambleBackgroundModel A)
  (Ebinmin Ebinmax lmin lbin : nat) (err_type : String.string)
  : BeamSetup.instance A :=
  let w_atm_std := map (coarse_deviation background_model lbin) (seq 0 Defaults.NEbin) in
  {| BeamSetup.engine :=
       {| BeamLikelihood.Ebinmin := Ebinmin;
          BeamLikelihood.Ebinmax := Ebinmax;
          BeamLikelihood.lmin := lmin;
          BeamLikelihood.lbin := lbin;
          BeamLikelihood.w_model_f1 := snd (BeamSetup.bin_llcl getAutoCorrelation lbin);
          BeamLikelihood.w_atm_mean :=
            map (binned_mean background_model lbin) (seq 0 Defaults.NEbin);
          BeamLikelihood.w_atm_std := w_atm_std;
          BeamLikelihood.w_atm_std_square := map Np.square w_atm_std;
          BeamLikelihood.w_data := None;
          BeamLikelihood.w_cov := None;
          BeamLikelihood.w_std := None;
          BeamLikelihood.w_std_square := None |};
     BeamSetup.err_type := err_type;
     BeamSetup.lcenter := fst (BeamSetup.bin_llcl getAutoCorrelation lbin);
     BeamSetup.Ncount := None |}.

End BeamData.

End Further.

(** ** Engines and samples of [BeamLikelihood] used as examples *)

Module BeamExamples.

Local Open Scope R_scope.

(** The engine of a [BeamLikelihood] object as the constructor leaves it
    for [lbin = 4]: 95 coarse bins, energy bins from 0 to [Ebinmax]. *)
Definition coarse_engine (Ebinmax : nat) : BeamLikelihood.state R := {|
  BeamLikelihood.Ebinmin := 0;
  BeamLikelihood.Ebinmax := Ebinmax;
  BeamLikelihood.lmin := 8;
  BeamLikelihood.lbin := 4;
  BeamLikelihood.w_model_f1 := repeat 5 95;
  BeamLikelihood.w_atm_mean := repeat (repeat 0 95) Defaults.NEbin;
  BeamLikelihood.w_atm_std := repeat (repeat 1 95) Defaults.NEbin;
  BeamLikelihood.w_atm_std_square := repeat (repeat 1 95) Defaults.NEbin;
  BeamLikelihood.w_data := None;
  BeamLikelihood.w_cov := None;
  BeamLikelihood.w_std := None;
  BeamLikelihood.w_std_square := None
|}.

Definition beam_llh (err_type : String.string) (Ebinmax : nat)
  : BeamSetup.instance R := {|
  BeamSetup.engine := coarse_engine Ebinmax;
  BeamSetup.err_type := err_type;
  BeamSetup.lcenter := [];
  BeamSetup.Ncount := None
|}.

(** The spectra and the deviations of a run. *)
Definition run_cl (ebin : nat) : list R := repeat 1 95.
Definition run_cl_std (ebin : nat) : list R := repeat 2 95.

(** In the place of [bin_llcl]: the first [int(MAX_L / lbin)] values, as
    centres and as binned spectrum. *)
Definition head_binning : BeamSetup.Binning R := {|
  BeamSetup.bin_llcl := fun x lbin =>
    (firstn (Defaults.MAX_L / lbin) x, firstn (Defaults.MAX_L / lbin) x)
|}.

(** A sample of the shape of [Defaults]. *)
Definition polspice_sample : BeamSetup.NeutrinoSample R := {|
  BeamSetup.getCrossCorrelationPolSpiceEbin := fun ebin =>
    (repeat 1 Defaults.NCL, repeat (repeat 4 Defaults.NCL) Defaults.NCL);
  BeamSetup.getEventCounts := [10; 20; 30];
  BeamSetup.bootstrapSigma := fun ebin => (repeat 3 95, [])
|}.

(** A background model of the shape of [Defaults]. *)
Definition flat_model : BeamSetup.DataScrambleBackgroundModel R := {|
  BeamSetup.w_mean := repeat (repeat 0 Defaults.NCL) Defaults.NEbin;
  BeamSetup.w_std := repeat (repeat 2 Defaults.NCL) Defaults.NEbin
|}.


End BeamExamples.

(** * Properties *)

(** ** The result monad and the array operations *)

Section ArrayFacts.

Import Py.

Lemma zipWith_length {X Y Z : Type} (op : X -> Y -> Z) (xs : list X) (ys : list Y) :
  length xs = length ys -> length (Np.zipWith op xs ys) = length xs.
Proof.
  revert ys; induction xs as [|x xs IH]; intros [|y ys] Hlen; simpl in *;
    try discriminate; auto.
Qed.

Lemma replace_length {X : Type} (i : nat) (v : X) (a : list X) :
  length (Np.replace i v a) = length a.
Proof.
  revert i; induction a as [|x a IH]; intros [|i]; simpl; auto.
Qed.

Lemma replace_nth {X : Type} (i j : nat) (v d : X) (a : list X) :
  i < length a ->
  nth j (Np.replace i v a) d = if j =? i then v else nth j a d.
Proof.
  revert i j; induction a as [|x a IH]; intros [|i] [|j] Hi; simpl in *;
    try lia; auto.
  apply IH; lia.
Qed.

Lemma setitems_fold_length {X : Type} (idx : list nat) (v : X) (a : list X) :
  length (fold_left (fun a' i => Np.replace i v a') idx a) = length a.
Proof.
  revert a; induction idx as [|i idx IH]; intros a; simpl; auto.
  rewrite IH; apply replace_length.
Qed.

Lemma setitems_fold_nth (idx : list nat) (a : list bool) (j : nat) :
  Forall (fun i => i < length a) idx ->
  nth j (fold_left (fun a' i => Np.replace i true a') idx a) false
  = existsb (Nat.eqb j) idx || nth j a false.
Proof.
  revert a; induction idx as [|i idx IH]; intros a Hidx; simpl; auto.
  inversion Hidx as [|? ? Hi Hrest]; subst.
  rewrite IH by (rewrite replace_length; exact Hrest).
  rewrite replace_nth by exact Hi.
  destruct (j =? i); simpl.
  - now rewrite orb_true_r.
  - reflexivity.
Qed.

Lemma setitems_ok {X : Type} (a : list X) (idx : list nat) (v : X) :
  Forall (fun i => i < length a) idx ->
  Np.setitems a idx v = ok (fold_left (fun a' i => Np.replace i v a') idx a).
Proof.
  intros Hidx; unfold Np.setitems.
  replace (forallb (fun i => i <? length a) idx) with true; auto.
  symmetry; apply forallb_forall; intros i Hi.
  apply Nat.ltb_lt; revert i Hi; now apply Forall_forall.
Qed.

Lemma nth_repeat_false (n j : nat) : nth j (repeat false n) false = false.
Proof.
  revert j; induction n as [|n IH]; intros [|j]; simpl; auto.
Qed.

Lemma filter_partition_length {X : Type} (p : X -> bool) (l : list X) :
  length (filter p l) + length (filter (fun x => negb (p x)) l) = length l.
Proof.
  induction l as [|x l IH]; simpl; auto.
  destruct (p x); simpl; lia.
Qed.

Lemma filter_ext_in_eq {X : Type} (p q : X -> bool) (l : list X) :
  (forall x, In x l -> p x = q x) -> filter p l = filter q l.
Proof.
  induction l as [|x l IH]; intros Hpq; simpl; auto.
  rewrite (Hpq x) by (now left).
  rewrite IH; auto.
  intros y Hy; apply Hpq; now right.
Qed.

Lemma filter_all {X : Type} (p : X -> bool) (l : list X) :
  (forall x, In x l -> p x = true) -> filter p l = l.
Proof.
  induction l as [|x l IH]; intros Hp; simpl; auto.
  rewrite (Hp x) by (now left).
  f_equal; apply IH; intros y Hy; apply Hp; now right.
Qed.

Lemma filter_none {X : Type} (p : X -> bool) (l : list X) :
  (forall x, In x l -> p x = false) -> filter p l = [].
Proof.
  induction l as [|x l IH]; intros Hp; simpl; auto.
  rewrite (Hp x) by (now left).
  apply IH; intros y Hy; apply Hp; now right.
Qed.

Lemma existsb_eqb_In (j : nat) (l : list nat) :
  existsb (Nat.eqb j) l = true <-> In j l.
Proof.
  rewrite existsb_exists; split.
  - intros [y [Hy Heq]]; apply Nat.eqb_eq in Heq; now subst.
  - intros Hj; exists j; split; auto; apply Nat.eqb_refl.
Qed.

End ArrayFacts.

(** ** The mask builder *)

Section MaskBuilder.

Import Py Spec.
Local Open Scope R_scope.

Lemma anafastMask_unfold (NPIXEL : nat) (idx_muon idx_galaxymask : list nat) :
  Forall (fun i => (i < NPIXEL)%nat) idx_muon ->
  Forall (fun i => (i < NPIXEL)%nat) idx_galaxymask ->
  Likelihood.anafastMask (A := R) NPIXEL idx_muon idx_galaxymask
  = ok (filter (masked idx_muon idx_galaxymask) (seq 0 NPIXEL),
        1 - INR (length (filter (masked idx_muon idx_galaxymask) (seq 0 NPIXEL)))
            / INR NPIXEL).
Proof.
  intros Hmuon Hgal; unfold Likelihood.anafastMask.
  rewrite setitems_ok by (now rewrite repeat_length); simpl.
  rewrite setitems_ok by (now rewrite setitems_fold_length, repeat_length); simpl.
  unfold Np.where_nonzero.
  rewrite !setitems_fold_length, repeat_length.
  rewrite (filter_ext_in_eq _ (masked idx_muon idx_galaxymask)).
  - now rewrite !INR_IZR_INZ.
  - intros j _; unfold masked.
    rewrite setitems_fold_nth
      by (now rewrite setitems_fold_length, repeat_length).
    rewrite setitems_fold_nth by (now rewrite repeat_length).
    now rewrite nth_repeat_false, orb_false_r.
Qed.

Lemma masked_In (idx_muon idx_galaxymask : list nat) (i : nat) :
  masked idx_muon idx_galaxymask i = true <-> In i idx_muon \/ In i idx_galaxymask.
Proof.
  unfold masked; rewrite orb_true_iff, !existsb_eqb_In; tauto.
Qed.

Lemma usable_count_complement (NPIXEL : nat) (p : nat -> bool) :
  (Spec.usable_pixel_count NPIXEL (filter p (seq 0 NPIXEL))
   + length (filter p (seq 0 NPIXEL)) = NPIXEL)%nat.
Proof.
  unfold Spec.usable_pixel_count, Spec.usable_pixels.
  rewrite (filter_ext_in_eq _ (fun i => negb (p i))).
  - pose proof (filter_partition_length p (seq 0 NPIXEL)) as Hlen.
    rewrite length_seq in Hlen; lia.
  - intros i Hi; f_equal.
    apply eq_true_iff_eq; rewrite existsb_eqb_In, filter_In; tauto.
Qed.

(** C2, as the code has it: the sky fraction is one minus the share of the
    masked pixels (those of the muon mask or of the galaxy mask), which is the
    share of the usable pixels; a sky that is masked everywhere has sky
    fraction zero. *)
Theorem anafastMask_sky_fraction (NPIXEL : nat) (idx_muon idx_galaxymask : list nat) :
  (0 < NPIXEL)%nat ->
  Forall (fun i => (i < NPIXEL)%nat) idx_muon ->
  Forall (fun i => (i < NPIXEL)%nat) idx_galaxymask ->
  exists idx_mask f_sky,
    Likelihood.anafastMask (A := R) NPIXEL idx_muon idx_galaxymask
      = ok (idx_mask, f_sky)
    /\ (forall i, In i idx_mask <->
                  (i < NPIXEL)%nat /\ (In i idx_muon \/ In i idx_galaxymask))
    /\ f_sky = 1 - INR (length idx_mask) / INR NPIXEL
    /\ f_sky = INR (Spec.usable_pixel_count NPIXEL idx_mask) / INR NPIXEL
    /\ ((forall i, (i < NPIXEL)%nat -> In i idx_muon \/ In i idx_galaxymask) ->
        f_sky = 0).
Proof.
  intros Hpos Hmuon Hgal.
  eexists; eexists; split; [apply anafastMask_unfold; assumption|].
  set (idx_mask := filter (masked idx_muon idx_galaxymask) (seq 0 NPIXEL)).
  assert (HN : INR NPIXEL <> 0) by (apply not_0_INR; lia).
  split; [|split; [|split]].
  - intros i; unfold idx_mask.
    rewrite filter_In, in_seq, masked_In; intuition lia.
  - reflexivity.
  - pose proof (usable_count_complement NPIXEL (masked idx_muon idx_galaxymask))
      as Hsum; fold idx_mask in Hsum.
    apply (f_equal INR) in Hsum; rewrite plus_INR in Hsum.
    field_simplify_eq; [lra | exact HN].
  - intros Hall.
    replace idx_mask with (seq 0 NPIXEL).
    + rewrite length_seq; field; exact HN.
    + symmetry; apply filter_all; intros i Hi.
      apply masked_In, Hall; apply in_seq in Hi; lia.
Qed.

Lemma anafastMask_sky_fraction_witness :
  exists idx_mask f_sky,
    Likelihood.anafastMask (A := R) 4 [3%nat] [1%nat; 3%nat] = Py.ok (idx_mask, f_sky)
    /\ (forall i, In i idx_mask <-> (i < 4)%nat /\ (In i [3%nat] \/ In i [1%nat; 3%nat]))
    /\ f_sky = 1 - INR (length idx_mask) / INR 4
    /\ f_sky = INR (Spec.usable_pixel_count 4 idx_mask) / INR 4
    /\ ((forall i, (i < 4)%nat -> In i [3%nat] \/ In i [1%nat; 3%nat]) -> f_sky = 0).
Proof.
  apply (@anafastMask_sky_fraction 4 [3%nat] [1%nat; 3%nat]).
  - lia.
  - repeat constructor.
  - repeat constructor.
Defined.

Lemma unmasked_sky (NPIXEL : nat) :
  (0 < NPIXEL)%nat ->
  exists f_sky,
    Likelihood.anafastMask (A := R) NPIXEL [] [] = Py.ok ([], f_sky)
    /\ f_sky = 1
    /\ 1 - INR (Spec.usable_pixel_count NPIXEL []) / INR NPIXEL = 0
    /\ f_sky <> 1 - INR (Spec.usable_pixel_count NPIXEL []) / INR NPIXEL.
Proof.
  intros Hpos.
  assert (HN : INR NPIXEL <> 0) by (apply not_0_INR; lia).
  assert (Hmask : filter (masked [] []) (seq 0 NPIXEL) = [])
    by (apply filter_none; reflexivity).
  assert (Husable : Spec.usable_pixel_count NPIXEL [] = NPIXEL).
  { pose proof (usable_count_complement NPIXEL (masked [] [])) as Hsum.
    rewrite Hmask in Hsum; cbn [length] in Hsum; lia. }
  exists (1 - INR 0 / INR NPIXEL).
  split; [|split; [|split]].
  - rewrite anafastMask_unfold by constructor.
    now rewrite Hmask.
  - cbn [INR]; field; exact HN.
  - rewrite Husable; field; exact HN.
  - rewrite Husable; cbn [INR]; intros Heq.
    replace (INR NPIXEL / INR NPIXEL) with 1 in Heq by (field; exact HN).
    unfold Rdiv in Heq; rewrite Rmult_0_l in Heq; lra.
Qed.

(** C2, as the claim words it: with no pixel masked every pixel is usable and
    the sky fraction is one, while one minus the share of the usable pixels
    is zero. *)
Lemma anafastMask_not_one_minus_usable :
  exists f_sky,
    Likelihood.anafastMask (A := R) Defaults.NPIXEL [] [] = Py.ok ([], f_sky)
    /\ f_sky = 1
    /\ 1 - INR (Spec.usable_pixel_count Defaults.NPIXEL []) / INR Defaults.NPIXEL = 0
    /\ f_sky <> 1 - INR (Spec.usable_pixel_count Defaults.NPIXEL [])
                    / INR Defaults.NPIXEL.
Proof.
  apply unmasked_sky.
  unfold Defaults.NPIXEL, Defaults.NSIDE; lia.
Qed.

End MaskBuilder.

(** ** Broadcasting on arrays of one shape *)

Section Broadcasting.

Import Py Spec.

Lemma broadcast_same_length {X Y Z : Type} (op : X -> Y -> Z)
  (xs : list X) (ys : list Y) :
  length xs = length ys -> Np.broadcast op xs ys = ok (Np.zipWith op xs ys).
Proof.
  intros Hlen.
  destruct xs as [|x [|x' xs]]; destruct ys as [|y [|y' ys]];
    simpl in Hlen; try discriminate; try reflexivity.
  unfold Np.broadcast.
  replace (length (x :: x' :: xs) =? length (y :: y' :: ys)) with true; auto.
  symmetry; apply Nat.eqb_eq; simpl; lia.
Qed.

Lemma broadcast_to_left_same_length {X Y Z : Type} (op : X -> Y -> Z)
  (xs : list X) (ys : list Y) :
  length xs = length ys ->
  Np.broadcast_to_left op xs ys = ok (Np.zipWith op xs ys).
Proof.
  intros Hlen.
  destruct ys as [|y [|y' ys]]; destruct xs as [|x [|x' xs]];
    simpl in Hlen; try discriminate; try reflexivity.
  unfold Np.broadcast_to_left.
  replace (length (x :: x' :: xs) =? length (y :: y' :: ys)) with true; auto.
  symmetry; apply Nat.eqb_eq; simpl; lia.
Qed.

Lemma mapM_id_zipWith {X Y Z : Type} (g : X -> Y -> result Z) (h : X -> Y -> Z)
  (P : X -> Y -> Prop) (m : list X) (n : list Y) :
  (forall r s, P r s -> g r s = ok (h r s)) ->
  Forall2 P m n ->
  mapM (fun r => r) (Np.zipWith g m n) = ok (Np.zipWith h m n).
Proof.
  intros Hgh Hmn; induction Hmn as [|r s m n Hrs _ IH]; simpl; auto.
  now rewrite (Hgh _ _ Hrs), IH.
Qed.

Lemma shapes_Forall2 {X Y : Type} (k c : nat)
  (m : list (list X)) (n : list (list Y)) :
  matrix_shape k c m -> matrix_shape k c n ->
  Forall2 (fun r s => length r = length s) m n.
Proof.
  intros [Hm Hrows] [Hn Hrows']; subst k.
  revert n Hn Hrows'; induction m as [|r m IH]; intros [|s n] Hn Hrows';
    simpl in Hn; try discriminate; constructor.
  - inversion Hrows; inversion Hrows'; congruence.
  - inversion Hrows; inversion Hrows'; subst; apply IH; auto.
Qed.

Lemma Forall2_length_eq {X Y : Type} (P : X -> Y -> Prop) (m : list X) (n : list Y) :
  Forall2 P m n -> length m = length n.
Proof.
  induction 1; simpl; auto.
Qed.

Lemma broadcast2_shaped {X Y Z : Type} (op : X -> Y -> Z) (k c : nat)
  (m : list (list X)) (n : list (list Y)) :
  matrix_shape k c m -> matrix_shape k c n ->
  Np.broadcast2 op m n = ok (Np.zipWith (Np.zipWith op) m n).
Proof.
  intros Hm Hn; unfold Np.broadcast2.
  pose proof (shapes_Forall2 Hm Hn) as Hrows.
  rewrite broadcast_same_length by (eapply Forall2_length_eq; eauto).
  simpl; eapply mapM_id_zipWith; eauto.
  intros r s Hrs; now apply broadcast_same_length.
Qed.

Lemma inplace2_shaped {X Y : Type} (op : X -> Y -> X) (k c : nat)
  (m : list (list X)) (n : list (list Y)) :
  matrix_shape k c m -> matrix_shape k c n ->
  Np.inplace2 op m n = ok (Np.zipWith (Np.zipWith op) m n).
Proof.
  intros Hm Hn; unfold Np.inplace2.
  pose proof (shapes_Forall2 Hm Hn) as Hrows.
  rewrite broadcast_to_left_same_length by (eapply Forall2_length_eq; eauto).
  simpl; eapply mapM_id_zipWith; eauto.
  intros r s Hrs; now apply broadcast_to_left_same_length.
Qed.

Lemma zipWith2_shape {X Y Z : Type} (op : X -> Y -> Z) (k c : nat)
  (m : list (list X)) (n : list (list Y)) :
  matrix_shape k c m -> matrix_shape k c n ->
  matrix_shape k c (Np.zipWith (Np.zipWith op) m n).
Proof.
  intros [Hm Hrows] [Hn Hrows']; subst k.
  revert n Hn Hrows'; induction m as [|r m IH]; intros [|s n] Hn Hrows';
    simpl in Hn; try discriminate; split; simpl; auto.
  - inversion Hrows; inversion Hrows'; subst.
    destruct (IH H2 n) as [Hlen _]; auto.
  - inversion Hrows; inversion Hrows'; subst.
    constructor.
    + apply zipWith_length; congruence.
    + destruct (IH H2 n) as [_ Hall]; auto.
Qed.

Lemma map_rows_shape {X Y : Type} (g : list X -> list Y) (k c : nat)
  (m : list (list X)) :
  (forall r, length (g r) = length r) ->
  matrix_shape k c m -> matrix_shape k c (map g m).
Proof.
  intros Hg [Hm Hrows]; split.
  - now rewrite length_map.
  - apply Forall_map; eapply Forall_impl; [|exact Hrows].
    intros r Hr; simpl in Hr; now rewrite Hg.
Qed.

Lemma zipWith_rows_shape {X Y Z : Type} (g : list X -> Y -> list Z) (k c : nat)
  (m : list (list X)) (f : list Y) :
  (forall r y, length (g r y) = length r) ->
  matrix_shape k c m -> length f = k ->
  matrix_shape k c (Np.zipWith g m f).
Proof.
  intros Hg [Hm Hrows] Hf; subst k.
  revert f Hf; induction m as [|r m IH]; intros [|y f] Hf;
    simpl in Hf; try discriminate; split; simpl; auto.
  - inversion Hrows; subst. destruct (IH H2 f) as [Hlen _]; auto.
  - inversion Hrows; subst. constructor.
    + apply Hg.
    + destruct (IH H2 f) as [_ Hall]; auto.
Qed.

Lemma In_firstn {X : Type} (n : nat) (l : list X) (x : X) :
  In x (firstn n l) -> In x l.
Proof.
  intros Hx; rewrite <- (firstn_skipn n l); apply in_or_app; now left.
Qed.

Lemma In_skipn {X : Type} (n : nat) (l : list X) (x : X) :
  In x (skipn n l) -> In x l.
Proof.
  intros Hx; rewrite <- (firstn_skipn n l); apply in_or_app; now right.
Qed.

Lemma slice_shape {X : Type} (k c lo hi : nat) (m : list (list X)) :
  matrix_shape k c m -> lo <= hi -> hi <= k ->
  matrix_shape (hi - lo) c (slice m lo hi).
Proof.
  intros [Hm Hrows] Hlo Hhi; unfold slice; split.
  - rewrite length_firstn, length_skipn; lia.
  - apply Forall_forall; intros r Hr.
    apply In_firstn, In_skipn in Hr.
    revert r Hr; now apply Forall_forall.
Qed.

Lemma getitem_row {A : Type} `{Float A} (k c ebin : nat) (m : list (list A)) :
  matrix_shape k c m -> ebin < k ->
  getitem m ebin = ok (row m ebin) /\ length (row m ebin) = c.
Proof.
  intros [Hm Hrows] He; unfold getitem, row.
  assert (Hlt : ebin < length m) by lia.
  rewrite (nth_error_nth' m [] Hlt); split; auto.
  revert Hrows; rewrite Forall_forall; intros Hrows.
  apply Hrows, nth_In; exact Hlt.
Qed.

Lemma getitem_out_of_range {X : Type} (m : list X) (i : nat) :
  length m <= i -> getitem m i = raise IndexError.
Proof.
  intros Hi; unfold getitem.
  now replace (nth_error m i) with (@None X)
    by (symmetry; apply nth_error_None; exact Hi).
Qed.

End Broadcasting.

(** ** The engine on arrays of one shape *)

Ltac py_step := cbn [Py.bind Py.ok Py.raise Py.attr Py.subscriptable].

Ltac real_ops :=
  unfold fsq in *; cbn [fromZ fadd fsub fmul fdiv fneg R_Float] in *.

Section EngineOnShapedArrays.

Import Py Spec.

Context {A : Type} `{Float A}.

Lemma times_length (a : list A) (c : A) : length (Np.times a c) = length a.
Proof. apply length_map. Qed.

Lemma square_length (a : list A) : length (Np.square a) = length a.
Proof. apply length_map. Qed.

Lemma negate_length (a : list A) : length (Np.negate a) = length a.
Proof. apply length_map. Qed.

Lemma over_length (a : list A) (c : A) : length (Np.over a c) = length a.
Proof. apply length_map. Qed.

Lemma mixture_length (f : A) (model atm : list A) :
  length model = length atm -> length (mixture f model atm) = length model.
Proof.
  intros Hlen; unfold mixture.
  rewrite zipWith_length; rewrite !times_length; auto.
Qed.

Lemma row_square (std : list (list A)) (ebin : nat) :
  row (map Np.square std) ebin = Np.square (row std ebin).
Proof.
  unfold row; change (@nil A) with (Np.square (@nil A)) at 1.
  apply map_nth.
Qed.

Lemma square_shape (k c : nat) (m : list (list A)) :
  matrix_shape k c m -> matrix_shape k c (map Np.square m).
Proof. apply map_rows_shape, square_length. Qed.

(** [log_likelihood_Ebin] on an engine that holds data returns the sum of
    the array [lnL_le] from [lmin] on. *)
Lemma log_likelihood_Ebin_ready (nebin ncl : nat) (self : Likelihood.state A)
  (atm data std : list (list A)) (f : A) (ebin : nat) :
  Ready nebin ncl self atm data std -> ebin < nebin ->
  Likelihood.log_likelihood_Ebin self f ebin
  = ok (Np.sum (skipn (Likelihood.lmin self)
                  (lnL_row f (row (Likelihood.w_model_f1 self) ebin) (row atm ebin)
                     (row data ebin) (Np.square (row std ebin))))).
Proof.
  intros Hready Hebin; unfold Likelihood.log_likelihood_Ebin.
  destruct (getitem_row (model_shape Hready) Hebin) as [-> Hmodel].
  rewrite (has_atm Hready); py_step.
  destruct (getitem_row (atm_shape Hready) Hebin) as [-> Hatm].
  unfold Np.inplace; py_step.
  rewrite broadcast_to_left_same_length
    by (rewrite !times_length; congruence).
  rewrite (has_std_square Hready); py_step.
  destruct (getitem_row (square_shape (std_shape Hready)) Hebin) as [-> Hvar].
  rewrite (has_data Hready); py_step.
  destruct (getitem_row (data_shape Hready) Hebin) as [-> Hdata].
  py_step.
  fold (mixture f (row (Likelihood.w_model_f1 self) ebin) (row atm ebin)).
  rewrite broadcast_same_length
    by (rewrite mixture_length; congruence).
  py_step.
  rewrite broadcast_same_length.
  - py_step; now rewrite row_square.
  - rewrite negate_length, square_length, zipWith_length;
      rewrite ?mixture_length; congruence.
Qed.

(** The array [chisquare] of [chi_square_Ebin] for rows of one length. *)
Lemma chi_square_Ebin_ready (nebin ncl : nat) (self : Likelihood.state A)
  (atm data std : list (list A)) (f : A) (ebin : nat) :
  Ready nebin ncl self atm data std -> ebin < nebin ->
  Likelihood.chi_square_Ebin self f ebin
  = ok (Np.sum (skipn (Likelihood.lmin self)
                  (Np.zipWith fdiv
                     (Np.square
                        (Np.zipWith fsub (row data ebin)
                           (mixture f (row (Likelihood.w_model_f1 self) ebin)
                              (row atm ebin))))
                     (Np.square (row std ebin))))).
Proof.
  intros Hready Hebin; unfold Likelihood.chi_square_Ebin.
  destruct (getitem_row (model_shape Hready) Hebin) as [-> Hmodel].
  rewrite (has_atm Hready); py_step.
  destruct (getitem_row (atm_shape Hready) Hebin) as [-> Hatm].
  unfold Np.inplace; py_step.
  rewrite broadcast_to_left_same_length
    by (rewrite !times_length; congruence).
  rewrite (has_std_square Hready); py_step.
  destruct (getitem_row (square_shape (std_shape Hready)) Hebin) as [-> Hvar].
  rewrite (has_data Hready); py_step.
  destruct (getitem_row (data_shape Hready) Hebin) as [-> Hdata].
  py_step.
  fold (mixture f (row (Likelihood.w_model_f1 self) ebin) (row atm ebin)).
  rewrite broadcast_same_length
    by (rewrite mixture_length; congruence).
  py_step.
  rewrite broadcast_same_length.
  - py_step; now rewrite row_square.
  - rewrite square_length, zipWith_length;
      rewrite ?mixture_length; congruence.
Qed.

Lemma lnL_rows_zipWith (f : list A) (model atm data var : list (list A)) :
  map (fun r => Np.over r (fromZ 2))
    (Np.zipWith (Np.zipWith fdiv)
       (map (fun r => Np.negate (Np.square r))
          (Np.zipWith (Np.zipWith fsub) data
             (Np.zipWith (Np.zipWith fadd)
                (Np.zipWith (fun r fi => Np.times r fi) model f)
                (Np.zipWith (fun r fi => Np.times r (fromZ 1 - fi)%fl) atm f))))
       var)
  = lnL_rows f model atm data var.
Proof.
  revert model atm data var; induction f as [|fi f IH];
    intros [|m model] [|a atm] [|d data] [|v var]; simpl; auto.
  now rewrite IH.
Qed.

(** [log_likelihood] on an engine that holds data returns the sum of the
    array [lnL_le], every row taken from [lmin] on. *)
Lemma log_likelihood_ready (nebin ncl : nat) (self : Likelihood.state A)
  (atm data std : list (list A)) (f : list A) :
  Ready nebin ncl self atm data std ->
  length f = Likelihood.Ebinmax self - Likelihood.Ebinmin self ->
  Likelihood.log_likelihood self f
  = ok (Np.sum2
          (map (skipn (Likelihood.lmin self))
             (lnL_rows f
                (slice (Likelihood.w_model_f1 self) (Likelihood.Ebinmin self)
                   (Likelihood.Ebinmax self))
                (slice atm (Likelihood.Ebinmin self) (Likelihood.Ebinmax self))
                (slice data (Likelihood.Ebinmin self) (Likelihood.Ebinmax self))
                (map Np.square
                   (slice std (Likelihood.Ebinmin self) (Likelihood.Ebinmax self)))))).
Proof.
  intros Hready Hf; unfold Likelihood.log_likelihood.
  destruct (bins_in_range Hready) as [Hlo Hhi].
  set (lo := Likelihood.Ebinmin self) in *.
  set (hi := Likelihood.Ebinmax self) in *.
  pose proof (slice_shape (model_shape Hready) Hlo Hhi) as Hmodel.
  pose proof (slice_shape (atm_shape Hready) Hlo Hhi) as Hatm.
  pose proof (slice_shape (data_shape Hready) Hlo Hhi) as Hdata.
  pose proof (slice_shape (std_shape Hready) Hlo Hhi) as Hstd.
  cbv zeta.
  rewrite broadcast_same_length by (rewrite Hf; apply Hmodel).
  rewrite (has_atm Hready); py_step.
  rewrite broadcast_same_length by (rewrite Hf; apply Hatm).
  py_step.
  assert (Hpart1 :
    matrix_shape (hi - lo) ncl
      (Np.zipWith (fun r fi => Np.times r fi) (slice (Likelihood.w_model_f1 self) lo hi) f))
    by (apply zipWith_rows_shape; auto; intros; apply times_length).
  assert (Hpart2 :
    matrix_shape (hi - lo) ncl
      (Np.zipWith (fun r fi => Np.times r (fromZ 1 - fi)%fl) (slice atm lo hi) f))
    by (apply zipWith_rows_shape; auto; intros; apply times_length).
  rewrite (inplace2_shaped _ Hpart1 Hpart2); py_step.
  rewrite (has_std Hready); py_step.
  rewrite (has_data Hready); py_step.
  pose proof (zipWith2_shape fadd Hpart1 Hpart2) as Hmean.
  rewrite (broadcast2_shaped _ Hdata Hmean); py_step.
  pose proof (zipWith2_shape fsub Hdata Hmean) as Hdiff.
  rewrite (@broadcast2_shaped _ _ _ fdiv (hi - lo) ncl).
  - py_step; now rewrite lnL_rows_zipWith.
  - apply map_rows_shape; auto.
    intros r; now rewrite negate_length, square_length.
  - now apply square_shape.
Qed.

End EngineOnShapedArrays.

(** The example engine holds data. *)
Section ExampleEngine.

Import Spec.
Local Open Scope R_scope.

Lemma engine_ready :
  Ready 2 3 Examples.engine [[0; 0; 0]; [0; 0; 0]] [[1; 2; 3]; [5; 5; 5]]
    Examples.engine_std.
Proof.
  constructor; try reflexivity;
    try (split; [reflexivity | repeat constructor]).
  simpl; lia.
Defined.

End ExampleEngine.

(** ** Sums of reals *)

Section RealSums.

Import Py Spec.
Local Open Scope R_scope.

Lemma fold_left_Rplus (a : list R) (acc : R) :
  fold_left Rplus a acc = acc + Rsum a.
Proof.
  revert acc; induction a as [|x a IH]; intros acc; simpl.
  - ring.
  - rewrite IH; ring.
Qed.

Lemma sum_Rsum (a : list R) : Np.sum a = Rsum a.
Proof.
  unfold Np.sum; simpl; rewrite fold_left_Rplus; ring.
Qed.

Lemma Rsum_app (a b : list R) : Rsum (a ++ b) = Rsum a + Rsum b.
Proof.
  induction a as [|x a IH]; simpl; [ring | rewrite IH; ring].
Qed.

Lemma sum2_Rsum (m : list (list R)) : Np.sum2 m = Rsum (map Np.sum m).
Proof.
  unfold Np.sum2; rewrite sum_Rsum.
  induction m as [|r m IH]; simpl; auto.
  now rewrite Rsum_app, IH, sum_Rsum.
Qed.

Lemma Rsum_map_ext {X : Type} (g h : X -> R) (l : list X) :
  (forall x, In x l -> g x = h x) -> Rsum (map g l) = Rsum (map h l).
Proof.
  induction l as [|x l IH]; intros Hgh; simpl; auto.
  rewrite (Hgh x) by (now left).
  rewrite IH; auto; intros y Hy; apply Hgh; now right.
Qed.

Lemma Rsum_map_scal {X : Type} (c : R) (g : X -> R) (l : list X) :
  Rsum (map (fun x => c * g x) l) = c * Rsum (map g l).
Proof.
  induction l as [|x l IH]; simpl; [ring | rewrite IH; ring].
Qed.

Lemma Rsum_nonneg (a : list R) : Forall (fun x => 0 <= x) a -> 0 <= Rsum a.
Proof.
  induction 1 as [|x a Hx _ IH]; simpl; lra.
Qed.

End RealSums.

(** ** The chi-square of an energy bin *)

Section ChiSquare.

Import Py Spec.
Local Open Scope R_scope.
Local Open Scope py_scope.

Lemma zipWith_div_negate (xs var : list R) :
  Np.zipWith Rdiv (Np.negate xs) var = Np.negate (Np.zipWith Rdiv xs var).
Proof.
  revert var; induction xs as [|x xs IH]; intros [|v var]; simpl; auto.
  rewrite IH; f_equal; unfold Rdiv; ring.
Qed.

Lemma map_div_negate_l (x : R) (var : list R) :
  map (Rdiv (- x)) var = Np.negate (map (Rdiv x) var).
Proof.
  unfold Np.negate; rewrite map_map; apply map_ext.
  intros v; simpl; unfold Rdiv; ring.
Qed.

Lemma map_div_negate_r (xs : list R) (v : R) :
  map (fun x => x / v) (Np.negate xs) = Np.negate (map (fun x => x / v) xs).
Proof.
  unfold Np.negate; rewrite !map_map; apply map_ext.
  intros x; simpl; unfold Rdiv; ring.
Qed.

Lemma broadcast_div_negate (xs var : list R) :
  Np.broadcast Rdiv (Np.negate xs) var
  = (quot <- Np.broadcast Rdiv xs var ;; ok (Np.negate quot)).
Proof.
  destruct xs as [|x [|x' xs]].
  - destruct var as [|v [|v' var]]; reflexivity.
  - change (Np.negate [x]) with [- x]; unfold Np.broadcast; py_step.
    now rewrite map_div_negate_l.
  - destruct var as [|v [|v' var]].
    + reflexivity.
    + unfold Np.broadcast.
      change (Np.negate (x :: x' :: xs)) with (- x :: - x' :: Np.negate xs).
      py_step; f_equal.
      apply (map_div_negate_r (x :: x' :: xs) v).
    + unfold Np.broadcast.
      change (Np.negate (x :: x' :: xs)) with (- x :: - x' :: Np.negate xs).
      replace (length (- x :: - x' :: Np.negate xs)) with (length (x :: x' :: xs))
        by (simpl; now rewrite negate_length).
      destruct (length (x :: x' :: xs) =? length (v :: v' :: var)); py_step; auto.
      f_equal; apply (zipWith_div_negate (x :: x' :: xs) (v :: v' :: var)).
Qed.

Lemma half_of_negated_sum (quot : list R) (lmin : nat) :
  Np.sum (skipn lmin quot)
  = -2 * Np.sum (skipn lmin (Np.over (Np.negate quot) 2)).
Proof.
  rewrite !sum_Rsum; unfold Np.over, Np.negate.
  rewrite map_map, skipn_map.
  induction (skipn lmin quot) as [|x a IH]; simpl; [ring|].
  real_ops; rewrite IH; field.
Qed.

(** C7: the chi-square of an energy bin is minus twice its log-likelihood,
    in [Likelihood] and in [BeamLikelihood], errors included. *)
Theorem chi_square_Ebin_is_minus_two_log_likelihood :
  (forall (self : Likelihood.state R) (f : R) (energyBin : nat),
      Likelihood.chi_square_Ebin self f energyBin
      = (lnL <- Likelihood.log_likelihood_Ebin self f energyBin ;;
         ok (-2 * lnL)))
  /\ (forall (mvn : MultivariateNormal R) (self : BeamLikelihood.state R)
        (f : R) (energyBin : nat),
         BeamLikelihood.chi_square_Ebin self f energyBin
         = (lnL <- BeamLikelihood.log_likelihood_Ebin self f energyBin ;;
            ok (-2 * lnL))).
Proof.
  split; [|reflexivity].
  intros self f energyBin.
  unfold Likelihood.chi_square_Ebin, Likelihood.log_likelihood_Ebin.
  destruct (getitem (Likelihood.w_model_f1 self) energyBin) as [e|model];
    [reflexivity|]; py_step.
  destruct (Likelihood.w_atm_mean self) as [atm|]; [|reflexivity]; py_step.
  destruct (getitem atm energyBin) as [e|atm_row]; [reflexivity|]; py_step.
  destruct (Np.inplace _ _ _) as [e|w_model_mean]; [reflexivity|]; py_step.
  destruct (Likelihood.w_std_square self) as [std_square|]; [|reflexivity]; py_step.
  destruct (getitem std_square energyBin) as [e|var]; [reflexivity|]; py_step.
  destruct (Likelihood.w_data self) as [data|]; [|reflexivity]; py_step.
  destruct (getitem data energyBin) as [e|data_row]; [reflexivity|]; py_step.
  destruct (Np.broadcast _ data_row w_model_mean) as [e|diff]; [reflexivity|]; py_step.
  change (@fdiv R R_Float) with Rdiv.
  rewrite broadcast_div_negate.
  destruct (Np.broadcast Rdiv (Np.square diff) var) as [e|quot]; [reflexivity|]; py_step.
  f_equal; apply half_of_negated_sum.
Qed.

End ChiSquare.

(** ** The total log-likelihood *)

Section TotalLogLikelihood.

Import Py Spec.
Local Open Scope R_scope.
Local Open Scope py_scope.

Lemma mapM_ok_map {X Y : Type} (k : X -> result Y) (g : X -> Y) (l : list X) :
  (forall x, In x l -> k x = ok (g x)) -> mapM k l = ok (map g l).
Proof.
  induction l as [|x l IH]; intros Hk; simpl; auto.
  rewrite (Hk x) by (now left); py_step.
  rewrite IH; auto; intros y Hy; apply Hk; now right.
Qed.

Lemma skipn_cons_nth {X : Type} (m : list X) (lo : nat) (d : X) :
  (lo < length m)%nat -> skipn lo m = nth lo m d :: skipn (S lo) m.
Proof.
  revert lo; induction m as [|x m IH]; intros [|lo] Hlo; simpl in *;
    try lia; auto.
  apply IH; lia.
Qed.

Lemma firstn_skipn_seq {X : Type} (m : list X) (lo n : nat) (d : X) :
  (lo + n <= length m)%nat ->
  firstn n (skipn lo m) = map (fun e => nth e m d) (seq lo n).
Proof.
  revert lo; induction n as [|n IH]; intros lo Hlen; simpl; auto.
  rewrite (skipn_cons_nth m d) by lia; cbn [firstn].
  f_equal; apply IH; lia.
Qed.

Lemma slice_rows {A : Type} `{Float A} (k c lo hi : nat) (m : list (list A)) :
  matrix_shape k c m -> (lo <= hi)%nat -> (hi <= k)%nat ->
  slice m lo hi = map (row m) (range lo hi).
Proof.
  intros [Hm _] Hlo Hhi; unfold slice, range, row.
  apply firstn_skipn_seq; lia.
Qed.

Lemma lnL_rows_of_bins {A : Type} `{Float A} (f : list A) (ebins : list nat)
  (model atm data std : list (list A)) :
  lnL_rows f (map (row model) ebins) (map (row atm) ebins) (map (row data) ebins)
    (map Np.square (map (row std) ebins))
  = map (fun fe =>
           lnL_row (fst fe) (row model (snd fe)) (row atm (snd fe))
             (row data (snd fe)) (Np.square (row std (snd fe))))
      (combine f ebins).
Proof.
  revert ebins; induction f as [|fi f IH]; intros [|e ebins]; simpl; auto.
  now rewrite IH.
Qed.

Lemma in_combine_range {X : Type} (f : list X) (lo hi : nat) (fe : X * nat) :
  In fe (combine f (range lo hi)) -> (lo <= snd fe < hi)%nat.
Proof.
  destruct fe as [fi e]; intros Hin.
  apply in_combine_r in Hin; unfold range in Hin.
  apply in_seq in Hin; simpl; lia.
Qed.

(** The per-bin terms of [BeamLikelihood.log_likelihood]. *)
Lemma beam_turn_is_Ebin (mvn : MultivariateNormal R) (self : BeamLikelihood.state R)
  (f : list R) (lmin : nat) (acc : R) (i ebin : nat) (fi : R) :
  BeamLikelihood.coarse_lmin self = ok lmin ->
  getitem f i = ok fi ->
  BeamLikelihood.log_likelihood_turn self f lmin acc i ebin
  = (term <- BeamLikelihood.log_likelihood_Ebin self fi ebin ;; ok (acc + term)).
Proof.
  intros Hlmin Hfi.
  unfold BeamLikelihood.log_likelihood_turn, BeamLikelihood.log_likelihood_Ebin.
  rewrite Hlmin, Hfi; py_step.
  destruct (BeamLikelihood.w_data self) as [data|]; [|reflexivity]; py_step.
  destruct (getitem data ebin) as [e|data_row]; [reflexivity|]; py_step.
  destruct (getitem (BeamLikelihood.w_atm_mean self) ebin) as [e|atm_row];
    [reflexivity|]; py_step.
  destruct (Np.inplace _ _ _) as [e|w_model_mean]; [reflexivity|]; py_step.
  destruct (BeamLikelihood.w_cov self) as [cov|]; [|reflexivity]; py_step.
  destruct (getitem cov ebin) as [e|cov_bin]; [reflexivity|]; py_step.
  destruct (Np.broadcast2 _ _ _) as [e|w_cov]; [reflexivity|]; py_step.
  destruct (logpdf _ _ _) as [e|term]; reflexivity.
Qed.

Lemma beam_loop_is_sum (mvn : MultivariateNormal R) (self : BeamLikelihood.state R)
  (f : list R) (lmin : nat) (ebins : list nat) :
  BeamLikelihood.coarse_lmin self = ok lmin ->
  forall (acc : R) (i : nat),
    length (skipn i f) = length ebins ->
    BeamLikelihood.log_likelihood_loop self f lmin acc i ebins
    = (terms <- mapM (fun fe => BeamLikelihood.log_likelihood_Ebin self (fst fe) (snd fe))
                 (combine (skipn i f) ebins) ;;
       ok (acc + Rsum terms)).
Proof.
  intros Hlmin; induction ebins as [|ebin ebins IH]; intros acc i Hlen.
  - destruct (skipn i f); simpl in *; try discriminate.
    f_equal; ring.
  - assert (Hi : (i < length f)%nat).
    { rewrite length_skipn in Hlen; simpl in Hlen; lia. }
    rewrite (skipn_cons_nth f 0 Hi) in *.
    simpl in Hlen; injection Hlen as Hlen.
    cbn [BeamLikelihood.log_likelihood_loop combine mapM fst snd].
    rewrite (@beam_turn_is_Ebin mvn self f lmin acc i ebin (nth i f 0) Hlmin)
      by (unfold getitem; now rewrite (nth_error_nth' f 0 Hi)).
    destruct (BeamLikelihood.log_likelihood_Ebin self (nth i f 0) ebin)
      as [e|term]; [reflexivity|]; py_step.
    rewrite (IH (acc + term) (S i) Hlen).
    destruct (mapM _ _) as [e|terms]; [reflexivity|]; py_step.
    f_equal; simpl; ring.
Qed.

(** C6: the log-likelihood of a fraction vector with one entry per
    configured energy bin is the sum, over the energy bins, of the
    log-likelihood of the bin at its entry; in [Likelihood] on an engine that
    holds data, in [BeamLikelihood] for a positive bin width. *)
Theorem log_likelihood_is_sum_over_bins :
  (forall (nebin ncl : nat) (self : Likelihood.state R)
      (atm data std : list (list R)) (f : list R),
      Ready nebin ncl self atm data std ->
      length f = (Likelihood.Ebinmax self - Likelihood.Ebinmin self)%nat ->
      Likelihood.log_likelihood self f
      = (terms <- mapM (fun fe => Likelihood.log_likelihood_Ebin self (fst fe) (snd fe))
                   (combine f (range (Likelihood.Ebinmin self) (Likelihood.Ebinmax self))) ;;
         ok (Rsum terms)))
  /\ (forall (mvn : MultivariateNormal R) (self : BeamLikelihood.state R) (f : list R),
         BeamLikelihood.lbin self <> 0%nat ->
         length f = (BeamLikelihood.Ebinmax self - BeamLikelihood.Ebinmin self)%nat ->
         BeamLikelihood.log_likelihood self f
         = (terms <- mapM (fun fe => BeamLikelihood.log_likelihood_Ebin self (fst fe) (snd fe))
                      (combine f (range (BeamLikelihood.Ebinmin self)
                                    (BeamLikelihood.Ebinmax self))) ;;
            ok (Rsum terms))).
Proof.
  split.
  - intros nebin ncl self atm data std f Hready Hf.
    destruct (bins_in_range Hready) as [Hlo Hhi].
    rewrite (log_likelihood_ready f Hready Hf).
    rewrite (mapM_ok_map _
               (fun fe => Np.sum (skipn (Likelihood.lmin self)
                  (lnL_row (fst fe) (row (Likelihood.w_model_f1 self) (snd fe))
                     (row atm (snd fe)) (row data (snd fe))
                     (Np.square (row std (snd fe))))))).
    + py_step; f_equal.
      rewrite (slice_rows (model_shape Hready)), (slice_rows (atm_shape Hready)),
        (slice_rows (data_shape Hready)), (slice_rows (std_shape Hready)); auto.
      rewrite lnL_rows_of_bins, sum2_Rsum, !map_map; reflexivity.
    + intros fe Hfe; apply in_combine_range in Hfe.
      apply (log_likelihood_Ebin_ready _ Hready); lia.
  - intros mvn self f Hlbin Hf.
    unfold BeamLikelihood.log_likelihood.
    assert (Hlmin : BeamLikelihood.coarse_lmin self
                    = ok (BeamLikelihood.lmin self / BeamLikelihood.lbin self)%nat).
    { unfold BeamLikelihood.coarse_lmin.
      destruct (Nat.eqb_spec (BeamLikelihood.lbin self) 0); [contradiction|reflexivity]. }
    rewrite Hlmin; py_step.
    rewrite (@beam_loop_is_sum mvn self f _ _ Hlmin).
    + simpl skipn.
      destruct (mapM _ _) as [e|terms]; [reflexivity|]; py_step.
      f_equal; simpl; ring.
    + simpl; unfold range; now rewrite length_seq.
Qed.

Lemma log_likelihood_is_sum_over_bins_witness :
  Likelihood.log_likelihood Examples.engine [1 / 2; 1 / 4]
  = (terms <- mapM (fun fe => Likelihood.log_likelihood_Ebin Examples.engine
                               (fst fe) (snd fe))
               (combine [1 / 2; 1 / 4] (range 0 2)) ;;
     ok (Rsum terms))
  /\ @BeamLikelihood.log_likelihood R _ Examples.closed_form_normal
       Examples.beam_engine [1 / 2; 1 / 4]
     = (terms <- mapM (fun fe => @BeamLikelihood.log_likelihood_Ebin R _
                                   Examples.closed_form_normal
                                   Examples.beam_engine (fst fe) (snd fe))
                  (combine [1 / 2; 1 / 4] (range 0 2)) ;;
        ok (Rsum terms)).
Proof.
  split.
  - apply (proj1 log_likelihood_is_sum_over_bins 2%nat 3%nat Examples.engine
             [[0; 0; 0]; [0; 0; 0]] [[1; 2; 3]; [5; 5; 5]] Examples.engine_std
             [1 / 2; 1 / 4] engine_ready).
    reflexivity.
  - apply (proj2 log_likelihood_is_sum_over_bins Examples.closed_form_normal
             Examples.beam_engine [1 / 2; 1 / 4]).
    + simpl; lia.
    + reflexivity.
Defined.

End TotalLogLikelihood.

(** ** The log-likelihood of an energy bin and the normal log-density *)

Section NormalLogDensity.

Import Py Spec.
Local Open Scope R_scope.
Local Open Scope py_scope.

Lemma zipWith_nil_r {X Y Z : Type} (op : X -> Y -> Z) (xs : list X) :
  Np.zipWith op xs [] = [].
Proof. destruct xs; reflexivity. Qed.

Lemma skipn_zipWith {X Y Z : Type} (op : X -> Y -> Z) (n : nat)
  (xs : list X) (ys : list Y) :
  skipn n (Np.zipWith op xs ys) = Np.zipWith op (skipn n xs) (skipn n ys).
Proof.
  revert xs ys; induction n as [|n IH]; intros [|x xs] [|y ys]; simpl; auto.
  now rewrite zipWith_nil_r.
Qed.

Lemma halved_negated_quadratic (sq var : list R) :
  Rsum (map (fun q => q / 2) (Np.zipWith Rdiv (map Ropp sq) var))
  = - Rsum (Np.zipWith Rdiv sq var) / 2.
Proof.
  revert var; induction sq as [|d sq IH]; intros [|v var]; simpl;
    try (unfold Rdiv; ring).
  rewrite IH; unfold Rdiv; ring.
Qed.

(** The value of [log_likelihood_Ebin]: minus half the quadratic form of the
    residuals over the variances. *)
Lemma lnL_row_quadratic (lmin : nat) (f : R) (model atm data var : list R) :
  Np.sum (skipn lmin (lnL_row f model atm data var))
  = - Rsum (Np.zipWith Rdiv
              (Np.square (Np.zipWith Rminus (skipn lmin data)
                            (skipn lmin (mixture f model atm))))
              (skipn lmin var)) / 2.
Proof.
  rewrite sum_Rsum; unfold lnL_row, Np.over, Np.negate, Np.square.
  rewrite skipn_map, skipn_zipWith, !skipn_map, skipn_zipWith.
  real_ops; apply halved_negated_quadratic.
Qed.

Lemma zipWith_unit_row (i t : nat) (r : list R) :
  Np.zipWith Rmult r
    (map (fun j => if (i =? j)%nat then 1 else 0) (seq t (length r)))
  = map (fun jc => if (i =? fst jc)%nat then snd jc else 0)
      (combine (seq t (length r)) r).
Proof.
  revert t; induction r as [|c r IH]; intros t; simpl; auto.
  rewrite IH; f_equal.
  destruct (i =? t)%nat; ring.
Qed.

Lemma zipWith_identity_rows (n s : nat) (m : list (list R)) :
  Forall (fun r => length r = n) m ->
  Np.zipWith (Np.zipWith Rmult) m
    (map (fun i => map (fun j => if (i =? j)%nat then 1 else 0) (seq 0 n))
       (seq s (length m)))
  = map (fun ir =>
           map (fun jc => if (fst ir =? fst jc)%nat then snd jc else 0)
             (combine (seq 0 (length (snd ir))) (snd ir)))
      (combine (seq s (length m)) m).
Proof.
  intros Hrows; revert s; induction Hrows as [|r m Hr _ IH]; intros s; simpl; auto.
  rewrite IH; f_equal.
  rewrite <- Hr; apply zipWith_unit_row.
Qed.

(** The covariance [BeamLikelihood] passes to scipy: the block of the bin
    from [lmin] on, times the identity, is that block with its off-diagonal
    entries set to zero. *)
Lemma times_identity (n : nat) (m : list (list R)) :
  matrix_shape n n m ->
  Np.zipWith (Np.zipWith Rmult) m (BeamLikelihood.identity n) = diagonal_only m.
Proof.
  intros [Hn Hrows]; unfold BeamLikelihood.identity, diagonal_only; subst n.
  change (@fromZ R R_Float 1) with 1; change (@fromZ R R_Float 0) with 0.
  now apply zipWith_identity_rows.
Qed.

Lemma identity_shape {A : Type} `{Float A} (n : nat) :
  matrix_shape n n (BeamLikelihood.identity (A := A) n).
Proof.
  unfold BeamLikelihood.identity; split.
  - now rewrite length_map, length_seq.
  - apply Forall_map, Forall_forall; intros i _.
    now rewrite length_map, length_seq.
Qed.

Lemma lower_block_shape {A : Type} `{Float A} (n lo : nat) (m : list (list A)) :
  matrix_shape n n m ->
  matrix_shape (n - lo) (n - lo) (BeamLikelihood.lower_block m lo).
Proof.
  intros [Hn Hrows]; unfold BeamLikelihood.lower_block; split.
  - rewrite length_map, length_skipn; lia.
  - apply Forall_map, Forall_forall; intros r Hr.
    apply In_skipn in Hr; rewrite length_skipn.
    revert r Hr; rewrite <- Forall_forall.
    eapply Forall_impl; [|exact Hrows]; intros r Hr; simpl in Hr; lia.
Qed.

(** [BeamLikelihood.log_likelihood_Ebin] on an engine that holds data is the
    log-density scipy computes for the covariance of the bin with its
    off-diagonal entries set to zero. *)
Lemma beam_log_likelihood_Ebin_ready (mvn : MultivariateNormal R)
  (nebin ncl : nat) (self : BeamLikelihood.state R)
  (data : list (list R)) (cov : list (list (list R))) (f : R) (energyBin : nat) :
  BeamReady nebin ncl self data cov -> (energyBin < nebin)%nat ->
  let lmin := (BeamLikelihood.lmin self / BeamLikelihood.lbin self)%nat in
  BeamLikelihood.log_likelihood_Ebin self f energyBin
  = logpdf (skipn lmin (row data energyBin))
      (mixture f (skipn lmin (BeamLikelihood.w_model_f1 self))
         (skipn lmin (row (BeamLikelihood.w_atm_mean self) energyBin)))
      (diagonal_only (BeamLikelihood.lower_block (nth energyBin cov []) lmin)).
Proof.
  intros Hready Hebin lmin; unfold BeamLikelihood.log_likelihood_Ebin.
  unfold BeamLikelihood.coarse_lmin.
  destruct (Nat.eqb_spec (BeamLikelihood.lbin self) 0) as [Hzero|_];
    [destruct (beam_lbin Hready Hzero)|]; py_step; fold lmin.
  rewrite (beam_data Hready); py_step.
  destruct (getitem_row (beam_data_shape Hready) Hebin) as [-> Hdata]; py_step.
  destruct (getitem_row (beam_atm_shape Hready) Hebin) as [-> Hatm]; py_step.
  unfold Np.inplace.
  rewrite broadcast_to_left_same_length
    by (rewrite !times_length, !length_skipn, Hatm; now rewrite (beam_model_length Hready)).
  py_step; rewrite (beam_cov Hready); py_step.
  assert (Hcov : (energyBin < length cov)%nat) by (now rewrite (beam_cov_length Hready)).
  unfold getitem at 1; rewrite (nth_error_nth' cov [] Hcov); py_step.
  assert (Hblock : matrix_shape ncl ncl (nth energyBin cov [])).
  { pose proof (beam_cov_shape Hready) as Hall.
    rewrite Forall_forall in Hall; apply Hall, nth_In, Hcov. }
  rewrite length_skipn, Hdata.
  rewrite (broadcast2_shaped _ (lower_block_shape lmin Hblock)
             (identity_shape (ncl - lmin))); py_step.
  change (@fmul R R_Float) with Rmult.
  rewrite (times_identity (lower_block_shape lmin Hblock)).
  fold (mixture f (skipn lmin (BeamLikelihood.w_model_f1 self))
          (skipn lmin (row (BeamLikelihood.w_atm_mean self) energyBin))).
  destruct (logpdf _ _ _); reflexivity.
Qed.

(** C1, as the code has it: on an engine that holds data with non-zero
    standard deviations, [Likelihood.log_likelihood_Ebin] is the normal
    log-density at the observed spectrum from [lmin] on, of mean
    [f * signal + (1 - f) * background] and of diagonal covariance the squared
    standard deviations, without the normalization term of the density;
    [BeamLikelihood.log_likelihood_Ebin] is the log-density scipy computes
    at the observed spectrum from the coarse bin [lmin / lbin] on, for that
    mean and for the covariance of the bin with its off-diagonal entries set
    to zero. *)
Theorem log_likelihood_Ebin_is_unnormalized_logpdf :
  (forall (nebin ncl : nat) (self : Likelihood.state R)
      (atm data std : list (list R)) (f : R) (energyBin : nat),
      Ready nebin ncl self atm data std ->
      (energyBin < nebin)%nat ->
      Forall (fun sg => sg <> 0) (skipn (Likelihood.lmin self) (row std energyBin)) ->
      let x := skipn (Likelihood.lmin self) (row data energyBin) in
      let mean :=
        skipn (Likelihood.lmin self)
          (mixture f (row (Likelihood.w_model_f1 self) energyBin)
             (row atm energyBin)) in
      let var := skipn (Likelihood.lmin self) (Np.square (row std energyBin)) in
      exists lnL,
        Likelihood.log_likelihood_Ebin self f energyBin = ok lnL
        /\ lnL = normal_logpdf x mean var - normal_log_normalization (length x) var
        /\ Forall (fun v => 0 < v) var)
  /\ (forall (mvn : MultivariateNormal R) (nebin ncl : nat)
        (self : BeamLikelihood.state R) (data : list (list R))
        (cov : list (list (list R))) (f : R) (energyBin : nat),
         BeamReady nebin ncl self data cov ->
         (energyBin < nebin)%nat ->
         let lmin := (BeamLikelihood.lmin self / BeamLikelihood.lbin self)%nat in
         BeamLikelihood.log_likelihood_Ebin self f energyBin
         = logpdf (skipn lmin (row data energyBin))
             (mixture f (skipn lmin (BeamLikelihood.w_model_f1 self))
                (skipn lmin (row (BeamLikelihood.w_atm_mean self) energyBin)))
             (diagonal_only
                (BeamLikelihood.lower_block (nth energyBin cov []) lmin))).
Proof.
  split.
  - intros nebin ncl self atm data std f energyBin Hready Hebin Hstd x mean var.
    eexists; split; [apply (log_likelihood_Ebin_ready f Hready Hebin)|].
    split.
    + rewrite lnL_row_quadratic; fold x mean var.
      unfold normal_logpdf, normal_log_normalization; field.
    + unfold var, Np.square; rewrite skipn_map; apply Forall_map.
      eapply Forall_impl; [|exact Hstd].
      intros sg Hsg; simpl in Hsg; real_ops; nra.
  - intros mvn nebin ncl self data cov f energyBin Hready Hebin.
    apply (beam_log_likelihood_Ebin_ready mvn f Hready Hebin).
Qed.

Lemma beam_engine_ready :
  BeamReady 2 2 Examples.beam_engine [[1; 2]; [5; 5]]
    [[[1; 0]; [0; 1]]; [[4; 1]; [1; 4]]].
Proof.
  constructor; try reflexivity;
    try (split; [reflexivity | repeat constructor]).
  - simpl; lia.
  - repeat constructor.
Defined.

Lemma log_likelihood_Ebin_is_unnormalized_logpdf_witness :
  (exists lnL,
      Likelihood.log_likelihood_Ebin Examples.engine (1 / 2) 1 = ok lnL
      /\ lnL = normal_logpdf [5; 5] (skipn 1 (mixture (1 / 2) [5; 5; 5] [0; 0; 0]))
                 (skipn 1 (Np.square [1; 2; 2]))
               - normal_log_normalization 2 (skipn 1 (Np.square [1; 2; 2]))
      /\ Forall (fun v => 0 < v) (skipn 1 (Np.square [1; 2; 2])))
  /\ @BeamLikelihood.log_likelihood_Ebin R _ Examples.closed_form_normal
       Examples.beam_engine (1 / 2) 1
     = @logpdf R Examples.closed_form_normal [5; 5] (mixture (1 / 2) [5; 5] [0; 0])
         (diagonal_only [[4; 1]; [1; 4]]).
Proof.
  split.
  - apply (proj1 log_likelihood_Ebin_is_unnormalized_logpdf 2%nat 3%nat
             Examples.engine [[0; 0; 0]; [0; 0; 0]] [[1; 2; 3]; [5; 5; 5]]
             Examples.engine_std (1 / 2) 1%nat engine_ready).
    + lia.
    + simpl; repeat constructor; lra.
  - apply (proj2 log_likelihood_Ebin_is_unnormalized_logpdf
             Examples.closed_form_normal 2%nat 2%nat Examples.beam_engine
             [[1; 2]; [5; 5]] [[[1; 0]; [0; 1]]; [[4; 1]; [1; 4]]] (1 / 2) 1%nat
             beam_engine_ready).
    lia.
Defined.

Lemma ln_2PI_positive : 0 < ln (2 * PI).
Proof.
  rewrite <- ln_1; apply ln_increasing; [lra|].
  pose proof PI2_1; lra.
Qed.

(** C1, as the claim words it: for one multipole of unit variance observed on
    its mean the code returns 0, the log-density is [- ln (2 pi) / 2]. *)
Lemma log_likelihood_Ebin_omits_normalization :
  Likelihood.log_likelihood_Ebin Examples.unit_engine 0 0 = ok 0
  /\ normal_logpdf [0] (mixture 0 [1] [0]) (Np.square [1]) = - ln (2 * PI) / 2
  /\ 0 <> normal_logpdf [0] (mixture 0 [1] [0]) (Np.square [1]).
Proof.
  assert (Hpdf : normal_logpdf [0] (mixture 0 [1] [0]) (Np.square [1])
                 = - ln (2 * PI) / 2).
  { unfold normal_logpdf, mixture; simpl; real_ops.
    replace (1 * 1 * 1) with 1 by ring; rewrite ln_1; field. }
  split; [|split; [exact Hpdf|]].
  - unfold Likelihood.log_likelihood_Ebin; simpl.
    unfold Np.sum; simpl; real_ops; f_equal; field.
  - rewrite Hpdf; pose proof ln_2PI_positive; lra.
Qed.

End NormalLogDensity.

(** ** The closed-form optimiser *)

Section ClosedFormOptimizer.

Import Py Spec.
Local Open Scope R_scope.
Local Open Scope py_scope.

Lemma numerator_zip4 (n : nat) (model atm data std : list R) :
  length model = n -> length atm = n -> length data = n -> length std = n ->
  Np.zipWith Rdiv
    (Np.zipWith Rmult (Np.zipWith Rminus model atm) (Np.zipWith Rminus data atm))
    (Np.square std)
  = map num_term (zip4 model atm data std).
Proof.
  revert model atm data std; induction n as [|n IH];
    intros [|s model] [|b atm] [|d data] [|sg std] Hs Hb Hd Hsg;
    simpl in *; try discriminate; auto.
  rewrite IH by lia; reflexivity.
Qed.

Lemma denominator_zip4 (n : nat) (model atm data std : list R) :
  length model = n -> length atm = n -> length data = n -> length std = n ->
  Np.zipWith Rdiv (Np.square (Np.zipWith Rminus model atm)) (Np.square std)
  = map den_term (zip4 model atm data std).
Proof.
  revert model atm data std; induction n as [|n IH];
    intros [|s model] [|b atm] [|d data] [|sg std] Hs Hb Hd Hsg;
    simpl in *; try discriminate; auto.
  rewrite (IH model atm data std) by lia; reflexivity.
Qed.

Lemma residual_zip4 (n : nat) (f : R) (model atm data std : list R) :
  length model = n -> length atm = n -> length data = n -> length std = n ->
  Np.zipWith Rdiv (Np.square (Np.zipWith Rminus data (mixture f model atm)))
    (Np.square std)
  = map (residual_term f) (zip4 model atm data std).
Proof.
  revert model atm data std; induction n as [|n IH];
    intros [|s model] [|b atm] [|d data] [|sg std] Hs Hb Hd Hsg;
    simpl in *; try discriminate; auto.
  unfold mixture in *; simpl; rewrite IH by lia; reflexivity.
Qed.

(** The quadratic form of the residuals is a polynomial of degree two in the
    fraction. *)
Lemma residual_expansion (f : R) (ms : list (R * R * R * R)) :
  Rsum (map (residual_term f) ms)
  = Rsum (map data_term ms) - 2 * f * Rsum (map num_term ms)
    + f * f * Rsum (map den_term ms).
Proof.
  induction ms as [|[[[s b] d] sg] ms IH]; simpl; [ring|].
  rewrite IH; unfold Rdiv; ring.
Qed.

Lemma residual_completed_square (f : R) (ms : list (R * R * R * R)) :
  Rsum (map den_term ms) <> 0 ->
  let fhat := Rsum (map num_term ms) / Rsum (map den_term ms) in
  Rsum (map (residual_term f) ms)
  = Rsum (map (residual_term fhat) ms)
    + Rsum (map den_term ms) * ((f - fhat) * (f - fhat)).
Proof.
  intros Hden fhat; unfold fhat.
  rewrite !residual_expansion; field; exact Hden.
Qed.

Lemma square_positive (x : R) : x <> 0 -> 0 < x * x.
Proof. intros Hx; apply (Rsqr_pos_lt x Hx). Qed.

Lemma den_term_nonneg (m : R * R * R * R) : 0 <= den_term m.
Proof.
  destruct m as [[[s b] d] sg]; unfold den_term.
  destruct (Req_dec sg 0) as [-> | Hsg].
  - unfold Rdiv; rewrite Rmult_0_l, Rinv_0; nra.
  - unfold Rdiv; apply Rmult_le_pos; [apply (Rle_0_sqr (s - b))|].
    apply Rlt_le, Rinv_0_lt_compat, square_positive, Hsg.
Qed.

Lemma denominator_positive (ms : list (R * R * R * R)) :
  well_posed ms -> 0 < Rsum (map den_term ms).
Proof.
  intros [Hstd Hdiffer].
  induction Hdiffer as [[[[s b] d] sg] ms Hsb | m ms _ IH].
  - inversion Hstd as [|? ? Hsg Hrest]; subst; simpl.
    assert (0 <= Rsum (map den_term ms))
      by (apply Rsum_nonneg, Forall_map, Forall_forall; intros; apply den_term_nonneg).
    assert (0 < (s - b) * (s - b) / (sg * sg)).
    { unfold Rdiv; apply Rmult_lt_0_compat.
      - apply square_positive; lra.
      - apply Rinv_0_lt_compat, square_positive, Hsg. }
    lra.
  - inversion Hstd; subst; simpl.
    pose proof (den_term_nonneg m); specialize (IH ltac:(assumption)); lra.
Qed.

Lemma skipn_length_eq {X : Type} (n c : nat) (a : list X) (Hlen : length a = c) :
  length (skipn n a) = (c - n)%nat.
Proof. rewrite <- Hlen; apply length_skipn. Qed.

(** The fraction [minimize__lnL_analytic] computes for an energy bin is the
    closed form of the specification. *)
Lemma analytic_fraction_ready (nebin ncl : nat) (self : Likelihood.state R)
  (atm data std : list (list R)) (ebin : nat) :
  Ready nebin ncl self atm data std -> (ebin < nebin)%nat ->
  Likelihood.analytic_fraction self ebin
  = ok (f_hat (Likelihood.lmin self) (row (Likelihood.w_model_f1 self) ebin)
          (row atm ebin) (row data ebin) (row std ebin)).
Proof.
  intros Hready Hebin; unfold Likelihood.analytic_fraction.
  destruct (getitem_row (model_shape Hready) Hebin) as [-> Hmodel].
  rewrite (has_data Hready); py_step.
  destruct (getitem_row (data_shape Hready) Hebin) as [-> Hdata].
  rewrite (has_atm Hready); py_step.
  destruct (getitem_row (atm_shape Hready) Hebin) as [-> Hatm].
  rewrite (has_std Hready); py_step.
  destruct (getitem_row (std_shape Hready) Hebin) as [-> Hstd].
  py_step.
  set (lmin := Likelihood.lmin self).
  pose proof (@skipn_length_eq _ lmin _ _ Hmodel) as Hs.
  pose proof (@skipn_length_eq _ lmin _ _ Hatm) as Hb.
  pose proof (@skipn_length_eq _ lmin _ _ Hdata) as Hd.
  pose proof (@skipn_length_eq _ lmin _ _ Hstd) as Hsg.
  assert (Hdgg : length (Np.zipWith fsub
                          (skipn lmin (row (Likelihood.w_model_f1 self) ebin))
                          (skipn lmin (row atm ebin))) = (ncl - lmin)%nat)
    by (rewrite zipWith_length; congruence).
  assert (Hdgnu : length (Np.zipWith fsub (skipn lmin (row data ebin))
                           (skipn lmin (row atm ebin))) = (ncl - lmin)%nat)
    by (rewrite zipWith_length; congruence).
  rewrite broadcast_same_length by congruence; py_step.
  rewrite broadcast_same_length by congruence; py_step.
  rewrite broadcast_same_length by congruence; py_step.
  rewrite broadcast_same_length
    by (rewrite square_length, zipWith_length; congruence); py_step.
  rewrite broadcast_same_length
    by (rewrite !square_length; congruence); py_step.
  f_equal; unfold f_hat, multipoles; fold lmin.
  rewrite !sum_Rsum.
  change (@fsub R R_Float) with Rminus; change (@fmul R R_Float) with Rmult;
    change (@fdiv R R_Float) with Rdiv.
  rewrite (@numerator_zip4 _ _ _ _ _ Hs Hb Hd Hsg).
  rewrite (@denominator_zip4 _ _ _ _ _ Hs Hb Hd Hsg).
  reflexivity.
Qed.





End ClosedFormOptimizer.

(** ** Special values of the float arithmetic *)

Section FloatSpecials.

Import Py Spec.







Lemma square_zeros (n : nat) : Np.square (Np.zeros (A := xfloat) n) = Np.zeros n.
Proof.
  unfold Np.zeros, Np.square; induction n as [|n IH]; [reflexivity|].
  cbn [repeat map]; f_equal; exact IH.
Qed.


Lemma zeros_shape {A : Type} `{Float A} (rows cols : nat) :
  matrix_shape rows cols (Np.zeros2 (A := A) rows cols).
Proof.
  unfold Np.zeros2, Np.zeros; split.
  - apply repeat_length.
  - apply Forall_forall; intros r Hr.
    apply repeat_spec in Hr; subst; apply repeat_length.
Qed.

Lemma repeat_shape {X : Type} (rows cols : nat) (x : X) :
  matrix_shape rows cols (repeat (repeat x cols) rows).
Proof.
  split.
  - apply repeat_length.
  - apply Forall_forall; intros r Hr.
    apply repeat_spec in Hr; subst; apply repeat_length.
Qed.


Lemma lnL_row_length {A : Type} `{Float A} (c : nat) (f : A)
  (model atm data var : list A) :
  length model = c -> length atm = c -> length data = c -> length var = c ->
  length (lnL_row f model atm data var) = c.
Proof.
  intros Hs Hb Hd Hv; unfold lnL_row.
  rewrite over_length, zipWith_length;
    rewrite negate_length, square_length, zipWith_length;
    rewrite ?mixture_length; congruence.
Qed.

End FloatSpecials.

(** ** The variance [inputData] installs *)

Section InputData.

Import Py Spec.

Lemma row_repeat {A : Type} `{Float A} (rows : nat) (r : list A) (ebin : nat) :
  ebin < rows -> row (repeat r rows) ebin = r.
Proof.
  intros Hebin; unfold row.
  rewrite (nth_indep _ [] r) by (now rewrite repeat_length).
  apply nth_repeat.
Qed.

Lemma Forall_skipn {X : Type} (P : X -> Prop) (n : nat) (a : list X) :
  Forall P a -> Forall P (skipn n a).
Proof.
  intros Hall; apply Forall_forall; intros x Hx.
  apply In_skipn in Hx; revert x Hx; now apply Forall_forall.
Qed.

Lemma skipn_nonempty {X : Type} (n : nat) (a : list X) :
  n < length a -> skipn n a <> [].
Proof.
  intros Hn Hnil; apply (f_equal (@length X)) in Hnil.
  rewrite length_skipn in Hnil; simpl in Hnil; lia.
Qed.


Lemma lnL_rows_shape {A : Type} `{Float A} (k c : nat) (f : list A)
  (model atm data var : list (list A)) :
  length f = k ->
  matrix_shape k c model -> matrix_shape k c atm ->
  matrix_shape k c data -> matrix_shape k c var ->
  matrix_shape k c (lnL_rows f model atm data var).
Proof.
  revert f model atm data var; induction k as [|k IH];
    intros [|fi f] [|m model] [|a atm] [|d data] [|v var] Hf
      [Hm Hmr] [Ha Har] [Hd Hdr] [Hv Hvr];
    simpl in *; try discriminate; try (split; [reflexivity|constructor]).
  inversion Hmr; inversion Har; inversion Hdr; inversion Hvr; subst.
  destruct (IH f model atm data var) as [Hlen Hrows];
    try (split; auto; lia); try lia.
  split; simpl; [now rewrite Hlen|].
  constructor; [now apply lnL_row_length|exact Hrows].
Qed.


End InputData.

(** ** Division by the variance *)

Section DivisionByVariance.

Import Py Spec.







Lemma positive_finite (x : xfloat) : positive x -> finite x.
Proof. intros [q [-> _]]; reflexivity. Qed.









Lemma flat_shape (x : xfloat) :
  matrix_shape Defaults.NEbin Defaults.NCL (Examples.flat x).
Proof. apply repeat_shape. Qed.


Lemma first_bin : 0 < Defaults.NEbin.
Proof. unfold Defaults.NEbin, Defaults.NEEdges; simpl; lia. Qed.

Lemma stale_engine_ready :
  Ready Defaults.NEbin Defaults.NCL Examples.stale_engine
    (Examples.flat (Fin 0)) (Examples.flat (Fin 1))
    (Np.zeros2 Defaults.NEbin Defaults.NCL).
Proof.
  constructor; try reflexivity; try apply flat_shape; try apply zeros_shape.
  simpl; pose proof first_bin; lia.
Qed.

Lemma warm_engine_constructed :
  Constructed Defaults.NEbin Defaults.NCL Examples.warm_engine
    (Examples.flat (Fin 0)) (Examples.flat (Fin 2)).
Proof.
  constructor; try reflexivity; try apply flat_shape.
  simpl; pose proof first_bin; lia.
Qed.


End DivisionByVariance.

(** ** The flat prior and the posterior *)

Section Prior.

Import Py Spec.

Lemma ltb_Fin (a b : Q) : XFloat.ltb (Fin a) (Fin b) = true <-> (a < b)%Q.
Proof.
  unfold XFloat.ltb; rewrite Qlt_alt.
  destruct (a ?= b)%Q; split; intros; congruence.
Qed.

Lemma ltb_Fin_false (a b : Q) : XFloat.ltb (Fin a) (Fin b) = false <-> (b <= a)%Q.
Proof.
  rewrite <- Bool.not_true_iff_false, ltb_Fin; split.
  - apply Qnot_lt_le.
  - apply Qle_not_lt.
Qed.

Ltac compare_finite :=
  repeat match goal with
    | |- context [XFloat.ltb (Fin ?a) (Fin ?b)] =>
        let H := fresh "Hcmp" in
        destruct (XFloat.ltb (Fin a) (Fin b)) eqn:H;
        [apply ltb_Fin in H | apply ltb_Fin_false in H]
    end;
  try reflexivity; exfalso; lra.

(** [np.min(f) > c] holds when every coordinate is above [c]. *)
Lemma min2_above (c : Q) (x y : xfloat) :
  XFloat.gtb (NpX.min2 x y) (Fin c) = XFloat.gtb x (Fin c) && XFloat.gtb y (Fin c).
Proof.
  unfold XFloat.gtb, NpX.min2.
  destruct x as [a| | |], y as [b| | |]; cbn [XFloat.isnan];
    try reflexivity; try (cbn; now rewrite ?andb_true_r, ?andb_false_r).
  compare_finite.
Qed.

(** [np.max(f) < c] holds when every coordinate is below [c]. *)
Lemma max2_below (c : Q) (x y : xfloat) :
  XFloat.ltb (NpX.max2 x y) (Fin c) = XFloat.ltb x (Fin c) && XFloat.ltb y (Fin c).
Proof.
  unfold NpX.max2.
  destruct x as [a| | |], y as [b| | |]; cbn [XFloat.isnan];
    try reflexivity; try (cbn; now rewrite ?andb_true_r, ?andb_false_r).
  compare_finite.
Qed.

Lemma fold_min_above (c : Q) (a : list xfloat) (x : xfloat) :
  XFloat.gtb (fold_left NpX.min2 a x) (Fin c)
  = XFloat.gtb x (Fin c) && forallb (fun y => XFloat.gtb y (Fin c)) a.
Proof.
  revert x; induction a as [|y a IH]; intros x; cbn [fold_left forallb].
  - now rewrite andb_true_r.
  - now rewrite IH, min2_above, andb_assoc.
Qed.

Lemma fold_max_below (c : Q) (a : list xfloat) (x : xfloat) :
  XFloat.ltb (fold_left NpX.max2 a x) (Fin c)
  = XFloat.ltb x (Fin c) && forallb (fun y => XFloat.ltb y (Fin c)) a.
Proof.
  revert x; induction a as [|y a IH]; intros x; cbn [fold_left forallb].
  - now rewrite andb_true_r.
  - now rewrite IH, max2_below, andb_assoc.
Qed.

(** The test of [log_prior], coordinate by coordinate. *)
Lemma log_prior_unfold (f : list xfloat) :
  f <> [] ->
  Likelihood.log_prior f
  = if forallb (fun y => XFloat.gtb y (Fin (-4))) f
       && forallb (fun y => XFloat.ltb y (Fin 4)) f
    then ok (Fin 0) else ok NInf.
Proof.
  destruct f as [|x a]; [contradiction|]; intros _.
  unfold Likelihood.log_prior, NpX.min, NpX.max; py_step.
  rewrite fold_min_above; cbn [forallb].
  destruct (XFloat.gtb x (Fin (-4)) && forallb (fun y => XFloat.gtb y (Fin (-4))) a);
    [|reflexivity].
  py_step; rewrite fold_max_below.
  destruct (XFloat.ltb x (Fin 4) && forallb (fun y => XFloat.ltb y (Fin 4)) a);
    reflexivity.
Qed.

Lemma inside_box_test (x : xfloat) :
  XFloat.gtb x (Fin (-4)) && XFloat.ltb x (Fin 4) = true <-> strictly_inside_box x.
Proof.
  unfold XFloat.gtb; rewrite andb_true_iff; split.
  - intros [Hlow Hhigh]; destruct x as [q| | |]; try discriminate.
    exists q; split; [reflexivity|]; split; now apply ltb_Fin.
  - intros [q [-> [Hlow Hhigh]]]; split; now apply ltb_Fin.
Qed.

Lemma inside_box_all (f : list xfloat) :
  forallb (fun y => XFloat.gtb y (Fin (-4))) f
  && forallb (fun y => XFloat.ltb y (Fin 4)) f = true
  <-> Forall strictly_inside_box f.
Proof.
  induction f as [|x f IH]; cbn [forallb].
  - split; [constructor|reflexivity].
  - rewrite Forall_cons_iff, <- IH, <- inside_box_test, !andb_true_iff; tauto.
Qed.

(** C9: the prior of a non-empty parameter vector is the constant 0 when
    every coordinate lies strictly inside (-4, 4) and minus infinity
    otherwise; when it is minus infinity, [log_probability] returns minus
    infinity and evaluates [log_likelihood] zero times, while inside the box
    it evaluates it once; in [Likelihood] and in [BeamLikelihood]. *)
Theorem log_prior_flat_and_short_circuit (f : list xfloat) :
  f <> [] ->
  (Forall strictly_inside_box f -> Likelihood.log_prior f = ok (Fin 0))
  /\ (~ Forall strictly_inside_box f -> Likelihood.log_prior f = ok NInf)
  /\ BeamLikelihood.log_prior f = Likelihood.log_prior f
  /\ (Likelihood.log_prior f = ok NInf ->
      (forall self : Likelihood.state xfloat,
          Likelihood.log_probability self f = (ok NInf, 0))
      /\ (forall (mvn : MultivariateNormal xfloat) (self : BeamLikelihood.state xfloat),
             BeamLikelihood.log_probability self f = (ok NInf, 0)))
  /\ (Likelihood.log_prior f = ok (Fin 0) ->
      forall self : Likelihood.state xfloat,
        Likelihood.log_probability self f
        = ((lnL <- Likelihood.log_likelihood self f ;; ok (Fin 0 + lnL)%fl)%py, 1)).
Proof.
  intros Hne; unfold BeamLikelihood.log_prior at 1.
  rewrite (log_prior_unfold Hne).
  destruct (forallb (fun y => XFloat.gtb y (Fin (-4))) f
            && forallb (fun y => XFloat.ltb y (Fin 4)) f) eqn:Htest.
  - apply inside_box_all in Htest.
    split; [reflexivity|]; split; [contradiction|]; split; [reflexivity|].
    split; [discriminate|].
    intros _ self; unfold Likelihood.log_probability.
    rewrite (log_prior_unfold Hne).
    apply inside_box_all in Htest; rewrite Htest; reflexivity.
  - assert (Houtside : ~ Forall strictly_inside_box f).
    { intros Hall; apply inside_box_all in Hall; congruence. }
    split; [contradiction|]; split; [reflexivity|]; split; [reflexivity|].
    split; [|discriminate].
    intros _; split.
    + intros self; unfold Likelihood.log_probability.
      rewrite (log_prior_unfold Hne), Htest; reflexivity.
    + intros mvn self; unfold BeamLikelihood.log_probability, BeamLikelihood.log_prior.
      rewrite (log_prior_unfold Hne), Htest; reflexivity.
Qed.

Lemma log_prior_flat_and_short_circuit_witness :
  (Forall strictly_inside_box [Fin 1; Fin (-5)] ->
   Likelihood.log_prior [Fin 1; Fin (-5)] = ok (Fin 0))
  /\ (~ Forall strictly_inside_box [Fin 1; Fin (-5)] ->
      Likelihood.log_prior [Fin 1; Fin (-5)] = ok NInf)
  /\ BeamLikelihood.log_prior [Fin 1; Fin (-5)] = Likelihood.log_prior [Fin 1; Fin (-5)]
  /\ (Likelihood.log_prior [Fin 1; Fin (-5)] = ok NInf ->
      (forall self : Likelihood.state xfloat,
          Likelihood.log_probability self [Fin 1; Fin (-5)] = (ok NInf, 0))
      /\ (forall (mvn : MultivariateNormal xfloat) (self : BeamLikelihood.state xfloat),
             BeamLikelihood.log_probability self [Fin 1; Fin (-5)] = (ok NInf, 0)))
  /\ (Likelihood.log_prior [Fin 1; Fin (-5)] = ok (Fin 0) ->
      forall self : Likelihood.state xfloat,
        Likelihood.log_probability self [Fin 1; Fin (-5)]
        = ((lnL <- Likelihood.log_likelihood self [Fin 1; Fin (-5)] ;;
            ok (Fin 0 + lnL)%fl)%py, 1)).
Proof.
  apply (@log_prior_flat_and_short_circuit [Fin 1; Fin (-5)]).
  discriminate.
Defined.

End Prior.

(** ** The significance of a chi-square *)

Section Significance.

Import Py Spec.


Lemma exponential_stats_laws : distribution_laws Examples.exponential_stats.
Proof.
  constructor; simpl.
  - intros dof _; replace (- 0 / 2)%R with 0%R by field; apply exp_0.
  - intros chi dof _ _; apply exp_pos.
  - intros chi chi' dof _ _ Hlt; apply exp_increasing; lra.
  - lra.
  - intros p q _ Hlt _; lra.
Qed.


(** C4, as the code has it: when the survival probability underflows to 0,
    [significance] returns [norm.isf] of 0 as it is, the infinity of scipy,
    without a cap. *)
Theorem significance_saturates (st : Stats xfloat) (chi_square : xfloat) (dof : nat) :
  chi2_sf chi_square dof = Fin 0 ->
  Likelihood.significance chi_square dof = norm_isf (Fin 0)
  /\ (norm_isf (Fin 0) = PInf ->
      Likelihood.significance chi_square dof = PInf
      /\ nonfinite (Likelihood.significance chi_square dof)).
Proof.
  intros Hsf; unfold Likelihood.significance; rewrite Hsf.
  change (Fin 0 / fromZ 2)%fl with (Fin 0).
  split; [reflexivity|].
  intros ->; split; reflexivity.
Qed.

Lemma significance_saturates_witness :
  @Likelihood.significance xfloat _ Examples.saturated_stats (Fin 4000) 2
  = @norm_isf xfloat Examples.saturated_stats (Fin 0)
  /\ (@norm_isf xfloat Examples.saturated_stats (Fin 0) = PInf ->
      @Likelihood.significance xfloat _ Examples.saturated_stats (Fin 4000) 2 = PInf
      /\ nonfinite
           (@Likelihood.significance xfloat _ Examples.saturated_stats (Fin 4000) 2)).
Proof.
  apply (@significance_saturates Examples.saturated_stats (Fin 4000) 2).
  reflexivity.
Defined.

(** C4, as the claim words it: at a chi-square of 4000 with two degrees of
    freedom the survival probability underflows to 0 and the significance
    is plus infinity, not a finite value. *)
Lemma significance_is_infinite_at_saturation :
  @chi2_sf xfloat Examples.saturated_stats (Fin 4000) 2 = Fin 0
  /\ @Likelihood.significance xfloat _ Examples.saturated_stats (Fin 4000) 2 = PInf
  /\ XFloat.isfinite
       (@Likelihood.significance xfloat _ Examples.saturated_stats (Fin 4000) 2)
     = false.
Proof. repeat split. Qed.

End Significance.

(** ** The test statistic *)

Section TestStatistic.

Import Py Spec.

Lemma square_not_negative (q : Q) : XFloat.sgn (Qred (- Qred (q * q))) <> Lt.
Proof.
  unfold XFloat.sgn; rewrite <- Qlt_alt, Qred_correct, Qred_correct.
  intros Hpos; nra.
Qed.

Lemma negated_square_over_zero_sign (x : xfloat) :
  minus_inf_or_nan
    (XFloat.div (XFloat.div (XFloat.neg (XFloat.mul x x)) (Fin 0)) (Fin 2)).
Proof.
  destruct x as [q| | |]; try (now left); try (now right).
  unfold XFloat.mul, XFloat.neg, XFloat.div at 2.
  change (XFloat.sgn 0) with Eq.
  pose proof (square_not_negative q) as Hsign.
  destruct (XFloat.sgn (Qred (- Qred (q * q)))); [now right|contradiction|now left].
Qed.

Lemma lnL_row_zero_variance_sign (f : xfloat) (model atm data : list xfloat) (n : nat) :
  Forall minus_inf_or_nan (lnL_row f model atm data (Np.zeros n)).
Proof.
  unfold lnL_row, Np.over, Np.negate, Np.square, Np.zeros.
  generalize (Np.zipWith fsub data (mixture f model atm)); intros diff.
  revert n; induction diff as [|x diff IH]; intros [|n]; simpl; constructor.
  - apply negated_square_over_zero_sign.
  - apply IH.
Qed.

Lemma lnL_rows_zero_variance_sign (n : nat) (f : list xfloat)
  (model atm data var : list (list xfloat)) :
  Forall (fun v => v = Np.zeros n) var ->
  Forall (Forall minus_inf_or_nan) (lnL_rows f model atm data var).
Proof.
  revert model atm data var; induction f as [|fi f IH];
    intros [|m model] [|a atm] [|d data] [|v var] Hvar; simpl; constructor.
  - inversion Hvar; subst; apply lnL_row_zero_variance_sign.
  - inversion Hvar; subst; now apply IH.
Qed.

Lemma add_minus_inf_or_nan (x y : xfloat) :
  x = Fin 0 \/ minus_inf_or_nan x -> minus_inf_or_nan y ->
  minus_inf_or_nan (XFloat.add x y).
Proof.
  intros [-> | [-> | ->]] [-> | ->]; simpl; auto; try (now left); now right.
Qed.

Lemma fold_add_minus_inf_or_nan (a : list xfloat) (acc : xfloat) :
  minus_inf_or_nan acc -> Forall minus_inf_or_nan a ->
  minus_inf_or_nan (fold_left XFloat.add a acc).
Proof.
  intros Hacc Hall; revert acc Hacc; induction Hall as [|x a Hx _ IH];
    intros acc Hacc; cbn [fold_left]; auto.
  apply IH, add_minus_inf_or_nan; auto.
Qed.

Lemma sum_minus_inf_or_nan (a : list xfloat) :
  a <> [] -> Forall minus_inf_or_nan a -> minus_inf_or_nan (Np.sum a).
Proof.
  intros Hne Hall; destruct a as [|x a]; [contradiction|].
  inversion Hall; subst; unfold Np.sum; cbn [fold_left].
  change (@fadd xfloat X_Float) with XFloat.add.
  apply fold_add_minus_inf_or_nan; auto.
  apply add_minus_inf_or_nan; auto.
Qed.

(** The log-likelihood over a variance that is zero everywhere is minus
    infinity or [nan]. *)
Lemma log_likelihood_zero_variance (self : Likelihood.state xfloat)
  (atm data : list (list xfloat)) (fs : list xfloat) :
  Ready Defaults.NEbin Defaults.NCL self atm data
    (Np.zeros2 Defaults.NEbin Defaults.NCL) ->
  Likelihood.lmin self < Defaults.NCL ->
  Likelihood.Ebinmin self < Likelihood.Ebinmax self ->
  length fs = Likelihood.Ebinmax self - Likelihood.Ebinmin self ->
  exists lnL, Likelihood.log_likelihood self fs = ok lnL /\ minus_inf_or_nan lnL.
Proof.
  intros Hready Hlmin Hbins Hfs.
  destruct (bins_in_range Hready) as [Hlo Hhi].
  rewrite (log_likelihood_ready fs Hready Hfs).
  eexists; split; [reflexivity|].
  set (rows := lnL_rows fs _ _ _ _).
  assert (Hshape : matrix_shape (Likelihood.Ebinmax self - Likelihood.Ebinmin self)
                     Defaults.NCL rows).
  { apply lnL_rows_shape; auto.
    - apply (slice_shape (model_shape Hready) Hlo Hhi).
    - apply (slice_shape (atm_shape Hready) Hlo Hhi).
    - apply (slice_shape (data_shape Hready) Hlo Hhi).
    - apply square_shape, (slice_shape (std_shape Hready) Hlo Hhi). }
  assert (Hsign : Forall (Forall minus_inf_or_nan) rows).
  { apply (@lnL_rows_zero_variance_sign Defaults.NCL).
    apply Forall_map, Forall_forall; intros v Hv.
    unfold slice in Hv; apply In_firstn, In_skipn in Hv.
    unfold Np.zeros2 in Hv; apply repeat_spec in Hv; subst v.
    apply square_zeros. }
  destruct Hshape as [Hk Hrows]; unfold Np.sum2.
  destruct rows as [|r rows]; [simpl in Hk; lia|].
  inversion Hrows; inversion Hsign; subst.
  apply sum_minus_inf_or_nan.
  - simpl; intros Hnil; apply app_eq_nil in Hnil; destruct Hnil as [Hnil _].
    revert Hnil; apply skipn_nonempty; lia.
  - apply Forall_concat, Forall_map, Forall_forall; intros r' Hr'.
    apply Forall_skipn.
    assert (Hall : Forall (Forall minus_inf_or_nan) (r :: rows)) by (constructor; auto).
    revert r' Hr'; now apply Forall_forall.
Qed.

(** Whatever point the optimiser returns, the test statistic over a variance
    that is zero everywhere is [nan]. *)
Lemma test_statistic_zero_variance (num : Numerics xfloat)
  (self : Likelihood.state xfloat) (atm data : list (list xfloat))
  (soln : OptimizeResult xfloat) :
  Ready Defaults.NEbin Defaults.NCL self atm data
    (Np.zeros2 Defaults.NEbin Defaults.NCL) ->
  Likelihood.lmin self < Defaults.NCL ->
  Likelihood.Ebinmin self < Likelihood.Ebinmax self ->
  minimize (Likelihood.nll self)
    (Likelihood.initial (Likelihood.Ebinmax self - Likelihood.Ebinmin self))
    (Likelihood.bounds (Likelihood.Ebinmax self - Likelihood.Ebinmin self))
  = ok soln ->
  length (x soln) = Likelihood.Ebinmax self - Likelihood.Ebinmin self ->
  Likelihood.minimize__lnL self = ok (x soln, NaN).
Proof.
  intros Hready Hlmin Hbins Hsoln Hlen.
  unfold Likelihood.minimize__lnL.
  replace (Likelihood.Ebinmax self <? Likelihood.Ebinmin self) with false
    by (symmetry; apply Nat.ltb_ge; lia).
  cbv zeta; rewrite Hsoln; py_step.
  destruct (log_likelihood_zero_variance (x soln) Hready Hlmin Hbins Hlen)
    as [at_x [-> Hx]]; py_step.
  destruct (@log_likelihood_zero_variance self atm data
              (Np.zeros (Likelihood.Ebinmax self - Likelihood.Ebinmin self))
              Hready Hlmin Hbins (repeat_length _ _))
    as [at_zero [-> Hzero]]; py_step.
  destruct Hx as [-> | ->], Hzero as [-> | ->]; reflexivity.
Qed.

(** [BeamLikelihood.minimize__lnL] returns what its three calls return. *)
Lemma beam_minimize__lnL_returns {A : Type} `{Float A} `{MultivariateNormal A}
  `{Numerics A} (self : BeamLikelihood.state A) (soln : OptimizeResult A)
  (at_x at_zero : A) :
  let len_f := BeamLikelihood.Ebinmax self - BeamLikelihood.Ebinmin self in
  BeamLikelihood.Ebinmin self <= BeamLikelihood.Ebinmax self ->
  minimize (BeamLikelihood.nll self) (BeamLikelihood.initial len_f)
    (BeamLikelihood.bounds len_f) = ok soln ->
  BeamLikelihood.log_likelihood self (x soln) = ok at_x ->
  BeamLikelihood.log_likelihood self (Np.zeros len_f) = ok at_zero ->
  BeamLikelihood.minimize__lnL self = ok (x soln, ((at_x - at_zero) * fromZ 2)%fl).
Proof.
  intros len_f Hbins Hsoln Hx Hzero; unfold BeamLikelihood.minimize__lnL.
  replace (BeamLikelihood.Ebinmax self <? BeamLikelihood.Ebinmin self) with false
    by (symmetry; apply Nat.ltb_ge; lia).
  cbv zeta; fold len_f; rewrite Hsoln; py_step.
  rewrite Hx; py_step; rewrite Hzero; reflexivity.
Qed.

(** C3, as the code has it: on an engine that holds data, when the optimiser
    returns a point with one coordinate per configured energy bin,
    [minimize__lnL] returns that point and twice the difference of the
    log-likelihood at the point and at the zero vector, as it is: the
    statistic is negative exactly when the point is worse than the zero
    vector, and it is non-negative when the point is a maximiser over the
    box [[0, 1]^k].  [BeamLikelihood.minimize__lnL] returns the same
    difference of its own log-likelihood. *)
Theorem minimize__lnL_test_statistic_unclamped :
  (forall (num : Numerics R) (nebin ncl : nat) (self : Likelihood.state R)
      (atm data std : list (list R)) (soln : OptimizeResult R),
      let len_f := Likelihood.Ebinmax self - Likelihood.Ebinmin self in
      Ready nebin ncl self atm data std ->
      minimize (Likelihood.nll self) (Likelihood.initial len_f)
        (Likelihood.bounds len_f) = ok soln ->
      length (x soln) = len_f ->
      exists at_x at_zero : R,
        Likelihood.log_likelihood self (x soln) = ok at_x
        /\ Likelihood.log_likelihood self (Np.zeros len_f) = ok at_zero
        /\ Likelihood.minimize__lnL self = ok (x soln, ((at_x - at_zero) * 2)%R)
        /\ (((at_x - at_zero) * 2 < 0)%R <-> (at_x < at_zero)%R)
        /\ ((forall g lnL,
                length g = len_f -> Forall (fun v => (0 <= v <= 1)%R) g ->
                Likelihood.log_likelihood self g = ok lnL -> (lnL <= at_x)%R) ->
            (0 <= (at_x - at_zero) * 2)%R))
  /\ (forall (mvn : MultivariateNormal R) (num : Numerics R)
        (self : BeamLikelihood.state R) (soln : OptimizeResult R)
        (at_x at_zero : R),
         let len_f := BeamLikelihood.Ebinmax self - BeamLikelihood.Ebinmin self in
         BeamLikelihood.Ebinmin self <= BeamLikelihood.Ebinmax self ->
         minimize (BeamLikelihood.nll self) (BeamLikelihood.initial len_f)
           (BeamLikelihood.bounds len_f) = ok soln ->
         BeamLikelihood.log_likelihood self (x soln) = ok at_x ->
         BeamLikelihood.log_likelihood self (Np.zeros len_f) = ok at_zero ->
         BeamLikelihood.minimize__lnL self = ok (x soln, ((at_x - at_zero) * 2)%R)
         /\ (((at_x - at_zero) * 2 < 0)%R <-> (at_x < at_zero)%R)).
Proof.
  split.
  - intros num nebin ncl self atm data std soln len_f Hready Hsoln Hlen.
    destruct (bins_in_range Hready) as [Hlo Hhi].
    assert (Hzeros : length (Np.zeros (A := R) len_f) = len_f) by apply repeat_length.
    pose proof (log_likelihood_ready (x soln) Hready Hlen) as Hx.
    pose proof (log_likelihood_ready (Np.zeros len_f) Hready Hzeros) as Hzero.
    eexists; eexists; split; [exact Hx|]; split; [exact Hzero|].
    split; [|split].
    + unfold Likelihood.minimize__lnL.
      replace (Likelihood.Ebinmax self <? Likelihood.Ebinmin self) with false
        by (symmetry; apply Nat.ltb_ge; lia).
      cbv zeta; fold len_f; rewrite Hsoln; py_step.
      rewrite Hx; py_step; rewrite Hzero; py_step.
      reflexivity.
    + split; intros; lra.
    + intros Hmax.
      assert (Hbox : Forall (fun v => (0 <= v <= 1)%R) (Np.zeros (A := R) len_f)).
      { apply Forall_forall; intros v Hv.
        unfold Np.zeros in Hv; apply repeat_spec in Hv; subst v; simpl; lra. }
      pose proof (Hmax _ _ Hzeros Hbox Hzero); lra.
  - intros mvn num self soln at_x at_zero len_f Hbins Hsoln Hx Hzero; split.
    + apply (beam_minimize__lnL_returns self Hbins Hsoln Hx Hzero).
    + split; intros; lra.
Qed.

Lemma minimize__lnL_test_statistic_unclamped_witness :
  (exists at_x at_zero : R,
      Likelihood.log_likelihood Examples.engine [(1 / 2)%R; 1%R] = ok at_x
      /\ Likelihood.log_likelihood Examples.engine (Np.zeros 2) = ok at_zero
      /\ @Likelihood.minimize__lnL R _ (Examples.fixed_numerics [(1 / 2)%R; 1%R])
           Examples.engine
         = ok ([(1 / 2)%R; 1%R], ((at_x - at_zero) * 2)%R)
      /\ (((at_x - at_zero) * 2 < 0)%R <-> (at_x < at_zero)%R)
      /\ ((forall g lnL,
              length g = 2 -> Forall (fun v => (0 <= v <= 1)%R) g ->
              Likelihood.log_likelihood Examples.engine g = ok lnL ->
              (lnL <= at_x)%R) ->
          (0 <= (at_x - at_zero) * 2)%R))
  /\ (exists at_x at_zero : R,
         @BeamLikelihood.log_likelihood R _ Examples.closed_form_normal
           Examples.beam_engine [(1 / 2)%R; 1%R] = ok at_x
         /\ @BeamLikelihood.log_likelihood R _ Examples.closed_form_normal
              Examples.beam_engine (Np.zeros 2) = ok at_zero
         /\ @BeamLikelihood.minimize__lnL R _ Examples.closed_form_normal
              (Examples.fixed_numerics [(1 / 2)%R; 1%R]) Examples.beam_engine
            = ok ([(1 / 2)%R; 1%R], ((at_x - at_zero) * 2)%R)
         /\ (((at_x - at_zero) * 2 < 0)%R <-> (at_x < at_zero)%R)).
Proof.
  split.
  - apply (proj1 minimize__lnL_test_statistic_unclamped
             (Examples.fixed_numerics [(1 / 2)%R; 1%R]) 2 3 Examples.engine
             [[0; 0; 0]; [0; 0; 0]]%R [[1; 2; 3]; [5; 5; 5]]%R Examples.engine_std
             {| x := [(1 / 2)%R; 1%R]; success := true |} engine_ready).
    + reflexivity.
    + reflexivity.
  - eexists; eexists; split; [reflexivity|]; split; [reflexivity|].
    apply (proj2 minimize__lnL_test_statistic_unclamped
             Examples.closed_form_normal (Examples.fixed_numerics [(1 / 2)%R; 1%R])
             Examples.beam_engine {| x := [(1 / 2)%R; 1%R]; success := true |}).
    + simpl; lia.
    + reflexivity.
    + reflexivity.
    + reflexivity.
Defined.

(** C3, as the claim words it: on the engine whose variance is still the
    zero [inputData] installed, the optimiser stopping at its starting
    point, the test statistic is [nan]: it is not at least [-1e-9], and
    nothing clamped it. *)
Lemma minimize__lnL_test_statistic_is_nan :
  @Likelihood.minimize__lnL xfloat _ Examples.idle_numerics Examples.stale_engine
  = ok ([Fin (1 # 10)], NaN)
  /\ XFloat.geb NaN (Fin (-1 # 1000000000)) = false
  /\ XFloat.geb NaN (Fin 0) = false.
Proof.
  split; [|split; reflexivity].
  apply (@test_statistic_zero_variance Examples.idle_numerics Examples.stale_engine
           (Examples.flat (Fin 0)) (Examples.flat (Fin 1))
           {| x := [Fin (1 # 10)]; success := false |} stale_engine_ready).
  - unfold Defaults.NCL, Defaults.NSIDE; simpl; lia.
  - simpl; lia.
  - reflexivity.
  - reflexivity.
Qed.

End TestStatistic.

(** ** Calls that raise *)

Section Raising.

Import Py Spec.

Context {A : Type} `{Float A}.

(** [BeamLikelihood.minimize__lnL_analytic] subscripts the one-dimensional
    signal template with two indices: it raises on the first energy bin. *)
Lemma beam_minimize__lnL_analytic_raises `{MultivariateNormal A}
  (self : BeamLikelihood.state A) :
  BeamLikelihood.Ebinmin self < BeamLikelihood.Ebinmax self ->
  BeamLikelihood.minimize__lnL_analytic self = raise IndexError.
Proof.
  intros Hbins; unfold BeamLikelihood.minimize__lnL_analytic.
  replace (BeamLikelihood.Ebinmax self <? BeamLikelihood.Ebinmin self) with false
    by (symmetry; apply Nat.ltb_ge; lia).
  unfold range.
  destruct (BeamLikelihood.Ebinmax self - BeamLikelihood.Ebinmin self) as [|n] eqn:Hn;
    [lia|].
  reflexivity.
Qed.

(** While the background mean does not exist, [log_likelihood_Ebin] raises
    before it reaches the division. *)
Lemma log_likelihood_Ebin_before_templates (self : Likelihood.state A)
  (f : A) (energyBin : nat) :
  Likelihood.w_atm_mean self = None ->
  energyBin < length (Likelihood.w_model_f1 self) ->
  Likelihood.log_likelihood_Ebin self f energyBin = raise AttributeError.
Proof.
  intros Hnone Hbin; unfold Likelihood.log_likelihood_Ebin, getitem.
  rewrite (nth_error_nth' _ [] Hbin), Hnone; reflexivity.
Qed.

End Raising.

(** ** The engine after [inputData] *)

Section AfterInputData.

Import Py Spec.

Context {A : Type} `{Float A}.

Lemma setrow_same_length (m : list (list A)) (i : nat) (old new : list A) :
  getitem m i = ok old -> length new = length old ->
  Np.setrow m i new = ok (Np.replace i new m).
Proof.
  intros Hold Hlen; unfold Np.setrow; rewrite Hold; py_step.
  destruct new as [|v [|v' new]].
  - now rewrite <- Hlen.
  - destruct old as [|o [|o' old]]; simpl in Hlen; try discriminate; reflexivity.
  - replace (length old =? length (v :: v' :: new)) with true; auto.
    symmetry; apply Nat.eqb_eq; congruence.
Qed.

Lemma replace_shape (k c i : nat) (new : list A) (m : list (list A)) :
  matrix_shape k c m -> length new = c -> matrix_shape k c (Np.replace i new m).
Proof.
  intros [Hk Hrows] Hnew; split; [now rewrite replace_length|].
  clear Hk; revert i; induction m as [|r m IH]; intros i.
  - destruct i; constructor.
  - inversion Hrows; subst; destruct i as [|i]; simpl; constructor; auto.
Qed.

Lemma map_replace {X Y : Type} (g : X -> Y) (i : nat) (v : X) (a : list X) :
  map g (Np.replace i v a) = Np.replace i (g v) (map g a).
Proof.
  revert i; induction a as [|x a IH]; intros [|i]; simpl; auto.
  now rewrite IH.
Qed.

Lemma getitem_replace {X : Type} (i : nat) (v : X) (a : list X) :
  i < length a -> getitem (Np.replace i v a) i = ok v.
Proof.
  revert i; induction a as [|x a IH]; intros [|i] Hi; simpl in *; try lia; auto.
  apply IH; lia.
Qed.

(** One turn of the loop over [bootstrap_error] keeps the squared deviation
    the square of the deviation. *)
Lemma bootstrap_row_invariant (k c : nat) (ns : Likelihood.NeutrinoSample A)
  (std : list (list A)) (ebin : nat) :
  matrix_shape k c std -> ebin < k ->
  length (Likelihood.bootstrapSigma ns ebin) = c ->
  exists std',
    Likelihood.bootstrap_row ns (std, map Np.square std) ebin
    = ok (std', map Np.square std')
    /\ matrix_shape k c std'.
Proof.
  intros Hshape Hebin Hsigma.
  exists (Np.replace ebin (Likelihood.bootstrapSigma ns ebin) std).
  destruct (getitem_row Hshape Hebin) as [Hold Hlen].
  destruct (getitem_row (square_shape Hshape) Hebin) as [Hold' Hlen'].
  split; [|now apply replace_shape].
  unfold Likelihood.bootstrap_row; cbn [fst snd].
  rewrite (@setrow_same_length std ebin (row std ebin)
             (Likelihood.bootstrapSigma ns ebin) Hold) by congruence; py_step.
  rewrite getitem_replace by (destruct Hshape; lia); py_step.
  rewrite (@setrow_same_length (map Np.square std) ebin
             (row (map Np.square std) ebin)
             (Np.square (Likelihood.bootstrapSigma ns ebin)) Hold')
    by (rewrite square_length; congruence); py_step.
  now rewrite map_replace.
Qed.

Lemma bootstrap_rows_invariant (k c : nat) (ns : Likelihood.NeutrinoSample A)
  (bootstrap_error : list nat) :
  Forall (fun ebin => ebin < k /\ length (Likelihood.bootstrapSigma ns ebin) = c)
    bootstrap_error ->
  forall std,
    matrix_shape k c std ->
    exists std',
      Likelihood.bootstrap_rows ns (std, map Np.square std) bootstrap_error
      = ok (std', map Np.square std')
      /\ matrix_shape k c std'.
Proof.
  induction 1 as [|ebin rest [Hebin Hsigma] _ IH]; intros std Hshape.
  - exists std; split; [reflexivity|exact Hshape].
  - destruct (bootstrap_row_invariant ns Hshape Hebin Hsigma) as [std1 [Hrow Hshape1]].
    destruct (IH std1 Hshape1) as [std' [Hrows Hshape']].
    exists std'; split; [|exact Hshape'].
    cbn [Likelihood.bootstrap_rows]; rewrite Hrow; py_step; exact Hrows.
Qed.

(** [inputData] on an engine whose constructor loaded the templates, for a
    sample of the shape of the templates and bootstrap deviations of the
    width of the arrays, leaves an engine that holds data. *)
Lemma inputData_ready (nebin ncl : nat) (self : Likelihood.state A)
  (ns : Likelihood.NeutrinoSample A) (atm std : list (list A))
  (bootstrap_error : list nat) :
  Constructed nebin ncl self atm std ->
  matrix_shape nebin ncl (Likelihood.getCrossCorrelation ns) ->
  Forall (fun ebin => ebin < nebin /\ length (Likelihood.bootstrapSigma ns ebin) = ncl)
    bootstrap_error ->
  exists self' std',
    Likelihood.inputData self ns bootstrap_error = ok self'
    /\ Ready nebin ncl self' atm (Likelihood.getCrossCorrelation ns) std'
    /\ (bootstrap_error = [] -> std' = std).
Proof.
  intros Hbuilt Hdata Hboot.
  destruct (bootstrap_rows_invariant ns Hboot (built_std_shape Hbuilt))
    as [std' [Hrows Hshape']].
  unfold Likelihood.inputData.
  rewrite (built_std Hbuilt), (built_std_square Hbuilt); py_step.
  rewrite Hrows; py_step.
  eexists; exists std'; split; [reflexivity|]; split.
  - constructor; cbn; auto.
    + apply (built_atm Hbuilt).
    + apply (built_model_shape Hbuilt).
    + apply (built_atm_shape Hbuilt).
    + apply (built_bins Hbuilt).
  - intros ->; cbn in Hrows; now inversion Hrows.
Qed.

End AfterInputData.

(** ** Worked examples *)

Section WorkedExamples.

Import Py.

(** Data on the background: the fraction and the test statistic are 0. *)
Example analytic_fit_of_background :
  Likelihood.minimize__lnL_analytic (Examples.end_to_end (Fin 0))
  = ok ([Fin 0], Fin 0).
Proof. vm_compute; reflexivity. Qed.

(** Data on the signal: the fraction is 1 and the test statistic 250. *)
Example analytic_fit_of_signal :
  Likelihood.minimize__lnL_analytic (Examples.end_to_end (Fin 5))
  = ok ([Fin 1], Fin 250).
Proof. vm_compute; reflexivity. Qed.

Example log_likelihood_Ebin_of_signal :
  Likelihood.log_likelihood_Ebin (Examples.end_to_end (Fin 5)) (Fin 0) 0
  = ok (Fin (-125)).
Proof. vm_compute; reflexivity. Qed.

Example chi_square_Ebin_of_signal :
  Likelihood.chi_square_Ebin (Examples.end_to_end (Fin 5)) (Fin 0) 0
  = ok (Fin 250).
Proof. vm_compute; reflexivity. Qed.

(** An empty fraction vector is broadcast against the single energy bin to
    an empty array, whose sum is 0; an energy bin outside the arrays cannot
    be subscripted. *)
Example log_likelihood_of_empty_vector :
  Likelihood.log_likelihood (Examples.end_to_end (Fin 5)) [] = ok (Fin 0).
Proof. vm_compute; reflexivity. Qed.

Example log_likelihood_Ebin_out_of_range :
  Likelihood.log_likelihood_Ebin (Examples.end_to_end (Fin 5)) (Fin 0) 1
  = raise IndexError.
Proof. vm_compute; reflexivity. Qed.

(** A sky of four pixels, two of them masked. *)
Example anafastMask_of_four_pixels :
  Likelihood.anafastMask (A := xfloat) 4 [3] [1; 3] = ok ([1; 3], Fin (1 # 2)).
Proof. vm_compute; reflexivity. Qed.

Example anafastMask_index_out_of_range :
  Likelihood.anafastMask (A := xfloat) 4 [3] [1; 4] = raise IndexError.
Proof. vm_compute; reflexivity. Qed.

(** The significance of two chi values of 50 saturates. *)
Example significance_from_chi_saturated :
  @Likelihood.significance_from_chi xfloat _ Examples.saturated_stats
    [Fin 50; Fin 50] = PInf.
Proof. vm_compute; reflexivity. Qed.

Example log_prior_of_nan : Likelihood.log_prior [Fin 3; NaN] = ok NInf.
Proof. vm_compute; reflexivity. Qed.

Example log_prior_of_empty : Likelihood.log_prior [] = raise ValueError.
Proof. vm_compute; reflexivity. Qed.

End WorkedExamples.

(** * Properties of the construction, the data and the other fits *)

(** ** The variance [inputData] installs *)

Section InputDataRows.

Import Py Spec Further.

Context {A : Type} `{Float A}.

Lemma bootstrap_rows_bootstrapped (k c : nat) (ns : Likelihood.NeutrinoSample A)
  (bootstrap_error : list nat) :
  Forall (fun ebin => ebin < k /\ length (Likelihood.bootstrapSigma ns ebin) = c)
    bootstrap_error ->
  forall std,
    matrix_shape k c std ->
    Likelihood.bootstrap_rows ns (std, map Np.square std) bootstrap_error
    = ok ((bootstrapped ns std bootstrap_error),
          map Np.square (bootstrapped ns std bootstrap_error))
    /\ matrix_shape k c (bootstrapped ns std bootstrap_error).
Proof.
  induction 1 as [|ebin rest [Hebin Hsigma] _ IH]; intros std Hshape.
  - split; [reflexivity|exact Hshape].
  - destruct (getitem_row Hshape Hebin) as [Hold Hlen].
    destruct (getitem_row (square_shape Hshape) Hebin) as [Hold' Hlen'].
    assert (Hshape1 : matrix_shape k c
                        (Np.replace ebin (Likelihood.bootstrapSigma ns ebin) std))
      by (now apply replace_shape).
    destruct (IH _ Hshape1) as [Hrows Hshape'].
    split; [|exact Hshape'].
    cbn [Likelihood.bootstrap_rows]; unfold Likelihood.bootstrap_row; cbn [fst snd].
    rewrite (@setrow_same_length _ std ebin (row std ebin)
               (Likelihood.bootstrapSigma ns ebin) Hold) by congruence; py_step.
    rewrite getitem_replace by (destruct Hshape; lia); py_step.
    rewrite (@setrow_same_length _ (map Np.square std) ebin
               (row (map Np.square std) ebin)
               (Np.square (Likelihood.bootstrapSigma ns ebin)) Hold')
      by (rewrite square_length; congruence); py_step.
    rewrite <- map_replace; exact Hrows.
Qed.

Lemma row_replace (i j : nat) (v : list A) (m : list (list A)) :
  i < length m ->
  row (Np.replace i v m) j = if j =? i then v else row m j.
Proof.
  unfold row; revert i j; induction m as [|r m IH]; intros [|i] [|j] Hi;
    simpl in *; try lia; auto.
  apply IH; lia.
Qed.

Lemma row_bootstrapped (k c : nat) (ns : Likelihood.NeutrinoSample A)
  (bootstrap_error : list nat) :
  Forall (fun ebin => ebin < k /\ length (Likelihood.bootstrapSigma ns ebin) = c)
    bootstrap_error ->
  forall std ebin,
    matrix_shape k c std ->
    row (bootstrapped ns std bootstrap_error) ebin
    = if existsb (Nat.eqb ebin) bootstrap_error
      then Likelihood.bootstrapSigma ns ebin
      else row std ebin.
Proof.
  induction 1 as [|e rest [He Hsigma] Hrest IH]; intros std ebin Hshape.
  - reflexivity.
  - cbn [bootstrapped fold_left existsb].
    fold (bootstrapped ns (Np.replace e (Likelihood.bootstrapSigma ns e) std) rest).
    rewrite IH by (now apply replace_shape).
    rewrite row_replace by (destruct Hshape; lia).
    destruct (Nat.eqb_spec ebin e) as [->|Hne]; cbn [orb].
    + now destruct (existsb (Nat.eqb e) rest).
    + reflexivity.
Qed.

(** X1: [inputData] on an engine whose constructor loaded the templates, for
    a sample of the shape of the templates: the engine holds the
    cross-correlation and the counts of the sample; the deviation of an
    energy bin listed in [bootstrap_error] is the bootstrap deviation of the
    bin, the deviation of every other bin is the background deviation of
    the constructor; the squared deviation is the square of the deviation;
    the templates are untouched. *)
Theorem inputData_installs_deviation (nebin ncl : nat) (self : Likelihood.state A)
  (ns : Likelihood.NeutrinoSample A) (atm std : list (list A))
  (bootstrap_error : list nat) :
  Constructed nebin ncl self atm std ->
  matrix_shape nebin ncl (Likelihood.getCrossCorrelation ns) ->
  Forall (fun ebin => ebin < nebin /\ length (Likelihood.bootstrapSigma ns ebin) = ncl)
    bootstrap_error ->
  exists self' std',
    Likelihood.inputData self ns bootstrap_error = ok self'
    /\ Ready nebin ncl self' atm (Likelihood.getCrossCorrelation ns) std'
    /\ Likelihood.Ncount self' = Some (Likelihood.getEventCounts ns)
    /\ (forall ebin,
           row std' ebin
           = if existsb (Nat.eqb ebin) bootstrap_error
             then Likelihood.bootstrapSigma ns ebin
             else row std ebin)
    /\ Likelihood.w_atm_std self' = Some std
    /\ Likelihood.w_atm_std_square self' = Some (map Np.square std)
    /\ Likelihood.w_model_f1 self' = Likelihood.w_model_f1 self.
Proof.
  intros Hbuilt Hdata Hboot.
  destruct (bootstrap_rows_bootstrapped ns Hboot (built_std_shape Hbuilt))
    as [Hrows Hshape'].
  unfold Likelihood.inputData.
  rewrite (built_std Hbuilt), (built_std_square Hbuilt); py_step.
  rewrite Hrows; py_step.
  eexists; eexists.
  split; [reflexivity|]; split; [|split; [reflexivity|split; [|split; [|split]]]].
  - constructor; cbn; auto.
    + apply (built_atm Hbuilt).
    + apply (built_model_shape Hbuilt).
    + apply (built_atm_shape Hbuilt).
    + apply (built_bins Hbuilt).
  - intros ebin; apply (row_bootstrapped ns Hboot ebin (built_std_shape Hbuilt)).
  - reflexivity.
  - reflexivity.
  - reflexivity.
Qed.

End InputDataRows.

Section InputDataExamples.

Import Py Spec Further.
Local Open Scope R_scope.

Lemma engine_constructed :
  Constructed 2 3 Examples.engine [[0; 0; 0]; [0; 0; 0]] Examples.engine_std.
Proof.
  constructor; try reflexivity;
    try (split; [reflexivity | repeat constructor]).
  simpl; lia.
Defined.

Lemma inputData_installs_deviation_witness :
  exists self' std',
    Likelihood.inputData Examples.engine MoreExamples.sample [1%nat] = ok self'
    /\ Ready 2 3 self' [[0; 0; 0]; [0; 0; 0]] [[1; 2; 3]; [5; 5; 5]] std'
    /\ Likelihood.Ncount self' = Some [10; 20]
    /\ (forall ebin,
           row std' ebin
           = if existsb (Nat.eqb ebin) [1%nat] then [3; 3; 3]
             else row Examples.engine_std ebin)
    /\ Likelihood.w_atm_std self' = Some Examples.engine_std
    /\ Likelihood.w_atm_std_square self' = Some (map Np.square Examples.engine_std)
    /\ Likelihood.w_model_f1 self' = [[5; 5; 5]; [5; 5; 5]].
Proof.
  apply (@inputData_installs_deviation R _ 2%nat 3%nat Examples.engine
           MoreExamples.sample [[0; 0; 0]; [0; 0; 0]] Examples.engine_std [1%nat]
           engine_constructed).
  - split; [reflexivity | repeat constructor].
  - repeat constructor.
Defined.

End InputDataExamples.

(** ** Successive inputs and inputs that raise *)

Section InputDataComposition.

Import Py Spec.

Context {A : Type} `{Float A}.


(** X3: a bin of [bootstrap_error] outside the arrays raises [IndexError],
    a bootstrap deviation that has neither the width of the arrays nor one
    entry raises [ValueError]; the bins before it are processed. *)
Theorem inputData_bootstrap_raises (nebin ncl : nat) (self : Likelihood.state A)
  (ns : Likelihood.NeutrinoSample A) (atm std : list (list A))
  (done : list nat) (ebin : nat) (rest : list nat) :
  Constructed nebin ncl self atm std ->
  Forall (fun e => e < nebin /\ length (Likelihood.bootstrapSigma ns e) = ncl) done ->
  (nebin <= ebin ->
   Likelihood.inputData self ns (done ++ ebin :: rest) = raise IndexError)
  /\ (ebin < nebin ->
      length (Likelihood.bootstrapSigma ns ebin) <> ncl ->
      length (Likelihood.bootstrapSigma ns ebin) <> 1 ->
      Likelihood.inputData self ns (done ++ ebin :: rest) = raise ValueError).
Proof.
  intros Hbuilt Hdone.
  assert (Hsplit : forall stds,
             Likelihood.bootstrap_rows ns stds (done ++ ebin :: rest)
             = (stds' <- Likelihood.bootstrap_rows ns stds done ;;
                Likelihood.bootstrap_rows ns stds' (ebin :: rest))%py).
  { clear; induction done as [|e done IH]; intros stds; cbn [app Likelihood.bootstrap_rows].
    - reflexivity.
    - destruct (Likelihood.bootstrap_row ns stds e) as [err|stds1]; [reflexivity|].
      py_step; apply IH. }
  destruct (bootstrap_rows_bootstrapped ns Hdone (built_std_shape Hbuilt))
    as [Hrows Hshape].
  unfold Likelihood.inputData.
  rewrite (built_std Hbuilt), (built_std_square Hbuilt); py_step.
  rewrite Hsplit, Hrows; py_step.
  cbn [Likelihood.bootstrap_rows]; unfold Likelihood.bootstrap_row; cbn [fst snd].
  split.
  - intros Hout; unfold Np.setrow at 1.
    rewrite getitem_out_of_range by (destruct Hshape as [-> _]; exact Hout).
    reflexivity.
  - intros Hin Hwide Hone; unfold Np.setrow at 1.
    destruct (getitem_row Hshape Hin) as [-> Hlen]; py_step.
    destruct (Likelihood.bootstrapSigma ns ebin) as [|v [|v' sigma]] eqn:Hsigma.
    + rewrite Hlen.
      destruct (Nat.eqb_spec ncl (length (@nil A))); [|reflexivity].
      simpl in *; congruence.
    + simpl in Hone; congruence.
    + rewrite Hlen.
      destruct (Nat.eqb_spec ncl (length (v :: v' :: sigma))); [|reflexivity].
      congruence.
Qed.

End InputDataComposition.

Section InputDataCompositionExamples.

Import Py Spec.
Local Open Scope R_scope.


Lemma inputData_bootstrap_raises_witness :
  ((2 <= 5)%nat ->
   Likelihood.inputData Examples.engine MoreExamples.sample ([1%nat] ++ [5%nat])
   = raise IndexError)
  /\ ((5 < 2)%nat ->
      length (Likelihood.bootstrapSigma MoreExamples.sample 5) <> 3%nat ->
      length (Likelihood.bootstrapSigma MoreExamples.sample 5) <> 1%nat ->
      Likelihood.inputData Examples.engine MoreExamples.sample ([1%nat] ++ [5%nat])
      = raise ValueError).
Proof.
  apply (@inputData_bootstrap_raises R _ 2%nat 3%nat Examples.engine
           MoreExamples.sample [[0; 0; 0]; [0; 0; 0]] Examples.engine_std
           [1%nat] 5%nat [] engine_constructed).
  repeat constructor.
Defined.

End InputDataCompositionExamples.

(** ** The constructor of [Likelihood] *)

Section TemplateOfTheMask.

Import Py Spec LikelihoodSetup.

Context {A : Type} `{Float A}.

Lemma setrow_fill {X : Type} (w z : list X) (k n : nat) :
  length w = length z ->
  Np.setrow (repeat w k ++ z :: repeat z n) k w
  = ok (repeat w (S k) ++ repeat z n).
Proof.
  intros Hlen; unfold Np.setrow, getitem.
  rewrite nth_error_app2 by (rewrite repeat_length; lia).
  rewrite repeat_length, Nat.sub_diag; cbn [nth_error]; py_step.
  assert (Hreplace : forall v : list X,
             Np.replace k v (repeat w k ++ z :: repeat z n)
             = repeat w k ++ v :: repeat z n).
  { intros v; induction k as [|k IH]; simpl; auto. now rewrite IH. }
  assert (Hsnoc : repeat w k ++ w :: repeat z n = repeat w (S k) ++ repeat z n).
  { change (w :: repeat z n) with ([w] ++ repeat z n).
    rewrite app_assoc, <- repeat_cons; reflexivity. }
  destruct w as [|v [|v' w]].
  - rewrite <- Hlen, Nat.eqb_refl, Hreplace; now rewrite Hsnoc.
  - destruct z as [|y [|y' z]]; simpl in Hlen; try discriminate.
    cbn [map]; rewrite Hreplace; now rewrite Hsnoc.
  - rewrite <- Hlen, Nat.eqb_refl, Hreplace; now rewrite Hsnoc.
Qed.

Lemma foldM_setrow_fill {X : Type} (w z : list X) (n k : nat) :
  length w = length z ->
  foldM (fun m i => Np.setrow m i w) (seq k n) (repeat w k ++ repeat z n)
  = ok (repeat w (k + n)).
Proof.
  intros Hlen; revert k; induction n as [|n IH]; intros k; cbn [seq foldM repeat].
  - now rewrite app_nil_r, Nat.add_0_r.
  - rewrite (setrow_fill w z k n Hlen); py_step.
    rewrite IH; f_equal; f_equal; lia.
Qed.

Lemma setrow_broadcast_fill {X : Type} (v : X) (z : list X) (k n : nat) :
  Np.setrow (repeat (map (fun _ => v) z) k ++ z :: repeat z n) k [v]
  = ok (repeat (map (fun _ => v) z) (S k) ++ repeat z n).
Proof.
  unfold Np.setrow, getitem.
  rewrite nth_error_app2 by (rewrite repeat_length; lia).
  rewrite repeat_length, Nat.sub_diag; cbn [nth_error]; py_step.
  f_equal.
  change (map (fun _ => v) z :: repeat z n) with ([map (fun _ => v) z] ++ repeat z n).
  induction k as [|k IH]; simpl; auto.
  now rewrite IH.
Qed.

Lemma foldM_setrow_broadcast_fill {X : Type} (v : X) (z : list X) (n k : nat) :
  foldM (fun m i => Np.setrow m i [v]) (seq k n)
    (repeat (map (fun _ => v) z) k ++ repeat z n)
  = ok (repeat (map (fun _ => v) z) (k + n)).
Proof.
  revert k; induction n as [|n IH]; intros k; cbn [seq foldM repeat].
  - now rewrite app_nil_r, Nat.add_0_r.
  - rewrite setrow_broadcast_fill; py_step.
    rewrite IH; f_equal; f_equal; lia.
Qed.

Lemma map_const_repeat {X Y : Type} (v : Y) (x : X) (n : nat) :
  map (fun _ => v) (repeat x n) = repeat v n.
Proof. induction n as [|n IH]; simpl; auto; now rewrite IH. Qed.

Lemma calculate_w_mean_sized (anafast : list A) (f_sky : A) :
  length anafast = Defaults.NCL ->
  calculate_w_mean anafast f_sky
  = ok (repeat (Np.over anafast f_sky) Defaults.NEbin).
Proof.
  intros Hlen; unfold calculate_w_mean, range, Np.zeros2; rewrite Nat.sub_0_r.
  apply (@foldM_setrow_fill _ (Np.over anafast f_sky) (Np.zeros Defaults.NCL)
           Defaults.NEbin 0).
  unfold Np.over, Np.zeros; now rewrite length_map, repeat_length.
Qed.

(** X4: [calculate_w_mean] gives every energy bin the same template, the
    spectrum of the masked galaxy map over the sky fraction: for a spectrum
    of [NCL] multipoles the array has [NEbin] rows equal to that quotient; a
    spectrum of one multipole is broadcast along the row; a spectrum of any
    other length raises [ValueError]. *)
Theorem calculate_w_mean_shares_template (anafast : list A) (f_sky : A) :
  (length anafast = Defaults.NCL ->
   calculate_w_mean anafast f_sky
   = ok (repeat (Np.over anafast f_sky) Defaults.NEbin)
   /\ matrix_shape Defaults.NEbin Defaults.NCL
        (repeat (Np.over anafast f_sky) Defaults.NEbin))
  /\ (forall c,
         anafast = [c] ->
         calculate_w_mean anafast f_sky
         = ok (repeat (repeat (c / f_sky)%fl Defaults.NCL) Defaults.NEbin))
  /\ (length anafast <> Defaults.NCL -> length anafast <> 1 ->
      calculate_w_mean anafast f_sky = raise ValueError).
Proof.
  split; [|unfold calculate_w_mean, range, Np.zeros2; rewrite Nat.sub_0_r; split].
  - intros Hlen; split.
    + now apply calculate_w_mean_sized.
    + split; [apply repeat_length|].
      apply Forall_forall; intros r Hr; apply repeat_spec in Hr; subst r.
      unfold Np.over; now rewrite length_map.
  - intros c ->; cbn [Np.over map].
    rewrite <- (map_const_repeat (c / f_sky)%fl (fromZ 0) Defaults.NCL).
    apply (@foldM_setrow_broadcast_fill _ (c / f_sky)%fl (Np.zeros Defaults.NCL)
             Defaults.NEbin 0).
  - intros Hwide Hone.
    change Defaults.NEbin with 3; cbn [seq foldM repeat].
    unfold Np.setrow at 1; cbn [getitem nth_error]; py_step.
    assert (Hlen : length (Np.over anafast f_sky) = length anafast)
      by (unfold Np.over; apply length_map).
    destruct (Np.over anafast f_sky) as [|v [|v' w]] eqn:Hover.
    + unfold Np.zeros; rewrite repeat_length.
      destruct (Nat.eqb_spec Defaults.NCL (length (@nil A))); [|reflexivity].
      simpl in *; congruence.
    + simpl in Hlen; congruence.
    + unfold Np.zeros; rewrite repeat_length.
      destruct (Nat.eqb_spec Defaults.NCL (length (v :: v' :: w))); [|reflexivity].
      congruence.
Qed.

End TemplateOfTheMask.

Section TemplateExamples.

Import Py Spec LikelihoodSetup.
Local Open Scope R_scope.

Lemma calculate_w_mean_shares_template_witness :
  calculate_w_mean (repeat 6 Defaults.NCL) 3
  = ok (repeat (Np.over (repeat 6 Defaults.NCL) 3) Defaults.NEbin)
  /\ matrix_shape Defaults.NEbin Defaults.NCL
       (repeat (Np.over (repeat 6 Defaults.NCL) 3) Defaults.NEbin).
Proof.
  apply (proj1 (@calculate_w_mean_shares_template R _ (repeat 6 Defaults.NCL) 3)).
  apply repeat_length.
Defined.

End TemplateExamples.

Section Constructor.

Import Py Spec LikelihoodSetup.

Context {A : Type} `{Float A} `{Sqrt A}.

Lemma anafastMask_masked (NPIXEL : nat) (idx_muon idx_galaxymask : list nat) :
  Forall (fun i => i < NPIXEL) idx_muon ->
  Forall (fun i => i < NPIXEL) idx_galaxymask ->
  Likelihood.anafastMask (A := A) NPIXEL idx_muon idx_galaxymask
  = ok (filter (masked idx_muon idx_galaxymask) (seq 0 NPIXEL),
        (fromZ 1
         - fromZ (Z.of_nat (length (filter (masked idx_muon idx_galaxymask)
                                      (seq 0 NPIXEL))))
           / fromZ (Z.of_nat NPIXEL))%fl).
Proof.
  intros Hmuon Hgal; unfold Likelihood.anafastMask.
  rewrite setitems_ok by (now rewrite repeat_length); py_step.
  rewrite setitems_ok by (now rewrite setitems_fold_length, repeat_length); py_step.
  unfold Np.where_nonzero.
  rewrite !setitems_fold_length, repeat_length.
  rewrite (filter_ext_in_eq _ (masked idx_muon idx_galaxymask)); [reflexivity|].
  intros j _; unfold masked.
  rewrite setitems_fold_nth
    by (now rewrite setitems_fold_length, repeat_length).
  rewrite setitems_fold_nth by (now rewrite repeat_length).
  now rewrite nth_repeat_false, orb_false_r.
Qed.

Lemma chunks_shape {X : Type} (rows cols : nat) (a : list X) :
  length a = rows * cols -> matrix_shape rows cols (chunks rows cols a).
Proof.
  revert a; induction rows as [|rows IH]; intros a Hlen; cbn [chunks].
  - split; [reflexivity|constructor].
  - destruct (IH (skipn cols a)) as [Hrows Hall].
    + rewrite length_skipn; lia.
    + split; [simpl; now rewrite Hrows|].
      constructor; [|exact Hall].
      rewrite length_firstn; lia.
Qed.

Lemma reshape2_sized {X : Type} (rows cols : nat) (a : list X) :
  length a = rows * cols -> reshape2 rows cols a = ok (chunks rows cols a).
Proof.
  intros Hlen; unfold reshape2; now rewrite Hlen, Nat.eqb_refl.
Qed.

Lemma reshape2_missized {X : Type} (rows cols : nat) (a : list X) :
  length a <> rows * cols -> reshape2 rows cols a = raise ValueError.
Proof.
  intros Hlen; unfold reshape2.
  now destruct (Nat.eqb_spec (length a) (rows * cols)).
Qed.

(** Cutting into rows and joining the rows again gives the values back. *)
Lemma concat_chunks {X : Type} (rows cols : nat) (a : list X) :
  length a = rows * cols -> concat (chunks rows cols a) = a.
Proof.
  revert a; induction rows as [|rows IH]; intros a Hlen; cbn [chunks concat].
  - destruct a; [reflexivity|discriminate].
  - rewrite IH by (rewrite length_skipn; lia).
    apply firstn_skipn.
Qed.

(** X5: the constructor that loads the templates.  For masks inside the sky,
    a galaxy spectrum of [NCL] multipoles and files of [NEbin * NCL] values
    ([NEbin] for the counts) it returns an engine whose background mean and
    deviation and whose signal template are the files cut into [NEbin] rows,
    with the squared deviation the square of the deviation and no data yet;
    joining the rows gives the file back.  The template [calculate_w_mean]
    computed from the galaxy spectrum is overwritten by the file: the
    engine is the same for every galaxy spectrum of [NCL] multipoles. *)
Theorem init_loads_templates (NPIXEL : nat) (idx_muon idx_galaxymask : list nat)
  (anafast : list nat -> list A)
  (atmospheric astrophysical : list nat -> nat -> Likelihood.NeutrinoSample A)
  (loaded : files A) (Ebinmin Ebinmax lmin : nat) :
  Forall (fun i => i < NPIXEL) idx_muon ->
  Forall (fun i => i < NPIXEL) idx_galaxymask ->
  (forall idx_mask, length (anafast idx_mask) = Defaults.NCL) ->
  length (AtmSTDFname loaded) = Defaults.NEbin * Defaults.NCL ->
  length (AtmMeanFname loaded) = Defaults.NEbin * Defaults.NCL ->
  length (AtmNcountsFname loaded) = Defaults.NEbin ->
  length (AstroMeanFname loaded) = Defaults.NEbin * Defaults.NCL ->
  length (AstroSTDFname loaded) = Defaults.NEbin * Defaults.NCL ->
  Ebinmin <= Ebinmax <= Defaults.NEbin ->
  exists self,
    __init__ NPIXEL idx_muon idx_galaxymask anafast atmospheric astrophysical
      loaded false Ebinmin Ebinmax lmin = ok self
    /\ Constructed Defaults.NEbin Defaults.NCL (engine self)
         (chunks Defaults.NEbin Defaults.NCL (AtmMeanFname loaded))
         (chunks Defaults.NEbin Defaults.NCL (AtmSTDFname loaded))
    /\ Likelihood.w_model_f1 (engine self)
       = chunks Defaults.NEbin Defaults.NCL (AstroMeanFname loaded)
    /\ concat (Likelihood.w_model_f1 (engine self)) = AstroMeanFname loaded
    /\ Likelihood.w_data (engine self) = None
    /\ Likelihood.w_std (engine self) = None
    /\ Likelihood.w_std_square (engine self) = None
    /\ Ncount_atm self = AtmNcountsFname loaded
    /\ (forall anafast' : list nat -> list A,
           (forall idx_mask, length (anafast' idx_mask) = Defaults.NCL) ->
           __init__ NPIXEL idx_muon idx_galaxymask anafast' atmospheric astrophysical
             loaded false Ebinmin Ebinmax lmin = ok self).
Proof.
  intros Hmuon Hgal Hspectrum Hstd Hmean Hcounts Hastro Hastro_std Hbins.
  assert (Hinit : forall anafast' : list nat -> list A,
             (forall idx_mask, length (anafast' idx_mask) = Defaults.NCL) ->
             __init__ NPIXEL idx_muon idx_galaxymask anafast' atmospheric
               astrophysical loaded false Ebinmin Ebinmax lmin
             = ok {| engine :=
                       {| Likelihood.Ebinmin := Ebinmin;
                          Likelihood.Ebinmax := Ebinmax;
                          Likelihood.lmin := lmin;
                          Likelihood.w_model_f1 :=
                            chunks Defaults.NEbin Defaults.NCL (AstroMeanFname loaded);
                          Likelihood.w_atm_mean :=
                            Some (chunks Defaults.NEbin Defaults.NCL (AtmMeanFname loaded));
                          Likelihood.w_atm_std :=
                            Some (chunks Defaults.NEbin Defaults.NCL (AtmSTDFname loaded));
                          Likelihood.w_atm_std_square :=
                            Some (map Np.square
                                    (chunks Defaults.NEbin Defaults.NCL (AtmSTDFname loaded)));
                          Likelihood.w_data := None;
                          Likelihood.Ncount := None;
                          Likelihood.w_std := None;
                          Likelihood.w_std_square := None |};
                     idx_mask := filter (masked idx_muon idx_galaxymask) (seq 0 NPIXEL);
                     f_sky :=
                       (fromZ 1
                        - fromZ (Z.of_nat (length (filter (masked idx_muon idx_galaxymask)
                                                     (seq 0 NPIXEL))))
                          / fromZ (Z.of_nat NPIXEL))%fl;
                     Ncount_atm := AtmNcountsFname loaded;
                     w_model_f1_std :=
                       chunks Defaults.NEbin Defaults.NCL (AstroSTDFname loaded) |}).
  { intros anafast' Hspectrum'; unfold __init__.
    rewrite (anafastMask_masked Hmuon Hgal); py_step.
    match goal with
    | |- context [calculate_w_mean ?spectrum ?fs] =>
        rewrite (calculate_w_mean_sized spectrum fs (Hspectrum' _))
    end; py_step.
    rewrite !reshape2_sized by assumption; py_step.
    unfold reshape1; rewrite Hcounts, Nat.eqb_refl; reflexivity. }
  eexists; split; [apply (Hinit anafast Hspectrum)|].
  cbn [engine Ncount_atm Likelihood.w_model_f1 Likelihood.w_data Likelihood.w_std
         Likelihood.w_std_square].
  split; [|split; [reflexivity|split; [now apply concat_chunks|]]].
  - constructor; try reflexivity; try (now apply chunks_shape); exact Hbins.
  - repeat split; exact Hinit.
Qed.

(** X6: a file that does not hold [NEbin * NCL] values makes the constructor
    raise [ValueError]: the file of the background deviation is the first
    one it reshapes. *)
Theorem init_refuses_missized_file (NPIXEL : nat) (idx_muon idx_galaxymask : list nat)
  (anafast : list nat -> list A)
  (atmospheric astrophysical : list nat -> nat -> Likelihood.NeutrinoSample A)
  (loaded : files A) (Ebinmin Ebinmax lmin : nat) :
  Forall (fun i => i < NPIXEL) idx_muon ->
  Forall (fun i => i < NPIXEL) idx_galaxymask ->
  (forall idx_mask, length (anafast idx_mask) = Defaults.NCL) ->
  length (AtmSTDFname loaded) <> Defaults.NEbin * Defaults.NCL ->
  __init__ NPIXEL idx_muon idx_galaxymask anafast atmospheric astrophysical
    loaded false Ebinmin Ebinmax lmin = raise ValueError.
Proof.
  intros Hmuon Hgal Hspectrum Hstd; unfold __init__.
  rewrite (anafastMask_masked Hmuon Hgal); py_step.
  match goal with
  | |- context [calculate_w_mean ?spectrum ?fs] =>
      rewrite (calculate_w_mean_sized spectrum fs (Hspectrum _))
  end; py_step.
  now rewrite reshape2_missized.
Qed.

End Constructor.

(** ** The constructor that computes the templates *)

Section TemplateDistributions.

Import Py Spec LikelihoodSetup Further.

Context {A : Type} `{Float A} `{Sqrt A}.

Lemma inputData_fed (self : Likelihood.state A) (ns : Likelihood.NeutrinoSample A)
  (std sq : list (list A)) :
  match Likelihood.w_atm_std self with
  | Some std' => std' = std /\ Likelihood.w_atm_std_square self = Some sq
  | None => std = Np.zeros2 Defaults.NEbin Defaults.NCL
            /\ sq = Np.zeros2 Defaults.NEbin Defaults.NCL
  end ->
  Likelihood.inputData self ns [] = ok (fed self ns std sq).
Proof.
  intros Hstd; unfold Likelihood.inputData, fed.
  destruct (Likelihood.w_atm_std self) as [std'|];
    destruct Hstd as [-> ->]; reflexivity.
Qed.

Lemma broadcast_to_sized {X : Type} (n : nat) (a : list X) :
  length a = n -> broadcast_to n a = ok a.
Proof.
  intros Hlen; unfold broadcast_to.
  destruct a as [|x [|x' a]].
  - now rewrite Hlen, Nat.eqb_refl.
  - now rewrite <- Hlen.
  - now rewrite Hlen, Nat.eqb_refl.
Qed.

Lemma broadcast_to2_shaped {X : Type} (rows cols : nat) (m : list (list X)) :
  matrix_shape rows cols m -> broadcast_to2 rows cols m = ok m.
Proof.
  intros [Hrows Hall]; unfold broadcast_to2.
  rewrite broadcast_to_sized by exact Hrows; py_step.
  clear Hrows; induction Hall as [|r m Hr _ IH]; cbn [mapM]; [reflexivity|].
  rewrite broadcast_to_sized by exact Hr; py_step.
  now rewrite IH.
Qed.

Lemma replace_middle {X : Type} (done : list X) (old new : X) (todo : list X) :
  Np.replace (length done) new (done ++ old :: todo) = done ++ new :: todo.
Proof.
  induction done as [|x done IH]; simpl; auto.
  now rewrite IH.
Qed.

(** A turn of the loops stores the cross-correlation of the sample in the
    slot of the turn. *)
Lemma setslab_next (rows cols : nat) (done : list (list (list A)))
  (zero value : list (list A)) (n : nat) :
  matrix_shape rows cols value ->
  setslab rows cols (done ++ repeat zero (S n)) (length done) value
  = ok ((done ++ [value]) ++ repeat zero n).
Proof.
  intros Hvalue; unfold setslab.
  replace (length done <? length (done ++ repeat zero (S n))) with true
    by (symmetry; apply Nat.ltb_lt; rewrite length_app, repeat_length; lia).
  rewrite (broadcast_to2_shaped Hvalue); py_step.
  cbn [repeat]; now rewrite replace_middle, <- app_assoc.
Qed.

Lemma correlations_succ (trials : nat -> Likelihood.NeutrinoSample A) (k : nat) :
  correlations trials (S k)
  = correlations trials k ++ [Likelihood.getCrossCorrelation (trials k)].
Proof.
  unfold correlations; now rewrite seq_S, map_app.
Qed.

Lemma correlations_length (trials : nat -> Likelihood.NeutrinoSample A) (k : nat) :
  length (correlations trials k) = k.
Proof. unfold correlations; now rewrite length_map, length_seq. Qed.

Lemma correlations_shape (trials : nat -> Likelihood.NeutrinoSample A) (k : nat) :
  shaped_trials trials ->
  Forall (matrix_shape Defaults.NEbin Defaults.NCL) (correlations trials k).
Proof.
  intros Hshaped; unfold correlations.
  apply Forall_map, Forall_forall; intros i _; apply Hshaped.
Qed.


Lemma fed_last_fed (self : Likelihood.state A)
  (trials : nat -> Likelihood.NeutrinoSample A) (std sq std' sq' : list (list A))
  (k : nat) (ns : Likelihood.NeutrinoSample A) :
  fed (last_fed self trials std sq k) ns std' sq' = fed self ns std' sq'.
Proof. destruct k; reflexivity. Qed.

Lemma copied_deviation_last_fed (self : Likelihood.state A)
  (trials : nat -> Likelihood.NeutrinoSample A) (std sq : list (list A)) (k : nat) :
  copied_deviation self std sq ->
  copied_deviation (last_fed self trials std sq k) std sq.
Proof. destruct k; auto. Qed.

Lemma counts_sum_succ (trials : nat -> Likelihood.NeutrinoSample A) (k : nat) :
  counts_sum trials (S k)
  = Np.zipWith fadd (counts_sum trials k) (Likelihood.getEventCounts (trials k)).
Proof.
  unfold counts_sum; now rewrite seq_S, map_app, fold_left_app.
Qed.

Lemma counts_sum_length (trials : nat -> Likelihood.NeutrinoSample A) (k : nat) :
  shaped_trials trials -> length (counts_sum trials k) = Defaults.NEbin.
Proof.
  intros Hshaped; induction k as [|k IH].
  - apply repeat_length.
  - rewrite counts_sum_succ, zipWith_length; [exact IH|].
    rewrite IH; symmetry; apply Hshaped.
Qed.

(** The loop of [computeAtmophericEventDistribution], from its turn [k]. *)
Lemma atmospheric_loop (self : Likelihood.state A)
  (trials : nat -> Likelihood.NeutrinoSample A) (std sq : list (list A)) :
  copied_deviation self std sq -> shaped_trials trials ->
  forall n k,
    foldM (atmospheric_turn trials) (seq k n)
      (last_fed self trials std sq k,
       correlations trials k ++ repeat (Np.zeros2 Defaults.NEbin Defaults.NCL) n,
       counts_sum trials k)
    = ok (last_fed self trials std sq (k + n),
          correlations trials (k + n),
          counts_sum trials (k + n)).
Proof.
  intros Hcopied Hshaped; induction n as [|n IH]; intros k; cbn [seq foldM].
  - now rewrite app_nil_r, Nat.add_0_r.
  - unfold atmospheric_turn at 1.
    rewrite (inputData_fed (last_fed self trials std sq k) (trials k) std sq
               (copied_deviation_last_fed self trials std sq k Hcopied)).
    py_step; rewrite fed_last_fed; cbn [fed Likelihood.w_data]; py_step.
    change (3 * Defaults.NSIDE) with Defaults.NCL.
    rewrite <- (correlations_length trials k) at 2.
    rewrite (setslab_next _ _ n (proj1 (Hshaped k))); py_step.
    rewrite broadcast_same_length
      by (rewrite (counts_sum_length k Hshaped); symmetry; apply Hshaped).
    py_step.
    rewrite <- correlations_succ, <- counts_sum_succ.
    change (fed self (trials k) std sq) with (last_fed self trials std sq (S k)).
    replace (k + S n) with (S k + n) by lia; apply IH.
Qed.

Lemma astrophysical_loop (self : Likelihood.state A)
  (trials : nat -> Likelihood.NeutrinoSample A) (std sq : list (list A)) :
  copied_deviation self std sq -> shaped_trials trials ->
  forall n k,
    foldM (astrophysical_turn trials) (seq k n)
      (last_fed self trials std sq k,
       correlations trials k ++ repeat (Np.zeros2 Defaults.NEbin Defaults.NCL) n)
    = ok (last_fed self trials std sq (k + n), correlations trials (k + n)).
Proof.
  intros Hcopied Hshaped; induction n as [|n IH]; intros k; cbn [seq foldM].
  - now rewrite app_nil_r, Nat.add_0_r.
  - unfold astrophysical_turn at 1.
    rewrite (inputData_fed (last_fed self trials std sq k) (trials k) std sq
               (copied_deviation_last_fed self trials std sq k Hcopied)).
    py_step; rewrite fed_last_fed; cbn [fed Likelihood.w_data]; py_step.
    change (3 * Defaults.NSIDE) with Defaults.NCL.
    rewrite <- (correlations_length trials k) at 2.
    rewrite (setslab_next _ _ n (proj1 (Hshaped k))); py_step.
    rewrite <- correlations_succ.
    change (fed self (trials k) std sq) with (last_fed self trials std sq (S k)).
    replace (k + S n) with (S k + n) by lia; apply IH.
Qed.

Lemma sum_axis0_shape (rows cols : nat) (w : list (list (list A))) :
  Forall (matrix_shape rows cols) w -> matrix_shape rows cols (sum_axis0 rows cols w).
Proof.
  unfold sum_axis0; intros Hall.
  assert (Hzero : matrix_shape rows cols (Np.zeros2 (A := A) rows cols))
    by apply zeros_shape.
  revert Hzero; generalize (Np.zeros2 (A := A) rows cols) as acc.
  induction Hall as [|slab w Hslab _ IH]; intros acc Hacc; cbn [fold_left].
  - exact Hacc.
  - apply IH; now apply zipWith2_shape.
Qed.

Lemma mean_axis0_shape (rows cols : nat) (w : list (list (list A))) :
  Forall (matrix_shape rows cols) w -> matrix_shape rows cols (mean_axis0 rows cols w).
Proof.
  intros Hall; unfold mean_axis0.
  apply map_rows_shape; [intros r; apply over_length|].
  now apply sum_axis0_shape.
Qed.

Lemma std_axis0_shape (rows cols : nat) (w : list (list (list A))) :
  Forall (matrix_shape rows cols) w -> matrix_shape rows cols (std_axis0 rows cols w).
Proof.
  intros Hall; unfold std_axis0.
  apply map_rows_shape.
  - intros r; now rewrite length_map, over_length.
  - apply sum_axis0_shape.
    rewrite !Forall_map; eapply Forall_impl; [|exact Hall].
    intros slab Hslab; simpl in Hslab.
    apply square_shape, zipWith2_shape; [exact Hslab|].
    now apply mean_axis0_shape.
Qed.

Lemma computeAtmophericEventDistribution_value (self : Likelihood.state A)
  (trials : nat -> Likelihood.NeutrinoSample A) (std sq : list (list A)) (N_re : nat) :
  copied_deviation self std sq -> shaped_trials trials ->
  computeAtmophericEventDistribution self trials N_re
  = ok (let fed := last_fed self trials std sq N_re in
        let w_atm_std := std_axis0 Defaults.NEbin Defaults.NCL (correlations trials N_re) in
        {| Likelihood.Ebinmin := Likelihood.Ebinmin fed;
           Likelihood.Ebinmax := Likelihood.Ebinmax fed;
           Likelihood.lmin := Likelihood.lmin fed;
           Likelihood.w_model_f1 := Likelihood.w_model_f1 fed;
           Likelihood.w_atm_mean :=
             Some (mean_axis0 Defaults.NEbin Defaults.NCL (correlations trials N_re));
           Likelihood.w_atm_std := Some w_atm_std;
           Likelihood.w_atm_std_square := Some (map Np.square w_atm_std);
           Likelihood.w_data := Likelihood.w_data fed;
           Likelihood.Ncount := Likelihood.Ncount fed;
           Likelihood.w_std := Likelihood.w_std fed;
           Likelihood.w_std_square := Likelihood.w_std_square fed |},
        Np.over (counts_sum trials N_re) (fromZ (Z.of_nat N_re))).
Proof.
  intros Hcopied Hshaped; unfold computeAtmophericEventDistribution, range.
  rewrite Nat.sub_0_r.
  change (3 * Defaults.NSIDE) with Defaults.NCL.
  pose proof (@atmospheric_loop self trials std sq Hcopied Hshaped N_re 0) as Hloop.
  cbn [last_fed correlations seq map app counts_sum fold_left Nat.add] in Hloop.
  cbv zeta; rewrite Hloop; reflexivity.
Qed.

Lemma computeAstrophysicalEventDistribution_value (self : Likelihood.state A)
  (trials : nat -> Likelihood.NeutrinoSample A) (std sq : list (list A)) (N_re : nat) :
  copied_deviation self std sq -> shaped_trials trials ->
  computeAstrophysicalEventDistribution self trials N_re
  = ok (let fed := last_fed self trials std sq N_re in
        {| Likelihood.Ebinmin := Likelihood.Ebinmin fed;
           Likelihood.Ebinmax := Likelihood.Ebinmax fed;
           Likelihood.lmin := Likelihood.lmin fed;
           Likelihood.w_model_f1 :=
             mean_axis0 Defaults.NEbin Defaults.NCL (correlations trials N_re);
           Likelihood.w_atm_mean := Likelihood.w_atm_mean fed;
           Likelihood.w_atm_std := Likelihood.w_atm_std fed;
           Likelihood.w_atm_std_square := Likelihood.w_atm_std_square fed;
           Likelihood.w_data := Likelihood.w_data fed;
           Likelihood.Ncount := Likelihood.Ncount fed;
           Likelihood.w_std := Likelihood.w_std fed;
           Likelihood.w_std_square := Likelihood.w_std_square fed |},
        std_axis0 Defaults.NEbin Defaults.NCL (correlations trials N_re)).
Proof.
  intros Hcopied Hshaped; unfold computeAstrophysicalEventDistribution, range.
  rewrite Nat.sub_0_r.
  change (3 * Defaults.NSIDE) with Defaults.NCL.
  pose proof (@astrophysical_loop self trials std sq Hcopied Hshaped N_re 0) as Hloop.
  cbn [last_fed correlations seq map app Nat.add] in Hloop.
  cbv zeta; rewrite Hloop; reflexivity.
Qed.

(** X7: [computeAtmophericEventDistribution] on an engine that has no
    background deviation yet (the constructor calls it so), for trials of
    the shape of the arrays: it stores the mean and the deviation of the
    cross-correlations of the trials, of [NEbin] rows of [NCL] multipoles,
    and the square of the deviation; but the deviation [w_std] the
    likelihood divides by is still the array of zeros the last [inputData]
    of the loop installed, and the data are those of the last trial. *)
Theorem computeAtmophericEventDistribution_leaves_zero_deviation
  (self : Likelihood.state A) (trials : nat -> Likelihood.NeutrinoSample A)
  (N_re : nat) :
  Likelihood.w_atm_std self = None ->
  shaped_trials trials ->
  exists self' Ncount_atm mean std,
    computeAtmophericEventDistribution self trials N_re = ok (self', Ncount_atm)
    /\ mean = mean_axis0 Defaults.NEbin Defaults.NCL (correlations trials N_re)
    /\ std = std_axis0 Defaults.NEbin Defaults.NCL (correlations trials N_re)
    /\ Likelihood.w_atm_mean self' = Some mean
    /\ Likelihood.w_atm_std self' = Some std
    /\ Likelihood.w_atm_std_square self' = Some (map Np.square std)
    /\ matrix_shape Defaults.NEbin Defaults.NCL mean
    /\ matrix_shape Defaults.NEbin Defaults.NCL std
    /\ length Ncount_atm = Defaults.NEbin
    /\ (0 < N_re ->
        Likelihood.w_std self' = Some (Np.zeros2 Defaults.NEbin Defaults.NCL)
        /\ Likelihood.w_std_square self' = Some (Np.zeros2 Defaults.NEbin Defaults.NCL)
        /\ Likelihood.w_data self'
           = Some (Likelihood.getCrossCorrelation (trials (N_re - 1))))
    /\ (N_re = 0 ->
        Likelihood.w_std self' = Likelihood.w_std self
        /\ Likelihood.w_data self' = Likelihood.w_data self).
Proof.
  intros Hnone Hshaped.
  assert (Hcopied : copied_deviation self (Np.zeros2 Defaults.NEbin Defaults.NCL)
                      (Np.zeros2 Defaults.NEbin Defaults.NCL))
    by (unfold copied_deviation; rewrite Hnone; split; reflexivity).
  rewrite (@computeAtmophericEventDistribution_value self trials _ _ N_re Hcopied Hshaped).
  cbv zeta.
  eexists; eexists; eexists; eexists; split; [reflexivity|].
  split; [reflexivity|]; split; [reflexivity|].
  split; [reflexivity|]; split; [reflexivity|]; split; [reflexivity|].
  split; [apply mean_axis0_shape, correlations_shape, Hshaped|].
  split; [apply std_axis0_shape, correlations_shape, Hshaped|].
  split; [unfold Np.over; rewrite length_map; apply (counts_sum_length N_re Hshaped)|].
  split.
  - intros Hpos; destruct N_re as [|n]; [lia|].
    cbn [last_fed fed Likelihood.w_std Likelihood.w_std_square Likelihood.w_data].
    replace (S n - 1) with n by lia; repeat split.
  - intros ->; split; reflexivity.
Qed.

(** X8: the constructor that computes the templates, for masks inside the
    sky, a galaxy spectrum of [NCL] multipoles and trials of the shape of
    the arrays: the engine it returns holds data, those of the last of the
    signal trials, with the background mean and deviation of the
    background trials; the deviation [w_std] is that background deviation:
    the zeros the first stage left are replaced by the second stage; the
    signal template is the mean of the signal trials. *)
Theorem init_computes_templates (NPIXEL : nat) (idx_muon idx_galaxymask : list nat)
  (anafast : list nat -> list A)
  (atmospheric astrophysical : list nat -> nat -> Likelihood.NeutrinoSample A)
  (loaded : files A) (Ebinmin Ebinmax lmin : nat) :
  Forall (fun i => i < NPIXEL) idx_muon ->
  Forall (fun i => i < NPIXEL) idx_galaxymask ->
  (forall idx_mask, length (anafast idx_mask) = Defaults.NCL) ->
  (forall idx_mask, shaped_trials (atmospheric idx_mask)) ->
  (forall idx_mask, shaped_trials (astrophysical idx_mask)) ->
  Ebinmin <= Ebinmax <= Defaults.NEbin ->
  exists self idx atm std,
    __init__ NPIXEL idx_muon idx_galaxymask anafast atmospheric astrophysical
      loaded true Ebinmin Ebinmax lmin = ok self
    /\ idx = idx_mask self
    /\ atm = mean_axis0 Defaults.NEbin Defaults.NCL
               (correlations (atmospheric idx) LikelihoodSetup.N_re)
    /\ std = std_axis0 Defaults.NEbin Defaults.NCL
               (correlations (atmospheric idx) LikelihoodSetup.N_re)
    /\ Ready Defaults.NEbin Defaults.NCL (engine self) atm
         (Likelihood.getCrossCorrelation
            (astrophysical idx (LikelihoodSetup.N_re - 1))) std
    /\ Likelihood.w_atm_std (engine self) = Some std
    /\ Likelihood.w_model_f1 (engine self)
       = mean_axis0 Defaults.NEbin Defaults.NCL
           (correlations (astrophysical idx) LikelihoodSetup.N_re).
Proof.
  intros Hmuon Hgal Hspectrum Hatm Hastro Hbins; unfold __init__.
  assert (Hlast : LikelihoodSetup.N_re = S (LikelihoodSetup.N_re - 1)) by reflexivity.
  set (last := LikelihoodSetup.N_re - 1) in *; clearbody last; rewrite Hlast.
  rewrite (anafastMask_masked Hmuon Hgal); py_step.
  set (idx := filter (masked idx_muon idx_galaxymask) (seq 0 NPIXEL)).
  match goal with
  | |- context [calculate_w_mean ?spectrum ?fs] =>
      rewrite (calculate_w_mean_sized spectrum fs (Hspectrum _))
  end; py_step.
  match goal with
  | |- context [computeAtmophericEventDistribution ?s _ _] => set (self0 := s)
  end.
  assert (Hcopied : copied_deviation self0 (Np.zeros2 Defaults.NEbin Defaults.NCL)
                      (Np.zeros2 Defaults.NEbin Defaults.NCL))
    by (split; reflexivity).
  rewrite (@computeAtmophericEventDistribution_value self0 (atmospheric idx) _ _ (S last)
             Hcopied (Hatm idx)).
  cbv zeta; py_step.
  set (std := std_axis0 Defaults.NEbin Defaults.NCL (correlations (atmospheric idx) (S last))).
  set (atm := mean_axis0 Defaults.NEbin Defaults.NCL (correlations (atmospheric idx) (S last))).
  match goal with
  | |- context [computeAstrophysicalEventDistribution ?s _ _] => set (self1 := s)
  end.
  assert (Hcopied1 : copied_deviation self1 std (map Np.square std))
    by (split; reflexivity).
  rewrite (@computeAstrophysicalEventDistribution_value self1 (astrophysical idx) _ _ (S last)
             Hcopied1 (Hastro idx)).
  cbv zeta; py_step.
  eexists; exists idx, atm, std; split; [reflexivity|].
  split; [reflexivity|]; split; [reflexivity|]; split; [reflexivity|].
  split; [|split; reflexivity].
  constructor; try reflexivity.
  - apply mean_axis0_shape, correlations_shape, Hastro.
  - apply mean_axis0_shape, correlations_shape, Hatm.
  - apply Hastro.
  - apply std_axis0_shape, correlations_shape, Hatm.
  - exact Hbins.
Qed.

End TemplateDistributions.

Section ConstructorExamples.

Import Py Spec LikelihoodSetup Further.
Local Open Scope R_scope.

Lemma flat_sample_shaped (x : R) : shaped_trials (fun _ => MoreExamples.flat_sample x).
Proof.
  intros i; split; [apply repeat_shape|reflexivity].
Defined.

Lemma init_loads_templates_witness :
  exists self,
    __init__ 4 [3%nat] [1%nat; 3%nat] (fun _ => repeat 1 Defaults.NCL)
      (fun _ _ => MoreExamples.flat_sample 1) (fun _ _ => MoreExamples.flat_sample 1)
      MoreExamples.loaded false 0 1 50 = ok self
    /\ Constructed Defaults.NEbin Defaults.NCL (engine self)
         (chunks Defaults.NEbin Defaults.NCL (AtmMeanFname MoreExamples.loaded))
         (chunks Defaults.NEbin Defaults.NCL (AtmSTDFname MoreExamples.loaded))
    /\ Likelihood.w_model_f1 (engine self)
       = chunks Defaults.NEbin Defaults.NCL (AstroMeanFname MoreExamples.loaded)
    /\ concat (Likelihood.w_model_f1 (engine self)) = AstroMeanFname MoreExamples.loaded
    /\ Likelihood.w_data (engine self) = None
    /\ Likelihood.w_std (engine self) = None
    /\ Likelihood.w_std_square (engine self) = None
    /\ Ncount_atm self = AtmNcountsFname MoreExamples.loaded
    /\ (forall anafast' : list nat -> list R,
           (forall idx_mask, length (anafast' idx_mask) = Defaults.NCL) ->
           __init__ 4 [3%nat] [1%nat; 3%nat] anafast'
             (fun _ _ => MoreExamples.flat_sample 1)
             (fun _ _ => MoreExamples.flat_sample 1)
             MoreExamples.loaded false 0 1 50 = ok self).
Proof.
  apply (@init_loads_templates R _ _ 4%nat [3%nat] [1%nat; 3%nat]
           (fun _ => repeat 1 Defaults.NCL)
           (fun _ _ => MoreExamples.flat_sample 1)
           (fun _ _ => MoreExamples.flat_sample 1) MoreExamples.loaded 0%nat 1%nat 50%nat).
  - repeat constructor.
  - repeat constructor.
  - intros idx_mask; apply repeat_length.
  - apply repeat_length.
  - apply repeat_length.
  - reflexivity.
  - apply repeat_length.
  - apply repeat_length.
  - pose proof first_bin; lia.
Defined.

Lemma init_refuses_missized_file_witness :
  __init__ 4 [3%nat] [1%nat; 3%nat] (fun _ => repeat 1 Defaults.NCL)
    (fun _ _ => MoreExamples.flat_sample 1) (fun _ _ => MoreExamples.flat_sample 1)
    {| AtmSTDFname := [1; 2; 3];
       AtmMeanFname := [];
       AtmNcountsFname := [];
       AstroMeanFname := [];
       AstroSTDFname := [] |}
    false 0 1 50
  = raise ValueError.
Proof.
  apply (@init_refuses_missized_file R _ _ 4%nat [3%nat] [1%nat; 3%nat]
           (fun _ => repeat 1 Defaults.NCL)
           (fun _ _ => MoreExamples.flat_sample 1)
           (fun _ _ => MoreExamples.flat_sample 1)).
  - repeat constructor.
  - repeat constructor.
  - intros idx_mask; apply repeat_length.
  - cbn [AtmSTDFname length]; unfold Defaults.NEbin, Defaults.NCL, Defaults.NSIDE,
      Defaults.NEEdges; lia.
Defined.

Lemma computeAtmophericEventDistribution_leaves_zero_deviation_witness :
  exists self' Ncount_atm mean std,
    computeAtmophericEventDistribution MoreExamples.bare_engine
      (fun _ => MoreExamples.flat_sample 1) 2 = ok (self', Ncount_atm)
    /\ mean = mean_axis0 Defaults.NEbin Defaults.NCL
                (correlations (fun _ => MoreExamples.flat_sample 1) 2)
    /\ std = std_axis0 Defaults.NEbin Defaults.NCL
               (correlations (fun _ => MoreExamples.flat_sample 1) 2)
    /\ Likelihood.w_atm_mean self' = Some mean
    /\ Likelihood.w_atm_std self' = Some std
    /\ Likelihood.w_atm_std_square self' = Some (map Np.square std)
    /\ matrix_shape Defaults.NEbin Defaults.NCL mean
    /\ matrix_shape Defaults.NEbin Defaults.NCL std
    /\ length Ncount_atm = Defaults.NEbin
    /\ ((0 < 2)%nat ->
        Likelihood.w_std self' = Some (Np.zeros2 Defaults.NEbin Defaults.NCL)
        /\ Likelihood.w_std_square self' = Some (Np.zeros2 Defaults.NEbin Defaults.NCL)
        /\ Likelihood.w_data self'
           = Some (Likelihood.getCrossCorrelation (MoreExamples.flat_sample 1)))
    /\ (2%nat = 0%nat ->
        Likelihood.w_std self' = Likelihood.w_std MoreExamples.bare_engine
        /\ Likelihood.w_data self' = Likelihood.w_data MoreExamples.bare_engine).
Proof.
  apply (@computeAtmophericEventDistribution_leaves_zero_deviation R _ _
           MoreExamples.bare_engine (fun _ => MoreExamples.flat_sample 1) 2%nat).
  - reflexivity.
  - apply flat_sample_shaped.
Defined.

Lemma init_computes_templates_witness :
  exists self idx atm std,
    __init__ 4 [3%nat] [1%nat; 3%nat] (fun _ => repeat 1 Defaults.NCL)
      (fun _ _ => MoreExamples.flat_sample 1) (fun _ _ => MoreExamples.flat_sample 6)
      MoreExamples.loaded true 0 1 50 = ok self
    /\ idx = idx_mask self
    /\ atm = mean_axis0 Defaults.NEbin Defaults.NCL
               (correlations (fun _ => MoreExamples.flat_sample 1) LikelihoodSetup.N_re)
    /\ std = std_axis0 Defaults.NEbin Defaults.NCL
               (correlations (fun _ => MoreExamples.flat_sample 1) LikelihoodSetup.N_re)
    /\ Ready Defaults.NEbin Defaults.NCL (engine self) atm
         (Likelihood.getCrossCorrelation (MoreExamples.flat_sample 6)) std
    /\ Likelihood.w_atm_std (engine self) = Some std
    /\ Likelihood.w_model_f1 (engine self)
       = mean_axis0 Defaults.NEbin Defaults.NCL
           (correlations (fun _ => MoreExamples.flat_sample 6) LikelihoodSetup.N_re).
Proof.
  apply (@init_computes_templates R _ _ 4%nat [3%nat] [1%nat; 3%nat]
           (fun _ => repeat 1 Defaults.NCL)
           (fun _ _ => MoreExamples.flat_sample 1)
           (fun _ _ => MoreExamples.flat_sample 6) MoreExamples.loaded 0%nat 1%nat 50%nat).
  - repeat constructor.
  - repeat constructor.
  - intros idx_mask; apply repeat_length.
  - intros idx_mask; apply flat_sample_shaped.
  - intros idx_mask; apply flat_sample_shaped.
  - pose proof first_bin; lia.
Defined.

End ConstructorExamples.

(** ** An engine that has not been given data *)

Section WithoutData.

Import Py Spec.

Context {A : Type} `{Float A}.

(** X9: on an engine whose constructor loaded the templates and that has not
    been given data, the likelihood raises [AttributeError], the deviation
    [w_std] does not exist yet, and the closed-form fit raises [TypeError],
    the data are [None]. *)
Theorem engine_without_data_raises (nebin ncl : nat) (self : Likelihood.state A)
  (atm std : list (list A)) (f : A) (fs : list A) (energyBin : nat) :
  Constructed nebin ncl self atm std ->
  Likelihood.w_data self = None ->
  Likelihood.w_std self = None ->
  Likelihood.w_std_square self = None ->
  energyBin < nebin ->
  length fs = Likelihood.Ebinmax self - Likelihood.Ebinmin self ->
  Likelihood.log_likelihood_Ebin self f energyBin = raise AttributeError
  /\ Likelihood.chi_square_Ebin self f energyBin = raise AttributeError
  /\ Likelihood.log_likelihood self fs = raise AttributeError
  /\ (Likelihood.Ebinmin self < Likelihood.Ebinmax self ->
      Likelihood.minimize__lnL_analytic self = raise TypeError).
Proof.
  intros Hbuilt Hdata Hstd Hsq Hebin Hfs.
  destruct (built_bins Hbuilt) as [Hlo Hhi].
  destruct (getitem_row (built_model_shape Hbuilt) Hebin) as [Hmodel Hmodel_len].
  destruct (getitem_row (built_atm_shape Hbuilt) Hebin) as [Hatm Hatm_len].
  split; [|split; [|split]].
  - unfold Likelihood.log_likelihood_Ebin.
    rewrite Hmodel, (built_atm Hbuilt); py_step.
    rewrite Hatm; py_step; unfold Np.inplace.
    rewrite broadcast_to_left_same_length by (rewrite !times_length; congruence).
    py_step; now rewrite Hsq.
  - unfold Likelihood.chi_square_Ebin.
    rewrite Hmodel, (built_atm Hbuilt); py_step.
    rewrite Hatm; py_step; unfold Np.inplace.
    rewrite broadcast_to_left_same_length by (rewrite !times_length; congruence).
    py_step; now rewrite Hsq.
  - unfold Likelihood.log_likelihood; cbv zeta.
    pose proof (slice_shape (built_model_shape Hbuilt) Hlo Hhi) as Hmodels.
    pose proof (slice_shape (built_atm_shape Hbuilt) Hlo Hhi) as Hatms.
    rewrite broadcast_same_length by (rewrite Hfs; apply Hmodels).
    rewrite (built_atm Hbuilt); py_step.
    rewrite broadcast_same_length by (rewrite Hfs; apply Hatms).
    py_step.
    rewrite (@inplace2_shaped _ _ fadd (Likelihood.Ebinmax self - Likelihood.Ebinmin self)
               ncl)
      by (apply zipWith_rows_shape; auto; intros; apply times_length).
    py_step; now rewrite Hstd.
  - intros Hbins; unfold Likelihood.minimize__lnL_analytic.
    replace (Likelihood.Ebinmax self <? Likelihood.Ebinmin self) with false
      by (symmetry; apply Nat.ltb_ge; lia).
    unfold range.
    destruct (Likelihood.Ebinmax self - Likelihood.Ebinmin self) as [|n] eqn:Hn; [lia|].
    cbn [seq mapM]; unfold Likelihood.analytic_fraction at 1.
    assert (Hfirst : Likelihood.Ebinmin self < nebin) by lia.
    destruct (getitem_row (built_model_shape Hbuilt) Hfirst) as [-> _]; py_step.
    now rewrite Hdata.
Qed.

End WithoutData.

Section WithoutDataExample.

Import Py Spec.

Lemma engine_without_data_raises_witness :
  Likelihood.log_likelihood_Ebin Examples.warm_engine (Fin (1 # 2)) 0
  = raise AttributeError
  /\ Likelihood.chi_square_Ebin Examples.warm_engine (Fin (1 # 2)) 0
     = raise AttributeError
  /\ Likelihood.log_likelihood Examples.warm_engine [Fin (1 # 2)] = raise AttributeError
  /\ (0 < 1 -> Likelihood.minimize__lnL_analytic Examples.warm_engine = raise TypeError).
Proof.
  apply (@engine_without_data_raises xfloat _ Defaults.NEbin Defaults.NCL
           Examples.warm_engine (Examples.flat (Fin 0)) (Examples.flat (Fin 2))
           (Fin (1 # 2)) [Fin (1 # 2)] 0 warm_engine_constructed);
    try reflexivity.
  apply first_bin.
Defined.

End WithoutDataExample.

(** ** Fraction vectors of other lengths *)

Section FractionVectors.

Import Py Spec.

Context {A : Type} `{Float A}.

Lemma broadcast_row_scalar {X Y Z : Type} (op : X -> Y -> Z) (rows : list X) (y : Y) :
  Np.broadcast op rows [y] = ok (map (fun r => op r y) rows).
Proof. destruct rows as [|r [|r' rows]]; reflexivity. Qed.

Lemma broadcast_scalar_rows {X Y Z : Type} (op : X -> Y -> Z) (x : X) (ys : list Y) :
  Np.broadcast op [x] ys = ok (map (op x) ys).
Proof. reflexivity. Qed.

Lemma zipWith_repeat_r {X Y Z : Type} (op : X -> Y -> Z) (rows : list X) (y : Y) :
  Np.zipWith op rows (repeat y (length rows)) = map (fun r => op r y) rows.
Proof. induction rows as [|r rows IH]; simpl; auto; now rewrite IH. Qed.

Lemma slice_length {X : Type} (m : list X) (lo hi : nat) :
  hi <= length m -> length (slice m lo hi) = hi - lo.
Proof.
  intros Hhi; unfold slice; rewrite length_firstn, length_skipn; lia.
Qed.

Lemma log_likelihood_refuses_length (self : Likelihood.state A) (fs : list A) :
  Likelihood.Ebinmax self <= length (Likelihood.w_model_f1 self) ->
  length fs <> Likelihood.Ebinmax self - Likelihood.Ebinmin self ->
  length fs <> 1 ->
  Likelihood.Ebinmax self - Likelihood.Ebinmin self <> 1 ->
  Likelihood.log_likelihood self fs = raise ValueError.
Proof.
  intros Hmodel Hlen Hone Hbins; unfold Likelihood.log_likelihood; cbv zeta.
  pose proof (slice_length (Likelihood.w_model_f1 self) (Likelihood.Ebinmin self) Hmodel)
    as Hrows.
  unfold Np.broadcast at 1.
  destruct (slice (Likelihood.w_model_f1 self) (Likelihood.Ebinmin self)
              (Likelihood.Ebinmax self)) as [|r [|r' rows]];
    destruct fs as [|g [|g' fs]];
    cbn [length] in *; try congruence;
    match goal with
    | |- context [?a =? ?b] => destruct (Nat.eqb_spec a b); [lia|reflexivity]
    end.
Qed.

(** X10: the length of the fraction vector [log_likelihood] accepts.  A
    vector of one fraction is broadcast: the fraction is shared by all the
    energy bins; a vector that has neither one entry nor one entry per
    energy bin raises [ValueError] when the engine has more than one energy
    bin. *)
Theorem log_likelihood_broadcasts_fraction (self : Likelihood.state A) :
  Likelihood.Ebinmax self <= length (Likelihood.w_model_f1 self) ->
  (forall f,
      (forall atm, Likelihood.w_atm_mean self = Some atm ->
                   Likelihood.Ebinmax self <= length atm) ->
      Likelihood.log_likelihood self [f]
      = Likelihood.log_likelihood self
          (repeat f (Likelihood.Ebinmax self - Likelihood.Ebinmin self)))
  /\ (forall fs,
         length fs <> Likelihood.Ebinmax self - Likelihood.Ebinmin self ->
         length fs <> 1 ->
         Likelihood.Ebinmax self - Likelihood.Ebinmin self <> 1 ->
         Likelihood.log_likelihood self fs = raise ValueError).
Proof.
  intros Hmodel; split.
  - intros f Hatm; unfold Likelihood.log_likelihood; cbv zeta.
    rewrite broadcast_row_scalar.
    rewrite <- (slice_length (Likelihood.w_model_f1 self) (Likelihood.Ebinmin self) Hmodel)
      at 1.
    rewrite broadcast_same_length by (now rewrite repeat_length).
    rewrite zipWith_repeat_r; py_step.
    destruct (Likelihood.w_atm_mean self) as [atm|]; [|reflexivity]; py_step.
    rewrite broadcast_row_scalar.
    rewrite <- (slice_length atm (Likelihood.Ebinmin self) (Hatm atm eq_refl)).
    rewrite broadcast_same_length by (now rewrite repeat_length).
    now rewrite zipWith_repeat_r.
  - intros fs; now apply log_likelihood_refuses_length.
Qed.

End FractionVectors.

Section FractionVectorExamples.

Import Py Spec.
Local Open Scope R_scope.

Lemma log_likelihood_broadcasts_fraction_witness :
  (forall f,
      (forall atm, Likelihood.w_atm_mean Examples.engine = Some atm ->
                   (2 <= length atm)%nat) ->
      Likelihood.log_likelihood Examples.engine [f]
      = Likelihood.log_likelihood Examples.engine (repeat f (2 - 0)))
  /\ (forall fs,
         length fs <> (2 - 0)%nat -> length fs <> 1%nat -> (2 - 0)%nat <> 1%nat ->
         Likelihood.log_likelihood Examples.engine fs = raise ValueError).
Proof.
  apply (@log_likelihood_broadcasts_fraction R _ Examples.engine).
  simpl; lia.
Defined.

End FractionVectorExamples.

(** ** The fit with a free spectral index *)

Section FreeIndex.

Import Py Spec LikelihoodFits.
Local Open Scope R_scope.
Local Open Scope py_scope.

Lemma mapM_id_map {X Y : Type} (g : X -> result Y) (h : X -> Y) (l : list X) :
  (forall x, In x l -> g x = ok (h x)) ->
  mapM (fun r => r) (map g l) = ok (map h l).
Proof.
  induction l as [|x l IH]; intros Hgh; simpl; auto.
  rewrite (Hgh x) by (now left); py_step.
  rewrite IH; auto; intros y Hy; apply Hgh; now right.
Qed.

Lemma map_shape {X Y : Type} (g : X -> list Y) (c : nat) (l : list X) :
  (forall x, length (g x) = c) -> matrix_shape (length l) c (map g l).
Proof.
  intros Hg; split; [apply length_map|].
  apply Forall_map, Forall_forall; intros x _; apply Hg.
Qed.

Lemma zipWith_map_map {X Y Z W : Type} (op : Y -> Z -> W) (g : X -> Y) (h : X -> Z)
  (l : list X) :
  Np.zipWith op (map g l) (map h l) = map (fun x => op (g x) (h x)) l.
Proof. induction l as [|x l IH]; simpl; auto; now rewrite IH. Qed.

(** [log_likelihood] on an engine that holds data and has one energy bin,
    for any number of fractions: every fraction is tried on the bin. *)
Lemma log_likelihood_single_bin (nebin ncl : nat) (self : Likelihood.state R)
  (atm data std : list (list R)) (fs : list R) :
  Ready nebin ncl self atm data std ->
  Likelihood.Ebinmax self = S (Likelihood.Ebinmin self) ->
  Likelihood.log_likelihood self fs
  = ok (Rsum (map (fun g =>
                     Np.sum (skipn (Likelihood.lmin self)
                               (lnL_row g
                                  (row (Likelihood.w_model_f1 self) (Likelihood.Ebinmin self))
                                  (row atm (Likelihood.Ebinmin self))
                                  (row data (Likelihood.Ebinmin self))
                                  (Np.square (row std (Likelihood.Ebinmin self))))))
                fs)).
Proof.
  intros Hready Hone.
  destruct (bins_in_range Hready) as [Hlo Hhi].
  assert (Hbin : (Likelihood.Ebinmin self < nebin)%nat) by lia.
  assert (Hrange : range (Likelihood.Ebinmin self) (Likelihood.Ebinmax self)
                   = [Likelihood.Ebinmin self]).
  { unfold range; rewrite Hone.
    replace (S (Likelihood.Ebinmin self) - Likelihood.Ebinmin self)%nat with 1%nat by lia.
    reflexivity. }
  destruct (getitem_row (model_shape Hready) Hbin) as [_ Hmodel].
  destruct (getitem_row (atm_shape Hready) Hbin) as [_ Hatm].
  destruct (getitem_row (data_shape Hready) Hbin) as [_ Hdata].
  destruct (getitem_row (std_shape Hready) Hbin) as [_ Hstd].
  unfold Likelihood.log_likelihood; cbv zeta.
  rewrite (slice_rows (model_shape Hready) Hlo Hhi), Hrange.
  rewrite (has_atm Hready); py_step.
  rewrite (slice_rows (atm_shape Hready) Hlo Hhi), Hrange.
  rewrite (has_std Hready), (has_data Hready); py_step.
  rewrite (slice_rows (std_shape Hready) Hlo Hhi), Hrange.
  rewrite (slice_rows (data_shape Hready) Hlo Hhi), Hrange.
  cbn [map].
  set (m := row (Likelihood.w_model_f1 self) (Likelihood.Ebinmin self)) in *.
  set (a := row atm (Likelihood.Ebinmin self)) in *.
  set (d := row data (Likelihood.Ebinmin self)) in *.
  set (s := row std (Likelihood.Ebinmin self)) in *.
  rewrite !broadcast_scalar_rows; py_step.
  rewrite (@inplace2_shaped _ _ Rplus (length fs) ncl)
    by (apply map_shape; intros g; rewrite times_length; assumption).
  py_step; rewrite zipWith_map_map.
  unfold Np.broadcast2.
  rewrite broadcast_scalar_rows; py_step.
  rewrite map_map.
  rewrite (mapM_id_map _ (fun g => Np.zipWith Rminus d (mixture g m a))).
  2:{ intros g _; apply broadcast_same_length.
      rewrite mixture_length; congruence. }
  py_step; rewrite map_map.
  rewrite broadcast_row_scalar; py_step.
  rewrite map_map.
  rewrite (mapM_id_map _ (fun g =>
             Np.zipWith Rdiv
               (Np.negate (Np.square (Np.zipWith Rminus d (mixture g m a))))
               (Np.square s))).
  2:{ intros g _; apply broadcast_same_length.
      rewrite negate_length, !square_length, zipWith_length;
        rewrite ?mixture_length; congruence. }
  py_step; rewrite !map_map, sum2_Rsum, map_map.
  reflexivity.
Qed.

Lemma bounds_free_index_value {A : Type} `{Float A} (len_f : nat) :
  bounds_free_index len_f
  = ok (repeat (fromZ (-4), fromZ 4) len_f
        ++ [(SpectralIndices.fromQ (3 # 2), SpectralIndices.fromQ 4)]).
Proof.
  unfold bounds_free_index.
  replace (SpectralIndices.min SpectralIndices.GAMMAS) with (@ok Q (3 # 2)%Q)
    by (vm_compute; reflexivity).
  replace (SpectralIndices.max SpectralIndices.GAMMAS) with (@ok Q 4%Q)
    by (vm_compute; reflexivity).
  reflexivity.
Qed.

(** X11: [minimize__lnL_free_index] hands [log_likelihood] a vector that has
    one entry more than the engine has energy bins, the spectral index.
    With two energy bins or more every call raises: the fit never returns.
    With one energy bin the vector is broadcast against the bin: the test
    statistic is twice the difference between the sum, over the entries of
    the solution, the index among them, of the log-likelihood of the bin at
    the entry taken as a fraction, and the log-likelihood at the fraction 0
    plus that at the fraction 2.5. *)
Theorem minimize__lnL_free_index_takes_index_as_fraction (numerics : Numerics R)
  (nebin ncl : nat) (self : Likelihood.state R) (atm data std : list (list R)) :
  Ready nebin ncl self atm data std ->
  ((2 <= Likelihood.Ebinmax self - Likelihood.Ebinmin self)%nat ->
   Likelihood.log_likelihood self
     (null_x (Likelihood.Ebinmax self - Likelihood.Ebinmin self))
   = raise ValueError
   /\ exists e, minimize__lnL_free_index self = raise e)
  /\ (Likelihood.Ebinmax self = S (Likelihood.Ebinmin self) ->
      exists lnL : R -> R,
        (forall g, Likelihood.log_likelihood_Ebin self g (Likelihood.Ebinmin self)
                   = ok (lnL g))
        /\ forall bounds soln,
            bounds_free_index 1 = ok bounds ->
            minimize (Likelihood.nll self) (initial_free_index 1) bounds = ok soln ->
            minimize__lnL_free_index self
            = ok (x soln,
                  (Rsum (map lnL (x soln)) - (lnL 0 + lnL (25 / 10))) * 2)).
Proof.
  intros Hready.
  destruct (bins_in_range Hready) as [Hlo Hhi].
  split.
  - intros Hbins.
    assert (Hnull : Likelihood.log_likelihood self
                      (null_x (Likelihood.Ebinmax self - Likelihood.Ebinmin self))
                    = raise ValueError).
    { apply log_likelihood_refuses_length.
      - destruct (model_shape Hready) as [-> _]; exact Hhi.
      - unfold null_x; rewrite length_app, repeat_length; simpl; lia.
      - unfold null_x; rewrite length_app, repeat_length; simpl; lia.
      - lia. }
    split; [exact Hnull|].
    unfold minimize__lnL_free_index.
    replace (Likelihood.Ebinmax self <? Likelihood.Ebinmin self)%nat with false
      by (symmetry; apply Nat.ltb_ge; exact Hlo).
    rewrite bounds_free_index_value; py_step.
    destruct (minimize _ _ _) as [e|soln]; [now exists e|]; py_step.
    destruct (Likelihood.log_likelihood self (x soln)) as [e|at_x]; [now exists e|].
    py_step; rewrite Hnull; now exists ValueError.
  - intros Hone.
    assert (Hbin : (Likelihood.Ebinmin self < nebin)%nat) by lia.
    eexists; split.
    + intros g; apply (log_likelihood_Ebin_ready g Hready Hbin).
    + intros bounds soln Hbounds Hsoln.
      unfold minimize__lnL_free_index.
      replace (Likelihood.Ebinmax self <? Likelihood.Ebinmin self)%nat with false
        by (symmetry; apply Nat.ltb_ge; exact Hlo).
      replace (Likelihood.Ebinmax self - Likelihood.Ebinmin self)%nat with 1%nat by lia.
      rewrite Hbounds; py_step; rewrite Hsoln; py_step.
      rewrite !(log_likelihood_single_bin _ Hready Hone); py_step.
      f_equal; f_equal.
      unfold null_x, SpectralIndices.fromQ, Rsum; cbn [repeat app map fold_right Qnum Qden].
      real_ops; ring.
Qed.

End FreeIndex.

Section FreeIndexExamples.

Import Py Spec LikelihoodFits.
Local Open Scope R_scope.

Lemma unit_engine_ready : Ready 1 1 Examples.unit_engine [[0]] [[0]] [[1]].
Proof.
  constructor; try reflexivity;
    try (split; [reflexivity | repeat constructor]).
  simpl; lia.
Defined.

Lemma minimize__lnL_free_index_takes_index_as_fraction_witness :
  ((2 <= 2 - 0)%nat ->
   Likelihood.log_likelihood Examples.engine (null_x (2 - 0)) = raise ValueError
   /\ exists e,
       @minimize__lnL_free_index R _ (Examples.fixed_numerics [1 / 2; 3]) Examples.engine
       = raise e)
  /\ (1%nat = 1%nat ->
      exists lnL : R -> R,
        (forall g, Likelihood.log_likelihood_Ebin Examples.unit_engine g 0 = ok (lnL g))
        /\ forall bounds soln,
            bounds_free_index 1 = ok bounds ->
            @minimize R (Examples.fixed_numerics [1 / 2; 3])
              (Likelihood.nll Examples.unit_engine)
              (@initial_free_index R _ (Examples.fixed_numerics [1 / 2; 3]) 1) bounds
            = ok soln ->
            @minimize__lnL_free_index R _ (Examples.fixed_numerics [1 / 2; 3])
              Examples.unit_engine
            = ok (x soln, (Rsum (map lnL (x soln)) - (lnL 0 + lnL (25 / 10))) * 2)).
Proof.
  split.
  - apply (proj1 (@minimize__lnL_free_index_takes_index_as_fraction
                    (Examples.fixed_numerics [1 / 2; 3]) 2%nat 3%nat Examples.engine
                    [[0; 0; 0]; [0; 0; 0]] [[1; 2; 3]; [5; 5; 5]] Examples.engine_std
                    engine_ready)).
  - apply (proj2 (@minimize__lnL_free_index_takes_index_as_fraction
                    (Examples.fixed_numerics [1 / 2; 3]) 1%nat 1%nat Examples.unit_engine
                    [[0]] [[0]] [[1]] unit_engine_ready)).
Defined.

End FreeIndexExamples.

(** ** The closed-form fit: its test statistic and the fractions it recovers *)

Section ClosedFormFit.

Import Py Spec.
Local Open Scope R_scope.
Local Open Scope py_scope.

Lemma lnL_row_residuals (n lmin : nat) (g : R) (model atm data std : list R) :
  length model = n -> length atm = n -> length data = n -> length std = n ->
  Np.sum (skipn lmin (lnL_row g model atm data (Np.square std)))
  = - Rsum (map (residual_term g) (multipoles lmin model atm data std)) / 2.
Proof.
  intros Hmodel Hatm Hdata Hstd.
  rewrite lnL_row_quadratic.
  pose proof (@skipn_length_eq _ lmin _ _ Hmodel) as Hs.
  pose proof (@skipn_length_eq _ lmin _ _ Hatm) as Hb.
  pose proof (@skipn_length_eq _ lmin _ _ Hdata) as Hd.
  pose proof (@skipn_length_eq _ lmin _ _ Hstd) as Hsg.
  replace (skipn lmin (mixture g model atm))
    with (mixture g (skipn lmin model) (skipn lmin atm))
    by (unfold mixture, Np.times; now rewrite skipn_zipWith, !skipn_map).
  replace (skipn lmin (Np.square std)) with (Np.square (skipn lmin std))
    by (unfold Np.square; now rewrite skipn_map).
  rewrite (@residual_zip4 _ g _ _ _ _ Hs Hb Hd Hsg).
  reflexivity.
Qed.

Lemma combine_map_self {X Y : Type} (g : X -> Y) (l : list X) :
  combine (map g l) l = map (fun e => (g e, e)) l.
Proof. induction l as [|e l IH]; simpl; auto; now rewrite IH. Qed.

(** The log-likelihood of the fractions [g ebin] of the configured energy
    bins: minus half the quadratic forms of the residuals of the bins. *)
Lemma log_likelihood_of_bins (nebin ncl : nat) (self : Likelihood.state R)
  (atm data std : list (list R)) (g : nat -> R) :
  Ready nebin ncl self atm data std ->
  Likelihood.log_likelihood self
    (map g (range (Likelihood.Ebinmin self) (Likelihood.Ebinmax self)))
  = ok (Rsum (map (fun ebin =>
                     - Rsum (map (residual_term (g ebin))
                               (multipoles (Likelihood.lmin self)
                                  (row (Likelihood.w_model_f1 self) ebin) (row atm ebin)
                                  (row data ebin) (row std ebin))) / 2)
                (range (Likelihood.Ebinmin self) (Likelihood.Ebinmax self)))).
Proof.
  intros Hready.
  destruct (bins_in_range Hready) as [Hlo Hhi].
  rewrite (log_likelihood_ready _ Hready)
    by (unfold range; now rewrite length_map, length_seq).
  f_equal.
  rewrite (slice_rows (model_shape Hready)), (slice_rows (atm_shape Hready)),
    (slice_rows (data_shape Hready)), (slice_rows (std_shape Hready)); auto.
  rewrite lnL_rows_of_bins, sum2_Rsum, !map_map, combine_map_self, map_map.
  apply Rsum_map_ext; intros ebin Hin; cbn [fst snd].
  unfold range in Hin; apply in_seq in Hin.
  assert (Hebin : (ebin < nebin)%nat) by lia.
  destruct (getitem_row (model_shape Hready) Hebin) as [_ Hmodel].
  destruct (getitem_row (atm_shape Hready) Hebin) as [_ Hatm].
  destruct (getitem_row (data_shape Hready) Hebin) as [_ Hdata].
  destruct (getitem_row (std_shape Hready) Hebin) as [_ Hstd].
  apply (@lnL_row_residuals ncl _ _ _ _ _ _ Hmodel Hatm Hdata Hstd).
Qed.

Lemma zeros_as_map (lo hi : nat) :
  Np.zeros (A := R) (hi - lo) = map (fun _ => 0) (range lo hi).
Proof.
  unfold Np.zeros, range; generalize (hi - lo)%nat as n; intros n; revert lo.
  induction n as [|n IH]; intros lo; cbn [repeat seq map]; auto.
  f_equal; apply IH.
Qed.

Lemma Rsum_map_minus {X : Type} (g h : X -> R) (l : list X) :
  Rsum (map g l) - Rsum (map h l) = Rsum (map (fun x => g x - h x) l).
Proof. induction l as [|x l IH]; simpl; [ring | rewrite <- IH; ring]. Qed.

Lemma Rsum_zero_iff (a : list R) :
  Forall (fun x => 0 <= x) a -> (Rsum a = 0 <-> Forall (fun x => x = 0) a).
Proof.
  induction 1 as [|x a Hx Ha IH]; simpl.
  - split; [constructor|reflexivity].
  - pose proof (Rsum_nonneg Ha) as Hsum.
    rewrite Forall_cons_iff, <- IH; split; [intros ?; split|intros [? ?]]; lra.
Qed.

(** The value of [minimize__lnL_analytic] on a well-posed engine that holds
    data. *)
Lemma minimize__lnL_analytic_value (nebin ncl : nat) (self : Likelihood.state R)
  (atm data std : list (list R)) :
  Ready nebin ncl self atm data std ->
  (forall ebin,
      (Likelihood.Ebinmin self <= ebin < Likelihood.Ebinmax self)%nat ->
      well_posed (multipoles (Likelihood.lmin self)
                    (row (Likelihood.w_model_f1 self) ebin) (row atm ebin)
                    (row data ebin) (row std ebin))) ->
  let ms := fun ebin =>
    multipoles (Likelihood.lmin self) (row (Likelihood.w_model_f1 self) ebin)
      (row atm ebin) (row data ebin) (row std ebin) in
  let fhat := fun ebin => Rsum (map num_term (ms ebin)) / Rsum (map den_term (ms ebin)) in
  Likelihood.minimize__lnL_analytic self
  = ok (map fhat (range (Likelihood.Ebinmin self) (Likelihood.Ebinmax self)),
        Rsum (map (fun ebin => Rsum (map den_term (ms ebin)) * (fhat ebin * fhat ebin))
                (range (Likelihood.Ebinmin self) (Likelihood.Ebinmax self)))).
Proof.
  intros Hready Hposed ms fhat.
  destruct (bins_in_range Hready) as [Hlo Hhi].
  set (lo := Likelihood.Ebinmin self) in *.
  set (hi := Likelihood.Ebinmax self) in *.
  assert (Hf : mapM (Likelihood.analytic_fraction self) (range lo hi)
               = ok (map fhat (range lo hi))).
  { apply mapM_ok_map; intros ebin Hin.
    unfold range in Hin; apply in_seq in Hin.
    rewrite (analytic_fraction_ready Hready) by lia; reflexivity. }
  unfold Likelihood.minimize__lnL_analytic; fold lo hi.
  replace (hi <? lo)%nat with false by (symmetry; apply Nat.ltb_ge; exact Hlo).
  rewrite Hf; py_step.
  unfold lo, hi; rewrite (log_likelihood_of_bins fhat Hready); py_step.
  rewrite zeros_as_map, (log_likelihood_of_bins (fun _ => 0) Hready); py_step.
  fold lo hi; f_equal; f_equal; real_ops.
  rewrite Rsum_map_minus, <- Rsum_map_scal.
  apply Rsum_map_ext; intros ebin Hin.
  unfold range in Hin; apply in_seq in Hin.
  fold (ms ebin).
  assert (Hden : 0 < Rsum (map den_term (ms ebin)))
    by (apply denominator_positive, Hposed; unfold lo, hi in *; lia).
  assert (Hne : Rsum (map den_term (ms ebin)) <> 0) by lra.
  pose proof (residual_completed_square 0 (ms ebin) Hne) as Hsq; cbv zeta in Hsq.
  fold (fhat ebin) in Hsq; rewrite Hsq; field.
Qed.


Lemma mixture_cons (g s b : R) (model atm : list R) :
  mixture g (s :: model) (b :: atm) = (s * g + b * (1 - g)) :: mixture g model atm.
Proof. reflexivity. Qed.

Lemma numerator_of_mixture (g : R) (model atm std : list R) :
  Rsum (map num_term (zip4 model atm (mixture g model atm) std))
  = g * Rsum (map den_term (zip4 model atm (mixture g model atm) std)).
Proof.
  revert atm std; induction model as [|s model IH]; intros [|b atm] [|sg std];
    try (simpl; ring).
  rewrite mixture_cons; cbn [zip4 map Rsum fold_right num_term den_term].
  fold (Rsum (map num_term (zip4 model atm (mixture g model atm) std))).
  fold (Rsum (map den_term (zip4 model atm (mixture g model atm) std))).
  rewrite IH; unfold Rdiv; ring.
Qed.

(** X13: the closed-form fit recovers the fractions of a spectrum without
    noise: when the observed spectrum of every energy bin is, from [lmin]
    on, the mixture [g * signal + (1 - g) * background] for a fraction [g]
    of the bin, [minimize__lnL_analytic] returns these fractions. *)
Theorem minimize__lnL_analytic_recovers_fractions
  (nebin ncl : nat) (self : Likelihood.state R) (atm data std : list (list R))
  (g : nat -> R) :
  Ready nebin ncl self atm data std ->
  (forall ebin,
      (Likelihood.Ebinmin self <= ebin < Likelihood.Ebinmax self)%nat ->
      well_posed (multipoles (Likelihood.lmin self)
                    (row (Likelihood.w_model_f1 self) ebin) (row atm ebin)
                    (row data ebin) (row std ebin))) ->
  (forall ebin,
      (Likelihood.Ebinmin self <= ebin < Likelihood.Ebinmax self)%nat ->
      skipn (Likelihood.lmin self) (row data ebin)
      = skipn (Likelihood.lmin self)
          (mixture (g ebin) (row (Likelihood.w_model_f1 self) ebin) (row atm ebin))) ->
  exists ts,
    Likelihood.minimize__lnL_analytic self
    = ok (map g (range (Likelihood.Ebinmin self) (Likelihood.Ebinmax self)), ts).
Proof.
  intros Hready Hposed Hdata.
  rewrite (minimize__lnL_analytic_value Hready Hposed); cbv zeta.
  eexists; f_equal; f_equal.
  apply map_ext_in; intros ebin Hin.
  unfold range in Hin; apply in_seq in Hin.
  assert (Hbin : (Likelihood.Ebinmin self <= ebin < Likelihood.Ebinmax self)%nat) by lia.
  pose proof (denominator_positive (Hposed ebin Hbin)) as Hden.
  unfold multipoles in *; rewrite (Hdata ebin Hbin) in *.
  replace (skipn (Likelihood.lmin self)
             (mixture (g ebin) (row (Likelihood.w_model_f1 self) ebin) (row atm ebin)))
    with (mixture (g ebin) (skipn (Likelihood.lmin self)
                              (row (Likelihood.w_model_f1 self) ebin))
            (skipn (Likelihood.lmin self) (row atm ebin))) in *
    by (unfold mixture, Np.times; now rewrite skipn_zipWith, !skipn_map).
  rewrite numerator_of_mixture; field; lra.
Qed.

End ClosedFormFit.

Section ClosedFormFitExamples.

Import Py Spec.
Local Open Scope R_scope.


Lemma injected_ready : Ready 1 2 MoreExamples.injected [[0; 0]] [[1; 2]] [[1; 1]].
Proof.
  constructor; try reflexivity;
    try (split; [reflexivity | repeat constructor]).
  simpl; lia.
Defined.

Lemma injected_well_posed (ebin : nat) :
  (0 <= ebin < 1)%nat ->
  well_posed (multipoles 0 (row [[4; 8]] ebin) (row [[0; 0]] ebin)
                (row [[1; 2]] ebin) (row [[1; 1]] ebin)).
Proof.
  intros Hebin; destruct ebin as [|ebin]; [|lia].
  split; simpl; repeat constructor; lra.
Defined.

Lemma injected_is_mixture (ebin : nat) :
  (0 <= ebin < 1)%nat ->
  skipn 0 (row [[1; 2]] ebin)
  = skipn 0 (mixture ((fun _ => 1 / 4) ebin) (row [[4; 8]] ebin) (row [[0; 0]] ebin)).
Proof.
  intros Hebin; destruct ebin as [|ebin]; [|lia].
  unfold mixture, row; simpl; real_ops.
  replace (4 * (1 / 4) + 0 * (1 - 1 / 4)) with 1 by field.
  replace (8 * (1 / 4) + 0 * (1 - 1 / 4)) with 2 by field.
  reflexivity.
Defined.

Lemma minimize__lnL_analytic_recovers_fractions_witness :
  exists ts,
    Likelihood.minimize__lnL_analytic MoreExamples.injected
    = ok (map (fun _ => 1 / 4) (range 0 1), ts).
Proof.
  exact (@minimize__lnL_analytic_recovers_fractions 1 2 MoreExamples.injected
           [[0; 0]] [[1; 2]] [[1; 1]] (fun _ => 1 / 4)
           injected_ready injected_well_posed injected_is_mixture).
Defined.

End ClosedFormFitExamples.

(** ** The significance of a set of chi values *)

Section SignificanceFromChi.

Import Py Spec.
Local Open Scope R_scope.

Lemma squares_sum (chi : list R) :
  Np.sum (Np.zipWith Rmult chi chi) = Rsum (map (fun c => c * c) chi).
Proof.
  rewrite sum_Rsum; f_equal.
  induction chi as [|c chi IH]; simpl; auto; now rewrite IH.
Qed.

Lemma squares_length (chi : list R) : length (Np.zipWith Rmult chi chi) = length chi.
Proof. now apply zipWith_length. Qed.

Lemma squares_nonneg (chi : list R) :
  Forall (fun t => 0 <= t) (map (fun c => c * c) chi).
Proof. apply Forall_map, Forall_forall; intros c _; apply (Rle_0_sqr c). Qed.

(** X14: for distribution functions with the properties of the chi-square
    survival function and of the normal inverse survival function, the
    significance of a non-empty set of chi values is never negative, is zero
    exactly when every chi value is zero, and does not depend on the signs
    of the chi values. *)
Theorem significance_from_chi_nonnegative (st : Stats R) (chi : list R) :
  distribution_laws st ->
  chi <> [] ->
  0 <= Likelihood.significance_from_chi chi
  /\ (Likelihood.significance_from_chi chi = 0 <-> Forall (fun c => c = 0) chi)
  /\ Likelihood.significance_from_chi (map Ropp chi)
     = Likelihood.significance_from_chi chi.
Proof.
  intros Hlaws Hne.
  assert (Hdof : (0 < length chi)%nat) by (destruct chi; [congruence|simpl; lia]).
  unfold Likelihood.significance_from_chi, Likelihood.significance; real_ops.
  rewrite !squares_length, !squares_sum.
  pose proof (Rsum_nonneg (squares_nonneg chi)) as Hsum.
  assert (Hzero : Rsum (map (fun c => c * c) chi) = 0 <-> Forall (fun c => c = 0) chi).
  { rewrite (Rsum_zero_iff (squares_nonneg chi)), Forall_map.
    split; apply Forall_impl; intros c Hc.
    - apply Rmult_integral in Hc; lra.
    - rewrite Hc; ring. }
  assert (Hat_zero : Rsum (map (fun c => c * c) chi) = 0 ->
                     norm_isf (chi2_sf (Rsum (map (fun c => c * c) chi)) (length chi) / 2)
                     = 0).
  { intros ->; rewrite (sf_at_zero Hlaws Hdof); apply (isf_at_half Hlaws). }
  assert (Hpositive : 0 < Rsum (map (fun c => c * c) chi) ->
                      0 < norm_isf (chi2_sf (Rsum (map (fun c => c * c) chi))
                                      (length chi) / 2)).
  { intros Hpos.
    pose proof (sf_positive Hlaws Hdof Hsum) as Hp.
    pose proof (sf_decreasing Hlaws Hdof (Rle_refl 0) Hpos) as Hless.
    rewrite (sf_at_zero Hlaws Hdof) in Hless.
    rewrite <- (isf_at_half Hlaws).
    apply (isf_decreasing Hlaws); lra. }
  split; [|split].
  - destruct (Rle_lt_or_eq_dec _ _ Hsum) as [Hpos|Hnull].
    + apply Rlt_le, Hpositive, Hpos.
    + rewrite Hat_zero by (symmetry; exact Hnull); lra.
  - rewrite <- Hzero; split.
    + intros Hsig; destruct (Rle_lt_or_eq_dec _ _ Hsum) as [Hpos|Hnull]; [|now symmetry].
      apply Hpositive in Hpos; lra.
    + exact Hat_zero.
  - rewrite length_map, map_map.
    replace (map (fun c => - c * - c) chi) with (map (fun c => c * c) chi);
      [reflexivity|].
    apply map_ext; intros c; ring.
Qed.

Lemma significance_from_chi_nonnegative_witness :
  0 <= @Likelihood.significance_from_chi R _ Examples.exponential_stats [3; -4]
  /\ (@Likelihood.significance_from_chi R _ Examples.exponential_stats [3; -4] = 0
      <-> Forall (fun c => c = 0) [3; -4])
  /\ @Likelihood.significance_from_chi R _ Examples.exponential_stats (map Ropp [3; -4])
     = @Likelihood.significance_from_chi R _ Examples.exponential_stats [3; -4].
Proof.
  apply (@significance_from_chi_nonnegative Examples.exponential_stats [3; -4]
           exponential_stats_laws).
  discriminate.
Defined.

End SignificanceFromChi.

(** ** [BeamLikelihood]: the fractions the likelihood reads *)

Section BeamFractions.

Import Py Spec BeamSetup.

Context {A : Type} `{Float A} `{MultivariateNormal A}.

Lemma getitem_app_l {X : Type} (f extra : list X) (i : nat) :
  i < length f -> getitem (f ++ extra) i = getitem f i.
Proof.
  intros Hi; unfold getitem; now rewrite nth_error_app1.
Qed.

Lemma beam_turn_prefix (self : BeamLikelihood.state A) (f extra : list A)
  (lmin : nat) (acc : A) (i ebin : nat) :
  i < length f ->
  BeamLikelihood.log_likelihood_turn self (f ++ extra) lmin acc i ebin
  = BeamLikelihood.log_likelihood_turn self f lmin acc i ebin.
Proof.
  intros Hi; unfold BeamLikelihood.log_likelihood_turn.
  now rewrite (getitem_app_l f extra Hi).
Qed.

Lemma beam_loop_prefix (self : BeamLikelihood.state A) (f extra : list A)
  (lmin : nat) (ebins : list nat) :
  forall (acc : A) (i : nat),
    i + length ebins <= length f ->
    BeamLikelihood.log_likelihood_loop self (f ++ extra) lmin acc i ebins
    = BeamLikelihood.log_likelihood_loop self f lmin acc i ebins.
Proof.
  induction ebins as [|ebin ebins IH]; intros acc i Hlen;
    cbn [BeamLikelihood.log_likelihood_loop]; [reflexivity|].
  cbn [length] in Hlen.
  rewrite beam_turn_prefix by lia.
  destruct (BeamLikelihood.log_likelihood_turn self f lmin acc i ebin) as [e|acc'];
    [reflexivity|]; py_step.
  apply IH; lia.
Qed.

Lemma beam_turn_short (self : BeamLikelihood.state A) (f : list A)
  (lmin : nat) (acc : A) (i ebin : nat) :
  length f <= i ->
  exists e, BeamLikelihood.log_likelihood_turn self f lmin acc i ebin = raise e.
Proof.
  intros Hi; unfold BeamLikelihood.log_likelihood_turn.
  destruct (BeamLikelihood.w_data self) as [data|]; [|now eexists]; py_step.
  destruct (getitem data ebin) as [e|data_row]; [now eexists|]; py_step.
  rewrite (getitem_out_of_range f Hi); now eexists.
Qed.

Lemma beam_loop_short (self : BeamLikelihood.state A) (f : list A)
  (lmin : nat) (ebins : list nat) :
  forall (acc : A) (i : nat),
    i <= length f -> length f < i + length ebins ->
    exists e, BeamLikelihood.log_likelihood_loop self f lmin acc i ebins = raise e.
Proof.
  induction ebins as [|ebin ebins IH]; intros acc i Hstart Hlen; cbn [length] in Hlen.
  - lia.
  - cbn [BeamLikelihood.log_likelihood_loop].
    destruct (Nat.le_gt_cases (length f) i) as [Hi|Hi].
    + destruct (@beam_turn_short self f lmin acc i ebin Hi) as [e ->]; now exists e.
    + destruct (BeamLikelihood.log_likelihood_turn self f lmin acc i ebin) as [e|acc'];
        [now exists e|]; py_step.
      apply IH; lia.
Qed.

Lemma beam_log_likelihood_prefix (self : BeamLikelihood.state A) (f extra : list A) :
  length f = BeamLikelihood.Ebinmax self - BeamLikelihood.Ebinmin self ->
  BeamLikelihood.log_likelihood self (f ++ extra)
  = BeamLikelihood.log_likelihood self f.
Proof.
  unfold BeamLikelihood.log_likelihood; intros Hlen.
  destruct (BeamLikelihood.coarse_lmin self) as [e|lmin]; [reflexivity|]; py_step.
  apply beam_loop_prefix; unfold range; rewrite length_seq; lia.
Qed.

(** X15: [BeamLikelihood.log_likelihood] reads one fraction per configured
    energy bin, by its position: the entries of the vector beyond the
    number of energy bins are ignored, and a vector with fewer entries than
    energy bins makes it raise. *)
Theorem beam_log_likelihood_reads_one_fraction_per_bin
  (self : BeamLikelihood.state A) (f extra : list A) :
  (length f = BeamLikelihood.Ebinmax self - BeamLikelihood.Ebinmin self ->
   BeamLikelihood.log_likelihood self (f ++ extra)
   = BeamLikelihood.log_likelihood self f)
  /\ (length f < BeamLikelihood.Ebinmax self - BeamLikelihood.Ebinmin self ->
      exists e, BeamLikelihood.log_likelihood self f = raise e).
Proof.
  split; [apply beam_log_likelihood_prefix|].
  unfold BeamLikelihood.log_likelihood; intros Hlen.
  - destruct (BeamLikelihood.coarse_lmin self) as [e|lmin]; [now exists e|]; py_step.
    apply beam_loop_short; [lia|].
    unfold range; rewrite length_seq; lia.
Qed.

Context `{Numerics A}.

(** X16: in [BeamLikelihood.minimize__lnL_free_index] the spectral index
    has no effect: the function it minimizes does not depend on the last
    entry of its argument, and when the optimiser returns the fractions [f]
    followed by an index, the test statistic is the one of [f] against the
    fractions 0, whatever the index. *)
Theorem beam_minimize__lnL_free_index_ignores_index (self : BeamLikelihood.state A) :
  BeamLikelihood.Ebinmin self <= BeamLikelihood.Ebinmax self ->
  (forall f index,
      length f = BeamLikelihood.Ebinmax self - BeamLikelihood.Ebinmin self ->
      BeamLikelihood.nll self (f ++ [index]) = BeamLikelihood.nll self f)
  /\ (forall bounds soln f index,
         LikelihoodFits.bounds_free_index
           (BeamLikelihood.Ebinmax self - BeamLikelihood.Ebinmin self) = ok bounds ->
         minimize (BeamLikelihood.nll self)
           (LikelihoodFits.initial_free_index
              (BeamLikelihood.Ebinmax self - BeamLikelihood.Ebinmin self)) bounds
         = ok soln ->
         x soln = f ++ [index] ->
         length f = BeamLikelihood.Ebinmax self - BeamLikelihood.Ebinmin self ->
         minimize__lnL_free_index self
         = (at_x <- BeamLikelihood.log_likelihood self f ;;
            at_null <- BeamLikelihood.log_likelihood self
                         (Np.zeros (BeamLikelihood.Ebinmax self
                                    - BeamLikelihood.Ebinmin self)) ;;
            ok (f ++ [index], ((at_x - at_null) * fromZ 2)%fl))%py).
Proof.
  intros Hbins; split.
  - intros f index Hlen; unfold BeamLikelihood.nll.
    now rewrite (beam_log_likelihood_prefix self f [index] Hlen).
  - intros bounds soln f index Hbounds Hsoln Hx Hlen.
    unfold minimize__lnL_free_index.
    replace (BeamLikelihood.Ebinmax self <? BeamLikelihood.Ebinmin self) with false
      by (symmetry; apply Nat.ltb_ge; exact Hbins).
    rewrite Hbounds; py_step; rewrite Hsoln; py_step.
    rewrite Hx.
    rewrite (beam_log_likelihood_prefix self f [index] Hlen).
    unfold LikelihoodFits.null_x.
    rewrite (beam_log_likelihood_prefix self
               (repeat (fromZ 0)
                  (BeamLikelihood.Ebinmax self - BeamLikelihood.Ebinmin self))
               [SpectralIndices.fromQ (25 # 10)])
      by apply repeat_length.
    reflexivity.
Qed.

End BeamFractions.

Section BeamFractionExamples.

Import Py Spec BeamSetup.
Local Open Scope R_scope.

Lemma beam_log_likelihood_reads_one_fraction_per_bin_witness :
  (length [1 / 2; 1 / 4] = (2 - 0)%nat ->
   @BeamLikelihood.log_likelihood R _ Examples.closed_form_normal Examples.beam_engine
     ([1 / 2; 1 / 4] ++ [3])
   = @BeamLikelihood.log_likelihood R _ Examples.closed_form_normal Examples.beam_engine
       [1 / 2; 1 / 4])
  /\ ((length [1 / 2; 1 / 4] < 2 - 0)%nat ->
      exists e,
        @BeamLikelihood.log_likelihood R _ Examples.closed_form_normal Examples.beam_engine
          [1 / 2; 1 / 4]
        = raise e).
Proof.
  exact (@beam_log_likelihood_reads_one_fraction_per_bin R _ Examples.closed_form_normal
           Examples.beam_engine [1 / 2; 1 / 4] [3]).
Defined.

Lemma beam_minimize__lnL_free_index_ignores_index_witness :
  (forall f index,
      length f = (2 - 0)%nat ->
      @BeamLikelihood.nll R _ Examples.closed_form_normal Examples.beam_engine
        (f ++ [index])
      = @BeamLikelihood.nll R _ Examples.closed_form_normal Examples.beam_engine f)
  /\ (forall bounds soln f index,
         LikelihoodFits.bounds_free_index (2 - 0) = ok bounds ->
         @minimize R (Examples.fixed_numerics [1 / 2; 1 / 4; 3])
           (@BeamLikelihood.nll R _ Examples.closed_form_normal Examples.beam_engine)
           (@LikelihoodFits.initial_free_index R _
              (Examples.fixed_numerics [1 / 2; 1 / 4; 3]) (2 - 0)) bounds
         = ok soln ->
         x soln = f ++ [index] ->
         length f = (2 - 0)%nat ->
         @minimize__lnL_free_index R _ Examples.closed_form_normal
           (Examples.fixed_numerics [1 / 2; 1 / 4; 3]) Examples.beam_engine
         = (at_x <- @BeamLikelihood.log_likelihood R _ Examples.closed_form_normal
                      Examples.beam_engine f ;;
            at_null <- @BeamLikelihood.log_likelihood R _ Examples.closed_form_normal
                         Examples.beam_engine (Np.zeros (2 - 0)) ;;
            ok (f ++ [index], ((at_x - at_null) * 2)))%py).
Proof.
  refine (@beam_minimize__lnL_free_index_ignores_index R _ Examples.closed_form_normal
            (Examples.fixed_numerics [1 / 2; 1 / 4; 3]) Examples.beam_engine _).
  simpl; lia.
Defined.

End BeamFractionExamples.

(** ** [BeamLikelihood]: the likelihood on the full covariance *)

Section FullCovariance.

Import Py Spec BeamSetup.
Local Open Scope R_scope.






End FullCovariance.

Section FullCovarianceExamples.

Import Py Spec BeamSetup.
Local Open Scope R_scope.



End FullCovarianceExamples.

(** ** [BeamLikelihood.init_from_run] *)

Section InitFromRun.

Import Py Spec BeamSetup Further.

Context {A : Type} `{Float A}.

Lemma str_injective (n n' : nat) : str n = str n' -> n = n'.
Proof.
  unfold str; intros Heq.
  apply (f_equal DecimalString.NilEmpty.uint_of_string) in Heq.
  rewrite !DecimalString.NilEmpty.usu in Heq; injection Heq as Heq.
  apply (f_equal Nat.of_uint) in Heq.
  now rewrite !DecimalNat.Unsigned.of_to in Heq.
Qed.

(** The two kinds of keys of a run: a bin is looked up under the key it
    was stored with. *)
Lemma run_keys (key_of : nat -> key) :
  key_of = Kint \/ key_of = json_key ->
  (forall ebin ebin',
      (if is_str (key_of ebin') then Kstr (str ebin) else Kint ebin) = key_of ebin)
  /\ (forall ebin ebin', key_eqb (key_of ebin) (key_of ebin') = (ebin =? ebin')).
Proof.
  intros [-> | ->]; split; intros ebin ebin'; try reflexivity.
  unfold json_key; cbn [key_eqb].
  destruct (Nat.eqb_spec ebin ebin') as [->|Hne].
  - apply String.eqb_refl.
  - apply String.eqb_neq; intros Heq; apply Hne, str_injective, Heq.
Qed.

Lemma lookup_run_dict {V : Type} (key_of : nat -> key) (value : nat -> V)
  (ebins : list nat) (ebin : nat) :
  (forall e e', key_eqb (key_of e) (key_of e') = (e =? e')) ->
  In ebin ebins ->
  lookup (run_dict key_of value ebins) (key_of ebin) = inr (value ebin).
Proof.
  intros Hkeys; induction ebins as [|e ebins IH]; intros Hin; [destruct Hin|].
  cbn [run_dict map lookup]; rewrite Hkeys.
  destruct (Nat.eqb_spec ebin e) as [->|Hne]; [reflexivity|].
  apply IH; destruct Hin as [Heq|Hin]; [congruence|exact Hin].
Qed.

Lemma filled_length {X : Type} (value : nat -> X) (positions : list nat) (a : list X) :
  length (filled value positions a) = length a.
Proof.
  revert a; induction positions as [|i positions IH]; intros a; cbn [filled fold_left].
  - reflexivity.
  - fold (filled value positions (Np.replace i (value i) a)).
    now rewrite IH, replace_length.
Qed.

Lemma filled_snoc {X : Type} (value : nat -> X) (positions : list nat) (i : nat)
  (a : list X) :
  filled value (positions ++ [i]) a
  = Np.replace i (value i) (filled value positions a).
Proof. unfold filled; now rewrite fold_left_app. Qed.

Lemma filled_shape (k c : nat) (value : nat -> list A) (positions : list nat)
  (m : list (list A)) :
  matrix_shape k c m ->
  Forall (fun i => length (value i) = c) positions ->
  matrix_shape k c (filled value positions m).
Proof.
  intros Hshape Hall; revert m Hshape.
  induction Hall as [|i positions Hi _ IH]; intros m Hshape; cbn [filled fold_left].
  - exact Hshape.
  - apply IH; now apply replace_shape.
Qed.

Lemma diag_matrix_shape (a : list A) :
  matrix_shape (length a) (length a) (diag_matrix a).
Proof.
  unfold diag_matrix; split.
  - now rewrite length_map, length_combine, length_seq, Nat.min_id.
  - apply Forall_map, Forall_forall; intros ix _.
    now rewrite length_map, length_seq.
Qed.

Lemma run_turn_fills (key_of : nat -> key) (cl cl_std : nat -> list A)
  (width : nat) (ebins ebins' done rest : list nat) (ebin : nat)
  (w_data w_std : list (list A)) (w_cov : list (list (list A))) :
  (forall e e',
      (if is_str (key_of e') then Kstr (str e) else Kint e) = key_of e) ->
  (forall e e', key_eqb (key_of e) (key_of e') = (e =? e')) ->
  ebins = done ++ ebin :: rest ->
  In ebin ebins' ->
  ebin < Defaults.NEbin ->
  length (cl ebin) = width -> length (cl_std ebin) = width ->
  matrix_shape Defaults.NEbin width w_data ->
  matrix_shape Defaults.NEbin width w_std ->
  length w_cov = Defaults.NEbin ->
  run_turn (run_dict key_of cl ebins) (run_dict key_of cl_std ebins') width
    (w_data, w_std, w_cov) (length done, ebin)
  = inr (Np.replace ebin (cl ebin) w_data,
         Np.replace ebin (cl_std ebin) w_std,
         Np.replace ebin (diag_matrix (Np.square (cl_std ebin))) w_cov).
Proof.
  intros Hkind Hkeys Hebins Hin' Hebin Hcl Hstd Hdata Hdev Hcov.
  assert (Hin : In ebin ebins) by (rewrite Hebins; apply in_elt).
  unfold run_turn.
  assert (Hkey : getitem (keys (run_dict key_of cl ebins)) (length done)
                 = ok (key_of ebin)).
  { unfold keys, run_dict, getitem; rewrite map_map; cbn [fst].
    rewrite Hebins, map_app, nth_error_app2 by (rewrite length_map; lia).
    now rewrite length_map, Nat.sub_diag. }
  rewrite Hkey; cbn [lift run_bind ok]; rewrite !Hkind.
  rewrite (lookup_run_dict key_of cl ebins ebin Hkeys Hin); cbn [run_bind].
  destruct (getitem_row Hdata Hebin) as [Hold Hlen].
  rewrite (@setrow_same_length _ w_data ebin (row w_data ebin) (cl ebin) Hold)
    by congruence.
  cbn [lift run_bind ok].
  rewrite (lookup_run_dict key_of cl_std ebins' ebin Hkeys Hin'); cbn [run_bind].
  destruct (getitem_row Hdev Hebin) as [Hold' Hlen'].
  rewrite (@setrow_same_length _ w_std ebin (row w_std ebin) (cl_std ebin) Hold')
    by congruence.
  cbn [lift run_bind ok].
  rewrite getitem_replace by (destruct Hdev; lia); cbn [lift run_bind ok].
  unfold LikelihoodSetup.setslab.
  replace (ebin <? length w_cov) with true by (symmetry; apply Nat.ltb_lt; lia).
  rewrite broadcast_to2_shaped.
  - reflexivity.
  - pose proof (diag_matrix_shape (Np.square (cl_std ebin))) as Hshape.
    now rewrite square_length, Hstd in Hshape.
Qed.

Lemma run_loop_fills (key_of : nat -> key) (cl cl_std : nat -> list A)
  (width : nat) (ebins ebins' : list nat) :
  (forall e e',
      (if is_str (key_of e') then Kstr (str e) else Kint e) = key_of e) ->
  (forall e e', key_eqb (key_of e) (key_of e') = (e =? e')) ->
  Forall (fun e => e < Defaults.NEbin
                   /\ length (cl e) = width /\ length (cl_std e) = width) ebins ->
  incl ebins ebins' ->
  forall (rest done : list nat) (w_data w_std : list (list A))
         (w_cov : list (list (list A))),
    ebins = done ++ rest ->
    matrix_shape Defaults.NEbin width w_data ->
    matrix_shape Defaults.NEbin width w_std ->
    length w_cov = Defaults.NEbin ->
    run_loop (run_dict key_of cl ebins) (run_dict key_of cl_std ebins') width
      (w_data, w_std, w_cov) (combine (seq (length done) (length rest)) rest)
    = inr (filled cl rest w_data, filled cl_std rest w_std,
           filled (fun e => diag_matrix (Np.square (cl_std e))) rest w_cov).
Proof.
  intros Hkind Hkeys Hall Hincl; induction rest as [|ebin rest IH];
    intros done w_data w_std w_cov Hebins Hdata Hdev Hcov;
    cbn [length seq combine run_loop filled fold_left]; [reflexivity|].
  assert (Hbin : ebin < Defaults.NEbin
                 /\ length (cl ebin) = width /\ length (cl_std ebin) = width).
  { rewrite Forall_forall in Hall; apply Hall; rewrite Hebins; apply in_elt. }
  destruct Hbin as (Hebin & Hcl & Hstd).
  assert (Hin' : In ebin ebins') by (apply Hincl; rewrite Hebins; apply in_elt).
  rewrite (@run_turn_fills key_of cl cl_std width ebins ebins' done rest ebin w_data
             w_std w_cov Hkind Hkeys Hebins Hin' Hebin Hcl Hstd Hdata Hdev Hcov).
  cbn [run_bind].
  replace (S (length done)) with (length (done ++ [ebin]))
    by (rewrite length_app; simpl; lia).
  apply IH.
  - now rewrite <- app_assoc.
  - now apply replace_shape.
  - now apply replace_shape.
  - now rewrite replace_length.
Qed.

Lemma row_filled (k c : nat) (value : nat -> list A) (positions : list nat)
  (m : list (list A)) (i : nat) :
  matrix_shape k c m ->
  Forall (fun j => j < k /\ length (value j) = c) positions ->
  row (filled value positions m) i
  = if existsb (Nat.eqb i) positions then value i else row m i.
Proof.
  intros Hshape Hall; revert m Hshape.
  induction Hall as [|j positions [Hj Hlen] _ IH]; intros m Hshape;
    cbn [filled fold_left existsb]; [reflexivity|].
  fold (filled value positions (Np.replace j (value j) m)).
  rewrite IH by (now apply replace_shape).
  rewrite row_replace by (destruct Hshape; lia).
  destruct (Nat.eqb_spec i j) as [->|Hne]; cbn [orb].
  - now destruct (existsb (Nat.eqb j) positions).
  - reflexivity.
Qed.

Lemma nth_filled {X : Type} (value : nat -> X) (positions : list nat) (a : list X)
  (i : nat) (d : X) :
  Forall (fun j => j < length a) positions ->
  nth i (filled value positions a) d
  = if existsb (Nat.eqb i) positions then value i else nth i a d.
Proof.
  intros Hall; revert a Hall.
  induction positions as [|j positions IH]; intros a Hall;
    cbn [filled fold_left existsb]; [reflexivity|].
  fold (filled value positions (Np.replace j (value j) a)).
  inversion Hall as [|? ? Hj Hrest]; subst.
  rewrite IH by (now rewrite replace_length).
  rewrite replace_nth by exact Hj.
  destruct (Nat.eqb_spec i j) as [->|Hne]; cbn [orb].
  - now destruct (existsb (Nat.eqb j) positions).
  - reflexivity.
Qed.

(** [init_from_run] on the dictionaries of a run that hold the configured
    energy bins under one kind of keys. *)
Lemma init_from_run_value (llh : instance A) (width : nat)
  (cl cl_std : nat -> list A) (key_of : nat -> key) :
  let e := engine llh in
  let ebins := range (BeamLikelihood.Ebinmin e) (BeamLikelihood.Ebinmax e) in
  run_width (BeamLikelihood.lbin e) = ok width ->
  BeamLikelihood.Ebinmax e <= Defaults.NEbin ->
  (forall ebin, In ebin ebins ->
                length (cl ebin) = width /\ length (cl_std ebin) = width) ->
  key_of = Kint \/ key_of = json_key ->
  init_from_run llh (run_dict key_of cl ebins) (run_dict key_of cl_std ebins)
  = inr (run_engine llh width cl cl_std).
Proof.
  intros e ebins Hwidth Hhi Hlen Hkey.
  assert (Hall : Forall (fun ebin => ebin < Defaults.NEbin
                                     /\ length (cl ebin) = width
                                     /\ length (cl_std ebin) = width) ebins).
  { apply Forall_forall; intros ebin Hin; split; [|now apply Hlen].
    unfold ebins, range in Hin; apply in_seq in Hin; lia. }
  destruct (run_keys Hkey) as [Hkind Hkeys].
  unfold init_from_run; fold e; rewrite Hwidth; cbn [lift run_bind ok]; fold ebins.
  pose proof (@run_loop_fills key_of cl cl_std width ebins ebins Hkind Hkeys Hall
                (incl_refl ebins) ebins []
                _ _ _ eq_refl (zeros_shape _ _) (zeros_shape _ _)
                (repeat_length (Np.zeros2 width width) Defaults.NEbin)) as Hloop.
  cbn [length] in Hloop; rewrite Hloop; reflexivity.
Qed.

(** X18: [init_from_run] on the dictionaries of a run that hold the
    configured energy bins, under integer keys or, after JSON, under their
    decimal strings: for a bin width that divides into at least one coarse
    bin and spectra of the width of the arrays, the engine is the same for
    the two kinds of keys; the spectrum and the deviation of a configured
    energy bin are those of the run and the rows of the other bins stay
    zero; the covariance of a configured bin is diagonal, the squared
    deviations on its diagonal. *)
Theorem init_from_run_fills_bins (llh : instance A) (width : nat)
  (cl cl_std : nat -> list A) :
  let e := engine llh in
  let ebins := range (BeamLikelihood.Ebinmin e) (BeamLikelihood.Ebinmax e) in
  run_width (BeamLikelihood.lbin e) = ok width ->
  BeamLikelihood.Ebinmax e <= Defaults.NEbin ->
  (forall ebin, In ebin ebins ->
                length (cl ebin) = width /\ length (cl_std ebin) = width) ->
  init_from_run llh (run_dict Kint cl ebins) (run_dict Kint cl_std ebins)
  = inr (run_engine llh width cl cl_std)
  /\ init_from_run llh (run_dict json_key cl ebins) (run_dict json_key cl_std ebins)
     = inr (run_engine llh width cl cl_std)
  /\ (forall data std cov ebin,
         BeamLikelihood.w_data (engine (run_engine llh width cl cl_std)) = Some data ->
         BeamLikelihood.w_std (engine (run_engine llh width cl cl_std)) = Some std ->
         BeamLikelihood.w_cov (engine (run_engine llh width cl cl_std)) = Some cov ->
         (In ebin ebins ->
          row data ebin = cl ebin
          /\ row std ebin = cl_std ebin
          /\ nth ebin cov [] = diag_matrix (Np.square (cl_std ebin)))
         /\ (~ In ebin ebins -> ebin < Defaults.NEbin ->
             row data ebin = Np.zeros width
             /\ row std ebin = Np.zeros width
             /\ nth ebin cov [] = Np.zeros2 width width)).
Proof.
  intros e ebins Hwidth Hhi Hlen.
  assert (Hall : Forall (fun ebin => ebin < Defaults.NEbin
                                     /\ length (cl ebin) = width
                                     /\ length (cl_std ebin) = width) ebins).
  { apply Forall_forall; intros ebin Hin; split; [|now apply Hlen].
    unfold ebins, range in Hin; apply in_seq in Hin; lia. }
  assert (Hrun : forall key_of,
             key_of = Kint \/ key_of = json_key ->
             init_from_run llh (run_dict key_of cl ebins) (run_dict key_of cl_std ebins)
             = inr (run_engine llh width cl cl_std))
    by (intros key_of; now apply init_from_run_value).
  split; [apply Hrun; now left|]; split; [apply Hrun; now right|].
  intros data std cov ebin Hdata Hstd Hcov.
  cbn [run_engine engine BeamLikelihood.w_data BeamLikelihood.w_std BeamLikelihood.w_cov]
    in Hdata, Hstd, Hcov.
  fold e in Hdata, Hstd, Hcov; fold ebins in Hdata, Hstd, Hcov.
  injection Hdata as <-; injection Hstd as <-; injection Hcov as <-.
  assert (Hcl : Forall (fun j => j < Defaults.NEbin /\ length (cl j) = width) ebins)
    by (eapply Forall_impl; [|exact Hall]; simpl; tauto).
  assert (Hcl_std : Forall (fun j => j < Defaults.NEbin /\ length (cl_std j) = width) ebins)
    by (eapply Forall_impl; [|exact Hall]; simpl; tauto).
  assert (Hpos : Forall (fun j => j < length (repeat (Np.zeros2 (A := A) width width)
                                              Defaults.NEbin)) ebins)
    by (rewrite repeat_length; eapply Forall_impl; [|exact Hall]; simpl; tauto).
  rewrite (@row_filled Defaults.NEbin width cl ebins _ ebin (zeros_shape _ _) Hcl).
  rewrite (@row_filled Defaults.NEbin width cl_std ebins _ ebin (zeros_shape _ _) Hcl_std).
  rewrite (@nth_filled _ _ ebins _ ebin [] Hpos).
  destruct (existsb (Nat.eqb ebin) ebins) eqn:Hex.
  - split; [intros _; repeat split|].
    intros Hout; apply existsb_eqb_In in Hex; contradiction.
  - split.
    + intros Hin; apply existsb_eqb_In in Hin; congruence.
    + intros _ Hebin; unfold Np.zeros2 at 1 2.
      rewrite !(row_repeat _ Hebin).
      split; [reflexivity|split; [reflexivity|]].
      apply nth_repeat_lt; exact Hebin.
Qed.

Lemma lookup_other_kind {V : Type} (value : nat -> V) (ebins : list nat) :
  (forall s, lookup (run_dict Kint value ebins) (Kstr s) = inl KeyError)
  /\ (forall n, lookup (run_dict json_key value ebins) (Kint n) = inl KeyError).
Proof.
  split; intros k; induction ebins as [|e ebins IH]; cbn; auto.
Qed.

(** X19: [init_from_run] takes the kind of the keys from [cls] and looks
    both dictionaries up with it: when only one of [cls] and [cls_std] has
    gone through JSON, the first configured energy bin raises [KeyError]. *)
Theorem init_from_run_mixed_keys (llh : instance A) (width : nat)
  (cl cl_std : nat -> list A) :
  let e := engine llh in
  let ebins := range (BeamLikelihood.Ebinmin e) (BeamLikelihood.Ebinmax e) in
  run_width (BeamLikelihood.lbin e) = ok width ->
  BeamLikelihood.Ebinmin e < BeamLikelihood.Ebinmax e ->
  BeamLikelihood.Ebinmin e < Defaults.NEbin ->
  length (cl (BeamLikelihood.Ebinmin e)) = width ->
  init_from_run llh (run_dict json_key cl ebins) (run_dict Kint cl_std ebins)
  = inl KeyError
  /\ init_from_run llh (run_dict Kint cl ebins) (run_dict json_key cl_std ebins)
     = inl KeyError.
Proof.
  intros e ebins Hwidth Hlt Hlo Hlen.
  assert (Hebins : ebins = BeamLikelihood.Ebinmin e
                             :: range (S (BeamLikelihood.Ebinmin e))
                                  (BeamLikelihood.Ebinmax e)).
  { unfold ebins, range.
    replace (BeamLikelihood.Ebinmax e - BeamLikelihood.Ebinmin e)
      with (S (BeamLikelihood.Ebinmax e - S (BeamLikelihood.Ebinmin e))) by lia.
    reflexivity. }
  destruct (getitem_row (zeros_shape (A := A) Defaults.NEbin width) Hlo) as [Hold Hrow].
  assert (Hset : Np.setrow (Np.zeros2 Defaults.NEbin width) (BeamLikelihood.Ebinmin e)
                   (cl (BeamLikelihood.Ebinmin e))
                 = ok (Np.replace (BeamLikelihood.Ebinmin e)
                         (cl (BeamLikelihood.Ebinmin e))
                         (Np.zeros2 Defaults.NEbin width))).
  { apply (@setrow_same_length _ _ _ _ _ Hold); congruence. }
  destruct (lookup_other_kind cl_std
              (range (S (BeamLikelihood.Ebinmin e)) (BeamLikelihood.Ebinmax e)))
    as [Hint Hjson].
  unfold run_dict in Hint, Hjson.
  split; unfold init_from_run; fold e; rewrite Hwidth; cbn [lift run_bind ok];
    fold ebins; clearbody ebins; subst ebins;
    cbn [length seq combine run_loop run_turn run_dict map keys fst getitem nth_error
           lift run_bind ok json_key is_str lookup key_eqb].
  - rewrite String.eqb_refl; cbn [run_bind]; rewrite Hset; cbn [lift run_bind ok].
    now rewrite Hint.
  - rewrite Nat.eqb_refl; cbn [run_bind]; rewrite Hset; cbn [lift run_bind ok].
    now rewrite Hjson.
Qed.

Lemma run_loop_app (cls cls_std : dict (list A)) (width : nat)
  (before after : list (nat * nat))
  (acc : list (list A) * list (list A) * list (list (list A))) :
  run_loop cls cls_std width acc (before ++ after)
  = run_bind (run_loop cls cls_std width acc before)
      (fun acc' => run_loop cls cls_std width acc' after).
Proof.
  revert acc; induction before as [|iebin before IH]; intros acc;
    cbn [app run_loop run_bind]; [reflexivity|].
  destruct (run_turn cls cls_std width acc iebin) as [err|acc']; cbn [run_bind];
    [reflexivity|apply IH].
Qed.

Lemma enumerate_app {X : Type} (before after : list X) (start : nat) :
  combine (seq start (length (before ++ after))) (before ++ after)
  = combine (seq start (length before)) before
      ++ combine (seq (start + length before) (length after)) after.
Proof.
  revert start; induction before as [|x before IH]; intros start;
    cbn [app length seq combine].
  - now rewrite Nat.add_0_r.
  - f_equal; rewrite IH.
    now replace (S start + length before) with (start + S (length before)) by lia.
Qed.

Lemma firstn_incl {X : Type} (k : nat) (a : list X) : incl (firstn k a) a.
Proof.
  intros x Hin; rewrite <- (firstn_skipn k a); apply in_or_app; now left.
Qed.

(** X20: [init_from_run] reads the kind of the keys of the [i]-th configured
    bin from the [i]-th key of [cls]: on a [cls] that holds only the first
    [k] of the configured bins, it fills these and the next bin raises
    [IndexError], not [KeyError]. *)
Theorem init_from_run_missing_bins (llh : instance A) (width k : nat)
  (key_of : nat -> key) (cl cl_std : nat -> list A) :
  let e := engine llh in
  let ebins := range (BeamLikelihood.Ebinmin e) (BeamLikelihood.Ebinmax e) in
  run_width (BeamLikelihood.lbin e) = ok width ->
  BeamLikelihood.Ebinmax e <= Defaults.NEbin ->
  (forall ebin, In ebin ebins ->
                length (cl ebin) = width /\ length (cl_std ebin) = width) ->
  key_of = Kint \/ key_of = json_key ->
  k < length ebins ->
  init_from_run llh (run_dict key_of cl (firstn k ebins)) (run_dict key_of cl_std ebins)
  = inl (Raised IndexError).
Proof.
  intros e ebins Hwidth Hhi Hlen Hkey Hk.
  destruct (run_keys Hkey) as [Hkind Hkeys].
  assert (Hall : Forall (fun ebin => ebin < Defaults.NEbin
                                     /\ length (cl ebin) = width
                                     /\ length (cl_std ebin) = width)
                   (firstn k ebins)).
  { apply Forall_forall; intros ebin Hin; apply firstn_incl in Hin.
    split; [|now apply Hlen].
    unfold ebins, range in Hin; apply in_seq in Hin; lia. }
  assert (Hincl : incl (firstn k ebins) ebins) by apply firstn_incl.
  unfold init_from_run; fold e; rewrite Hwidth; cbn [lift run_bind ok]; fold ebins.
  pose proof (@run_loop_fills key_of cl cl_std width (firstn k ebins) ebins Hkind Hkeys
                Hall Hincl (firstn k ebins) []
                _ _ _ eq_refl (zeros_shape _ _) (zeros_shape _ _)
                (repeat_length (Np.zeros2 width width) Defaults.NEbin)) as Hloop.
  cbn [length] in Hloop.
  pose proof (enumerate_app (firstn k ebins) (skipn k ebins) 0) as Henum.
  rewrite firstn_skipn in Henum; cbn [Nat.add] in Henum.
  rewrite Henum, run_loop_app, Hloop; cbn [run_bind].
  destruct (skipn k ebins) as [|ebin rest] eqn:Hrest.
  - apply (f_equal (@length nat)) in Hrest; rewrite length_skipn in Hrest.
    simpl in Hrest; lia.
  - cbn [length seq combine run_loop run_turn].
    unfold keys, run_dict, getitem; rewrite map_map; cbn [fst].
    replace (nth_error _ _) with (@None key); [reflexivity|].
    symmetry; apply nth_error_None; rewrite length_map; lia.
Qed.

End InitFromRun.

Section InitFromRunExamples.

Import Py Spec BeamSetup Further.
Local Open Scope R_scope.

Lemma run_cl_lengths (ebin : nat) :
  In ebin (range 0 2) ->
  length (BeamExamples.run_cl ebin) = 95%nat
  /\ length (BeamExamples.run_cl_std ebin) = 95%nat.
Proof. intros _; split; apply repeat_length. Qed.

Lemma init_from_run_fills_bins_witness :
  init_from_run (BeamExamples.beam_llh polspice_name 2)
    (run_dict Kint BeamExamples.run_cl (range 0 2))
    (run_dict Kint BeamExamples.run_cl_std (range 0 2))
  = inr (run_engine (BeamExamples.beam_llh polspice_name 2) 95
           BeamExamples.run_cl BeamExamples.run_cl_std)
  /\ init_from_run (BeamExamples.beam_llh polspice_name 2)
       (run_dict json_key BeamExamples.run_cl (range 0 2))
       (run_dict json_key BeamExamples.run_cl_std (range 0 2))
     = inr (run_engine (BeamExamples.beam_llh polspice_name 2) 95
              BeamExamples.run_cl BeamExamples.run_cl_std).
Proof.
  destruct (@init_from_run_fills_bins R _ (BeamExamples.beam_llh polspice_name 2)
              95%nat BeamExamples.run_cl BeamExamples.run_cl_std)
    as (Hint & Hjson & _).
  - reflexivity.
  - unfold Defaults.NEbin, Defaults.NEEdges; simpl; lia.
  - apply run_cl_lengths.
  - split; [exact Hint|exact Hjson].
Defined.

Lemma init_from_run_mixed_keys_witness :
  init_from_run (BeamExamples.beam_llh polspice_name 2)
    (run_dict json_key BeamExamples.run_cl (range 0 2))
    (run_dict Kint BeamExamples.run_cl_std (range 0 2))
  = inl KeyError
  /\ init_from_run (BeamExamples.beam_llh polspice_name 2)
       (run_dict Kint BeamExamples.run_cl (range 0 2))
       (run_dict json_key BeamExamples.run_cl_std (range 0 2))
     = inl KeyError.
Proof.
  apply (@init_from_run_mixed_keys R _ (BeamExamples.beam_llh polspice_name 2)
           95%nat BeamExamples.run_cl BeamExamples.run_cl_std).
  - reflexivity.
  - simpl; lia.
  - unfold Defaults.NEbin, Defaults.NEEdges; simpl; lia.
  - apply repeat_length.
Defined.

Lemma init_from_run_missing_bins_witness :
  init_from_run (BeamExamples.beam_llh polspice_name 2)
    (run_dict json_key BeamExamples.run_cl (firstn 1 (range 0 2)))
    (run_dict json_key BeamExamples.run_cl_std (range 0 2))
  = inl (Raised IndexError).
Proof.
  apply (@init_from_run_missing_bins R _ (BeamExamples.beam_llh polspice_name 2)
           95%nat 1%nat json_key BeamExamples.run_cl BeamExamples.run_cl_std).
  - reflexivity.
  - unfold Defaults.NEbin, Defaults.NEEdges; simpl; lia.
  - apply run_cl_lengths.
  - now right.
  - simpl; lia.
Defined.

End InitFromRunExamples.

(** ** [BeamLikelihood.inputData] and [computeAstrophysicalEventDistribution] *)

Section BeamData.

Import Py Spec BeamSetup.

Context {A : Type} `{Float A} `{LikelihoodSetup.Sqrt A} `{Binning A}.

Lemma setrow_shape (k c i : nat) (m m' : list (list A)) (new : list A) :
  matrix_shape k c m -> Np.setrow m i new = ok m' -> matrix_shape k c m'.
Proof.
  intros Hshape; unfold Np.setrow, getitem.
  destruct (nth_error m i) as [old|] eqn:Hold; py_step; [|discriminate].
  assert (Hlen : length old = c).
  { destruct Hshape as [_ Hrows]; rewrite Forall_forall in Hrows.
    eapply Hrows, nth_error_In, Hold. }
  destruct new as [|v [|v' new]].
  - destruct (length old =? length []) eqn:Heq; [|discriminate].
    apply Nat.eqb_eq in Heq; intros [= <-]; apply replace_shape; congruence.
  - intros [= <-]; apply replace_shape; [exact Hshape|now rewrite length_map].
  - destruct (length old =? length (v :: v' :: new)) eqn:Heq; [|discriminate].
    apply Nat.eqb_eq in Heq; intros [= <-]; apply replace_shape; congruence.
Qed.

Lemma foldM_invariant {X S : Type} (P : S -> Prop) (body : S -> X -> result S)
  (xs : list X) (s s' : S) :
  (forall s x s', P s -> body s x = ok s' -> P s') ->
  P s -> LikelihoodSetup.foldM body xs s = ok s' -> P s'.
Proof.
  intros Hbody; revert s; induction xs as [|x xs IH]; intros s Hs;
    cbn [LikelihoodSetup.foldM].
  - now intros [= <-].
  - destruct (body s x) as [e|s1] eqn:Hstep; py_step; [discriminate|].
    apply IH; eapply Hbody; eauto.
Qed.

Lemma correlation_turn_shape (ns : NeutrinoSample A) (lbin width k : nat)
  (acc acc' : list A * list (list A) * list (list (list A))) (ebin : nat) :
  matrix_shape k width (snd (fst acc)) ->
  correlation_turn ns lbin width acc ebin = ok acc' ->
  matrix_shape k width (snd (fst acc')).
Proof.
  destruct acc as [[centre w_data] w_cov]; cbn [fst snd]; intros Hshape.
  unfold correlation_turn.
  destruct (getCrossCorrelationPolSpiceEbin ns ebin) as [w cov].
  destruct (bin_llcl w lbin) as [centre' binned].
  destruct (Np.setrow w_data ebin binned) as [e|w_data'] eqn:Hset; py_step;
    [discriminate|].
  destruct (coarse_block lbin cov) as [e|block]; py_step; [discriminate|].
  destruct (LikelihoodSetup.setslab width width w_cov ebin block) as [e|w_cov'];
    py_step; [discriminate|].
  intros [= <-]; cbn [fst snd]; eapply setrow_shape; eauto.
Qed.

(** The spectrum [inputData] leaves has the shape it gives [np.zeros]. *)
Lemma beam_inputData_shape (self self' : instance A) (ns : NeutrinoSample A) :
  inputData self ns = ok self' ->
  exists data,
    BeamLikelihood.w_data (engine self') = Some data
    /\ BeamLikelihood.lbin (engine self) <> 0
    /\ matrix_shape Defaults.NEbin (Defaults.MAX_L / BeamLikelihood.lbin (engine self))
         data.
Proof.
  unfold inputData, coarse_width.
  destruct (Nat.eqb_spec (BeamLikelihood.lbin (engine self)) 0) as [Hzero|Hlbin];
    py_step; [discriminate|].
  match goal with
  | |- context [LikelihoodSetup.foldM (correlation_turn ?s ?l ?w) ?xs ?acc] =>
      destruct (LikelihoodSetup.foldM (correlation_turn s l w) xs acc)
        as [e|[[centre w_data] w_cov]] eqn:Hloop
  end; py_step; [discriminate|].
  match goal with
  | |- context [LikelihoodSetup.foldM (deviation_turn ?s ?t ?l ?w) ?xs ?acc] =>
      destruct (LikelihoodSetup.foldM (deviation_turn s t l w) xs acc)
        as [e|[w_std w_std_square]]
  end; py_step; [discriminate|].
  intros [= <-]; exists w_data; split; [reflexivity|split; [exact Hlbin|]].
  refine (@foldM_invariant _ _
            (fun acc => matrix_shape Defaults.NEbin
                          (Defaults.MAX_L / BeamLikelihood.lbin (engine self))
                          (snd (fst acc)))
            _ _ _ _ _ _ Hloop).
  - intros s x s'; apply correlation_turn_shape.
  - apply zeros_shape.
Qed.

Lemma broadcast_to2_narrow {X : Type} (rows cols width : nat) (m : list (list X)) :
  matrix_shape rows width m -> 1 < rows -> width <> 1 -> width <> cols ->
  LikelihoodSetup.broadcast_to2 rows cols m = raise ValueError.
Proof.
  intros [Hrows Hcols] Hmany Hone Hwide; unfold LikelihoodSetup.broadcast_to2.
  destruct m as [|r [|r' m]]; simpl in Hrows; try lia.
  unfold LikelihoodSetup.broadcast_to at 1.
  replace (length (r :: r' :: m) =? rows) with true
    by (symmetry; apply Nat.eqb_eq; simpl; lia).
  py_step; cbn [mapM].
  inversion Hcols as [|? ? Hr _]; subst.
  replace (LikelihoodSetup.broadcast_to cols r) with (@raise (list X) ValueError);
    [reflexivity|].
  unfold LikelihoodSetup.broadcast_to.
  destruct r as [|x [|x' r]]; [| simpl in Hone; lia |].
  - replace (length [] =? cols) with false; [reflexivity|].
    symmetry; apply Nat.eqb_neq; exact Hwide.
  - replace (length (x :: x' :: r) =? cols) with false; [reflexivity|].
    symmetry; apply Nat.eqb_neq; exact Hwide.
Qed.

(** X21: [computeAstrophysicalEventDistribution] of [BeamLikelihood] stores
    the spectrum [inputData] leaves, of [MAX_L / lbin] coarse bins, in a
    slot of [3 * NSIDE] multipoles: unless the width is one coarse bin
    ([lbin] from 192 to 383), the first trial raises; what it raises is the
    exception of [inputData] or the [ValueError] of the assignment. *)
Theorem beam_computeAstrophysicalEventDistribution_raises (self : instance A)
  (trials : nat -> NeutrinoSample A) (N_re : nat) :
  0 < N_re ->
  BeamLikelihood.lbin (engine self) < 192 \/ 383 < BeamLikelihood.lbin (engine self) ->
  exists e,
    computeAstrophysicalEventDistribution self trials N_re = raise e
    /\ (inputData self (trials 0) = raise e \/ e = ValueError).
Proof.
  intros Hre Hlbin; unfold computeAstrophysicalEventDistribution, range.
  destruct N_re as [|n]; [lia|].
  cbn [Nat.sub seq LikelihoodSetup.foldM astrophysical_turn].
  destruct (inputData self (trials 0)) as [e|self'] eqn:Hinput; py_step.
  - exists e; split; [reflexivity|now left].
  - destruct (beam_inputData_shape _ _ Hinput) as (data & Hdata & Hpos & Hshape).
    rewrite Hdata; py_step.
    exists ValueError; split; [|now right].
    unfold LikelihoodSetup.setslab.
    cbn [repeat length Nat.ltb Nat.leb].
    rewrite (@broadcast_to2_narrow _ Defaults.NEbin (3 * Defaults.NSIDE)
               (Defaults.MAX_L / BeamLikelihood.lbin (engine self)) data Hshape).
    + reflexivity.
    + unfold Defaults.NEbin, Defaults.NEEdges; lia.
    + set (lbin := BeamLikelihood.lbin (engine self)) in *.
      change Defaults.MAX_L with 383.
      intros Hone.
      destruct Hlbin as [Hlow|Hhigh].
      * assert (2 <= 383 / lbin); [|lia].
        apply Nat.div_le_lower_bound; lia.
      * rewrite Nat.div_small in Hone by lia; discriminate.
    + change Defaults.MAX_L with 383; change (3 * Defaults.NSIDE) with 384.
      intros Hwide.
      pose proof (Nat.Div0.div_le_upper_bound 383 (BeamLikelihood.lbin (engine self)) 383).
      assert (383 / BeamLikelihood.lbin (engine self) <= 383); [|lia].
      apply Nat.Div0.div_le_upper_bound; nia.
Qed.

End BeamData.

Section BeamDataExamples.

Import Py Spec BeamSetup Further.
Local Open Scope R_scope.

Lemma beam_computeAstrophysicalEventDistribution_raises_witness :
  exists e,
    @computeAstrophysicalEventDistribution R _ LikelihoodSetup.R_Sqrt BeamExamples.head_binning
      (BeamExamples.beam_llh polspice_name 2) (fun _ => BeamExamples.polspice_sample) 1
    = raise e
    /\ (@inputData R _ LikelihoodSetup.R_Sqrt BeamExamples.head_binning
          (BeamExamples.beam_llh polspice_name 2) BeamExamples.polspice_sample
        = raise e
        \/ e = ValueError).
Proof.
  apply (@beam_computeAstrophysicalEventDistribution_raises R _ LikelihoodSetup.R_Sqrt
           BeamExamples.head_binning (BeamExamples.beam_llh polspice_name 2)
           (fun _ => BeamExamples.polspice_sample) 1%nat).
  - lia.
  - left; simpl; lia.
Defined.

End BeamDataExamples.

(** ** [Likelihood.TS_distribution] *)

Section TestStatisticTrials.

Import Py Spec LikelihoodSetup LikelihoodFits Further.

Context {A : Type} `{Float A}.

(** The loop of [TS_distribution], from its turn [k]. *)
Lemma TS_loop (numerics : nat -> Numerics A)
  (trials : nat -> Likelihood.NeutrinoSample A) (self : Likelihood.state A)
  (std sq : list (list A)) (fit : nat -> list A) (TS : nat -> A) (N_re : nat) :
  copied_deviation self std sq ->
  (forall i, i < N_re ->
             @Likelihood.minimize__lnL A _ (numerics i) (fed self (trials i) std sq)
             = ok (fit i, TS i)) ->
  forall n k,
    k + n = N_re ->
    foldM (TS_turn numerics trials) (seq k n)
      (last_fed self trials std sq k, map TS (seq 0 k) ++ Np.zeros n)
    = ok (last_fed self trials std sq N_re, map TS (seq 0 N_re)).
Proof.
  intros Hcopied Hfit; induction n as [|n IH]; intros k Hk; cbn [seq foldM].
  - rewrite Nat.add_0_r in Hk; subst k; unfold Np.zeros; cbn [repeat].
    now rewrite app_nil_r.
  - unfold TS_turn at 1.
    rewrite (inputData_fed (last_fed self trials std sq k) (trials k) std sq
               (copied_deviation_last_fed self trials std sq k Hcopied)).
    py_step; rewrite fed_last_fed, Hfit by lia; py_step; cbn [snd].
    replace (k <? length (map TS (seq 0 k) ++ Np.zeros (S n))) with true
      by (symmetry; apply Nat.ltb_lt;
          rewrite length_app, length_map, length_seq; unfold Np.zeros; simpl; lia).
    assert (Hnext : Np.replace k (TS k) (map TS (seq 0 k) ++ Np.zeros (S n))
                    = map TS (seq 0 (S k)) ++ Np.zeros n).
    { unfold Np.zeros; cbn [repeat].
      replace k with (length (map TS (seq 0 k))) at 1
        by now rewrite length_map, length_seq.
      rewrite replace_middle, seq_S, map_app, <- app_assoc; reflexivity. }
    rewrite Hnext.
    change (fed self (trials k) std sq) with (last_fed self trials std sq (S k)).
    apply IH; lia.
Qed.

(** X22: [TS_distribution] fits every trial on the engine that holds that
    trial alone: when the fit of each trial on the engine fed with it
    returns, [TS_array] holds the test statistics of these fits in the order
    of the trials, and the engine is left as the last trial feeds it. *)
Theorem TS_distribution_fits_each_trial_alone (numerics : nat -> Numerics A)
  (trials : nat -> Likelihood.NeutrinoSample A) (self : Likelihood.state A)
  (std sq : list (list A)) (fit : nat -> list A) (TS : nat -> A) (N_re : nat) :
  copied_deviation self std sq ->
  (forall i, i < N_re ->
             @Likelihood.minimize__lnL A _ (numerics i) (fed self (trials i) std sq)
             = ok (fit i, TS i)) ->
  TS_distribution numerics trials self N_re
  = ok (last_fed self trials std sq N_re, map TS (seq 0 N_re)).
Proof.
  intros Hcopied Hfit; unfold TS_distribution, range.
  rewrite Nat.sub_0_r.
  exact (@TS_loop numerics trials self std sq fit TS N_re Hcopied Hfit N_re 0 eq_refl).
Qed.

(** X23: the first trial of [TS_distribution] whose fit raises ends the
    loop with that exception; no array is returned. *)
Theorem TS_distribution_raises_with_the_fit (numerics : nat -> Numerics A)
  (trials : nat -> Likelihood.NeutrinoSample A) (self : Likelihood.state A)
  (std sq : list (list A)) (fit : nat -> list A) (TS : nat -> A) (N_re k : nat)
  (e : exn) :
  copied_deviation self std sq ->
  k < N_re ->
  (forall i, i < k ->
             @Likelihood.minimize__lnL A _ (numerics i) (fed self (trials i) std sq)
             = ok (fit i, TS i)) ->
  @Likelihood.minimize__lnL A _ (numerics k) (fed self (trials k) std sq) = raise e ->
  TS_distribution numerics trials self N_re = raise e.
Proof.
  intros Hcopied Hk Hfit Hraise; unfold TS_distribution, range.
  rewrite Nat.sub_0_r.
  assert (Hloop : forall n j,
             j + n = k ->
             foldM (TS_turn numerics trials) (seq j (n + (N_re - k)))
               (last_fed self trials std sq j,
                map TS (seq 0 j) ++ Np.zeros (n + (N_re - k)))
             = raise e).
  { induction n as [|n IH]; intros j Hj.
    - rewrite Nat.add_0_r in Hj; subst j; cbn [Nat.add].
      destruct (N_re - k) as [|m] eqn:Hm; [lia|]; cbn [seq foldM].
      unfold TS_turn at 1.
      rewrite (inputData_fed (last_fed self trials std sq k) (trials k) std sq
                 (copied_deviation_last_fed self trials std sq k Hcopied)).
      py_step; rewrite fed_last_fed, Hraise; reflexivity.
    - cbn [Nat.add seq foldM]; unfold TS_turn at 1.
      rewrite (inputData_fed (last_fed self trials std sq j) (trials j) std sq
                 (copied_deviation_last_fed self trials std sq j Hcopied)).
      py_step; rewrite fed_last_fed, Hfit by lia; py_step; cbn [snd].
      replace (j <? length (map TS (seq 0 j) ++ Np.zeros (S (n + (N_re - k)))))
        with true
        by (symmetry; apply Nat.ltb_lt;
            rewrite length_app, length_map, length_seq; unfold Np.zeros; simpl; lia).
      assert (Hnext : Np.replace j (TS j)
                        (map TS (seq 0 j) ++ Np.zeros (S (n + (N_re - k))))
                      = map TS (seq 0 (S j)) ++ Np.zeros (n + (N_re - k))).
      { unfold Np.zeros; cbn [repeat].
        replace j with (length (map TS (seq 0 j))) at 1
          by now rewrite length_map, length_seq.
        rewrite replace_middle, seq_S, map_app, <- app_assoc; reflexivity. }
      rewrite Hnext.
      change (fed self (trials j) std sq) with (last_fed self trials std sq (S j)).
      apply IH; lia. }
  specialize (Hloop k 0 eq_refl).
  replace (k + (N_re - k)) with N_re in Hloop by lia.
  exact Hloop.
Qed.

End TestStatisticTrials.

Section TestStatisticTrialExamples.

Import Py Spec LikelihoodSetup LikelihoodFits Further.

Lemma TS_distribution_fits_each_trial_alone_witness :
  TS_distribution (fun _ => Examples.idle_numerics) MoreExamples.series
    (Examples.end_to_end (Fin 0)) 2
  = ok (fed (Examples.end_to_end (Fin 0)) (MoreExamples.series 1)
          [repeat (Fin 1) 10] [repeat (Fin 1) 10],
        [Fin (15 # 2); Fin (35 # 2)]).
Proof.
  apply (@TS_distribution_fits_each_trial_alone xfloat _
           (fun _ => Examples.idle_numerics) MoreExamples.series
           (Examples.end_to_end (Fin 0)) [repeat (Fin 1) 10] [repeat (Fin 1) 10]
           (fun _ => [Fin (1 # 10)])
           (fun i => if (i =? 0)%nat then Fin (15 # 2) else Fin (35 # 2)) 2).
  - split; reflexivity.
  - intros i Hi; destruct i as [|[|i]]; [reflexivity|reflexivity|lia].
Defined.

Lemma TS_distribution_raises_with_the_fit_witness :
  TS_distribution (fun _ => Examples.idle_numerics) MoreExamples.broken_series
    (Examples.end_to_end (Fin 0)) 3
  = raise ValueError.
Proof.
  apply (@TS_distribution_raises_with_the_fit xfloat _
           (fun _ => Examples.idle_numerics) MoreExamples.broken_series
           (Examples.end_to_end (Fin 0)) [repeat (Fin 1) 10] [repeat (Fin 1) 10]
           (fun _ => [Fin (1 # 10)]) (fun _ => Fin (15 # 2)) 3 1 ValueError).
  - split; reflexivity.
  - lia.
  - intros i Hi; destruct i as [|i]; [reflexivity|lia].
  - reflexivity.
Defined.

End TestStatisticTrialExamples.

(** ** The coarse covariance of [BeamLikelihood.inputData] *)

Section Coarse.

Import Py Spec BeamSetup.

(** The number of multiples of [step] below [n]. *)
Lemma multiples_succ (step n : nat) :
  step <> 0 ->
  (n + 1 + step - 1) / step
  = (n + step - 1) / step + (if n mod step =? 0 then 1 else 0).
Proof.
  intros Hstep.
  pose proof (Nat.div_mod_eq n step) as Hn.
  pose proof (Nat.mod_upper_bound n step Hstep) as Hr.
  set (q := n / step) in *; set (r := n mod step) in *.
  destruct (Nat.eqb_spec r 0) as [Hzero|Hpos].
  - rewrite <- (Nat.div_unique (n + 1 + step - 1) step (q + 1) 0) by nia.
    rewrite <- (Nat.div_unique (n + step - 1) step q (step - 1)) by nia.
    reflexivity.
  - rewrite <- (Nat.div_unique (n + 1 + step - 1) step (q + 1) r) by nia.
    rewrite <- (Nat.div_unique (n + step - 1) step (q + 1) (r - 1)) by nia.
    lia.
Qed.

Lemma multiples_below (step n i : nat) :
  step <> 0 -> i < (n + step - 1) / step -> i * step < n.
Proof.
  intros Hstep Hi.
  pose proof (Nat.Div0.mul_div_le (n + step - 1) step).
  nia.
Qed.

Lemma multiples_exact (step n : nat) :
  step <> 0 -> n mod step = 0 -> (n + step - 1) / step * step = n.
Proof.
  intros Hstep Hzero.
  pose proof (Nat.div_mod_eq n step) as Hn; rewrite Hzero in Hn.
  rewrite <- (Nat.div_unique (n + step - 1) step (n / step) (step - 1)) by nia.
  nia.
Qed.

Lemma multiples_pred (step n : nat) :
  step <> 0 -> 0 < n -> (n + step - 1) / step - 1 = (n - 1) / step.
Proof.
  intros Hstep Hn.
  replace (n + step - 1) with (n - 1 + 1 * step) by lia.
  rewrite Nat.div_add by exact Hstep; lia.
Qed.

(** [a[::step]] holds the entries [a[0]], [a[step]], [a[2 * step]], ... *)
Lemma stride_value {X : Type} (step : nat) (a : list X) (d : X) :
  step <> 0 ->
  stride step a
  = ok (map (fun i => nth (i * step) a d) (seq 0 ((length a + step - 1) / step))).
Proof.
  intros Hstep; unfold stride.
  replace (step =? 0) with false by (symmetry; now apply Nat.eqb_neq).
  f_equal.
  induction a as [|x a IH] using rev_ind.
  - cbn [length combine seq filter map]; rewrite Nat.add_0_l.
    rewrite Nat.div_small by lia; reflexivity.
  - rewrite enumerate_app, filter_app, map_app, IH.
    rewrite length_app; cbn [length Nat.add seq].
    rewrite (multiples_succ (length a) Hstep).
    cbn [combine filter fst].
    destruct (Nat.eqb_spec (length a mod step) 0) as [Hzero|Hpos].
    + rewrite Nat.add_1_r, seq_S, map_app; cbn [map Nat.add snd].
      rewrite (multiples_exact (length a) Hstep Hzero), nth_middle.
      f_equal; apply map_ext_in; intros i Hi; apply in_seq in Hi.
      symmetry; apply app_nth1, multiples_below; [exact Hstep|lia].
    + rewrite Nat.add_0_r; cbn [map]; rewrite app_nil_r.
      apply map_ext_in; intros i Hi; apply in_seq in Hi.
      symmetry; apply app_nth1, multiples_below; [exact Hstep|lia].
Qed.

Lemma removelast_map_seq {X : Type} (g : nat -> X) (n : nat) :
  removelast (map g (seq 0 n)) = map g (seq 0 (n - 1)).
Proof.
  destruct n as [|n]; [reflexivity|].
  rewrite seq_S, map_app; cbn [map]; rewrite removelast_last.
  now replace (S n - 1) with n by lia.
Qed.

(** [m[::step, ::step][:-1, :-1]] of a square matrix. *)
Lemma coarse_block_value {X : Type} (d : X) (step n : nat) (m : list (list X)) :
  step <> 0 -> 0 < n -> matrix_shape n n m ->
  coarse_block step m = ok (Further.sampled d step ((n - 1) / step) m).
Proof.
  intros Hstep Hn [Hrows Hcols]; unfold coarse_block.
  rewrite (stride_value m [] Hstep); py_step.
  rewrite (@mapM_ok_map _ _ (stride step)
             (fun r => map (fun j => nth (j * step) r d)
                         (seq 0 ((n + step - 1) / step)))).
  - py_step; rewrite map_map, Hrows, removelast_map_seq.
    rewrite (multiples_pred Hstep Hn); unfold Further.sampled.
    rewrite map_map; f_equal; apply map_ext; intros i.
    rewrite removelast_map_seq, (multiples_pred Hstep Hn); reflexivity.
  - intros r Hin; apply in_map_iff in Hin; destruct Hin as (i & <- & Hi).
    apply in_seq in Hi; rewrite Hrows in Hi.
    assert (Hlen : length (nth (i * step) m []) = n).
    { rewrite Forall_forall in Hcols; apply Hcols, nth_In.
      rewrite Hrows; apply multiples_below; [exact Hstep|lia]. }
    rewrite (stride_value _ d Hstep), Hlen; reflexivity.
Qed.

Lemma sampled_shape {X : Type} (d : X) (step width : nat) (m : list (list X)) :
  matrix_shape width width (Further.sampled d step width m).
Proof.
  unfold Further.sampled; split.
  - now rewrite length_map, length_seq.
  - apply Forall_map, Forall_forall; intros i _.
    now rewrite length_map, length_seq.
Qed.

(** X24: the covariance [inputData] keeps of an energy bin,
    [w_cov[::lbin, ::lbin][:-1, :-1]], holds the entries of the covariance
    of PolSpice at the multiples of [lbin]; of a covariance of [n] rows and
    columns it has [(n - 1) / lbin] rows and columns, for [3 * NSIDE]
    multipoles the [int(MAX_L / lbin)] of the slot it is stored in. *)
Theorem coarse_block_samples_multiples {X : Type} (d : X) (step n : nat)
  (m : list (list X)) :
  step <> 0 -> 0 < n -> matrix_shape n n m ->
  coarse_block step m = ok (Further.sampled d step ((n - 1) / step) m)
  /\ matrix_shape ((n - 1) / step) ((n - 1) / step)
       (Further.sampled d step ((n - 1) / step) m)
  /\ (n = Defaults.NCL -> coarse_width step = ok ((n - 1) / step)).
Proof.
  intros Hstep Hn Hshape; split; [|split].
  - now apply coarse_block_value.
  - apply sampled_shape.
  - intros ->; unfold coarse_width.
    replace (step =? 0) with false by (symmetry; now apply Nat.eqb_neq).
    reflexivity.
Qed.

End Coarse.

Section CoarseExamples.

Import Py Spec BeamSetup.

Lemma coarse_block_samples_multiples_witness :
  coarse_block 2 [[0; 1; 2; 3; 4]; [10; 11; 12; 13; 14]; [20; 21; 22; 23; 24];
                  [30; 31; 32; 33; 34]; [40; 41; 42; 43; 44]]
  = ok [[0; 2]; [20; 22]].
Proof.
  apply (@coarse_block_samples_multiples nat 0 2 5
           [[0; 1; 2; 3; 4]; [10; 11; 12; 13; 14]; [20; 21; 22; 23; 24];
            [30; 31; 32; 33; 34]; [40; 41; 42; 43; 44]]).
  - lia.
  - lia.
  - split; [reflexivity|repeat constructor].
Defined.

End CoarseExamples.

(** ** [BeamLikelihood.inputData] *)

Section BeamInputData.

Import Py Spec BeamSetup Further.

Context {A : Type} `{Float A} `{LikelihoodSetup.Sqrt A} `{Binning A}.

Lemma enumerate_map_seq {X : Type} (g : nat -> X) (n start : nat) :
  combine (seq start n) (map g (seq start n)) = map (fun i => (i, g i)) (seq start n).
Proof.
  revert start; induction n as [|n IH]; intros start; cbn [seq map combine];
    [reflexivity|now rewrite IH].
Qed.

Lemma flat_map_singletons {X Y : Type} (h : X -> list Y) (g : X -> Y) (l : list X) :
  (forall x, In x l -> h x = [g x]) -> flat_map h l = map g l.
Proof.
  induction l as [|x l IH]; intros Hh; cbn [flat_map map]; [reflexivity|].
  rewrite (Hh x) by (now left); cbn [app]; f_equal.
  apply IH; intros y Hy; apply Hh; now right.
Qed.

(** [np.diag] of the coarse covariance. *)
Lemma diag_sampled {X : Type} (d : X) (step width : nat) (m : list (list X)) :
  diag (sampled d step width m) = sampled_diagonal d step width m.
Proof.
  unfold diag, sampled, sampled_diagonal.
  rewrite length_map, length_seq, enumerate_map_seq, flat_map_concat_map, map_map.
  rewrite <- flat_map_concat_map.
  apply flat_map_singletons; intros i Hi; apply in_seq in Hi; cbn [fst snd].
  rewrite nth_error_map, nth_error_seq.
  replace (i <? width) with true by (symmetry; apply Nat.ltb_lt; lia).
  reflexivity.
Qed.

Lemma zeros_like_shape (k c : nat) (m : list (list A)) :
  matrix_shape k c m -> zeros_like m = Np.zeros2 k c.
Proof.
  intros [<- Hcols]; unfold zeros_like, Np.zeros2.
  induction Hcols as [|r m Hr _ IH]; cbn [map length repeat]; [reflexivity|].
  now rewrite Hr, IH.
Qed.

Lemma getitem_filled {X : Type} (value : nat -> X) (positions : list nat)
  (a : list X) (i : nat) :
  Forall (fun j => j < length a) positions -> In i positions ->
  getitem (filled value positions a) i = ok (value i).
Proof.
  intros Hall Hin; unfold getitem.
  assert (Hi : i < length (filled value positions a)).
  { rewrite filled_length; rewrite Forall_forall in Hall; now apply Hall. }
  rewrite (nth_error_nth' _ (value i) Hi), (@nth_filled _ value positions a i (value i) Hall).
  apply existsb_eqb_In in Hin; now rewrite Hin.
Qed.

(** The first loop of [inputData]. *)
Lemma correlation_loop (ns : NeutrinoSample A) (lbin : nat) (ebins : list nat) :
  lbin <> 0 ->
  Forall (fun ebin =>
            ebin < Defaults.NEbin
            /\ length (binned_spectrum ns lbin ebin) = Defaults.MAX_L / lbin
            /\ matrix_shape Defaults.NCL Defaults.NCL
                 (snd (getCrossCorrelationPolSpiceEbin ns ebin))) ebins ->
  forall (centre : list A) (w_data : list (list A)) (w_cov : list (list (list A))),
    matrix_shape Defaults.NEbin (Defaults.MAX_L / lbin) w_data ->
    length w_cov = Defaults.NEbin ->
    LikelihoodSetup.foldM (correlation_turn ns lbin (Defaults.MAX_L / lbin)) ebins
      (centre, w_data, w_cov)
    = ok (fold_left (fun _ ebin => binned_centres ns lbin ebin) ebins centre,
          filled (binned_spectrum ns lbin) ebins w_data,
          filled (coarse_covariance ns lbin) ebins w_cov).
Proof.
  intros Hlbin Hall; induction Hall as [|ebin ebins (Hebin & Hlen & Hcov) _ IH];
    intros centre w_data w_cov Hdata Hslots;
    cbn [LikelihoodSetup.foldM fold_left filled]; [reflexivity|].
  unfold correlation_turn at 1.
  unfold binned_spectrum, binned_centres, coarse_covariance in *.
  destruct (getCrossCorrelationPolSpiceEbin ns ebin) as [w cov] eqn:Hns.
  cbn [fst snd] in *.
  destruct (bin_llcl w lbin) as [centre' binned] eqn:Hbin; cbn [fst snd] in *.
  destruct (getitem_row Hdata Hebin) as [Hold Hrow].
  rewrite (@setrow_same_length _ w_data ebin (row w_data ebin) binned Hold)
    by congruence.
  py_step.
  assert (Hpos : 0 < Defaults.NCL) by (unfold Defaults.NCL, Defaults.NSIDE; lia).
  pose proof (@coarse_block_value _ (fromZ 0) lbin Defaults.NCL cov Hlbin Hpos Hcov)
    as Hblock.
  change (Defaults.NCL - 1) with Defaults.MAX_L in Hblock.
  rewrite Hblock; py_step.
  unfold LikelihoodSetup.setslab.
  replace (ebin <? length w_cov) with true by (symmetry; apply Nat.ltb_lt; lia).
  rewrite (broadcast_to2_shaped (sampled_shape _ _ _ _)); py_step.
  rewrite IH; [reflexivity| |].
  - now apply replace_shape.
  - now rewrite replace_length.
Qed.

Lemma deviation_store (ebin width : nat) (dev : list A) (w_std w_sq : list (list A)) :
  ebin < Defaults.NEbin -> length dev = width ->
  matrix_shape Defaults.NEbin width w_std ->
  matrix_shape Defaults.NEbin width w_sq ->
  (w_std' <- Np.setrow w_std ebin dev ;;
   row <- getitem w_std' ebin ;;
   w_sq' <- Np.setrow w_sq ebin (Np.square row) ;;
   ok (w_std', w_sq'))%py
  = ok (Np.replace ebin dev w_std, Np.replace ebin (Np.square dev) w_sq).
Proof.
  intros Hebin Hlen Hstd Hsq.
  destruct (getitem_row Hstd Hebin) as [Hold Hrow].
  rewrite (@setrow_same_length _ w_std ebin (row w_std ebin) dev Hold) by congruence.
  py_step; rewrite getitem_replace by (destruct Hstd; lia); py_step.
  destruct (getitem_row Hsq Hebin) as [Hold' Hrow'].
  rewrite (@setrow_same_length _ w_sq ebin (row w_sq ebin) (Np.square dev) Hold')
    by (rewrite square_length; congruence).
  reflexivity.
Qed.

(** The second loop of [inputData], for the deviation [dev] its turns
    store. *)
Lemma deviation_loop (ns : NeutrinoSample A) (err : String.string) (lbin width : nat)
  (w_cov : list (list (list A))) (dev : nat -> list A) (ebins : list nat) :
  Forall (fun ebin =>
            length (dev ebin) = width
            /\ forall w_std w_sq,
                matrix_shape Defaults.NEbin width w_std ->
                matrix_shape Defaults.NEbin width w_sq ->
                deviation_turn ns err lbin w_cov (w_std, w_sq) ebin
                = ok (Np.replace ebin (dev ebin) w_std,
                      Np.replace ebin (Np.square (dev ebin)) w_sq)) ebins ->
  forall w_std w_sq,
    matrix_shape Defaults.NEbin width w_std ->
    matrix_shape Defaults.NEbin width w_sq ->
    LikelihoodSetup.foldM (deviation_turn ns err lbin w_cov) ebins (w_std, w_sq)
    = ok (filled dev ebins w_std, filled (fun ebin => Np.square (dev ebin)) ebins w_sq).
Proof.
  intros Hall; induction Hall as [|ebin ebins [Hlen Hturn] _ IH];
    intros w_std w_sq Hstd Hsq; cbn [LikelihoodSetup.foldM filled fold_left];
    [reflexivity|].
  rewrite (Hturn w_std w_sq Hstd Hsq); py_step.
  apply IH; apply replace_shape; auto.
  now rewrite square_length.
Qed.

Lemma polspice_deviation_length (ns : NeutrinoSample A) (lbin ebin : nat) :
  length (polspice_deviation ns lbin ebin) = Defaults.MAX_L / lbin.
Proof.
  unfold polspice_deviation, sampled_diagonal.
  now rewrite length_map, over_length, length_map, length_seq.
Qed.

(** [inputData] up to its second loop. *)
Lemma beam_inputData_value (self : instance A) (ns : NeutrinoSample A) :
  let e := engine self in
  let lbin := BeamLikelihood.lbin e in
  let width := Defaults.MAX_L / lbin in
  let ebins := range (BeamLikelihood.Ebinmin e) (BeamLikelihood.Ebinmax e) in
  lbin <> 0 ->
  BeamLikelihood.Ebinmax e <= Defaults.NEbin ->
  shaped_sample self ns ->
  forall stds,
    LikelihoodSetup.foldM
      (deviation_turn ns (err_type self) lbin
         (filled (coarse_covariance ns lbin) ebins
            (repeat (Np.zeros2 width width) Defaults.NEbin)))
      ebins (Np.zeros2 Defaults.NEbin width, Np.zeros2 Defaults.NEbin width)
    = stds ->
    inputData self ns
    = match stds with
      | inl err => raise err
      | inr (w_std, w_std_square) =>
          ok {| engine :=
                  {| BeamLikelihood.Ebinmin := BeamLikelihood.Ebinmin e;
                     BeamLikelihood.Ebinmax := BeamLikelihood.Ebinmax e;
                     BeamLikelihood.lmin := BeamLikelihood.lmin e;
                     BeamLikelihood.lbin := lbin;
                     BeamLikelihood.w_model_f1 := BeamLikelihood.w_model_f1 e;
                     BeamLikelihood.w_atm_mean := BeamLikelihood.w_atm_mean e;
                     BeamLikelihood.w_atm_std := BeamLikelihood.w_atm_std e;
                     BeamLikelihood.w_atm_std_square := BeamLikelihood.w_atm_std_square e;
                     BeamLikelihood.w_data :=
                       Some (filled (binned_spectrum ns lbin) ebins
                               (Np.zeros2 Defaults.NEbin width));
                     BeamLikelihood.w_cov :=
                       Some (filled (coarse_covariance ns lbin) ebins
                               (repeat (Np.zeros2 width width) Defaults.NEbin));
                     BeamLikelihood.w_std := Some w_std;
                     BeamLikelihood.w_std_square := Some w_std_square |};
                err_type := err_type self;
                lcenter :=
                  fold_left (fun _ ebin => binned_centres ns lbin ebin) ebins
                    (lcenter self);
                Ncount := Some (getEventCounts ns) |}
      end.
Proof.
  intros e lbin width ebins Hlbin Hhi Hshaped stds Hstds.
  assert (Hall : Forall (fun ebin =>
                           ebin < Defaults.NEbin
                           /\ length (binned_spectrum ns lbin ebin) = Defaults.MAX_L / lbin
                           /\ matrix_shape Defaults.NCL Defaults.NCL
                                (snd (getCrossCorrelationPolSpiceEbin ns ebin))) ebins).
  { apply Forall_forall; intros ebin Hin; split; [|now apply Hshaped].
    unfold ebins, range in Hin; apply in_seq in Hin; lia. }
  unfold inputData, coarse_width; fold e; fold lbin.
  replace (lbin =? 0) with false by (symmetry; now apply Nat.eqb_neq).
  py_step; fold ebins; fold width.
  rewrite (@correlation_loop ns lbin ebins Hlbin Hall (lcenter self) _ _
             (zeros_shape _ _)
             (repeat_length (Np.zeros2 width width) Defaults.NEbin)).
  py_step.
  rewrite (@zeros_like_shape Defaults.NEbin width).
  - rewrite Hstds; destruct stds as [err|[w_std w_std_square]]; reflexivity.
  - apply filled_shape; [apply zeros_shape|].
    eapply Forall_impl; [|exact Hall]; simpl; tauto.
Qed.

(** X25: [inputData] of [BeamLikelihood] on a sample of the shape of
    [Defaults], for a bin width that is not zero: the spectrum, the
    covariance and the deviation of the configured energy bins are filled
    and the rows of the other bins stay zero. For [err_type = 'polspice']
    the deviation of the coarse bin [i] is the root of the variance PolSpice
    gives at the multipole [i * lbin] over the bin width; for
    [err_type = 'bootstrap'] it is the one [bootstrapSigma] returns. *)
Theorem beam_inputData_fills_bins (self : instance A) (ns : NeutrinoSample A) :
  let e := engine self in
  let lbin := BeamLikelihood.lbin e in
  let ebins := range (BeamLikelihood.Ebinmin e) (BeamLikelihood.Ebinmax e) in
  lbin <> 0 ->
  BeamLikelihood.Ebinmax e <= Defaults.NEbin ->
  shaped_sample self ns ->
  (err_type self = polspice_name ->
   inputData self ns = ok (data_engine self ns (polspice_deviation ns lbin)))
  /\ (err_type self = bootstrap_name ->
      (forall ebin, In ebin ebins ->
                    length (bootstrap_deviation ns ebin) = Defaults.MAX_L / lbin) ->
      inputData self ns = ok (data_engine self ns (bootstrap_deviation ns))).
Proof.
  intros e lbin ebins Hlbin Hhi Hshaped.
  assert (Hbins : Forall (fun ebin => ebin < Defaults.NEbin) ebins).
  { apply Forall_forall; intros ebin Hin.
    unfold ebins, range in Hin; apply in_seq in Hin; lia. }
  assert (Hslots : Forall (fun j => j < length (repeat (Np.zeros2 (A := A)
                                                     (Defaults.MAX_L / lbin)
                                                     (Defaults.MAX_L / lbin))
                                                  Defaults.NEbin)) ebins)
    by now rewrite repeat_length.
  split.
  - intros Herr.
    rewrite (@beam_inputData_value self ns Hlbin Hhi Hshaped _ eq_refl).
    fold e; fold lbin; fold ebins.
    rewrite (@deviation_loop ns (err_type self) lbin (Defaults.MAX_L / lbin) _
               (polspice_deviation ns lbin) ebins);
      [reflexivity| |apply zeros_shape|apply zeros_shape].
    apply Forall_forall; intros ebin Hin.
    split; [apply polspice_deviation_length|].
    intros w_std w_sq Hstd Hsq; unfold deviation_turn; rewrite Herr.
    change (String.eqb polspice_name _) with false at 1.
    change (String.eqb polspice_name _) with true.
    cbv iota.
    rewrite (@getitem_filled _ (coarse_covariance ns lbin) ebins _ ebin Hslots Hin); py_step.
    unfold coarse_covariance at 1; rewrite diag_sampled.
    fold (polspice_deviation ns lbin ebin).
    apply (@deviation_store ebin (Defaults.MAX_L / lbin)); auto.
    + rewrite Forall_forall in Hbins; now apply Hbins.
    + apply polspice_deviation_length.
  - intros Herr Hlen.
    rewrite (@beam_inputData_value self ns Hlbin Hhi Hshaped _ eq_refl).
    fold e; fold lbin; fold ebins.
    rewrite (@deviation_loop ns (err_type self) lbin (Defaults.MAX_L / lbin) _
               (bootstrap_deviation ns) ebins);
      [reflexivity| |apply zeros_shape|apply zeros_shape].
    apply Forall_forall; intros ebin Hin.
    split; [now apply Hlen|].
    intros w_std w_sq Hstd Hsq; unfold deviation_turn; rewrite Herr.
    change (String.eqb bootstrap_name _) with true at 1.
    cbv iota; unfold bootstrap_deviation.
    destruct (bootstrapSigma ns ebin) as [std cov] eqn:Hboot; cbn [fst].
    apply (@deviation_store ebin (Defaults.MAX_L / lbin)); auto.
    + rewrite Forall_forall in Hbins; now apply Hbins.
    + specialize (Hlen ebin Hin); unfold bootstrap_deviation in Hlen.
      now rewrite Hboot in Hlen.
Qed.

(** X26: [inputData] of [BeamLikelihood] tests [err_type] in its second
    loop only: an unknown [err_type] raises [ValueError] when an energy bin
    is configured, after the spectrum and the covariance of the sample have
    been put in; with no energy bin configured [inputData] returns, whatever
    [err_type] is, and leaves arrays of zeros. *)
Theorem beam_inputData_unknown_err_type (self : instance A) (ns : NeutrinoSample A) :
  let e := engine self in
  let lbin := BeamLikelihood.lbin e in
  lbin <> 0 ->
  BeamLikelihood.Ebinmax e <= Defaults.NEbin ->
  shaped_sample self ns ->
  (err_type self <> polspice_name -> err_type self <> bootstrap_name ->
   BeamLikelihood.Ebinmin e < BeamLikelihood.Ebinmax e ->
   inputData self ns = raise ValueError)
  /\ (BeamLikelihood.Ebinmax e <= BeamLikelihood.Ebinmin e ->
      inputData self ns = ok (data_engine self ns (fun _ => []))
      /\ BeamLikelihood.w_data (engine (data_engine self ns (fun _ => [])))
         = Some (Np.zeros2 Defaults.NEbin (Defaults.MAX_L / lbin))
      /\ BeamLikelihood.w_std (engine (data_engine self ns (fun _ => [])))
         = Some (Np.zeros2 Defaults.NEbin (Defaults.MAX_L / lbin))).
Proof.
  intros e lbin Hlbin Hhi Hshaped; split.
  - intros Hpol Hboot Hlt.
    rewrite (@beam_inputData_value self ns Hlbin Hhi Hshaped _ eq_refl).
    fold e; fold lbin; unfold range.
    replace (BeamLikelihood.Ebinmax e - BeamLikelihood.Ebinmin e)
      with (S (BeamLikelihood.Ebinmax e - S (BeamLikelihood.Ebinmin e))) by lia.
    cbn [seq LikelihoodSetup.foldM]; unfold deviation_turn at 1.
    apply String.eqb_neq in Hpol, Hboot.
    unfold polspice_name in Hpol; unfold bootstrap_name in Hboot.
    rewrite Hpol, Hboot; reflexivity.
  - intros Hempty.
    rewrite (@beam_inputData_value self ns Hlbin Hhi Hshaped _ eq_refl).
    fold e; fold lbin; unfold data_engine, range; fold e; fold lbin.
    replace (BeamLikelihood.Ebinmax e - BeamLikelihood.Ebinmin e) with 0 by lia.
    repeat split.
Qed.

End BeamInputData.

Section BeamInputDataExamples.

Import Py Spec BeamSetup Further.
Local Open Scope R_scope.

Lemma polspice_sample_shaped (err_type : String.string) (Ebinmax : nat) :
  @shaped_sample R BeamExamples.head_binning (BeamExamples.beam_llh err_type Ebinmax)
    BeamExamples.polspice_sample.
Proof.
  intros ebin _; split.
  - unfold binned_spectrum; cbn [BeamExamples.polspice_sample BeamExamples.head_binning
                                   getCrossCorrelationPolSpiceEbin bin_llcl fst snd].
    rewrite length_firstn, repeat_length; reflexivity.
  - apply repeat_shape.
Qed.

Lemma beam_inputData_fills_bins_witness :
  @inputData R _ LikelihoodSetup.R_Sqrt BeamExamples.head_binning
    (BeamExamples.beam_llh polspice_name 2) BeamExamples.polspice_sample
  = ok (@data_engine R _ BeamExamples.head_binning
          (BeamExamples.beam_llh polspice_name 2) BeamExamples.polspice_sample
          (@polspice_deviation R _ LikelihoodSetup.R_Sqrt BeamExamples.polspice_sample 4))
  /\ @inputData R _ LikelihoodSetup.R_Sqrt BeamExamples.head_binning
       (BeamExamples.beam_llh bootstrap_name 2) BeamExamples.polspice_sample
     = ok (@data_engine R _ BeamExamples.head_binning
             (BeamExamples.beam_llh bootstrap_name 2) BeamExamples.polspice_sample
             (bootstrap_deviation BeamExamples.polspice_sample)).
Proof.
  split.
  - apply (@beam_inputData_fills_bins R _ LikelihoodSetup.R_Sqrt
             BeamExamples.head_binning (BeamExamples.beam_llh polspice_name 2)
             BeamExamples.polspice_sample).
    + discriminate.
    + unfold Defaults.NEbin, Defaults.NEEdges; simpl; lia.
    + apply polspice_sample_shaped.
    + reflexivity.
  - apply (@beam_inputData_fills_bins R _ LikelihoodSetup.R_Sqrt
             BeamExamples.head_binning (BeamExamples.beam_llh bootstrap_name 2)
             BeamExamples.polspice_sample).
    + discriminate.
    + unfold Defaults.NEbin, Defaults.NEEdges; simpl; lia.
    + apply polspice_sample_shaped.
    + reflexivity.
    + intros ebin _; apply repeat_length.
Defined.

Lemma beam_inputData_unknown_err_type_witness :
  @inputData R _ LikelihoodSetup.R_Sqrt BeamExamples.head_binning
    (BeamExamples.beam_llh String.EmptyString 2) BeamExamples.polspice_sample
  = raise ValueError
  /\ @inputData R _ LikelihoodSetup.R_Sqrt BeamExamples.head_binning
       (BeamExamples.beam_llh String.EmptyString 0) BeamExamples.polspice_sample
     = ok (@data_engine R _ BeamExamples.head_binning
             (BeamExamples.beam_llh String.EmptyString 0) BeamExamples.polspice_sample
             (fun _ => [])).
Proof.
  split.
  - apply (@beam_inputData_unknown_err_type R _ LikelihoodSetup.R_Sqrt
             BeamExamples.head_binning (BeamExamples.beam_llh String.EmptyString 2)
             BeamExamples.polspice_sample).
    + discriminate.
    + unfold Defaults.NEbin, Defaults.NEEdges; simpl; lia.
    + apply polspice_sample_shaped.
    + discriminate.
    + discriminate.
    + simpl; lia.
  - apply (@beam_inputData_unknown_err_type R _ LikelihoodSetup.R_Sqrt
             BeamExamples.head_binning (BeamExamples.beam_llh String.EmptyString 0)
             BeamExamples.polspice_sample).
    + discriminate.
    + unfold Defaults.NEbin, Defaults.NEEdges; simpl; lia.
    + apply polspice_sample_shaped.
    + simpl; lia.
Defined.

End BeamInputDataExamples.

(** ** The engine of [init_from_run] in the fits *)

Section RunCovariance.

Import Py Spec BeamSetup Further.
Local Open Scope R_scope.








(** X28: [init_from_run] gives its arrays [int(NCL / lbin) - 1] coarse
    bins, [inputData] gives them [int(MAX_L / lbin)]: the two widths are the
    same when [lbin] divides [3 * NSIDE], and [init_from_run] has one coarse
    bin less when it does not; above [3 * NSIDE] [init_from_run] asks
    [np.zeros] for a negative dimension. *)
Theorem run_width_against_coarse_width (lbin : nat) :
  (0 < lbin)%nat ->
  ((lbin <= Defaults.NCL)%nat -> Defaults.NCL mod lbin = 0%nat ->
   run_width lbin = coarse_width lbin)
  /\ ((lbin <= Defaults.NCL)%nat -> Defaults.NCL mod lbin <> 0%nat ->
      exists width, run_width lbin = ok width /\ coarse_width lbin = ok (S width))
  /\ ((Defaults.NCL < lbin)%nat ->
      run_width lbin = raise ValueError /\ coarse_width lbin = ok 0%nat).
Proof.
  intros Hpos; unfold run_width, coarse_width.
  replace (lbin =? 0)%nat with false by (symmetry; apply Nat.eqb_neq; lia).
  change Defaults.MAX_L with 383%nat; change Defaults.NCL with 384%nat.
  pose proof (Nat.div_mod_eq 384 lbin) as Hdiv.
  assert (Hr : (384 mod lbin < lbin)%nat) by (apply Nat.mod_upper_bound; lia).
  set (q := (384 / lbin)%nat) in *; set (r := (384 mod lbin)%nat) in *.
  split; [|split].
  - intros Hle Hzero.
    assert (Hq : (0 < q)%nat) by nia.
    replace (q =? 0)%nat with false by (symmetry; apply Nat.eqb_neq; lia).
    rewrite <- (Nat.div_unique 383 lbin (q - 1) (lbin - 1)) by nia.
    reflexivity.
  - intros Hle Hne.
    assert (Hq : (0 < q)%nat).
    { destruct q; [|lia]. rewrite Nat.mul_0_r in Hdiv; cbn [Nat.add] in Hdiv; lia. }
    replace (q =? 0)%nat with false by (symmetry; apply Nat.eqb_neq; lia).
    exists (q - 1)%nat; split; [reflexivity|].
    rewrite <- (Nat.div_unique 383 lbin q (r - 1)) by nia.
    f_equal; lia.
  - intros Hgt.
    assert (Hq : q = 0%nat) by (unfold q; apply Nat.div_small; lia).
    rewrite Hq; cbn [Nat.eqb].
    rewrite (Nat.div_small 383 lbin) by lia.
    split; reflexivity.
Qed.

End RunCovariance.

Section RunCovarianceExamples.

Import Py Spec BeamSetup Further.
Local Open Scope R_scope.


Lemma run_width_against_coarse_width_witness :
  run_width 4%nat = coarse_width 4%nat
  /\ exists width, run_width 5%nat = ok width /\ coarse_width 5%nat = ok (S width).
Proof.
  split.
  - apply (@run_width_against_coarse_width 4%nat).
    + lia.
    + unfold Defaults.NCL, Defaults.NSIDE; lia.
    + reflexivity.
  - apply (@run_width_against_coarse_width 5%nat).
    + lia.
    + unfold Defaults.NCL, Defaults.NSIDE; lia.
    + discriminate.
Defined.

End RunCovarianceExamples.

(** ** The constructor of [BeamLikelihood] *)

Section BeamConstructor.

Import Py Spec BeamSetup Further.

Context {A : Type} `{Float A} `{LikelihoodSetup.Sqrt A} `{Binning A}.

Lemma filled_all {X : Type} (value : nat -> X) (a : list X) :
  filled value (seq 0 (length a)) a = map value (seq 0 (length a)).
Proof.
  destruct a as [|d a]; [reflexivity|].
  set (b := d :: a).
  assert (Hall : Forall (fun j => j < length b) (seq 0 (length b)))
    by (apply Forall_forall; intros j Hj; apply in_seq in Hj; lia).
  apply (nth_ext _ _ d (value 0)).
  - now rewrite filled_length, length_map, length_seq.
  - intros i Hi; rewrite filled_length in Hi.
    rewrite (@nth_filled _ value (seq 0 (length b)) b i d Hall).
    replace (existsb (Nat.eqb i) (seq 0 (length b))) with true
      by (symmetry; apply existsb_eqb_In, in_seq; lia).
    rewrite (nth_indep _ (value 0) (value (nth i (seq 0 (length b)) 0)))
      by (now rewrite length_map, length_seq).
    now rewrite map_nth, seq_nth.
Qed.

(** [a[::lbin][:-1]] of a row of [3 * NSIDE] entries. *)
Lemma stride_row (lbin : nat) (a : list A) :
  lbin <> 0 -> length a = Defaults.NCL ->
  exists coarse,
    stride lbin a = ok coarse
    /\ removelast coarse
       = map (fun i => nth (i * lbin) a (fromZ 0)) (seq 0 (Defaults.MAX_L / lbin)).
Proof.
  intros Hlbin Hlen; eexists; split; [apply (stride_value a (fromZ 0) Hlbin)|].
  rewrite removelast_map_seq, Hlen, multiples_pred;
    [reflexivity|exact Hlbin|unfold Defaults.NCL, Defaults.NSIDE; lia].
Qed.

Lemma coarse_deviation_length (background_model : DataScrambleBackgroundModel A)
  (lbin ebin : nat) :
  length (coarse_deviation background_model lbin ebin) = Defaults.MAX_L / lbin.
Proof.
  unfold coarse_deviation; now rewrite over_length, length_map, length_seq.
Qed.

(** A turn of the loop of the constructor on arrays of the width of the
    strided deviation. *)
Lemma template_turn_value (background_model : DataScrambleBackgroundModel A)
  (lbin ebin : nat) (w_atm_mean w_atm_std : list (list A)) :
  lbin <> 0 -> ebin < Defaults.NEbin ->
  matrix_shape Defaults.NEbin Defaults.NCL (w_mean background_model) ->
  matrix_shape Defaults.NEbin Defaults.NCL (w_std background_model) ->
  length (binned_mean background_model lbin ebin) = Defaults.MAX_L / lbin ->
  matrix_shape Defaults.NEbin (Defaults.MAX_L / lbin) w_atm_mean ->
  matrix_shape Defaults.NEbin (Defaults.MAX_L / lbin) w_atm_std ->
  template_turn background_model lbin (w_atm_mean, w_atm_std) ebin
  = ok (Np.replace ebin (binned_mean background_model lbin ebin) w_atm_mean,
        Np.replace ebin (coarse_deviation background_model lbin ebin) w_atm_std).
Proof.
  intros Hlbin Hebin Hmean Hstd Hlen Ha Hs; unfold template_turn.
  destruct (getitem_row Hmean Hebin) as [Hrow _]; rewrite Hrow; py_step.
  destruct (getitem_row Ha Hebin) as [Hold Hwidth].
  fold (binned_mean background_model lbin ebin).
  rewrite (@setrow_same_length _ w_atm_mean ebin (row w_atm_mean ebin) _ Hold)
    by congruence.
  py_step.
  destruct (getitem_row Hstd Hebin) as [Hrow' Hlen']; rewrite Hrow'; py_step.
  destruct (@stride_row lbin _ Hlbin Hlen') as (coarse & Hstride & Hlast).
  rewrite Hstride; py_step; rewrite Hlast.
  fold (coarse_deviation background_model lbin ebin).
  destruct (getitem_row Hs Hebin) as [Hold' Hwidth'].
  rewrite (@setrow_same_length _ w_atm_std ebin (row w_atm_std ebin) _ Hold')
    by (rewrite coarse_deviation_length; congruence).
  reflexivity.
Qed.

Lemma template_loop (background_model : DataScrambleBackgroundModel A)
  (lbin : nat) (ebins : list nat) :
  lbin <> 0 ->
  matrix_shape Defaults.NEbin Defaults.NCL (w_mean background_model) ->
  matrix_shape Defaults.NEbin Defaults.NCL (w_std background_model) ->
  Forall (fun ebin =>
            ebin < Defaults.NEbin
            /\ length (binned_mean background_model lbin ebin) = Defaults.MAX_L / lbin)
    ebins ->
  forall w_atm_mean w_atm_std,
    matrix_shape Defaults.NEbin (Defaults.MAX_L / lbin) w_atm_mean ->
    matrix_shape Defaults.NEbin (Defaults.MAX_L / lbin) w_atm_std ->
    LikelihoodSetup.foldM (template_turn background_model lbin) ebins
      (w_atm_mean, w_atm_std)
    = ok (filled (binned_mean background_model lbin) ebins w_atm_mean,
          filled (coarse_deviation background_model lbin) ebins w_atm_std).
Proof.
  intros Hlbin Hmean Hstd Hall; induction Hall as [|ebin ebins [Hebin Hlen] _ IH];
    intros w_atm_mean w_atm_std Ha Hs; cbn [LikelihoodSetup.foldM filled fold_left];
    [reflexivity|].
  rewrite (@template_turn_value background_model lbin ebin w_atm_mean w_atm_std
             Hlbin Hebin Hmean Hstd Hlen Ha Hs); py_step.
  apply IH; apply replace_shape; auto.
  apply coarse_deviation_length.
Qed.

(** The constructor on a background model of the shape of [Defaults]. *)
Lemma init_value (getAutoCorrelation : list A)
  (background_model : DataScrambleBackgroundModel A)
  (Ebinmin Ebinmax lmin lbin : nat) (err_type : String.string) :
  lbin <> 0 ->
  matrix_shape Defaults.NEbin Defaults.NCL (w_mean background_model) ->
  matrix_shape Defaults.NEbin Defaults.NCL (w_std background_model) ->
  length (snd (bin_llcl getAutoCorrelation lbin)) = Defaults.MAX_L / lbin ->
  (forall ebin, ebin < Defaults.NEbin ->
                length (binned_mean background_model lbin ebin) = Defaults.MAX_L / lbin) ->
  __init__ getAutoCorrelation background_model Ebinmin Ebinmax lmin lbin err_type
  = ok (constructed getAutoCorrelation background_model Ebinmin Ebinmax lmin lbin
          err_type).
Proof.
  intros Hlbin Hmean Hstd Hauto Hbinned; unfold __init__, constructed.
  destruct (bin_llcl getAutoCorrelation lbin) as [centre binned] eqn:Hbin.
  cbn [fst snd] in *; rewrite Hauto.
  assert (Hall : Forall (fun ebin =>
                           ebin < Defaults.NEbin
                           /\ length (binned_mean background_model lbin ebin)
                              = Defaults.MAX_L / lbin) (range 0 Defaults.NEbin)).
  { apply Forall_forall; intros ebin Hin; unfold range in Hin; apply in_seq in Hin.
    split; [lia|apply Hbinned; lia]. }
  rewrite (@template_loop background_model lbin (range 0 Defaults.NEbin) Hlbin Hmean
             Hstd Hall _ _ (zeros_shape _ _) (zeros_shape _ _)).
  py_step; unfold range; rewrite Nat.sub_0_r.
  assert (Hrows : length (Np.zeros2 (A := A) Defaults.NEbin (Defaults.MAX_L / lbin))
                  = Defaults.NEbin) by apply repeat_length.
  rewrite <- Hrows at 1 3 5.
  rewrite !filled_all, Hrows; reflexivity.
Qed.

(** X29: the constructor of [BeamLikelihood] on a background model of the
    shape of [Defaults], for a bin width that is not zero and a [bin_llcl]
    that bins into [int(MAX_L / lbin)] values: it returns; the signal
    template is the binned autocorrelation, the background mean of an energy
    bin the binned mean of the model, its deviation the deviation of the
    model at the multiples of [lbin] over the root of [lbin]; the arrays
    have [NEbin] rows of [int(MAX_L / lbin)] coarse bins and the object
    holds no data. *)
Theorem beam_init_builds_templates (getAutoCorrelation : list A)
  (background_model : DataScrambleBackgroundModel A)
  (Ebinmin Ebinmax lmin lbin : nat) (err_type : String.string) :
  let self :=
    constructed getAutoCorrelation background_model Ebinmin Ebinmax lmin lbin err_type in
  lbin <> 0 ->
  matrix_shape Defaults.NEbin Defaults.NCL (w_mean background_model) ->
  matrix_shape Defaults.NEbin Defaults.NCL (w_std background_model) ->
  length (snd (bin_llcl getAutoCorrelation lbin)) = Defaults.MAX_L / lbin ->
  (forall ebin, ebin < Defaults.NEbin ->
                length (binned_mean background_model lbin ebin) = Defaults.MAX_L / lbin) ->
  __init__ getAutoCorrelation background_model Ebinmin Ebinmax lmin lbin err_type
  = ok self
  /\ length (BeamLikelihood.w_model_f1 (engine self)) = Defaults.MAX_L / lbin
  /\ matrix_shape Defaults.NEbin (Defaults.MAX_L / lbin)
       (BeamLikelihood.w_atm_mean (engine self))
  /\ matrix_shape Defaults.NEbin (Defaults.MAX_L / lbin)
       (BeamLikelihood.w_atm_std (engine self))
  /\ (forall ebin i,
         ebin < Defaults.NEbin -> i < Defaults.MAX_L / lbin ->
         nth i (row (BeamLikelihood.w_atm_std (engine self)) ebin) (fromZ 0)
         = (nth (i * lbin) (row (w_std background_model) ebin) (fromZ 0)
            / LikelihoodSetup.fsqrt (fromZ (Z.of_nat lbin)))%fl)
  /\ BeamLikelihood.w_data (engine self) = None.
Proof.
  intros self Hlbin Hmean Hstd Hauto Hbinned.
  split; [now apply init_value|].
  split; [exact Hauto|].
  split; [|split; [|split; [|reflexivity]]].
  - unfold self, constructed; cbn [engine BeamLikelihood.w_atm_mean].
    split; [now rewrite length_map, length_seq|].
    apply Forall_map, Forall_forall; intros ebin Hin; apply in_seq in Hin.
    apply Hbinned; lia.
  - unfold self, constructed; cbn [engine BeamLikelihood.w_atm_std].
    split; [now rewrite length_map, length_seq|].
    apply Forall_map, Forall_forall; intros ebin _; apply coarse_deviation_length.
  - intros ebin i Hebin Hi.
    unfold self, constructed; cbn [engine BeamLikelihood.w_atm_std]; unfold row.
    rewrite (nth_indep _ [] (coarse_deviation background_model lbin 0))
      by (now rewrite length_map, length_seq).
    rewrite (map_nth (coarse_deviation background_model lbin)), seq_nth by exact Hebin.
    cbn [Nat.add]; unfold coarse_deviation, Np.over.
    rewrite (nth_indep _ (fromZ 0)
               ((fun x => (x / LikelihoodSetup.fsqrt (fromZ (Z.of_nat lbin)))%fl)
                  (fromZ 0)))
      by (now rewrite !length_map, length_seq).
    rewrite (map_nth (fun x => (x / LikelihoodSetup.fsqrt (fromZ (Z.of_nat lbin)))%fl)).
    f_equal.
    rewrite (nth_indep _ (fromZ 0)
               ((fun j => nth (j * lbin) (nth ebin (w_std background_model) []) (fromZ 0))
                  0))
      by (now rewrite length_map, length_seq).
    rewrite (map_nth (fun j => nth (j * lbin) (nth ebin (w_std background_model) [])
                                 (fromZ 0))).
    now rewrite seq_nth by exact Hi.
Qed.

Lemma setrow_ok_length (m m' : list (list A)) (i : nat) (old new : list A) :
  getitem m i = ok old -> Np.setrow m i new = ok m' ->
  length new = 1 \/ length new = length old.
Proof.
  intros Hold; unfold Np.setrow; rewrite Hold; py_step.
  destruct new as [|v [|v' new]]; [|now left|].
  - destruct (length old =? length []) eqn:Heq; [|discriminate].
    apply Nat.eqb_eq in Heq; now right.
  - destruct (length old =? length (v :: v' :: new)) eqn:Heq; [|discriminate].
    apply Nat.eqb_eq in Heq; now right.
Qed.

(** X30: whatever [bin_llcl] does, an object the constructor of
    [BeamLikelihood] returns has a signal template of [int(MAX_L / lbin)]
    coarse bins, the width of the strided deviation of the background
    model, unless that width is one: with a [bin_llcl] that bins into
    another width the constructor raises. *)
Theorem beam_init_width (getAutoCorrelation : list A)
  (background_model : DataScrambleBackgroundModel A)
  (Ebinmin Ebinmax lmin lbin : nat) (err_type : String.string) (self : instance A) :
  lbin <> 0 ->
  matrix_shape Defaults.NEbin Defaults.NCL (w_std background_model) ->
  __init__ getAutoCorrelation background_model Ebinmin Ebinmax lmin lbin err_type
  = ok self ->
  length (BeamLikelihood.w_model_f1 (engine self)) = Defaults.MAX_L / lbin
  \/ Defaults.MAX_L / lbin = 1.
Proof.
  intros Hlbin Hstd; unfold __init__.
  destruct (bin_llcl getAutoCorrelation lbin) as [centre binned].
  change (range 0 Defaults.NEbin) with (0 :: range 1 Defaults.NEbin).
  cbn [LikelihoodSetup.foldM].
  destruct (template_turn background_model lbin _ 0) as [e|acc] eqn:Hturn; py_step;
    [discriminate|].
  destruct (LikelihoodSetup.foldM _ _ acc) as [e|[w_atm_mean w_atm_std]]; py_step;
    [discriminate|].
  intros [= <-]; cbn [engine BeamLikelihood.w_model_f1].
  revert Hturn; unfold template_turn.
  destruct (getitem (w_mean background_model) 0) as [e|mean_row]; py_step;
    [discriminate|].
  destruct (Np.setrow _ 0 (snd (bin_llcl mean_row lbin))) as [e|w_atm_mean'];
    py_step; [discriminate|].
  assert (Hfirst : 0 < Defaults.NEbin) by (unfold Defaults.NEbin, Defaults.NEEdges; lia).
  destruct (getitem_row Hstd Hfirst) as [Hrow Hlen]; rewrite Hrow; py_step.
  destruct (@stride_row lbin _ Hlbin Hlen) as (coarse & Hstride & Hlast).
  rewrite Hstride; py_step; rewrite Hlast.
  destruct (Np.setrow _ 0 _) as [e|w_atm_std'] eqn:Hset; py_step; [discriminate|].
  intros _.
  destruct (getitem_row (zeros_shape (A := A) Defaults.NEbin (length binned)) Hfirst)
    as [Hold Hwidth].
  destruct (@setrow_ok_length _ _ _ _ _ Hold Hset) as [Hone|Hsame];
    rewrite over_length, length_map, length_seq in *; [now right|left; congruence].
Qed.

End BeamConstructor.

Section BeamConstructorExamples.

Import Py Spec BeamSetup Further.
Local Open Scope R_scope.

Lemma flat_model_shaped :
  matrix_shape Defaults.NEbin Defaults.NCL (w_mean BeamExamples.flat_model)
  /\ matrix_shape Defaults.NEbin Defaults.NCL (w_std BeamExamples.flat_model).
Proof. split; apply repeat_shape. Qed.

Lemma head_binning_width (x : list R) :
  length x = Defaults.NCL ->
  length (snd (@bin_llcl R BeamExamples.head_binning x 4)) = (Defaults.MAX_L / 4)%nat.
Proof.
  intros Hlen; cbn [bin_llcl BeamExamples.head_binning snd].
  rewrite length_firstn, Hlen; reflexivity.
Qed.

Lemma beam_init_builds_templates_witness :
  @__init__ R _ LikelihoodSetup.R_Sqrt BeamExamples.head_binning
    (repeat 5 Defaults.NCL) BeamExamples.flat_model 0 2 8 4 polspice_name
  = ok (@constructed R _ LikelihoodSetup.R_Sqrt BeamExamples.head_binning
          (repeat 5 Defaults.NCL) BeamExamples.flat_model 0 2 8 4 polspice_name).
Proof.
  apply (@beam_init_builds_templates R _ LikelihoodSetup.R_Sqrt
           BeamExamples.head_binning (repeat 5 Defaults.NCL) BeamExamples.flat_model
           0%nat 2%nat 8%nat 4%nat polspice_name).
  - discriminate.
  - apply flat_model_shaped.
  - apply flat_model_shaped.
  - apply head_binning_width, repeat_length.
  - intros ebin Hebin; apply head_binning_width.
    destruct (getitem_row (proj1 flat_model_shaped) Hebin) as [_ Hlen]; exact Hlen.
Defined.

Lemma beam_init_width_witness :
  length (BeamLikelihood.w_model_f1
            (engine (@constructed R _ LikelihoodSetup.R_Sqrt BeamExamples.head_binning
                       (repeat 5 Defaults.NCL) BeamExamples.flat_model 0 2 8 4
                       polspice_name)))
  = (Defaults.MAX_L / 4)%nat
  \/ (Defaults.MAX_L / 4)%nat = 1%nat.
Proof.
  apply (@beam_init_width R _ LikelihoodSetup.R_Sqrt BeamExamples.head_binning
           (repeat 5 Defaults.NCL) BeamExamples.flat_model 0%nat 2%nat 8%nat 4%nat
           polspice_name).
  - discriminate.
  - apply flat_model_shaped.
  - apply init_value.
    + discriminate.
    + apply flat_model_shaped.
    + apply flat_model_shaped.
    + apply head_binning_width, repeat_length.
    + intros ebin Hebin; apply head_binning_width.
      destruct (getitem_row (proj1 flat_model_shaped) Hebin) as [_ Hlen]; exact Hlen.
Defined.

End BeamConstructorExamples.
